(** * parallels_sdk.c: the Parallels SDK side of the libvirt driver

    A shallow embedding of [src/parallels/parallels_sdk.c]: the job
    protocol ([getJobResultHelper]), the identity codec
    ([prlsdkUUIDFormat], [prlsdkUUIDParse]), the hardware extractors, the
    state mapper ([prlsdkConvertDomainState]) and the domain loader
    ([prlsdkLoadDomain], [prlsdkLoadDomains], [prlsdkAddDomain]).

    Conventions of the embedding.
    - The Parallels SDK is outside the repository.  Its calls are the
      fields of the record [Sdk]: a getter with an out-parameter answers
      with its result code and with what the out-parameter holds once the
      call has returned.
    - C state is threaded explicitly: a [world] holds the domain list of
      the connection, the domain objects it points to, and a trace of the
      observable actions (errors reported, handles released, jobs issued).
    - A C function returning [0]/[-1] or a pointer/[NULL] becomes a
      computation whose outcome is [Ok], [Fail] or [Fault]; [Fault] stands
      for an execution the C standard leaves undefined (a variable used
      before it is assigned, an access outside a buffer, a null or
      dangling pointer followed).
    - Allocation ([VIR_ALLOC], [VIR_STRDUP], ...) always succeeds.  The
      release of SDK handles is recorded in the trace.  Of the
      deallocation of C structs, what a domain object still points to is
      tracked: a definition or private data that was freed while the
      object holds its address is marked in the object, and freeing it
      again or writing to it is a [Fault]. *)

From Stdlib Require Import ZArith Strings.Byte Ascii String List Lia.
From stdpp Require Import base option list gmap strings.

Local Open Scope Z_scope.

(** ** Bytes and C strings *)

#[global] Instance byte_eq_dec : EqDecision byte := Byte.byte_eq_dec.
#[global] Instance byte_countable : Countable byte :=
  inj_countable Byte.to_N Byte.of_N Byte.of_to_N.

(** [unsigned char uuid[VIR_UUID_BUFLEN]] *)
Definition uuid_t : Type := list byte.

Definition VIR_UUID_BUFLEN : nat := 16.
Definition VIR_UUID_STRING_LEN : nat := 36.
Definition VIR_UUID_STRING_BUFLEN : nat := 36 + 1.

Definition NUL : ascii := Ascii.zero.

(** A [char] buffer is a list of characters; the C string it holds runs
    up to the first NUL. *)
Fixpoint c_str (buf : list ascii) : list ascii :=
  match buf with
  | [] => []
  | c :: rest => if decide (c = NUL) then [] else c :: c_str rest
  end.

(** Copy [src] and its terminator into [buf] from offset [off] on
    ([strcpy (buf + off, src)]). *)
Fixpoint write_at (off : nat) (src : list ascii) (buf : list ascii) : list ascii :=
  match src with
  | [] => <[off := NUL]> buf
  | c :: rest => write_at (S off) rest (<[off := c]> buf)
  end.

(** ** Identity codec *)

Module Uuid.

Definition hex_digit (n : N) : ascii :=
  if (n <? 10)%N then ascii_of_N (48 + n) else ascii_of_N (87 + n).

Definition hex_value (c : ascii) : option N :=
  let n := N_of_ascii c in
  if ((48 <=? n) && (n <=? 57))%N then Some (n - 48)%N
  else if ((97 <=? n) && (n <=? 102))%N then Some (n - 87)%N
  else if ((65 <=? n) && (n <=? 70))%N then Some (n - 55)%N
  else None.

(** ["%02x"] of one byte *)
Definition format_byte (b : byte) : list ascii :=
  let n := Byte.to_N b in
  [hex_digit (n / 16)%N; hex_digit (n mod 16)%N].

Definition format_bytes (bs : list byte) : list ascii :=
  concat (map format_byte bs).

Fixpoint parse_bytes (n : nat) (s : list ascii) : option (list byte * list ascii) :=
  match n with
  | O => Some ([], s)
  | S n' =>
      match s with
      | hi :: lo :: rest =>
          h ← hex_value hi;
          l ← hex_value lo;
          b ← Byte.of_N (16 * h + l)%N;
          '(bs, rest') ← parse_bytes n' rest;
          Some (b :: bs, rest')
      | _ => None
      end
  end.

Definition parse_dash (s : list ascii) : option (list ascii) :=
  match s with
  | c :: rest => if decide (c = "-"%char) then Some rest else None
  | [] => None
  end.

End Uuid.

(** Modelled from the spec: [virUUIDFormat] (util/viruuid.c is not among
    the sources).  The canonical text of a UUID: 32 lower-case
    hexadecimal digits in groups of 8-4-4-4-12 separated by hyphens. *)
Definition virUUIDFormat (uuid : uuid_t) : list ascii :=
  Uuid.format_bytes (take 4 uuid) ++ ["-"%char] ++
  Uuid.format_bytes (take 2 (drop 4 uuid)) ++ ["-"%char] ++
  Uuid.format_bytes (take 2 (drop 6 uuid)) ++ ["-"%char] ++
  Uuid.format_bytes (take 2 (drop 8 uuid)) ++ ["-"%char] ++
  Uuid.format_bytes (take 6 (drop 10 uuid)).

(** Modelled from the spec: [virUUIDParse] (util/viruuid.c is not among
    the sources).  Canonical parsing: the text must be exactly the
    8-4-4-4-12 form, hexadecimal digits of either case. *)
Definition virUUIDParse (s : list ascii) : option uuid_t :=
  '(g1, s) ← Uuid.parse_bytes 4 s;
  s ← Uuid.parse_dash s;
  '(g2, s) ← Uuid.parse_bytes 2 s;
  s ← Uuid.parse_dash s;
  '(g3, s) ← Uuid.parse_bytes 2 s;
  s ← Uuid.parse_dash s;
  '(g4, s) ← Uuid.parse_bytes 2 s;
  s ← Uuid.parse_dash s;
  '(g5, s) ← Uuid.parse_bytes 6 s;
  match s with
  | [] => Some (g1 ++ g2 ++ g3 ++ g4 ++ g5)
  | _ :: _ => None
  end.

(** [prlsdkUUIDFormat]: [uuidstr] is a buffer of
    [VIR_UUID_STRING_BUFLEN + 2] characters. *)
Definition prlsdkUUIDFormat (uuid : uuid_t) (uuidstr : list ascii) : list ascii :=
  let uuidstr := write_at 1 (virUUIDFormat uuid) uuidstr in
  let uuidstr := <[0%nat := "{"%char]> uuidstr in
  let uuidstr := <[VIR_UUID_STRING_BUFLEN := "}"%char]> uuidstr in
  <[S VIR_UUID_STRING_BUFLEN := NUL]> uuidstr.

(** ** SDK scalars and enumerations

    The SDK headers are not among the sources.  An enumeration that the
    driver dispatches on with one [switch], or compares with its
    enumerators, is an inductive type with one constructor per
    enumerator the driver names and a last constructor for every other
    value (the [default] branch). *)

Definition PRL_RESULT : Type := Z.
Definition PRL_UINT32 : Type := Z.
Definition PRL_HANDLE : Type := Z.
Definition PRL_INVALID_HANDLE : PRL_HANDLE := 0.

(** [PRL_UINT32] stored into an [int] *)
Definition int_of_uint32 (x : PRL_UINT32) : Z :=
  if x <? 2 ^ 31 then x else x - 2 ^ 32.

(** [x << 10] on a [PRL_UINT32] *)
Definition shl10_uint32 (x : PRL_UINT32) : Z :=
  Z.land (Z.shiftl x 10) (2 ^ 32 - 1).

Inductive VIRTUAL_MACHINE_STATE :=
| VMS_UNKNOWN | VMS_STOPPED | VMS_STARTING | VMS_RESTORING | VMS_RUNNING
| VMS_PAUSED | VMS_SUSPENDING | VMS_STOPPING | VMS_COMPACTING
| VMS_SUSPENDED | VMS_SNAPSHOTING | VMS_RESETTING | VMS_PAUSING
| VMS_CONTINUING | VMS_MIGRATING | VMS_DELETING_STATE | VMS_RESUMING
| VMS_SUSPENDING_SYNC | VMS_RECONNECTING | VMS_MOUNTED
| VMS_other (raw : Z).

Inductive PRL_VM_REMOTE_DISPLAY_MODE :=
| PRD_DISABLED | PRD_AUTO | PRD_other (raw : Z).

Inductive PRL_MASS_STORAGE_INTERFACE_TYPE :=
| PMS_IDE_DEVICE | PMS_SCSI_DEVICE | PMS_SATA_DEVICE | PMS_other (raw : Z).

Inductive PRL_VM_TYPE := PVT_VM | PVT_CT | PVT_other (raw : Z).

Inductive PRL_CPU_MODE := PCM_CPU_MODE_32 | PCM_CPU_MODE_64 | PCM_other (raw : Z).

Inductive PRL_VM_AUTOSTART_OPTION :=
| PAO_VM_START_MANUAL | PAO_VM_START_ON_LOAD | PAO_other (raw : Z).

#[global] Instance display_mode_eq_dec : EqDecision PRL_VM_REMOTE_DISPLAY_MODE.
Proof. solve_decision. Defined.

(** ** libvirt enumerations and structs

    The struct declarations are not among the sources.  An enumeration
    field of a zero-allocated struct is an [option]: [None] is the field
    as [VIR_ALLOC] left it.  An integer field holds the value assigned
    to it. *)

Inductive virErrorNumber :=
| VIR_ERR_INTERNAL_ERROR | VIR_ERR_NO_DOMAIN | VIR_ERR_INVALID_ARG.

Inductive virDomainState :=
| VIR_DOMAIN_NOSTATE | VIR_DOMAIN_RUNNING | VIR_DOMAIN_PAUSED
| VIR_DOMAIN_SHUTDOWN | VIR_DOMAIN_SHUTOFF.

Inductive virDomainStateReason :=
| VIR_DOMAIN_NOSTATE_UNKNOWN
| VIR_DOMAIN_RUNNING_BOOTED | VIR_DOMAIN_RUNNING_RESTORED
| VIR_DOMAIN_RUNNING_UNPAUSED
| VIR_DOMAIN_PAUSED_USER | VIR_DOMAIN_PAUSED_MIGRATION
| VIR_DOMAIN_PAUSED_SAVE | VIR_DOMAIN_PAUSED_SNAPSHOT
| VIR_DOMAIN_SHUTDOWN_USER
| VIR_DOMAIN_SHUTOFF_SHUTDOWN | VIR_DOMAIN_SHUTOFF_SAVED.

#[global] Instance virDomainState_eq_dec : EqDecision virDomainState.
Proof. solve_decision. Defined.

Inductive virDomainVirtType := VIR_DOMAIN_VIRT_PARALLELS.
Inductive virDomainLifecycleAction :=
| VIR_DOMAIN_LIFECYCLE_RESTART | VIR_DOMAIN_LIFECYCLE_DESTROY
| VIR_DOMAIN_LIFECYCLE_CRASH_DESTROY.
Inductive virArch := VIR_ARCH_I686 | VIR_ARCH_X86_64.
Inductive virStorageType := VIR_STORAGE_TYPE_FILE | VIR_STORAGE_TYPE_BLOCK.
Inductive virStorageFileFormat := VIR_STORAGE_FILE_PLOOP.
Inductive virDomainDiskBus :=
| VIR_DOMAIN_DISK_BUS_IDE | VIR_DOMAIN_DISK_BUS_SCSI | VIR_DOMAIN_DISK_BUS_SATA.
Inductive virDomainDeviceAddressType := VIR_DOMAIN_DEVICE_ADDRESS_TYPE_DRIVE.
Inductive virDomainNetType := VIR_DOMAIN_NET_TYPE_NETWORK.
Inductive virDomainNetInterfaceLinkState :=
| VIR_DOMAIN_NET_INTERFACE_LINK_STATE_UP
| VIR_DOMAIN_NET_INTERFACE_LINK_STATE_DOWN.
Inductive virDomainChrDeviceType := VIR_DOMAIN_CHR_DEVICE_TYPE_SERIAL.
Inductive virDomainChrType :=
| VIR_DOMAIN_CHR_TYPE_FILE | VIR_DOMAIN_CHR_TYPE_UNIX | VIR_DOMAIN_CHR_TYPE_DEV.
Inductive virDomainVideoType := VIR_DOMAIN_VIDEO_TYPE_VGA.
Inductive virDomainGraphicsType := VIR_DOMAIN_GRAPHICS_TYPE_VNC.
Inductive virDomainGraphicsListenType := VIR_DOMAIN_GRAPHICS_LISTEN_TYPE_ADDRESS.

(** A bitmap is its bits, lowest first; its width is their number. *)
Definition virBitmap : Type := list bool.

Record virDomainVideoAccelDef := {
  support3d : bool;
  support2d : bool;
}.

Record virDomainVideoDef := {
  video_type : option virDomainVideoType;
  video_vram : Z;
  video_heads : Z;
  video_accel : option virDomainVideoAccelDef;
}.

Record virDomainDiskDef := {
  disk_src_type : option virStorageType;
  disk_src_format : option virStorageFileFormat;
  disk_src_path : option string;
  disk_bus : option virDomainDiskBus;
  disk_info_type : option virDomainDeviceAddressType;
  disk_info_drive_target : Z;
  disk_dst : option string;
}.

Record virDomainNetDef := {
  net_type : option virDomainNetType;
  net_ifname : option string;
  net_mac : option (list byte);
  net_network_name : option string;
  net_linkstate : option virDomainNetInterfaceLinkState;
}.

Record virDomainChrDef := {
  chr_deviceType : option virDomainChrDeviceType;
  chr_targetTypeAttr : bool;
  chr_target_port : Z;
  chr_source_type : option virDomainChrType;
  chr_source_path : option string;
}.

Record virDomainGraphicsListenDef := {
  listen_type : option virDomainGraphicsListenType;
  listen_address : option string;
}.

Record virDomainGraphicsDef := {
  gr_type : option virDomainGraphicsType;
  gr_vnc_port : Z;
  gr_vnc_autoport : bool;
  gr_vnc_keymap : option string;
  gr_vnc_socket : option string;
  gr_vnc_auth_passwd : option string;
  gr_vnc_auth_expires : bool;
  gr_vnc_auth_connected : Z;
  gr_listens : list virDomainGraphicsListenDef;
}.

Record virDomainDef := {
  def_virtType : option virDomainVirtType;
  def_id : Z;
  def_name : option string;
  def_uuid : uuid_t;
  def_onReboot : option virDomainLifecycleAction;
  def_onPoweroff : option virDomainLifecycleAction;
  def_onCrash : option virDomainLifecycleAction;
  def_mem_max_balloon : Z;
  def_mem_cur_balloon : Z;
  def_vcpus : Z;
  def_maxvcpus : Z;
  def_os_type : option string;
  def_os_init : option string;
  def_os_arch : option virArch;
  def_videos : list virDomainVideoDef;
  def_disks : list virDomainDiskDef;
  def_nets : list virDomainNetDef;
  def_serials : list virDomainChrDef;
  def_graphics : list virDomainGraphicsDef;
}.

(** [struct parallelsDomObj], the driver's private data of a domain *)
Record parallelsDomObj := {
  pdom_id : Z;
  pdom_uuid : option string;
  pdom_home : option string;
  pdom_sdkdom : PRL_HANDLE;
  pdom_cpumask : option virBitmap;
}.

(** What [dom->newDef] points to. *)
Inductive newDef_ptr :=
| NewDefNull
| NewDefSameAsDef
| NewDefOther (d : virDomainDef).

(** Who frees [privateData] when the object goes. *)
Inductive privateDataFreeFunc_t := prlsdkDomObjFreePrivate_ptr.

(** [struct _virDomainObj].  [def] and [privateData] are pointers: the
    record holds what they point to.  [obj_def_freed] tells that the
    definition [def] points to was freed while [def] (and a [newDef]
    that is the same pointer) still holds its address, and
    [obj_privateData_freed] tells the same of [privateData]: the
    pointer dangles, and the block must not be read, written or freed
    again. *)
Record virDomainObj := {
  obj_def : virDomainDef;
  obj_newDef : newDef_ptr;
  obj_state : option (virDomainState * virDomainStateReason);
  obj_autostart : Z;
  obj_persistent : Z;
  obj_privateData : option parallelsDomObj;
  obj_privateDataFreeFunc : option privateDataFreeFunc_t;
  obj_locked : bool;
  obj_def_freed : bool;
  obj_privateData_freed : bool;
}.

(** [virDomainObjPtr]: the address of a domain object *)
Definition virDomainObjPtr : Type := positive.

(** ** The world *)

Inductive sdk_job :=
| JobLoginLocalEx (server : PRL_HANDLE)
| JobLogoff (server : PRL_HANDLE)
| JobGetVmConfig (id : string) (flags : Z)
| JobGetVmListEx (flags : Z)
| JobGetState (sdkdom : PRL_HANDLE).

Inductive event :=
| EvReport (code : virErrorNumber) (msg : string)
| EvWarn (msg : string)
| EvJob (call : sdk_job) (job : PRL_HANDLE)
| EvHandleFree (h : PRL_HANDLE)
| EvHandleAddRef (h : PRL_HANDLE)
| EvListAdd (uuid : uuid_t) (dom : virDomainObjPtr)
| EvListRemove (dom : virDomainObjPtr).

(** [w_domains] is [privconn->domains], keyed by UUID; [w_objs] holds the
    objects; [w_trace] lists the events, the latest first. *)
Record world := {
  w_domains : gmap uuid_t virDomainObjPtr;
  w_objs : gmap virDomainObjPtr virDomainObj;
  w_trace : list event;
}.

Inductive outcome (A : Type) :=
| Ok (a : A) (w : world)
| Fail (w : world)
| Fault.
Arguments Ok {A} a w.
Arguments Fail {A} w.
Arguments Fault {A}.

Definition M (A : Type) : Type := world -> outcome A.

Definition ret {A} (a : A) : M A := fun w => Ok a w.

Definition bind {A B} (m : M A) (k : A -> M B) : M B :=
  fun w =>
    match m w with
    | Ok a w' => k a w'
    | Fail w' => Fail w'
    | Fault => Fault
    end.

Definition fail {A} : M A := fun w => Fail w.
Definition fault {A} : M A := fun _ => Fault.

(** Run [m]; when it fails run [cleanup] and fail (the [goto] to a
    cleanup label that returns [-1]). *)
Definition or_else {A} (m : M A) (cleanup : M unit) : M A :=
  fun w =>
    match m w with
    | Ok a w' => Ok a w'
    | Fail w' =>
        match cleanup w' with
        | Ok _ w'' => Fail w''
        | Fail w'' => Fail w''
        | Fault => Fault
        end
    | Fault => Fault
    end.

#[global] Instance M_ret : MRet M := @ret.
#[global] Instance M_bind : MBind M := fun A B k m => bind m k.

Definition emit (e : event) : M unit :=
  fun w => Ok tt {| w_domains := w_domains w; w_objs := w_objs w;
                    w_trace := e :: w_trace w |}.

Definition virReportError (code : virErrorNumber) (msg : string) : M unit :=
  emit (EvReport code msg).

Definition VIR_WARN (msg : string) : M unit := emit (EvWarn msg).

Definition PrlHandle_Free (h : PRL_HANDLE) : M unit := emit (EvHandleFree h).

(** ** The SDK and the host

    Every SDK call the driver makes.  A getter answers with its result
    code and with the content of its out-parameter after the call.  A
    text getter is called twice by the driver, first without a buffer
    (for the length) and then with one: the [bool] tells whether a
    buffer is supplied, and the text is what the buffer holds after the
    call.  A call that starts a job answers with the job handle.
    [PrlVmDev_GetEmulatedType] serves disks, adapters and ports with
    enumerators of different SDK enumerations: its value stays a number
    and the enumerators the driver compares it with are fields, as are
    the flags it passes and the macro [PRL_FAILED] that classifies a
    result code. *)
Record Sdk := {
  PRL_FAILED : PRL_RESULT -> bool;
  PrlApi_GetResultDescription : PRL_RESULT -> bool -> string;
  PrlEvent_GetErrCode : PRL_HANDLE -> PRL_RESULT * PRL_RESULT;
  PrlEvent_GetErrString : PRL_HANDLE -> bool -> string;
  PrlJob_Wait : PRL_HANDLE -> Z -> PRL_RESULT;
  PrlJob_GetRetCode : PRL_HANDLE -> PRL_RESULT * PRL_RESULT;
  PrlJob_GetError : PRL_HANDLE -> PRL_RESULT * PRL_HANDLE;
  PrlJob_GetResult : PRL_HANDLE -> PRL_RESULT * PRL_HANDLE;
  PrlResult_GetParamsCount : PRL_HANDLE -> PRL_RESULT * PRL_UINT32;
  PrlResult_GetParamByIndex : PRL_HANDLE -> Z -> PRL_RESULT * PRL_HANDLE;
  PrlHandle_AddRef_ret : PRL_HANDLE -> PRL_RESULT;
  PrlSrv_Create : PRL_RESULT * PRL_HANDLE;
  PrlSrv_LoginLocalEx_job : PRL_HANDLE -> PRL_HANDLE;
  PrlSrv_Logoff_job : PRL_HANDLE -> PRL_HANDLE;
  PrlSrv_GetVmConfig_job : PRL_HANDLE -> string -> Z -> PRL_HANDLE;
  PrlSrv_GetVmListEx_job : PRL_HANDLE -> Z -> PRL_HANDLE;
  PrlVm_GetState_job : PRL_HANDLE -> PRL_HANDLE;
  PrlVmInfo_GetState : PRL_HANDLE -> PRL_RESULT * VIRTUAL_MACHINE_STATE;
  PrlVmCfg_GetName : PRL_HANDLE -> bool -> PRL_RESULT * string;
  PrlVmCfg_GetUuid : PRL_HANDLE -> PRL_RESULT * string;
  PrlVmCfg_GetRamSize : PRL_HANDLE -> PRL_RESULT * PRL_UINT32;
  PrlVmCfg_GetCpuCount : PRL_HANDLE -> PRL_RESULT * PRL_UINT32;
  PrlVmCfg_GetCpuMask : PRL_HANDLE -> bool -> PRL_RESULT * string;
  PrlVmCfg_GetCpuMode : PRL_HANDLE -> PRL_RESULT * PRL_CPU_MODE;
  PrlVmCfg_GetVmType : PRL_HANDLE -> PRL_RESULT * PRL_VM_TYPE;
  PrlVmCfg_GetVideoRamSize : PRL_HANDLE -> PRL_RESULT * PRL_UINT32;
  PrlVmCfg_GetHardDisksCount : PRL_HANDLE -> PRL_RESULT * PRL_UINT32;
  PrlVmCfg_GetHardDisk : PRL_HANDLE -> Z -> PRL_RESULT * PRL_HANDLE;
  PrlVmCfg_GetNetAdaptersCount : PRL_HANDLE -> PRL_RESULT * PRL_UINT32;
  PrlVmCfg_GetNetAdapter : PRL_HANDLE -> Z -> PRL_RESULT * PRL_HANDLE;
  PrlVmCfg_GetSerialPortsCount : PRL_HANDLE -> PRL_RESULT * PRL_UINT32;
  PrlVmCfg_GetSerialPort : PRL_HANDLE -> Z -> PRL_RESULT * PRL_HANDLE;
  PrlVmCfg_GetVNCMode : PRL_HANDLE -> PRL_RESULT * PRL_VM_REMOTE_DISPLAY_MODE;
  PrlVmCfg_GetVNCPort : PRL_HANDLE -> PRL_RESULT * PRL_UINT32;
  PrlVmCfg_GetVNCHostName : PRL_HANDLE -> bool -> PRL_RESULT * string;
  PrlVmCfg_GetEnvId : PRL_HANDLE -> PRL_RESULT * PRL_UINT32;
  PrlVmCfg_GetHomePath : PRL_HANDLE -> bool -> PRL_RESULT * string;
  PrlVmCfg_GetAutoStart : PRL_HANDLE -> PRL_RESULT * PRL_VM_AUTOSTART_OPTION;
  PrlVmDev_GetEmulatedType : PRL_HANDLE -> PRL_RESULT * PRL_UINT32;
  PrlVmDev_GetFriendlyName : PRL_HANDLE -> bool -> PRL_RESULT * string;
  PrlVmDev_GetIfaceType : PRL_HANDLE -> PRL_RESULT * PRL_MASS_STORAGE_INTERFACE_TYPE;
  PrlVmDev_GetStackIndex : PRL_HANDLE -> PRL_RESULT * PRL_UINT32;
  PrlVmDev_GetIndex : PRL_HANDLE -> PRL_RESULT * PRL_UINT32;
  PrlVmDev_IsConnected : PRL_HANDLE -> PRL_RESULT * bool;
  PrlVmDevNet_GetHostInterfaceName : PRL_HANDLE -> bool -> PRL_RESULT * string;
  PrlVmDevNet_GetMacAddressCanonical : PRL_HANDLE -> PRL_RESULT * string;
  PrlVmDevNet_GetVirtualNetworkId : PRL_HANDLE -> bool -> PRL_RESULT * string;
  PDT_USE_IMAGE_FILE : PRL_UINT32;
  PDT_USE_OUTPUT_FILE : PRL_UINT32;
  PDT_USE_SERIAL_PORT_SOCKET_MODE : PRL_UINT32;
  PDT_USE_REAL_DEVICE : PRL_UINT32;
  PNA_ROUTED : PRL_UINT32;
  PGVC_SEARCH_BY_UUID : Z;
  PVTF_VM : Z;
  PVTF_CT : Z;
}.

(** The libvirt helpers and constants whose sources are absent and whose
    results no property below depends on. *)
Record Host := {
  nodeGetCPUCount : Z;
  virBitmapParse : string -> Z -> option virBitmap;
  virMacAddrParse : string -> option (list byte);
  PARALLELS_ROUTED_NETWORK_NAME : string;
}.

(** [parallelsConn]: the part of the connection the SDK side reads; the
    domain list [privconn->domains] is [w_domains] of the world. *)
Record parallelsConn := {
  server : PRL_HANDLE;
  jobTimeout : Z;
}.

(** ** libvirt helpers modelled from the spec *)

(** Modelled from the spec: [virBitmapNew] and [virBitmapSetAll]
    (util/virbitmap.c is not among the sources): a bitmap of the given
    width, all clear, and the same bitmap with every bit set. *)
Definition virBitmapNew (size : Z) : option virBitmap :=
  Some (replicate (Z.to_nat size) false).

Definition virBitmapSetAll (b : virBitmap) : virBitmap :=
  replicate (length b) true.

Module DiskName.

Definition letter (n : Z) : ascii := ascii_of_N (97 + Z.to_N n).

(** The letters of index [ctr]: the last letter is [ctr mod 26], the
    letters before it are those of [ctr / 26 - 1], until that is
    negative. *)
Fixpoint letters (fuel : nat) (ctr : Z) (acc : list ascii) : list ascii :=
  match fuel with
  | O => acc
  | S fuel' =>
      if ctr <? 0 then acc
      else letters fuel' (ctr / 26 - 1) (letter (ctr mod 26) :: acc)
  end.

End DiskName.

(** Modelled from the spec: [virIndexToDiskName] (util/virutil.c is not
    among the sources): the name is the prefix followed by the letters
    derived from the zero-based index (a, b, ..., z, aa, ab, ...); there
    is no name for a negative index. *)
Definition virIndexToDiskName (idx : Z) (prefix : string) : option string :=
  if idx <? 0 then None
  else Some (prefix +:+ string_of_list_ascii (DiskName.letters 8 idx [])).

(** Modelled from the spec: the macro [IS_CT] (parallels_utils.h is not
    among the sources): the domain has the container personality, which
    [prlsdkConvertDomainType] records as the OS type [exe]. *)
Definition IS_CT (def : virDomainDef) : bool :=
  bool_decide (def_os_type def = Some "exe"%string).

(** The object store.  Its functions ([find_by_uuid], [insert],
    [remove] and the object lock of the spec) are in conf/domain_conf.c
    and util/virobject.c, which are not among the sources.  The UUID is
    the only identity used for lookup and merge.  Access to the objects
    first: [*p = o] and [*p]. *)
Definition set_obj (p : virDomainObjPtr) (o : virDomainObj) : M unit :=
  fun w => Ok tt {| w_domains := w_domains w;
                    w_objs := <[p := o]> (w_objs w);
                    w_trace := w_trace w |}.

Definition get_obj (p : virDomainObjPtr) : M virDomainObj :=
  fun w => match w_objs w !! p with
           | Some o => Ok o w
           | None => Fault
           end.

(** An assignment through the pointer [p]: [*p = f ( *p )]. *)
Definition update_obj (p : virDomainObjPtr)
    (f : virDomainObj -> virDomainObj) : M unit :=
  o ← get_obj p; set_obj p (f o).

Definition lock_obj (o : virDomainObj) (l : bool) : virDomainObj :=
  {| obj_def := obj_def o; obj_newDef := obj_newDef o;
     obj_state := obj_state o; obj_autostart := obj_autostart o;
     obj_persistent := obj_persistent o;
     obj_privateData := obj_privateData o;
     obj_privateDataFreeFunc := obj_privateDataFreeFunc o;
     obj_locked := l; obj_def_freed := obj_def_freed o;
     obj_privateData_freed := obj_privateData_freed o |}.

(** Modelled from the spec: [virDomainObjNew] (conf/domain_conf.c): the
    slot [insert] returns is newly made and locked. *)
Definition virDomainObjNew (def : virDomainDef) : virDomainObj :=
  {| obj_def := def; obj_newDef := NewDefNull; obj_state := None;
     obj_autostart := 0; obj_persistent := 0; obj_privateData := None;
     obj_privateDataFreeFunc := None; obj_locked := true;
     obj_def_freed := false; obj_privateData_freed := false |}.

(** Modelled from the spec: an [insert] under a UUID that has a slot
    merges into it: the slot, locked, takes the definition. *)
Definition assign_def (o : virDomainObj) (def : virDomainDef) : virDomainObj :=
  {| obj_def := def; obj_newDef := obj_newDef o;
     obj_state := obj_state o; obj_autostart := obj_autostart o;
     obj_persistent := obj_persistent o;
     obj_privateData := obj_privateData o;
     obj_privateDataFreeFunc := obj_privateDataFreeFunc o;
     obj_locked := true; obj_def_freed := obj_def_freed o;
     obj_privateData_freed := obj_privateData_freed o |}.

(** Modelled from the spec: [virDomainObjListFindByUUID]
    (conf/domain_conf.c), the [find_by_uuid] of the store: the slot of
    the UUID, locked, or none. *)
Definition virDomainObjListFindByUUID (uuid : uuid_t) : M (option virDomainObjPtr) :=
  fun w =>
    match w_domains w !! uuid with
    | None => Ok None w
    | Some p =>
        match w_objs w !! p with
        | Some o => (set_obj p (lock_obj o true);; mret (Some p)) w
        | None => Fault
        end
    end.

(** Modelled from the spec: [virDomainObjListAdd] (conf/domain_conf.c),
    the [insert] of the store: the locked slot of the definition, under
    its UUID. *)
Definition virDomainObjListAdd (def : virDomainDef) : M virDomainObjPtr :=
  fun w =>
    match w_domains w !! def_uuid def with
    | Some p =>
        match w_objs w !! p with
        | Some o =>
            Ok p {| w_domains := w_domains w;
                    w_objs := <[p := assign_def o def]> (w_objs w);
                    w_trace := EvListAdd (def_uuid def) p :: w_trace w |}
        | None => Fault
        end
    | None =>
        let p := fresh (dom (w_objs w)) in
        Ok p {| w_domains := <[def_uuid def := p]> (w_domains w);
                w_objs := <[p := virDomainObjNew def]> (w_objs w);
                w_trace := EvListAdd (def_uuid def) p :: w_trace w |}
    end.

(** Modelled from the spec: [virDomainObjListRemove]
    (conf/domain_conf.c), the [remove] of the store: the slot leaves the
    list and its object goes. *)
Definition virDomainObjListRemove (p : virDomainObjPtr) : M unit :=
  fun w =>
    match w_objs w !! p with
    | Some o =>
        Ok tt {| w_domains := delete (def_uuid (obj_def o)) (w_domains w);
                 w_objs := delete p (w_objs w);
                 w_trace := EvListRemove p :: w_trace w |}
    | None => Fault
    end.

(** Modelled from the spec: [virObjectUnlock] (util/virobject.c)
    releases the lock of the slot. *)
Definition virObjectUnlock (p : virDomainObjPtr) : M unit :=
  update_obj p (fun o => lock_obj o false).

(** ** Field assignment

    [set_f v r] is the struct [r] after [r.f = v]. *)

Definition set_disk_src_type (v : option virStorageType) (r : virDomainDiskDef) : virDomainDiskDef :=
  {| disk_src_type := v; disk_src_format := disk_src_format r; disk_src_path
     := disk_src_path r; disk_bus := disk_bus r; disk_info_type :=
     disk_info_type r; disk_info_drive_target := disk_info_drive_target r;
     disk_dst := disk_dst r |}.

Definition set_disk_src_format (v : option virStorageFileFormat) (r : virDomainDiskDef) : virDomainDiskDef :=
  {| disk_src_type := disk_src_type r; disk_src_format := v; disk_src_path
     := disk_src_path r; disk_bus := disk_bus r; disk_info_type :=
     disk_info_type r; disk_info_drive_target := disk_info_drive_target r;
     disk_dst := disk_dst r |}.

Definition set_disk_src_path (v : option string) (r : virDomainDiskDef) : virDomainDiskDef :=
  {| disk_src_type := disk_src_type r; disk_src_format := disk_src_format r;
     disk_src_path := v; disk_bus := disk_bus r; disk_info_type :=
     disk_info_type r; disk_info_drive_target := disk_info_drive_target r;
     disk_dst := disk_dst r |}.

Definition set_disk_bus (v : option virDomainDiskBus) (r : virDomainDiskDef) : virDomainDiskDef :=
  {| disk_src_type := disk_src_type r; disk_src_format := disk_src_format r;
     disk_src_path := disk_src_path r; disk_bus := v; disk_info_type :=
     disk_info_type r; disk_info_drive_target := disk_info_drive_target r;
     disk_dst := disk_dst r |}.

Definition set_disk_info_type (v : option virDomainDeviceAddressType) (r : virDomainDiskDef) : virDomainDiskDef :=
  {| disk_src_type := disk_src_type r; disk_src_format := disk_src_format r;
     disk_src_path := disk_src_path r; disk_bus := disk_bus r;
     disk_info_type := v; disk_info_drive_target := disk_info_drive_target
     r; disk_dst := disk_dst r |}.

Definition set_disk_info_drive_target (v : Z) (r : virDomainDiskDef) : virDomainDiskDef :=
  {| disk_src_type := disk_src_type r; disk_src_format := disk_src_format r;
     disk_src_path := disk_src_path r; disk_bus := disk_bus r;
     disk_info_type := disk_info_type r; disk_info_drive_target := v;
     disk_dst := disk_dst r |}.

Definition set_disk_dst (v : option string) (r : virDomainDiskDef) : virDomainDiskDef :=
  {| disk_src_type := disk_src_type r; disk_src_format := disk_src_format r;
     disk_src_path := disk_src_path r; disk_bus := disk_bus r;
     disk_info_type := disk_info_type r; disk_info_drive_target :=
     disk_info_drive_target r; disk_dst := v |}.

Definition set_net_type (v : option virDomainNetType) (r : virDomainNetDef) : virDomainNetDef :=
  {| net_type := v; net_ifname := net_ifname r; net_mac := net_mac r;
     net_network_name := net_network_name r; net_linkstate := net_linkstate
     r |}.

Definition set_net_ifname (v : option string) (r : virDomainNetDef) : virDomainNetDef :=
  {| net_type := net_type r; net_ifname := v; net_mac := net_mac r;
     net_network_name := net_network_name r; net_linkstate := net_linkstate
     r |}.

Definition set_net_mac (v : option (list byte)) (r : virDomainNetDef) : virDomainNetDef :=
  {| net_type := net_type r; net_ifname := net_ifname r; net_mac := v;
     net_network_name := net_network_name r; net_linkstate := net_linkstate
     r |}.

Definition set_net_network_name (v : option string) (r : virDomainNetDef) : virDomainNetDef :=
  {| net_type := net_type r; net_ifname := net_ifname r; net_mac := net_mac
     r; net_network_name := v; net_linkstate := net_linkstate r |}.

Definition set_net_linkstate (v : option virDomainNetInterfaceLinkState) (r : virDomainNetDef) : virDomainNetDef :=
  {| net_type := net_type r; net_ifname := net_ifname r; net_mac := net_mac
     r; net_network_name := net_network_name r; net_linkstate := v |}.

Definition set_chr_deviceType (v : option virDomainChrDeviceType) (r : virDomainChrDef) : virDomainChrDef :=
  {| chr_deviceType := v; chr_targetTypeAttr := chr_targetTypeAttr r;
     chr_target_port := chr_target_port r; chr_source_type :=
     chr_source_type r; chr_source_path := chr_source_path r |}.

Definition set_chr_targetTypeAttr (v : bool) (r : virDomainChrDef) : virDomainChrDef :=
  {| chr_deviceType := chr_deviceType r; chr_targetTypeAttr := v;
     chr_target_port := chr_target_port r; chr_source_type :=
     chr_source_type r; chr_source_path := chr_source_path r |}.

Definition set_chr_target_port (v : Z) (r : virDomainChrDef) : virDomainChrDef :=
  {| chr_deviceType := chr_deviceType r; chr_targetTypeAttr :=
     chr_targetTypeAttr r; chr_target_port := v; chr_source_type :=
     chr_source_type r; chr_source_path := chr_source_path r |}.

Definition set_chr_source_type (v : option virDomainChrType) (r : virDomainChrDef) : virDomainChrDef :=
  {| chr_deviceType := chr_deviceType r; chr_targetTypeAttr :=
     chr_targetTypeAttr r; chr_target_port := chr_target_port r;
     chr_source_type := v; chr_source_path := chr_source_path r |}.

Definition set_chr_source_path (v : option string) (r : virDomainChrDef) : virDomainChrDef :=
  {| chr_deviceType := chr_deviceType r; chr_targetTypeAttr :=
     chr_targetTypeAttr r; chr_target_port := chr_target_port r;
     chr_source_type := chr_source_type r; chr_source_path := v |}.

Definition set_def_virtType (v : option virDomainVirtType) (r : virDomainDef) : virDomainDef :=
  {| def_virtType := v; def_id := def_id r; def_name := def_name r; def_uuid
     := def_uuid r; def_onReboot := def_onReboot r; def_onPoweroff :=
     def_onPoweroff r; def_onCrash := def_onCrash r; def_mem_max_balloon :=
     def_mem_max_balloon r; def_mem_cur_balloon := def_mem_cur_balloon r;
     def_vcpus := def_vcpus r; def_maxvcpus := def_maxvcpus r; def_os_type
     := def_os_type r; def_os_init := def_os_init r; def_os_arch :=
     def_os_arch r; def_videos := def_videos r; def_disks := def_disks r;
     def_nets := def_nets r; def_serials := def_serials r; def_graphics :=
     def_graphics r |}.

Definition set_def_id (v : Z) (r : virDomainDef) : virDomainDef :=
  {| def_virtType := def_virtType r; def_id := v; def_name := def_name r;
     def_uuid := def_uuid r; def_onReboot := def_onReboot r; def_onPoweroff
     := def_onPoweroff r; def_onCrash := def_onCrash r; def_mem_max_balloon
     := def_mem_max_balloon r; def_mem_cur_balloon := def_mem_cur_balloon r;
     def_vcpus := def_vcpus r; def_maxvcpus := def_maxvcpus r; def_os_type
     := def_os_type r; def_os_init := def_os_init r; def_os_arch :=
     def_os_arch r; def_videos := def_videos r; def_disks := def_disks r;
     def_nets := def_nets r; def_serials := def_serials r; def_graphics :=
     def_graphics r |}.

Definition set_def_name (v : option string) (r : virDomainDef) : virDomainDef :=
  {| def_virtType := def_virtType r; def_id := def_id r; def_name := v;
     def_uuid := def_uuid r; def_onReboot := def_onReboot r; def_onPoweroff
     := def_onPoweroff r; def_onCrash := def_onCrash r; def_mem_max_balloon
     := def_mem_max_balloon r; def_mem_cur_balloon := def_mem_cur_balloon r;
     def_vcpus := def_vcpus r; def_maxvcpus := def_maxvcpus r; def_os_type
     := def_os_type r; def_os_init := def_os_init r; def_os_arch :=
     def_os_arch r; def_videos := def_videos r; def_disks := def_disks r;
     def_nets := def_nets r; def_serials := def_serials r; def_graphics :=
     def_graphics r |}.

Definition set_def_uuid (v : uuid_t) (r : virDomainDef) : virDomainDef :=
  {| def_virtType := def_virtType r; def_id := def_id r; def_name :=
     def_name r; def_uuid := v; def_onReboot := def_onReboot r;
     def_onPoweroff := def_onPoweroff r; def_onCrash := def_onCrash r;
     def_mem_max_balloon := def_mem_max_balloon r; def_mem_cur_balloon :=
     def_mem_cur_balloon r; def_vcpus := def_vcpus r; def_maxvcpus :=
     def_maxvcpus r; def_os_type := def_os_type r; def_os_init :=
     def_os_init r; def_os_arch := def_os_arch r; def_videos := def_videos
     r; def_disks := def_disks r; def_nets := def_nets r; def_serials :=
     def_serials r; def_graphics := def_graphics r |}.

Definition set_def_onReboot (v : option virDomainLifecycleAction) (r : virDomainDef) : virDomainDef :=
  {| def_virtType := def_virtType r; def_id := def_id r; def_name :=
     def_name r; def_uuid := def_uuid r; def_onReboot := v; def_onPoweroff
     := def_onPoweroff r; def_onCrash := def_onCrash r; def_mem_max_balloon
     := def_mem_max_balloon r; def_mem_cur_balloon := def_mem_cur_balloon r;
     def_vcpus := def_vcpus r; def_maxvcpus := def_maxvcpus r; def_os_type
     := def_os_type r; def_os_init := def_os_init r; def_os_arch :=
     def_os_arch r; def_videos := def_videos r; def_disks := def_disks r;
     def_nets := def_nets r; def_serials := def_serials r; def_graphics :=
     def_graphics r |}.

Definition set_def_onPoweroff (v : option virDomainLifecycleAction) (r : virDomainDef) : virDomainDef :=
  {| def_virtType := def_virtType r; def_id := def_id r; def_name :=
     def_name r; def_uuid := def_uuid r; def_onReboot := def_onReboot r;
     def_onPoweroff := v; def_onCrash := def_onCrash r; def_mem_max_balloon
     := def_mem_max_balloon r; def_mem_cur_balloon := def_mem_cur_balloon r;
     def_vcpus := def_vcpus r; def_maxvcpus := def_maxvcpus r; def_os_type
     := def_os_type r; def_os_init := def_os_init r; def_os_arch :=
     def_os_arch r; def_videos := def_videos r; def_disks := def_disks r;
     def_nets := def_nets r; def_serials := def_serials r; def_graphics :=
     def_graphics r |}.

Definition set_def_onCrash (v : option virDomainLifecycleAction) (r : virDomainDef) : virDomainDef :=
  {| def_virtType := def_virtType r; def_id := def_id r; def_name :=
     def_name r; def_uuid := def_uuid r; def_onReboot := def_onReboot r;
     def_onPoweroff := def_onPoweroff r; def_onCrash := v;
     def_mem_max_balloon := def_mem_max_balloon r; def_mem_cur_balloon :=
     def_mem_cur_balloon r; def_vcpus := def_vcpus r; def_maxvcpus :=
     def_maxvcpus r; def_os_type := def_os_type r; def_os_init :=
     def_os_init r; def_os_arch := def_os_arch r; def_videos := def_videos
     r; def_disks := def_disks r; def_nets := def_nets r; def_serials :=
     def_serials r; def_graphics := def_graphics r |}.

Definition set_def_mem_max_balloon (v : Z) (r : virDomainDef) : virDomainDef :=
  {| def_virtType := def_virtType r; def_id := def_id r; def_name :=
     def_name r; def_uuid := def_uuid r; def_onReboot := def_onReboot r;
     def_onPoweroff := def_onPoweroff r; def_onCrash := def_onCrash r;
     def_mem_max_balloon := v; def_mem_cur_balloon := def_mem_cur_balloon r;
     def_vcpus := def_vcpus r; def_maxvcpus := def_maxvcpus r; def_os_type
     := def_os_type r; def_os_init := def_os_init r; def_os_arch :=
     def_os_arch r; def_videos := def_videos r; def_disks := def_disks r;
     def_nets := def_nets r; def_serials := def_serials r; def_graphics :=
     def_graphics r |}.

Definition set_def_mem_cur_balloon (v : Z) (r : virDomainDef) : virDomainDef :=
  {| def_virtType := def_virtType r; def_id := def_id r; def_name :=
     def_name r; def_uuid := def_uuid r; def_onReboot := def_onReboot r;
     def_onPoweroff := def_onPoweroff r; def_onCrash := def_onCrash r;
     def_mem_max_balloon := def_mem_max_balloon r; def_mem_cur_balloon := v;
     def_vcpus := def_vcpus r; def_maxvcpus := def_maxvcpus r; def_os_type
     := def_os_type r; def_os_init := def_os_init r; def_os_arch :=
     def_os_arch r; def_videos := def_videos r; def_disks := def_disks r;
     def_nets := def_nets r; def_serials := def_serials r; def_graphics :=
     def_graphics r |}.

Definition set_def_vcpus (v : Z) (r : virDomainDef) : virDomainDef :=
  {| def_virtType := def_virtType r; def_id := def_id r; def_name :=
     def_name r; def_uuid := def_uuid r; def_onReboot := def_onReboot r;
     def_onPoweroff := def_onPoweroff r; def_onCrash := def_onCrash r;
     def_mem_max_balloon := def_mem_max_balloon r; def_mem_cur_balloon :=
     def_mem_cur_balloon r; def_vcpus := v; def_maxvcpus := def_maxvcpus r;
     def_os_type := def_os_type r; def_os_init := def_os_init r; def_os_arch
     := def_os_arch r; def_videos := def_videos r; def_disks := def_disks r;
     def_nets := def_nets r; def_serials := def_serials r; def_graphics :=
     def_graphics r |}.

Definition set_def_maxvcpus (v : Z) (r : virDomainDef) : virDomainDef :=
  {| def_virtType := def_virtType r; def_id := def_id r; def_name :=
     def_name r; def_uuid := def_uuid r; def_onReboot := def_onReboot r;
     def_onPoweroff := def_onPoweroff r; def_onCrash := def_onCrash r;
     def_mem_max_balloon := def_mem_max_balloon r; def_mem_cur_balloon :=
     def_mem_cur_balloon r; def_vcpus := def_vcpus r; def_maxvcpus := v;
     def_os_type := def_os_type r; def_os_init := def_os_init r; def_os_arch
     := def_os_arch r; def_videos := def_videos r; def_disks := def_disks r;
     def_nets := def_nets r; def_serials := def_serials r; def_graphics :=
     def_graphics r |}.

Definition set_def_os_type (v : option string) (r : virDomainDef) : virDomainDef :=
  {| def_virtType := def_virtType r; def_id := def_id r; def_name :=
     def_name r; def_uuid := def_uuid r; def_onReboot := def_onReboot r;
     def_onPoweroff := def_onPoweroff r; def_onCrash := def_onCrash r;
     def_mem_max_balloon := def_mem_max_balloon r; def_mem_cur_balloon :=
     def_mem_cur_balloon r; def_vcpus := def_vcpus r; def_maxvcpus :=
     def_maxvcpus r; def_os_type := v; def_os_init := def_os_init r;
     def_os_arch := def_os_arch r; def_videos := def_videos r; def_disks :=
     def_disks r; def_nets := def_nets r; def_serials := def_serials r;
     def_graphics := def_graphics r |}.

Definition set_def_os_init (v : option string) (r : virDomainDef) : virDomainDef :=
  {| def_virtType := def_virtType r; def_id := def_id r; def_name :=
     def_name r; def_uuid := def_uuid r; def_onReboot := def_onReboot r;
     def_onPoweroff := def_onPoweroff r; def_onCrash := def_onCrash r;
     def_mem_max_balloon := def_mem_max_balloon r; def_mem_cur_balloon :=
     def_mem_cur_balloon r; def_vcpus := def_vcpus r; def_maxvcpus :=
     def_maxvcpus r; def_os_type := def_os_type r; def_os_init := v;
     def_os_arch := def_os_arch r; def_videos := def_videos r; def_disks :=
     def_disks r; def_nets := def_nets r; def_serials := def_serials r;
     def_graphics := def_graphics r |}.

Definition set_def_os_arch (v : option virArch) (r : virDomainDef) : virDomainDef :=
  {| def_virtType := def_virtType r; def_id := def_id r; def_name :=
     def_name r; def_uuid := def_uuid r; def_onReboot := def_onReboot r;
     def_onPoweroff := def_onPoweroff r; def_onCrash := def_onCrash r;
     def_mem_max_balloon := def_mem_max_balloon r; def_mem_cur_balloon :=
     def_mem_cur_balloon r; def_vcpus := def_vcpus r; def_maxvcpus :=
     def_maxvcpus r; def_os_type := def_os_type r; def_os_init :=
     def_os_init r; def_os_arch := v; def_videos := def_videos r; def_disks
     := def_disks r; def_nets := def_nets r; def_serials := def_serials r;
     def_graphics := def_graphics r |}.

Definition set_def_videos (v : list virDomainVideoDef) (r : virDomainDef) : virDomainDef :=
  {| def_virtType := def_virtType r; def_id := def_id r; def_name :=
     def_name r; def_uuid := def_uuid r; def_onReboot := def_onReboot r;
     def_onPoweroff := def_onPoweroff r; def_onCrash := def_onCrash r;
     def_mem_max_balloon := def_mem_max_balloon r; def_mem_cur_balloon :=
     def_mem_cur_balloon r; def_vcpus := def_vcpus r; def_maxvcpus :=
     def_maxvcpus r; def_os_type := def_os_type r; def_os_init :=
     def_os_init r; def_os_arch := def_os_arch r; def_videos := v; def_disks
     := def_disks r; def_nets := def_nets r; def_serials := def_serials r;
     def_graphics := def_graphics r |}.

Definition set_def_disks (v : list virDomainDiskDef) (r : virDomainDef) : virDomainDef :=
  {| def_virtType := def_virtType r; def_id := def_id r; def_name :=
     def_name r; def_uuid := def_uuid r; def_onReboot := def_onReboot r;
     def_onPoweroff := def_onPoweroff r; def_onCrash := def_onCrash r;
     def_mem_max_balloon := def_mem_max_balloon r; def_mem_cur_balloon :=
     def_mem_cur_balloon r; def_vcpus := def_vcpus r; def_maxvcpus :=
     def_maxvcpus r; def_os_type := def_os_type r; def_os_init :=
     def_os_init r; def_os_arch := def_os_arch r; def_videos := def_videos
     r; def_disks := v; def_nets := def_nets r; def_serials := def_serials
     r; def_graphics := def_graphics r |}.

Definition set_def_nets (v : list virDomainNetDef) (r : virDomainDef) : virDomainDef :=
  {| def_virtType := def_virtType r; def_id := def_id r; def_name :=
     def_name r; def_uuid := def_uuid r; def_onReboot := def_onReboot r;
     def_onPoweroff := def_onPoweroff r; def_onCrash := def_onCrash r;
     def_mem_max_balloon := def_mem_max_balloon r; def_mem_cur_balloon :=
     def_mem_cur_balloon r; def_vcpus := def_vcpus r; def_maxvcpus :=
     def_maxvcpus r; def_os_type := def_os_type r; def_os_init :=
     def_os_init r; def_os_arch := def_os_arch r; def_videos := def_videos
     r; def_disks := def_disks r; def_nets := v; def_serials := def_serials
     r; def_graphics := def_graphics r |}.

Definition set_def_serials (v : list virDomainChrDef) (r : virDomainDef) : virDomainDef :=
  {| def_virtType := def_virtType r; def_id := def_id r; def_name :=
     def_name r; def_uuid := def_uuid r; def_onReboot := def_onReboot r;
     def_onPoweroff := def_onPoweroff r; def_onCrash := def_onCrash r;
     def_mem_max_balloon := def_mem_max_balloon r; def_mem_cur_balloon :=
     def_mem_cur_balloon r; def_vcpus := def_vcpus r; def_maxvcpus :=
     def_maxvcpus r; def_os_type := def_os_type r; def_os_init :=
     def_os_init r; def_os_arch := def_os_arch r; def_videos := def_videos
     r; def_disks := def_disks r; def_nets := def_nets r; def_serials := v;
     def_graphics := def_graphics r |}.

Definition set_def_graphics (v : list virDomainGraphicsDef) (r : virDomainDef) : virDomainDef :=
  {| def_virtType := def_virtType r; def_id := def_id r; def_name :=
     def_name r; def_uuid := def_uuid r; def_onReboot := def_onReboot r;
     def_onPoweroff := def_onPoweroff r; def_onCrash := def_onCrash r;
     def_mem_max_balloon := def_mem_max_balloon r; def_mem_cur_balloon :=
     def_mem_cur_balloon r; def_vcpus := def_vcpus r; def_maxvcpus :=
     def_maxvcpus r; def_os_type := def_os_type r; def_os_init :=
     def_os_init r; def_os_arch := def_os_arch r; def_videos := def_videos
     r; def_disks := def_disks r; def_nets := def_nets r; def_serials :=
     def_serials r; def_graphics := v |}.

Definition set_pdom_id (v : Z) (r : parallelsDomObj) : parallelsDomObj :=
  {| pdom_id := v; pdom_uuid := pdom_uuid r; pdom_home := pdom_home r;
     pdom_sdkdom := pdom_sdkdom r; pdom_cpumask := pdom_cpumask r |}.

Definition set_pdom_uuid (v : option string) (r : parallelsDomObj) : parallelsDomObj :=
  {| pdom_id := pdom_id r; pdom_uuid := v; pdom_home := pdom_home r;
     pdom_sdkdom := pdom_sdkdom r; pdom_cpumask := pdom_cpumask r |}.

Definition set_pdom_home (v : option string) (r : parallelsDomObj) : parallelsDomObj :=
  {| pdom_id := pdom_id r; pdom_uuid := pdom_uuid r; pdom_home := v;
     pdom_sdkdom := pdom_sdkdom r; pdom_cpumask := pdom_cpumask r |}.

Definition set_pdom_sdkdom (v : PRL_HANDLE) (r : parallelsDomObj) : parallelsDomObj :=
  {| pdom_id := pdom_id r; pdom_uuid := pdom_uuid r; pdom_home := pdom_home
     r; pdom_sdkdom := v; pdom_cpumask := pdom_cpumask r |}.

Definition set_pdom_cpumask (v : option virBitmap) (r : parallelsDomObj) : parallelsDomObj :=
  {| pdom_id := pdom_id r; pdom_uuid := pdom_uuid r; pdom_home := pdom_home
     r; pdom_sdkdom := pdom_sdkdom r; pdom_cpumask := v |}.

Definition set_obj_def (v : virDomainDef) (r : virDomainObj) : virDomainObj :=
  {| obj_def := v; obj_newDef := obj_newDef r; obj_state := obj_state r;
     obj_autostart := obj_autostart r; obj_persistent := obj_persistent r;
     obj_privateData := obj_privateData r; obj_privateDataFreeFunc :=
     obj_privateDataFreeFunc r; obj_locked := obj_locked r;
     obj_def_freed := obj_def_freed r;
     obj_privateData_freed := obj_privateData_freed r |}.

Definition set_obj_newDef (v : newDef_ptr) (r : virDomainObj) : virDomainObj :=
  {| obj_def := obj_def r; obj_newDef := v; obj_state := obj_state r;
     obj_autostart := obj_autostart r; obj_persistent := obj_persistent r;
     obj_privateData := obj_privateData r; obj_privateDataFreeFunc :=
     obj_privateDataFreeFunc r; obj_locked := obj_locked r;
     obj_def_freed := obj_def_freed r;
     obj_privateData_freed := obj_privateData_freed r |}.

Definition set_obj_state (v : option (virDomainState * virDomainStateReason)) (r : virDomainObj) : virDomainObj :=
  {| obj_def := obj_def r; obj_newDef := obj_newDef r; obj_state := v;
     obj_autostart := obj_autostart r; obj_persistent := obj_persistent r;
     obj_privateData := obj_privateData r; obj_privateDataFreeFunc :=
     obj_privateDataFreeFunc r; obj_locked := obj_locked r;
     obj_def_freed := obj_def_freed r;
     obj_privateData_freed := obj_privateData_freed r |}.

Definition set_obj_autostart (v : Z) (r : virDomainObj) : virDomainObj :=
  {| obj_def := obj_def r; obj_newDef := obj_newDef r; obj_state :=
     obj_state r; obj_autostart := v; obj_persistent := obj_persistent r;
     obj_privateData := obj_privateData r; obj_privateDataFreeFunc :=
     obj_privateDataFreeFunc r; obj_locked := obj_locked r;
     obj_def_freed := obj_def_freed r;
     obj_privateData_freed := obj_privateData_freed r |}.

Definition set_obj_persistent (v : Z) (r : virDomainObj) : virDomainObj :=
  {| obj_def := obj_def r; obj_newDef := obj_newDef r; obj_state :=
     obj_state r; obj_autostart := obj_autostart r; obj_persistent := v;
     obj_privateData := obj_privateData r; obj_privateDataFreeFunc :=
     obj_privateDataFreeFunc r; obj_locked := obj_locked r;
     obj_def_freed := obj_def_freed r;
     obj_privateData_freed := obj_privateData_freed r |}.

Definition set_obj_privateData (v : option parallelsDomObj) (r : virDomainObj) : virDomainObj :=
  {| obj_def := obj_def r; obj_newDef := obj_newDef r; obj_state :=
     obj_state r; obj_autostart := obj_autostart r; obj_persistent :=
     obj_persistent r; obj_privateData := v; obj_privateDataFreeFunc :=
     obj_privateDataFreeFunc r; obj_locked := obj_locked r;
     obj_def_freed := obj_def_freed r;
     obj_privateData_freed := obj_privateData_freed r |}.

Definition set_obj_privateDataFreeFunc (v : option privateDataFreeFunc_t) (r : virDomainObj) : virDomainObj :=
  {| obj_def := obj_def r; obj_newDef := obj_newDef r; obj_state :=
     obj_state r; obj_autostart := obj_autostart r; obj_persistent :=
     obj_persistent r; obj_privateData := obj_privateData r;
     obj_privateDataFreeFunc := v; obj_locked := obj_locked r;
     obj_def_freed := obj_def_freed r;
     obj_privateData_freed := obj_privateData_freed r |}.

Definition set_obj_locked (v : bool) (r : virDomainObj) : virDomainObj :=
  {| obj_def := obj_def r; obj_newDef := obj_newDef r; obj_state :=
     obj_state r; obj_autostart := obj_autostart r; obj_persistent :=
     obj_persistent r; obj_privateData := obj_privateData r;
     obj_privateDataFreeFunc := obj_privateDataFreeFunc r; obj_locked := v;
     obj_def_freed := obj_def_freed r;
     obj_privateData_freed := obj_privateData_freed r |}.

Definition set_obj_def_freed (v : bool) (r : virDomainObj) : virDomainObj :=
  {| obj_def := obj_def r; obj_newDef := obj_newDef r; obj_state :=
     obj_state r; obj_autostart := obj_autostart r; obj_persistent :=
     obj_persistent r; obj_privateData := obj_privateData r;
     obj_privateDataFreeFunc := obj_privateDataFreeFunc r;
     obj_locked := obj_locked r; obj_def_freed := v;
     obj_privateData_freed := obj_privateData_freed r |}.

Definition set_obj_privateData_freed (v : bool) (r : virDomainObj) : virDomainObj :=
  {| obj_def := obj_def r; obj_newDef := obj_newDef r; obj_state :=
     obj_state r; obj_autostart := obj_autostart r; obj_persistent :=
     obj_persistent r; obj_privateData := obj_privateData r;
     obj_privateDataFreeFunc := obj_privateDataFreeFunc r;
     obj_locked := obj_locked r; obj_def_freed := obj_def_freed r;
     obj_privateData_freed := v |}.

(** What [VIR_ALLOC] and the constructors hand out: zero-filled structs. *)
Definition virDomainDiskDefNew : virDomainDiskDef :=
  {| disk_src_type := None; disk_src_format := None; disk_src_path := None;
     disk_bus := None; disk_info_type := None; disk_info_drive_target := 0;
     disk_dst := None |}.

Definition virDomainNetDef_zero : virDomainNetDef :=
  {| net_type := None; net_ifname := None; net_mac := None;
     net_network_name := None; net_linkstate := None |}.

Definition virDomainChrDefNew : virDomainChrDef :=
  {| chr_deviceType := None; chr_targetTypeAttr := false;
     chr_target_port := 0; chr_source_type := None;
     chr_source_path := None |}.

Definition virDomainDef_zero : virDomainDef :=
  {| def_virtType := None; def_id := 0; def_name := None; def_uuid := [];
     def_onReboot := None; def_onPoweroff := None; def_onCrash := None;
     def_mem_max_balloon := 0; def_mem_cur_balloon := 0; def_vcpus := 0;
     def_maxvcpus := 0; def_os_type := None; def_os_init := None;
     def_os_arch := None; def_videos := []; def_disks := [];
     def_nets := []; def_serials := []; def_graphics := [] |}.

Definition parallelsDomObj_zero : parallelsDomObj :=
  {| pdom_id := 0; pdom_uuid := None; pdom_home := None;
     pdom_sdkdom := PRL_INVALID_HANDLE; pdom_cpumask := None |}.

(** ["%X"] *)
Module Hex.

Definition digit (n : Z) : ascii :=
  if n <? 10 then ascii_of_N (48 + Z.to_N n) else ascii_of_N (55 + Z.to_N n).

Fixpoint digits (fuel : nat) (n : Z) (acc : list ascii) : list ascii :=
  match fuel with
  | O => acc
  | S fuel' =>
      let acc := digit (n mod 16) :: acc in
      if n / 16 =? 0 then acc else digits fuel' (n / 16) acc
  end.

Definition format (n : Z) : string :=
  string_of_list_ascii (digits 16 (n mod 2 ^ 32) []).

End Hex.

(** Turn the failure of [m] into a value the caller tests
    ([p = f (...); ...; if (!p) ...]). *)
Definition attempt {A} (m : M A) : M (option A) :=
  fun w =>
    match m w with
    | Ok a w' => Ok (Some a) w'
    | Fail w' => Ok None w'
    | Fault => Fault
    end.

(** ** The driver *)

Section Driver.

Context (sdk : Sdk) (host : Host).

Definition JOB_INFINIT_WAIT_TIMEOUT : Z := 2 ^ 32 - 1.

Definition logPrlErrorHelper (err : PRL_RESULT) : M unit :=
  let msg1 := PrlApi_GetResultDescription sdk err true in
  let msg2 := PrlApi_GetResultDescription sdk err false in
  virReportError VIR_ERR_INTERNAL_ERROR (msg1 +:+ " " +:+ msg2).

Definition logPrlError : PRL_RESULT -> M unit := logPrlErrorHelper.

(** [prlsdkCheckRetGoto (ret, label)]: the failure is the jump. *)
Definition prlsdkCheckRetGoto (ret : PRL_RESULT) : M unit :=
  if PRL_FAILED sdk ret then logPrlError ret;; fail else mret tt.

Definition logPrlEventErrorHelper (event : PRL_HANDLE) : M Z :=
  let '(ret, retCode) := PrlEvent_GetErrCode sdk event in
  if negb (ret =? 0) then logPrlError ret;; mret ret
  else
    let msg1 := PrlEvent_GetErrString sdk event true in
    let msg2 := PrlEvent_GetErrString sdk event false in
    virReportError VIR_ERR_INTERNAL_ERROR (msg1 +:+ " " +:+ msg2);;
    mret 0.

(** The result handle, [PRL_INVALID_HANDLE] ([NULL]) when there is none. *)
Definition getJobResultHelper (job : PRL_HANDLE) (timeout : Z) : M PRL_HANDLE :=
  let ret := PrlJob_Wait sdk job timeout in
  if negb (ret =? 0) then
    logPrlErrorHelper ret;; PrlHandle_Free job;; mret PRL_INVALID_HANDLE
  else
    let '(ret, retCode) := PrlJob_GetRetCode sdk job in
    if negb (ret =? 0) then
      logPrlErrorHelper ret;; PrlHandle_Free job;; mret PRL_INVALID_HANDLE
    else if negb (retCode =? 0) then
      let '(ret, err_handle) := PrlJob_GetError sdk job in
      if negb (ret =? 0) then
        logPrlErrorHelper ret;; PrlHandle_Free job;; mret PRL_INVALID_HANDLE
      else
        e ← logPrlEventErrorHelper err_handle;
        (if negb (e =? 0) then logPrlErrorHelper retCode else mret tt);;
        PrlHandle_Free err_handle;;
        PrlHandle_Free job;;
        mret PRL_INVALID_HANDLE
    else
      let '(ret, result) := PrlJob_GetResult sdk job in
      if PRL_FAILED sdk ret then
        logPrlErrorHelper ret;;
        PrlHandle_Free result;;
        PrlHandle_Free job;;
        mret PRL_INVALID_HANDLE
      else
        PrlHandle_Free job;; mret result.

Definition getJobResult : PRL_HANDLE -> Z -> M PRL_HANDLE := getJobResultHelper.

Definition waitJobHelper (job : PRL_HANDLE) (timeout : Z) : M unit :=
  result ← getJobResultHelper job timeout;
  if negb (result =? PRL_INVALID_HANDLE)
  then PrlHandle_Free result;; mret tt
  else fail.

Definition waitJob : PRL_HANDLE -> Z -> M unit := waitJobHelper.

(** Calls that start a job. *)
Definition PrlSrv_LoginLocalEx (srv : PRL_HANDLE) : M PRL_HANDLE :=
  let job := PrlSrv_LoginLocalEx_job sdk srv in
  emit (EvJob (JobLoginLocalEx srv) job);; mret job.

Definition PrlSrv_Logoff (srv : PRL_HANDLE) : M PRL_HANDLE :=
  let job := PrlSrv_Logoff_job sdk srv in
  emit (EvJob (JobLogoff srv) job);; mret job.

Definition PrlSrv_GetVmConfig (srv : PRL_HANDLE) (id : string) (flags : Z)
  : M PRL_HANDLE :=
  let job := PrlSrv_GetVmConfig_job sdk srv id flags in
  emit (EvJob (JobGetVmConfig id flags) job);; mret job.

Definition PrlSrv_GetVmListEx (srv : PRL_HANDLE) (flags : Z) : M PRL_HANDLE :=
  let job := PrlSrv_GetVmListEx_job sdk srv flags in
  emit (EvJob (JobGetVmListEx flags) job);; mret job.

Definition PrlVm_GetState (sdkdom : PRL_HANDLE) : M PRL_HANDLE :=
  let job := PrlVm_GetState_job sdk sdkdom in
  emit (EvJob (JobGetState sdkdom) job);; mret job.

Definition PrlHandle_AddRef (h : PRL_HANDLE) : M PRL_RESULT :=
  emit (EvHandleAddRef h);; mret (PrlHandle_AddRef_ret sdk h).

(** The connection with its server handle set. *)
Definition prlsdkConnect (privconn : parallelsConn) : M parallelsConn :=
  let '(ret, srv) := PrlSrv_Create sdk in
  if PRL_FAILED sdk ret then logPrlError ret;; fail
  else
    let privconn := {| server := srv; jobTimeout := jobTimeout privconn |} in
    job ← PrlSrv_LoginLocalEx (server privconn);
    or_else (waitJob job (jobTimeout privconn))
            (PrlHandle_Free (server privconn));;
    mret privconn.

Definition prlsdkDisconnect (privconn : parallelsConn) : M unit :=
  job ← PrlSrv_Logoff (server privconn);
  attempt (waitJob job (jobTimeout privconn));;
  PrlHandle_Free (server privconn).

(** The snapshot handle found. *)
Definition prlsdkSdkDomainLookup (privconn : parallelsConn) (id : string)
    (flags : Z) : M PRL_HANDLE :=
  job ← PrlSrv_GetVmConfig (server privconn) id flags;
  result ← getJobResult job (jobTimeout privconn);
  if result =? PRL_INVALID_HANDLE then
    PrlHandle_Free result;; fail
  else
    let '(pret, sdkdom) := PrlResult_GetParamByIndex sdk result 0 in
    or_else (prlsdkCheckRetGoto pret) (PrlHandle_Free result);;
    PrlHandle_Free result;;
    mret sdkdom.

(** The stack buffer [uuidstr] before it is written. *)
Definition uuidstr_buffer : list ascii :=
  replicate (VIR_UUID_STRING_BUFLEN + 2) NUL.

Definition prlsdkSdkDomainLookupByUUID (privconn : parallelsConn)
    (uuid : uuid_t) : M PRL_HANDLE :=
  let uuidstr := prlsdkUUIDFormat uuid uuidstr_buffer in
  r ← attempt (prlsdkSdkDomainLookup privconn
                 (string_of_list_ascii (c_str uuidstr))
                 (PGVC_SEARCH_BY_UUID sdk));
  match r with
  | None =>
      let uuidstr := string_of_list_ascii (virUUIDFormat uuid) in
      virReportError VIR_ERR_NO_DOMAIN
        ("no domain with matching uuid '" +:+ uuidstr +:+ "'");;
      mret PRL_INVALID_HANDLE
  | Some sdkdom => mret sdkdom
  end.

(** [uuidstr] points to a C string. *)
Definition prlsdkUUIDParse (uuidstr : list ascii) : M uuid_t :=
  match c_str uuidstr with
  | [] => fault
  | c :: rest =>
      let tmp := removelast (c :: rest) in
      match virUUIDParse (tail tmp) with
      | None =>
          virReportError VIR_ERR_INTERNAL_ERROR
            "UUID in config file malformed";;
          fail
      | Some uuid => mret uuid
      end
  end.

(** The name and the UUID.  The two calls that fill [*name] and
    [uuidstr] are followed by a test of [pret], which still holds the
    result of the length query: their own result codes are dropped. *)
Definition prlsdkGetDomainIds (sdkdom : PRL_HANDLE) : M (string * uuid_t) :=
  let '(pret, _) := PrlVmCfg_GetName sdk sdkdom false in
  prlsdkCheckRetGoto pret;;
  let '(_, name) := PrlVmCfg_GetName sdk sdkdom true in
  prlsdkCheckRetGoto pret;;
  let '(_, uuidstr) := PrlVmCfg_GetUuid sdk sdkdom in
  prlsdkCheckRetGoto pret;;
  uuid ← prlsdkUUIDParse (list_ascii_of_string uuidstr);
  mret (name, uuid).

Definition prlsdkGetDomainState (privconn : parallelsConn)
    (sdkdom : PRL_HANDLE) : M VIRTUAL_MACHINE_STATE :=
  job ← PrlVm_GetState sdkdom;
  result ← getJobResult job (jobTimeout privconn);
  if result =? PRL_INVALID_HANDLE then
    PrlHandle_Free PRL_INVALID_HANDLE;; PrlHandle_Free result;; fail
  else
    let '(pret, vmInfo) := PrlResult_GetParamByIndex sdk result 0 in
    let cleanup := PrlHandle_Free vmInfo;; PrlHandle_Free result in
    or_else (prlsdkCheckRetGoto pret) cleanup;;
    let '(pret, vmState) := PrlVmInfo_GetState sdk vmInfo in
    or_else (prlsdkCheckRetGoto pret) cleanup;;
    cleanup;;
    mret vmState.

(** [p] points to a block of private data or is NULL; [owner] is the
    domain object whose [privateData] is this very block, when there is
    one.  The handle held in the block is released; the bitmap and the
    strings go with the block, and [VIR_FREE (p)] frees the block
    itself, which leaves the [privateData] of [owner] dangling. *)
Definition prlsdkDomObjFreePrivate (owner : option virDomainObjPtr)
    (p : option parallelsDomObj) : M unit :=
  match p with
  | None => mret tt
  | Some pdom =>
      PrlHandle_Free (pdom_sdkdom pdom);;
      match owner with
      | Some dom => update_obj dom (set_obj_privateData_freed true)
      | None => mret tt
      end
  end.

Definition prlsdkAddDomainVideoInfo (sdkdom : PRL_HANDLE)
    (def : virDomainDef) : M virDomainDef :=
  let '(ret, videoRam) := PrlVmCfg_GetVideoRamSize sdk sdkdom in
  prlsdkCheckRetGoto ret;;
  let accel := {| support3d := false; support2d := false |} in
  let video := {| video_type := Some VIR_DOMAIN_VIDEO_TYPE_VGA;
                  video_vram := shl10_uint32 videoRam;
                  video_heads := 1;
                  video_accel := Some accel |} in
  mret (set_def_videos (def_videos def ++ [video]) def).

(** Modelled from the spec: the setters [virDomainDiskSetType],
    [virDomainDiskSetFormat] and [virDomainDiskSetSource]
    (conf/domain_conf.c is not among the sources) assign the storage
    type, the image format and the source path of a disk. *)
Definition virDomainDiskSetType := set_disk_src_type.
Definition virDomainDiskSetFormat := set_disk_src_format.
Definition virDomainDiskSetSource := set_disk_src_path.

Definition prlsdkGetDiskInfo (prldisk : PRL_HANDLE)
    (disk : virDomainDiskDef) : M virDomainDiskDef :=
  let '(pret, emulatedType) := PrlVmDev_GetEmulatedType sdk prldisk in
  prlsdkCheckRetGoto pret;;
  let disk :=
    if emulatedType =? PDT_USE_IMAGE_FILE sdk then
      virDomainDiskSetFormat (Some VIR_STORAGE_FILE_PLOOP)
        (virDomainDiskSetType (Some VIR_STORAGE_TYPE_FILE) disk)
    else
      virDomainDiskSetType (Some VIR_STORAGE_TYPE_BLOCK) disk in
  let '(pret, _) := PrlVmDev_GetFriendlyName sdk prldisk false in
  prlsdkCheckRetGoto pret;;
  let '(pret, buf) := PrlVmDev_GetFriendlyName sdk prldisk true in
  prlsdkCheckRetGoto pret;;
  let disk := virDomainDiskSetSource (Some buf) disk in
  let '(pret, ifType) := PrlVmDev_GetIfaceType sdk prldisk in
  prlsdkCheckRetGoto pret;;
  bus ← match ifType with
        | PMS_IDE_DEVICE => mret VIR_DOMAIN_DISK_BUS_IDE
        | PMS_SCSI_DEVICE => mret VIR_DOMAIN_DISK_BUS_SCSI
        | PMS_SATA_DEVICE => mret VIR_DOMAIN_DISK_BUS_SATA
        | PMS_other raw =>
            virReportError VIR_ERR_INTERNAL_ERROR
              ("Unknown disk bus: " +:+ Hex.format raw);;
            fail
        end;
  let disk := set_disk_bus (Some bus) disk in
  let '(pret, pos) := PrlVmDev_GetStackIndex sdk prldisk in
  prlsdkCheckRetGoto pret;;
  let disk := set_disk_info_type (Some VIR_DOMAIN_DEVICE_ADDRESS_TYPE_DRIVE) disk in
  let disk := set_disk_info_drive_target pos disk in
  let '(pret, prldiskIndex) := PrlVmDev_GetIndex sdk prldisk in
  prlsdkCheckRetGoto pret;;
  match virIndexToDiskName (int_of_uint32 prldiskIndex) "sd" with
  | None => fail
  | Some dst => mret (set_disk_dst (Some dst) disk)
  end.

(** The [for] loop of [prlsdkAddDomainHardDisksInfo]: [n] iterations are
    left, [i] is the index. *)
Fixpoint prlsdkAddDomainHardDisksInfo_loop (sdkdom : PRL_HANDLE) (n : nat)
    (i : Z) (def : virDomainDef) : M virDomainDef :=
  match n with
  | O => mret def
  | S n' =>
      let '(pret, hdd) := PrlVmCfg_GetHardDisk sdk sdkdom i in
      or_else (prlsdkCheckRetGoto pret) (PrlHandle_Free hdd);;
      if IS_CT def then
        VIR_WARN "Skipping disk information for container";;
        PrlHandle_Free hdd;;
        prlsdkAddDomainHardDisksInfo_loop sdkdom n' (i + 1) def
      else
        disk ← or_else (prlsdkGetDiskInfo hdd virDomainDiskDefNew)
                       (PrlHandle_Free hdd);
        PrlHandle_Free hdd;;
        prlsdkAddDomainHardDisksInfo_loop sdkdom n' (i + 1)
          (set_def_disks (def_disks def ++ [disk]) def)
  end.

Definition prlsdkAddDomainHardDisksInfo (sdkdom : PRL_HANDLE)
    (def : virDomainDef) : M virDomainDef :=
  let '(pret, hddCount) := PrlVmCfg_GetHardDisksCount sdk sdkdom in
  or_else (prlsdkCheckRetGoto pret) (PrlHandle_Free PRL_INVALID_HANDLE);;
  prlsdkAddDomainHardDisksInfo_loop sdkdom (Z.to_nat hddCount) 0 def.

Definition prlsdkGetNetInfo (netAdapter : PRL_HANDLE) (net : virDomainNetDef)
    (isCt : bool) : M virDomainNetDef :=
  let net := set_net_type (Some VIR_DOMAIN_NET_TYPE_NETWORK) net in
  let '(pret, netAdapterIndex) := PrlVmDev_GetIndex sdk netAdapter in
  prlsdkCheckRetGoto pret;;
  let '(pret, _) := PrlVmDevNet_GetHostInterfaceName sdk netAdapter false in
  prlsdkCheckRetGoto pret;;
  let '(pret, ifname) := PrlVmDevNet_GetHostInterfaceName sdk netAdapter true in
  prlsdkCheckRetGoto pret;;
  let net := set_net_ifname (Some ifname) net in
  if isCt && (netAdapterIndex =? 2 ^ 32 - 1) then
    let net := set_net_linkstate (Some VIR_DOMAIN_NET_INTERFACE_LINK_STATE_UP) net in
    mret (set_net_network_name (Some (PARALLELS_ROUTED_NETWORK_NAME host)) net)
  else
    let '(pret, macstr) := PrlVmDevNet_GetMacAddressCanonical sdk netAdapter in
    prlsdkCheckRetGoto pret;;
    mac ← match virMacAddrParse host macstr with
          | None => fail
          | Some mac => mret mac
          end;
    let net := set_net_mac (Some mac) net in
    let '(pret, emulatedType) := PrlVmDev_GetEmulatedType sdk netAdapter in
    prlsdkCheckRetGoto pret;;
    name ← (if emulatedType =? PNA_ROUTED sdk then
              mret (PARALLELS_ROUTED_NETWORK_NAME host)
            else
              let '(pret, _) :=
                PrlVmDevNet_GetVirtualNetworkId sdk netAdapter false in
              prlsdkCheckRetGoto pret;;
              let '(pret, name) :=
                PrlVmDevNet_GetVirtualNetworkId sdk netAdapter true in
              prlsdkCheckRetGoto pret;;
              mret name);
    let net := set_net_network_name (Some name) net in
    let '(pret, isConnected) := PrlVmDev_IsConnected sdk netAdapter in
    prlsdkCheckRetGoto pret;;
    mret (set_net_linkstate
            (Some (if isConnected
                   then VIR_DOMAIN_NET_INTERFACE_LINK_STATE_UP
                   else VIR_DOMAIN_NET_INTERFACE_LINK_STATE_DOWN)) net).

Fixpoint prlsdkAddDomainNetInfo_loop (sdkdom : PRL_HANDLE) (n : nat) (i : Z)
    (def : virDomainDef) : M virDomainDef :=
  match n with
  | O => mret def
  | S n' =>
      let '(ret, netAdapter) := PrlVmCfg_GetNetAdapter sdk sdkdom i in
      or_else (prlsdkCheckRetGoto ret) (PrlHandle_Free netAdapter);;
      net ← or_else (prlsdkGetNetInfo netAdapter virDomainNetDef_zero (IS_CT def))
                    (PrlHandle_Free netAdapter);
      PrlHandle_Free netAdapter;;
      prlsdkAddDomainNetInfo_loop sdkdom n' (i + 1)
        (set_def_nets (def_nets def ++ [net]) def)
  end.

(** [netAdapter] has no initial value: when the count query fails the
    error label releases a handle that was never assigned. *)
Definition prlsdkAddDomainNetInfo (sdkdom : PRL_HANDLE)
    (def : virDomainDef) : M virDomainDef :=
  let '(ret, netAdaptersCount) := PrlVmCfg_GetNetAdaptersCount sdk sdkdom in
  if PRL_FAILED sdk ret then logPrlError ret;; fault
  else prlsdkAddDomainNetInfo_loop sdkdom (Z.to_nat netAdaptersCount) 0 def.

Definition prlsdkGetSerialInfo (serialPort : PRL_HANDLE)
    (chr : virDomainChrDef) : M virDomainChrDef :=
  let chr := set_chr_deviceType (Some VIR_DOMAIN_CHR_DEVICE_TYPE_SERIAL) chr in
  let chr := set_chr_targetTypeAttr false chr in
  let '(pret, serialPortIndex) := PrlVmDev_GetIndex sdk serialPort in
  prlsdkCheckRetGoto pret;;
  let chr := set_chr_target_port (int_of_uint32 serialPortIndex) chr in
  let '(pret, emulatedType) := PrlVmDev_GetEmulatedType sdk serialPort in
  prlsdkCheckRetGoto pret;;
  let '(pret, _) := PrlVmDev_GetFriendlyName sdk serialPort false in
  prlsdkCheckRetGoto pret;;
  let '(pret, friendlyName) := PrlVmDev_GetFriendlyName sdk serialPort true in
  prlsdkCheckRetGoto pret;;
  if emulatedType =? PDT_USE_OUTPUT_FILE sdk then
    mret (set_chr_source_path (Some friendlyName)
            (set_chr_source_type (Some VIR_DOMAIN_CHR_TYPE_FILE) chr))
  else if emulatedType =? PDT_USE_SERIAL_PORT_SOCKET_MODE sdk then
    mret (set_chr_source_path (Some friendlyName)
            (set_chr_source_type (Some VIR_DOMAIN_CHR_TYPE_UNIX) chr))
  else if emulatedType =? PDT_USE_REAL_DEVICE sdk then
    mret (set_chr_source_path (Some friendlyName)
            (set_chr_source_type (Some VIR_DOMAIN_CHR_TYPE_DEV) chr))
  else
    virReportError VIR_ERR_INTERNAL_ERROR
      ("Unknown serial type: " +:+ Hex.format emulatedType);;
    fail.

Fixpoint prlsdkAddSerialInfo_loop (sdkdom : PRL_HANDLE) (n : nat) (i : Z)
    (serials : list virDomainChrDef) : M (list virDomainChrDef) :=
  match n with
  | O => mret serials
  | S n' =>
      let '(ret, serialPort) := PrlVmCfg_GetSerialPort sdk sdkdom i in
      or_else (prlsdkCheckRetGoto ret) (PrlHandle_Free serialPort);;
      chr ← or_else (prlsdkGetSerialInfo serialPort virDomainChrDefNew)
                    (PrlHandle_Free serialPort);
      PrlHandle_Free serialPort;;
      prlsdkAddSerialInfo_loop sdkdom n' (i + 1) (serials ++ [chr])
  end.

(** [serialPort] has no initial value either. *)
Definition prlsdkAddSerialInfo (sdkdom : PRL_HANDLE)
    (serials : list virDomainChrDef) : M (list virDomainChrDef) :=
  let '(ret, serialPortsCount) := PrlVmCfg_GetSerialPortsCount sdk sdkdom in
  if PRL_FAILED sdk ret then logPrlError ret;; fault
  else prlsdkAddSerialInfo_loop sdkdom (Z.to_nat serialPortsCount) 0 serials.

Definition prlsdkAddDomainHardware (sdkdom : PRL_HANDLE)
    (def : virDomainDef) : M virDomainDef :=
  def ← (if negb (IS_CT def) then prlsdkAddDomainVideoInfo sdkdom def
         else mret def);
  def ← prlsdkAddDomainHardDisksInfo sdkdom def;
  def ← prlsdkAddDomainNetInfo sdkdom def;
  serials ← prlsdkAddSerialInfo sdkdom (def_serials def);
  mret (set_def_serials serials def).

Definition prlsdkAddVNCInfo (sdkdom : PRL_HANDLE)
    (def : virDomainDef) : M virDomainDef :=
  let '(pret, vncMode) := PrlVmCfg_GetVNCMode sdk sdkdom in
  prlsdkCheckRetGoto pret;;
  if decide (vncMode = PRD_DISABLED) then mret def
  else
    let '(pret, port) := PrlVmCfg_GetVNCPort sdk sdkdom in
    prlsdkCheckRetGoto pret;;
    let '(pret, _) := PrlVmCfg_GetVNCHostName sdk sdkdom false in
    prlsdkCheckRetGoto pret;;
    let '(pret, address) := PrlVmCfg_GetVNCHostName sdk sdkdom true in
    prlsdkCheckRetGoto pret;;
    let listen := {| listen_type := Some VIR_DOMAIN_GRAPHICS_LISTEN_TYPE_ADDRESS;
                     listen_address := Some address |} in
    let gr := {| gr_type := Some VIR_DOMAIN_GRAPHICS_TYPE_VNC;
                 gr_vnc_port := int_of_uint32 port;
                 gr_vnc_autoport := bool_decide (vncMode = PRD_AUTO);
                 gr_vnc_keymap := None;
                 gr_vnc_socket := None;
                 gr_vnc_auth_passwd := None;
                 gr_vnc_auth_expires := false;
                 gr_vnc_auth_connected := 0;
                 gr_listens := [listen] |} in
    mret (set_def_graphics (def_graphics def ++ [gr]) def).

(** Modelled from the spec: [virDomainObjSetState] (conf/domain_conf.c is
    not among the sources) records the state and its reason. *)
Definition virDomainObjSetState (st : virDomainState)
    (reason : virDomainStateReason) (o : virDomainObj) : virDomainObj :=
  set_obj_state (Some (st, reason)) o.

(** [dom->def->id = v] *)
Definition set_dom_def_id (v : Z) (o : virDomainObj) : virDomainObj :=
  set_obj_def (set_def_id v (obj_def o)) o.

Definition prlsdkConvertDomainState (domainState : VIRTUAL_MACHINE_STATE)
    (envId : PRL_UINT32) (dom : virDomainObjPtr) : M unit :=
  match domainState with
  | VMS_STOPPED | VMS_MOUNTED =>
      update_obj dom (fun o => set_dom_def_id (-1)
        (virDomainObjSetState VIR_DOMAIN_SHUTOFF VIR_DOMAIN_SHUTOFF_SHUTDOWN o))
  | VMS_STARTING | VMS_COMPACTING | VMS_RESETTING | VMS_PAUSING
  | VMS_RECONNECTING | VMS_RUNNING =>
      update_obj dom (fun o => set_dom_def_id (int_of_uint32 envId)
        (virDomainObjSetState VIR_DOMAIN_RUNNING VIR_DOMAIN_RUNNING_BOOTED o))
  | VMS_PAUSED =>
      update_obj dom (fun o => set_dom_def_id (int_of_uint32 envId)
        (virDomainObjSetState VIR_DOMAIN_PAUSED VIR_DOMAIN_PAUSED_USER o))
  | VMS_SUSPENDED | VMS_DELETING_STATE | VMS_SUSPENDING_SYNC =>
      update_obj dom (fun o => set_dom_def_id (-1)
        (virDomainObjSetState VIR_DOMAIN_SHUTOFF VIR_DOMAIN_SHUTOFF_SAVED o))
  | VMS_STOPPING =>
      update_obj dom (fun o => set_dom_def_id (int_of_uint32 envId)
        (virDomainObjSetState VIR_DOMAIN_SHUTDOWN VIR_DOMAIN_SHUTDOWN_USER o))
  | VMS_SNAPSHOTING =>
      update_obj dom (fun o => set_dom_def_id (int_of_uint32 envId)
        (virDomainObjSetState VIR_DOMAIN_PAUSED VIR_DOMAIN_PAUSED_SNAPSHOT o))
  | VMS_MIGRATING =>
      update_obj dom (fun o => set_dom_def_id (int_of_uint32 envId)
        (virDomainObjSetState VIR_DOMAIN_PAUSED VIR_DOMAIN_PAUSED_MIGRATION o))
  | VMS_SUSPENDING =>
      update_obj dom (fun o => set_dom_def_id (int_of_uint32 envId)
        (virDomainObjSetState VIR_DOMAIN_PAUSED VIR_DOMAIN_PAUSED_SAVE o))
  | VMS_RESTORING =>
      update_obj dom (fun o => set_dom_def_id (int_of_uint32 envId)
        (virDomainObjSetState VIR_DOMAIN_RUNNING VIR_DOMAIN_RUNNING_RESTORED o))
  | VMS_CONTINUING =>
      update_obj dom (fun o => set_dom_def_id (int_of_uint32 envId)
        (virDomainObjSetState VIR_DOMAIN_RUNNING VIR_DOMAIN_RUNNING_UNPAUSED o))
  | VMS_RESUMING =>
      update_obj dom (fun o => set_dom_def_id (int_of_uint32 envId)
        (virDomainObjSetState VIR_DOMAIN_RUNNING VIR_DOMAIN_RUNNING_RESTORED o))
  | VMS_UNKNOWN =>
      update_obj dom
        (virDomainObjSetState VIR_DOMAIN_NOSTATE VIR_DOMAIN_NOSTATE_UNKNOWN)
  | VMS_other raw =>
      virReportError VIR_ERR_INTERNAL_ERROR
        ("Unknown domain state: " +:+ Hex.format raw);;
      fail
  end.

(** [buf] has no initial value and the cleanup label frees it: a jump
    there before [VIR_ALLOC_N (buf, buflen)] frees a pointer that was
    never assigned.  The result of the call that fills [buf] is not
    tested. *)
Definition prlsdkConvertCpuInfo (sdkdom : PRL_HANDLE) (def : virDomainDef)
    (pdom : parallelsDomObj) : M (virDomainDef * parallelsDomObj) :=
  let hostcpus := nodeGetCPUCount host in
  if hostcpus <? 0 then fault
  else
    let '(pret, cpuCount) := PrlVmCfg_GetCpuCount sdk sdkdom in
    if PRL_FAILED sdk pret then logPrlError pret;; fault
    else
      let cpuCount := if cpuCount >? hostcpus then hostcpus else cpuCount in
      let def := set_def_vcpus cpuCount def in
      let def := set_def_maxvcpus cpuCount def in
      let '(pret, _) := PrlVmCfg_GetCpuMask sdk sdkdom false in
      if PRL_FAILED sdk pret then logPrlError pret;; fault
      else
        let '(_, buf) := PrlVmCfg_GetCpuMask sdk sdkdom true in
        if (String.length buf =? 0)%nat then
          match virBitmapNew hostcpus with
          | None => fail
          | Some cpumask =>
              mret (def, set_pdom_cpumask (Some (virBitmapSetAll cpumask)) pdom)
          end
        else
          match virBitmapParse host buf hostcpus with
          | None => fail
          | Some cpumask => mret (def, set_pdom_cpumask (Some cpumask) pdom)
          end.

Definition prlsdkConvertDomainType (sdkdom : PRL_HANDLE)
    (def : virDomainDef) : M virDomainDef :=
  let '(pret, domainType) := PrlVmCfg_GetVmType sdk sdkdom in
  prlsdkCheckRetGoto pret;;
  match domainType with
  | PVT_VM => mret (set_def_os_type (Some "hvm"%string) def)
  | PVT_CT =>
      mret (set_def_os_init (Some "/sbin/init"%string)
              (set_def_os_type (Some "exe"%string) def))
  | PVT_other raw =>
      virReportError VIR_ERR_INTERNAL_ERROR
        ("Unknown domain type: " +:+ Hex.format raw);;
      fail
  end.

Definition prlsdkConvertCpuMode (sdkdom : PRL_HANDLE)
    (def : virDomainDef) : M virDomainDef :=
  let '(pret, cpuMode) := PrlVmCfg_GetCpuMode sdk sdkdom in
  prlsdkCheckRetGoto pret;;
  match cpuMode with
  | PCM_CPU_MODE_32 => mret (set_def_os_arch (Some VIR_ARCH_I686) def)
  | PCM_CPU_MODE_64 => mret (set_def_os_arch (Some VIR_ARCH_X86_64) def)
  | PCM_other raw =>
      virReportError VIR_ERR_INTERNAL_ERROR
        ("Unknown CPU mode: " +:+ Hex.format raw);;
      fail
  end.

(** [prlsdkLoadDomain] up to the point where the slot is taken: the
    definition, the private data and the instance id are built from the
    snapshot alone. *)
Definition prlsdkLoadDomain_build (sdkdom : PRL_HANDLE) (def : virDomainDef)
    (pdom : parallelsDomObj)
  : M (virDomainDef * parallelsDomObj * PRL_UINT32) :=
  '(name, uuid) ← prlsdkGetDomainIds sdkdom;
  let def := set_def_uuid uuid (set_def_name (Some name) def) in
  let def := set_def_onReboot (Some VIR_DOMAIN_LIFECYCLE_RESTART) def in
  let def := set_def_onPoweroff (Some VIR_DOMAIN_LIFECYCLE_DESTROY) def in
  let def := set_def_onCrash (Some VIR_DOMAIN_LIFECYCLE_CRASH_DESTROY) def in
  let '(pret, ram) := PrlVmCfg_GetRamSize sdk sdkdom in
  prlsdkCheckRetGoto pret;;
  let def := set_def_mem_max_balloon (shl10_uint32 ram) def in
  let def := set_def_mem_cur_balloon (def_mem_max_balloon def) def in
  '(def, pdom) ← prlsdkConvertCpuInfo sdkdom def pdom;
  def ← prlsdkConvertCpuMode sdkdom def;
  def ← prlsdkConvertDomainType sdkdom def;
  def ← prlsdkAddDomainHardware sdkdom def;
  def ← prlsdkAddVNCInfo sdkdom def;
  let '(pret, envId) := PrlVmCfg_GetEnvId sdk sdkdom in
  prlsdkCheckRetGoto pret;;
  let pdom := set_pdom_id (int_of_uint32 envId) pdom in
  let '(pret, _) := PrlVmCfg_GetHomePath sdk sdkdom false in
  prlsdkCheckRetGoto pret;;
  let '(pret, home) := PrlVmCfg_GetHomePath sdk sdkdom true in
  prlsdkCheckRetGoto pret;;
  let pdom := set_pdom_home (Some home) pdom in
  mret (def, pdom, envId).

(** [prlsdkLoadDomain] from the comment "dom is locked here" on. *)
Definition prlsdkLoadDomain_finish (privconn : parallelsConn)
    (sdkdom : PRL_HANDLE) (dom : virDomainObjPtr) (pdom : parallelsDomObj)
    (envId : PRL_UINT32) : M virDomainObjPtr :=
  update_obj dom (fun o =>
    set_obj_persistent 1
      (set_obj_privateDataFreeFunc (Some prlsdkDomObjFreePrivate_ptr)
         (set_obj_privateData (Some pdom) o)));;
  domainState ← prlsdkGetDomainState privconn sdkdom;
  prlsdkConvertDomainState domainState envId dom;;
  let '(pret, autostart) := PrlVmCfg_GetAutoStart sdk sdkdom in
  prlsdkCheckRetGoto pret;;
  a ← match autostart with
      | PAO_VM_START_ON_LOAD => mret 1
      | PAO_VM_START_MANUAL => mret 0
      | PAO_other raw =>
          virReportError VIR_ERR_INTERNAL_ERROR
            ("Unknown autostart mode: " +:+ Hex.format raw);;
          fail
      end;
  update_obj dom (set_obj_autostart a);;
  (if pdom_sdkdom pdom =? PRL_INVALID_HANDLE then
     pret ← PrlHandle_AddRef sdkdom;
     prlsdkCheckRetGoto pret;;
     update_obj dom (set_obj_privateData (Some (set_pdom_sdkdom sdkdom pdom)))
   else mret tt);;
  mret dom.

(** [virDomainDefFree (dom->def); virDomainDefFree (dom->newDef)] on the
    slot of a refresh: a definition that was freed already, or the same
    definition under both pointers, is freed twice. *)
Definition virDomainDefFree_slot (o : virDomainObj) : M unit :=
  if obj_def_freed o then fault
  else match obj_newDef o with
       | NewDefSameAsDef => fault
       | NewDefNull | NewDefOther _ => mret tt
       end.

(** The locked domain object.  With [olddom] the private data is the
    slot's own, which [pdom->uuid = NULL] writes to at once.  The error
    label ends with [virDomainDefFree (def)] and
    [prlsdkDomObjFreePrivate (pdom)]: with [olddom], [def] is the
    definition that [dom->def] and [dom->newDef] point to once it is
    assigned, and [pdom] is the private data of the slot. *)
Definition prlsdkLoadDomain (privconn : parallelsConn) (sdkdom : PRL_HANDLE)
    (olddom : option virDomainObjPtr) : M virDomainObjPtr :=
  if sdkdom =? PRL_INVALID_HANDLE then
    virReportError VIR_ERR_INVALID_ARG
      "sdkdom in prlsdkLoadDomain must not be NULL";;
    fail
  else
    pdom ← match olddom with
           | None => mret parallelsDomObj_zero
           | Some old =>
               o ← get_obj old;
               match obj_privateData o with
               | Some pdom =>
                   if obj_privateData_freed o then fault else mret pdom
               | None => fault
               end
           end;
    let def := set_def_virtType (Some VIR_DOMAIN_VIRT_PARALLELS)
                 virDomainDef_zero in
    let def := set_def_id (-1) def in
    let pdom := set_pdom_uuid None pdom in
    '(def, pdom, envId) ←
      or_else (prlsdkLoadDomain_build sdkdom def pdom)
              (prlsdkDomObjFreePrivate olddom (Some pdom));
    dom ← match olddom with
          | Some old =>
              o ← get_obj old;
              virDomainDefFree_slot o;;
              update_obj old (fun o =>
                set_obj_newDef NewDefSameAsDef (set_obj_def def o));;
              mret old
          | None =>
              or_else (virDomainObjListAdd def)
                      (prlsdkDomObjFreePrivate None (Some pdom))
          end;
    or_else (prlsdkLoadDomain_finish privconn sdkdom dom pdom envId)
            ((match olddom with
              | None => virDomainObjListRemove dom
              | Some old => update_obj old (set_obj_def_freed true)
              end);;
             prlsdkDomObjFreePrivate olddom (Some pdom)).

Fixpoint prlsdkLoadDomains_loop (privconn : parallelsConn)
    (result : PRL_HANDLE) (n : nat) (i : Z) : M unit :=
  match n with
  | O => mret tt
  | S n' =>
      let '(pret, sdkdom) := PrlResult_GetParamByIndex sdk result i in
      (if PRL_FAILED sdk pret then
         logPrlError pret;; PrlHandle_Free sdkdom;; fail
       else mret tt);;
      dom ← attempt (prlsdkLoadDomain privconn sdkdom None);
      PrlHandle_Free sdkdom;;
      match dom with
      | None => fail
      | Some dom =>
          virObjectUnlock dom;;
          prlsdkLoadDomains_loop privconn result n' (i + 1)
      end
  end.

Definition prlsdkLoadDomains (privconn : parallelsConn) : M unit :=
  job ← PrlSrv_GetVmListEx (server privconn) (Z.lor (PVTF_VM sdk) (PVTF_CT sdk));
  result ← getJobResult job (jobTimeout privconn);
  if result =? PRL_INVALID_HANDLE then fail
  else
    or_else
      (let '(pret, paramsCount) := PrlResult_GetParamsCount sdk result in
       prlsdkCheckRetGoto pret;;
       prlsdkLoadDomains_loop privconn result (Z.to_nat paramsCount) 0)
      (PrlHandle_Free result;; PrlHandle_Free job);;
    PrlHandle_Free result;;
    mret tt.

Definition prlsdkAddDomain (privconn : parallelsConn) (uuid : uuid_t)
  : M virDomainObjPtr :=
  dom ← virDomainObjListFindByUUID uuid;
  match dom with
  | Some dom => mret dom
  | None =>
      sdkdom ← prlsdkSdkDomainLookupByUUID privconn uuid;
      if sdkdom =? PRL_INVALID_HANDLE then fail
      else
        dom ← attempt (prlsdkLoadDomain privconn sdkdom None);
        PrlHandle_Free sdkdom;;
        match dom with
        | None => fail
        | Some dom => mret dom
        end
  end.

End Driver.

(** ** A concrete host

    One server with one domain snapshot (handle 200): a disk (300), two
    network adapters (400 and 401), no serial port, VNC in auto mode on
    port 5901 bound to 0.0.0.0, instance id 42.  The knobs: the
    personality, the run state with the result code of its query, the
    result code of the parameter count of the inventory, the RAM size
    in mebibytes. *)
Module Scenario.

Definition uuid : uuid_t :=
  [x55; x0e; x84; x00; xe2; x9b; x41; xd4; xa7; x16; x44; x66; x55; x44; x00; x00]%byte.

Definition wire_uuid : string := "{550e8400-e29b-41d4-a716-446655440000}".

Definition ok {A} (a : A) : PRL_RESULT * A := (0, a).

Definition sdk (vmType : PRL_VM_TYPE) (state : VIRTUAL_MACHINE_STATE)
    (state_ret count_ret : PRL_RESULT) (ram : PRL_UINT32) : Sdk :=
  {| PRL_FAILED := fun c => c <? 0;
     PrlApi_GetResultDescription := fun _ brief =>
       if brief then "SDK error"%string else "the SDK call failed"%string;
     PrlEvent_GetErrCode := fun _ => ok 0;
     PrlEvent_GetErrString := fun _ brief =>
       if brief then "job error"%string else "the job failed"%string;
     PrlJob_Wait := fun _ _ => 0;
     PrlJob_GetRetCode := fun _ => ok 0;
     PrlJob_GetError := fun job => ok (job + 50);
     PrlJob_GetResult := fun job => ok (job + 100);
     PrlResult_GetParamsCount := fun _ => (count_ret, 1);
     PrlResult_GetParamByIndex := fun result _ =>
       if result =? 112 then ok 500 else ok 200;
     PrlHandle_AddRef_ret := fun _ => 0;
     PrlSrv_Create := ok 1;
     PrlSrv_LoginLocalEx_job := fun _ => 13;
     PrlSrv_Logoff_job := fun _ => 14;
     PrlSrv_GetVmConfig_job := fun _ _ _ => 11;
     PrlSrv_GetVmListEx_job := fun _ _ => 10;
     PrlVm_GetState_job := fun _ => 12;
     PrlVmInfo_GetState := fun _ => (state_ret, state);
     PrlVmCfg_GetName := fun _ _ => ok "vm1"%string;
     PrlVmCfg_GetUuid := fun _ => ok wire_uuid;
     PrlVmCfg_GetRamSize := fun _ => ok ram;
     PrlVmCfg_GetCpuCount := fun _ => ok 16;
     PrlVmCfg_GetCpuMask := fun _ _ => ok ""%string;
     PrlVmCfg_GetCpuMode := fun _ => ok PCM_CPU_MODE_64;
     PrlVmCfg_GetVmType := fun _ => ok vmType;
     PrlVmCfg_GetVideoRamSize := fun _ => ok 32;
     PrlVmCfg_GetHardDisksCount := fun _ => ok 1;
     PrlVmCfg_GetHardDisk := fun _ i => ok (300 + i);
     PrlVmCfg_GetNetAdaptersCount := fun _ => ok 2;
     PrlVmCfg_GetNetAdapter := fun _ i => ok (400 + i);
     PrlVmCfg_GetSerialPortsCount := fun _ => ok 0;
     PrlVmCfg_GetSerialPort := fun _ i => ok (600 + i);
     PrlVmCfg_GetVNCMode := fun _ => ok PRD_AUTO;
     PrlVmCfg_GetVNCPort := fun _ => ok 5901;
     PrlVmCfg_GetVNCHostName := fun _ _ => ok "0.0.0.0"%string;
     PrlVmCfg_GetEnvId := fun _ => ok 42;
     PrlVmCfg_GetHomePath := fun _ _ => ok "/vz/vm1"%string;
     PrlVmCfg_GetAutoStart := fun _ => ok PAO_VM_START_MANUAL;
     PrlVmDev_GetEmulatedType := fun _ => ok 1;
     PrlVmDev_GetFriendlyName := fun _ _ => ok "/vz/vm1/harddisk.hdd"%string;
     PrlVmDev_GetIfaceType := fun _ => ok PMS_SATA_DEVICE;
     PrlVmDev_GetStackIndex := fun _ => ok 0;
     PrlVmDev_GetIndex := fun h => ok (if h <? 400 then 1 else h - 400);
     PrlVmDev_IsConnected := fun _ => ok true;
     PrlVmDevNet_GetHostInterfaceName := fun _ _ => ok "vme0"%string;
     PrlVmDevNet_GetMacAddressCanonical := fun h =>
       ok (if h =? 400 then "00:1c:42:00:00:01"%string else "junk"%string);
     PrlVmDevNet_GetVirtualNetworkId := fun _ _ => ok "Bridged"%string;
     PDT_USE_IMAGE_FILE := 1;
     PDT_USE_OUTPUT_FILE := 1;
     PDT_USE_SERIAL_PORT_SOCKET_MODE := 2;
     PDT_USE_REAL_DEVICE := 0;
     PNA_ROUTED := 5;
     PGVC_SEARCH_BY_UUID := 1;
     PVTF_VM := 1;
     PVTF_CT := 2 |}.

(** [mac_ok] tells whether the text of the second adapter parses. *)
Definition host (mac_ok : bool) : Host :=
  {| nodeGetCPUCount := 8;
     virBitmapParse := fun _ _ => None;
     virMacAddrParse := fun s =>
       if decide (s = "junk"%string)
       then (if mac_ok then Some [x00; x1c; x42; x00; x00; x02]%byte else None)
       else Some [x00; x1c; x42; x00; x00; x01]%byte;
     PARALLELS_ROUTED_NETWORK_NAME := "Routed" |}.

Definition privconn : parallelsConn :=
  {| server := 1; jobTimeout := JOB_INFINIT_WAIT_TIMEOUT |}.

Definition empty_world : world :=
  {| w_domains := ∅; w_objs := ∅; w_trace := [] |}.

End Scenario.

(** ** Variants of the concrete host

    The SDK of [Scenario] for a running full machine, with three more
    knobs: the return code of every job, the result code of the query
    of the error code of an error event, and the number of serial ports
    of the snapshot (the ports have the handles 600, 601, ...). *)
Module Variant.

Definition base : Sdk := Scenario.sdk PVT_VM VMS_RUNNING 0 0 1024.

Definition sdk (retCode errRet : PRL_RESULT) (serialPorts : PRL_UINT32) : Sdk :=
  {|
     PRL_FAILED := PRL_FAILED base;
     PrlApi_GetResultDescription := PrlApi_GetResultDescription base;
     PrlEvent_GetErrCode := fun _ => (errRet, 0);
     PrlEvent_GetErrString := PrlEvent_GetErrString base;
     PrlJob_Wait := PrlJob_Wait base;
     PrlJob_GetRetCode := fun _ => (0, retCode);
     PrlJob_GetError := PrlJob_GetError base;
     PrlJob_GetResult := PrlJob_GetResult base;
     PrlResult_GetParamsCount := PrlResult_GetParamsCount base;
     PrlResult_GetParamByIndex := PrlResult_GetParamByIndex base;
     PrlHandle_AddRef_ret := PrlHandle_AddRef_ret base;
     PrlSrv_Create := PrlSrv_Create base;
     PrlSrv_LoginLocalEx_job := PrlSrv_LoginLocalEx_job base;
     PrlSrv_Logoff_job := PrlSrv_Logoff_job base;
     PrlSrv_GetVmConfig_job := PrlSrv_GetVmConfig_job base;
     PrlSrv_GetVmListEx_job := PrlSrv_GetVmListEx_job base;
     PrlVm_GetState_job := PrlVm_GetState_job base;
     PrlVmInfo_GetState := PrlVmInfo_GetState base;
     PrlVmCfg_GetName := PrlVmCfg_GetName base;
     PrlVmCfg_GetUuid := PrlVmCfg_GetUuid base;
     PrlVmCfg_GetRamSize := PrlVmCfg_GetRamSize base;
     PrlVmCfg_GetCpuCount := PrlVmCfg_GetCpuCount base;
     PrlVmCfg_GetCpuMask := PrlVmCfg_GetCpuMask base;
     PrlVmCfg_GetCpuMode := PrlVmCfg_GetCpuMode base;
     PrlVmCfg_GetVmType := PrlVmCfg_GetVmType base;
     PrlVmCfg_GetVideoRamSize := PrlVmCfg_GetVideoRamSize base;
     PrlVmCfg_GetHardDisksCount := PrlVmCfg_GetHardDisksCount base;
     PrlVmCfg_GetHardDisk := PrlVmCfg_GetHardDisk base;
     PrlVmCfg_GetNetAdaptersCount := PrlVmCfg_GetNetAdaptersCount base;
     PrlVmCfg_GetNetAdapter := PrlVmCfg_GetNetAdapter base;
     PrlVmCfg_GetSerialPortsCount := fun _ => (0, serialPorts);
     PrlVmCfg_GetSerialPort := PrlVmCfg_GetSerialPort base;
     PrlVmCfg_GetVNCMode := PrlVmCfg_GetVNCMode base;
     PrlVmCfg_GetVNCPort := PrlVmCfg_GetVNCPort base;
     PrlVmCfg_GetVNCHostName := PrlVmCfg_GetVNCHostName base;
     PrlVmCfg_GetEnvId := PrlVmCfg_GetEnvId base;
     PrlVmCfg_GetHomePath := PrlVmCfg_GetHomePath base;
     PrlVmCfg_GetAutoStart := PrlVmCfg_GetAutoStart base;
     PrlVmDev_GetEmulatedType := PrlVmDev_GetEmulatedType base;
     PrlVmDev_GetFriendlyName := PrlVmDev_GetFriendlyName base;
     PrlVmDev_GetIfaceType := PrlVmDev_GetIfaceType base;
     PrlVmDev_GetStackIndex := PrlVmDev_GetStackIndex base;
     PrlVmDev_GetIndex := PrlVmDev_GetIndex base;
     PrlVmDev_IsConnected := PrlVmDev_IsConnected base;
     PrlVmDevNet_GetHostInterfaceName := PrlVmDevNet_GetHostInterfaceName base;
     PrlVmDevNet_GetMacAddressCanonical := PrlVmDevNet_GetMacAddressCanonical base;
     PrlVmDevNet_GetVirtualNetworkId := PrlVmDevNet_GetVirtualNetworkId base;
     PDT_USE_IMAGE_FILE := PDT_USE_IMAGE_FILE base;
     PDT_USE_OUTPUT_FILE := PDT_USE_OUTPUT_FILE base;
     PDT_USE_SERIAL_PORT_SOCKET_MODE := PDT_USE_SERIAL_PORT_SOCKET_MODE base;
     PDT_USE_REAL_DEVICE := PDT_USE_REAL_DEVICE base;
     PNA_ROUTED := PNA_ROUTED base;
     PGVC_SEARCH_BY_UUID := PGVC_SEARCH_BY_UUID base;
     PVTF_VM := PVTF_VM base;
     PVTF_CT := PVTF_CT base |}.

(** An SDK whose lookups succeed with the null handle for a snapshot. *)
Definition null_snapshot : Sdk :=
  {|
     PRL_FAILED := PRL_FAILED base;
     PrlApi_GetResultDescription := PrlApi_GetResultDescription base;
     PrlEvent_GetErrCode := PrlEvent_GetErrCode base;
     PrlEvent_GetErrString := PrlEvent_GetErrString base;
     PrlJob_Wait := PrlJob_Wait base;
     PrlJob_GetRetCode := PrlJob_GetRetCode base;
     PrlJob_GetError := PrlJob_GetError base;
     PrlJob_GetResult := PrlJob_GetResult base;
     PrlResult_GetParamsCount := PrlResult_GetParamsCount base;
     PrlResult_GetParamByIndex := fun _ _ => (0, PRL_INVALID_HANDLE);
     PrlHandle_AddRef_ret := PrlHandle_AddRef_ret base;
     PrlSrv_Create := PrlSrv_Create base;
     PrlSrv_LoginLocalEx_job := PrlSrv_LoginLocalEx_job base;
     PrlSrv_Logoff_job := PrlSrv_Logoff_job base;
     PrlSrv_GetVmConfig_job := PrlSrv_GetVmConfig_job base;
     PrlSrv_GetVmListEx_job := PrlSrv_GetVmListEx_job base;
     PrlVm_GetState_job := PrlVm_GetState_job base;
     PrlVmInfo_GetState := PrlVmInfo_GetState base;
     PrlVmCfg_GetName := PrlVmCfg_GetName base;
     PrlVmCfg_GetUuid := PrlVmCfg_GetUuid base;
     PrlVmCfg_GetRamSize := PrlVmCfg_GetRamSize base;
     PrlVmCfg_GetCpuCount := PrlVmCfg_GetCpuCount base;
     PrlVmCfg_GetCpuMask := PrlVmCfg_GetCpuMask base;
     PrlVmCfg_GetCpuMode := PrlVmCfg_GetCpuMode base;
     PrlVmCfg_GetVmType := PrlVmCfg_GetVmType base;
     PrlVmCfg_GetVideoRamSize := PrlVmCfg_GetVideoRamSize base;
     PrlVmCfg_GetHardDisksCount := PrlVmCfg_GetHardDisksCount base;
     PrlVmCfg_GetHardDisk := PrlVmCfg_GetHardDisk base;
     PrlVmCfg_GetNetAdaptersCount := PrlVmCfg_GetNetAdaptersCount base;
     PrlVmCfg_GetNetAdapter := PrlVmCfg_GetNetAdapter base;
     PrlVmCfg_GetSerialPortsCount := PrlVmCfg_GetSerialPortsCount base;
     PrlVmCfg_GetSerialPort := PrlVmCfg_GetSerialPort base;
     PrlVmCfg_GetVNCMode := PrlVmCfg_GetVNCMode base;
     PrlVmCfg_GetVNCPort := PrlVmCfg_GetVNCPort base;
     PrlVmCfg_GetVNCHostName := PrlVmCfg_GetVNCHostName base;
     PrlVmCfg_GetEnvId := PrlVmCfg_GetEnvId base;
     PrlVmCfg_GetHomePath := PrlVmCfg_GetHomePath base;
     PrlVmCfg_GetAutoStart := PrlVmCfg_GetAutoStart base;
     PrlVmDev_GetEmulatedType := PrlVmDev_GetEmulatedType base;
     PrlVmDev_GetFriendlyName := PrlVmDev_GetFriendlyName base;
     PrlVmDev_GetIfaceType := PrlVmDev_GetIfaceType base;
     PrlVmDev_GetStackIndex := PrlVmDev_GetStackIndex base;
     PrlVmDev_GetIndex := PrlVmDev_GetIndex base;
     PrlVmDev_IsConnected := PrlVmDev_IsConnected base;
     PrlVmDevNet_GetHostInterfaceName := PrlVmDevNet_GetHostInterfaceName base;
     PrlVmDevNet_GetMacAddressCanonical := PrlVmDevNet_GetMacAddressCanonical base;
     PrlVmDevNet_GetVirtualNetworkId := PrlVmDevNet_GetVirtualNetworkId base;
     PDT_USE_IMAGE_FILE := PDT_USE_IMAGE_FILE base;
     PDT_USE_OUTPUT_FILE := PDT_USE_OUTPUT_FILE base;
     PDT_USE_SERIAL_PORT_SOCKET_MODE := PDT_USE_SERIAL_PORT_SOCKET_MODE base;
     PDT_USE_REAL_DEVICE := PDT_USE_REAL_DEVICE base;
     PNA_ROUTED := PNA_ROUTED base;
     PGVC_SEARCH_BY_UUID := PGVC_SEARCH_BY_UUID base;
     PVTF_VM := PVTF_VM base;
     PVTF_CT := PVTF_CT base |}.

(** A host on which the number of CPUs cannot be read. *)
Definition host_without_cpus : Host :=
  {| nodeGetCPUCount := -1;
     virBitmapParse := virBitmapParse (Scenario.host true);
     virMacAddrParse := virMacAddrParse (Scenario.host true);
     PARALLELS_ROUTED_NETWORK_NAME :=
       PARALLELS_ROUTED_NETWORK_NAME (Scenario.host true) |}.

(** The handle of a venet device: its index is 0xFFFFFFFF. *)
Definition venet : PRL_HANDLE := 400 + (2 ^ 32 - 1).

End Variant.

(** ** Predicates and relations of the properties *)

(** A character a canonical UUID may hold. *)
Definition hex_or_dash (c : ascii) : Prop :=
  is_Some (Uuid.hex_value c) \/ c = "-"%char.

(** The text that [prlsdkUUIDParse] hands to [virUUIDParse]: the C
    string without its first and its last character. *)
Definition stripped (uuidstr : list ascii) : list ascii :=
  tail (removelast (c_str uuidstr)).

(** [w] after the error that [prlsdkUUIDParse] reports. *)
Definition malformed_report (w : world) : world :=
  {| w_domains := w_domains w; w_objs := w_objs w;
     w_trace := EvReport VIR_ERR_INTERNAL_ERROR "UUID in config file malformed"
                :: w_trace w |}.

(** The wire form of the spec: a canonical UUID between one brace on
    each side. *)
Definition wire_form (s : list ascii) : Prop :=
  exists body, s = "{"%char :: body ++ ["}"%char] /\ is_Some (virUUIDParse body).

(** A canonical UUID between two characters that are no braces. *)
Definition other_delimiters : list ascii :=
  list_ascii_of_string "x550e8400-e29b-41d4-a716-446655440000y".

(** The run states the driver has a [case] for. *)
Definition known_state (st : VIRTUAL_MACHINE_STATE) : Prop :=
  match st with
  | VMS_other _ => False
  | _ => True
  end.

(** [w] with the object at [dom] replaced by [o]. *)
Definition with_obj (dom : virDomainObjPtr) (o : virDomainObj) (w : world) : world :=
  {| w_domains := w_domains w; w_objs := <[dom := o]> (w_objs w);
     w_trace := w_trace w |}.

(** The definition as [prlsdkLoadDomain] initialises it. *)
Definition fresh_def : virDomainDef :=
  set_def_id (-1)
    (set_def_virtType (Some VIR_DOMAIN_VIRT_PARALLELS) virDomainDef_zero).

(** A world with one domain object, fresh from [virDomainObjListAdd],
    holding that definition. *)
Definition one_domain_world : world :=
  {| w_domains := {[ def_uuid fresh_def := 1%positive ]};
     w_objs := {[ 1%positive := virDomainObjNew fresh_def ]};
     w_trace := [] |}.

(** A relation between the world before and the world after is
    preserved by a computation when every run that returns respects it. *)
Definition preserves {A} (R : relation world) (m : M A) : Prop :=
  forall w, match m w with
            | Ok _ w' | Fail w' => R w w'
            | Fault => True
            end.

(** The run added the events [evs], all of them in [P], and left the
    domain list and the domain objects alone. *)
Definition extends (P : event -> Prop) (w w' : world) : Prop :=
  w_domains w' = w_domains w /\ w_objs w' = w_objs w /\
  exists evs, w_trace w' = evs ++ w_trace w /\ Forall P evs.

(** The events of the SDK side: errors, warnings, jobs, handles. *)
Definition sdk_event (e : event) : Prop :=
  match e with
  | EvListAdd _ _ | EvListRemove _ => False
  | _ => True
  end.

(** The two objects have the same lock and the same definition, the
    instance id apart. *)
Definition same_def_upto_id (o o' : virDomainObj) : Prop :=
  set_def_id 0 (obj_def o') = set_def_id 0 (obj_def o) /\
  obj_locked o' = obj_locked o.

(** Only the object at [dom] changed, and of its definition only the
    instance id; the events added are SDK events. *)
Definition touches (dom : virDomainObjPtr) (w w' : world) : Prop :=
  w_domains w' = w_domains w /\
  (forall p, p <> dom -> w_objs w' !! p = w_objs w !! p) /\
  (forall o, w_objs w !! dom = Some o ->
             exists o', w_objs w' !! dom = Some o' /\ same_def_upto_id o o') /\
  exists evs, w_trace w' = evs ++ w_trace w /\ Forall sdk_event evs.

(** The computation leaves the store alone. *)
Abbreviation sdk_only := (preserves (extends sdk_event)).

(** The events that carry no job and no store change. *)
Definition quiet_event (e : event) : Prop :=
  match e with
  | EvReport _ _ | EvHandleFree _ => True
  | _ => False
  end.

(** [w] after one more event. *)
Definition after (e : event) (w : world) : world :=
  {| w_domains := w_domains w; w_objs := w_objs w;
     w_trace := e :: w_trace w |}.

(** The error [prlsdkSdkDomainLookupByUUID] reports. *)
Definition no_domain_report (uuid : uuid_t) : event :=
  EvReport VIR_ERR_NO_DOMAIN
    ("no domain with matching uuid '"
       +:+ string_of_list_ascii (virUUIDFormat uuid) +:+ "'").

(** The wire form of a UUID: the canonical text between braces. *)
Definition wire_uuid (uuid : uuid_t) : string :=
  string_of_list_ascii ("{"%char :: virUUIDFormat uuid ++ ["}"%char]).

(** How often the trace releases the handle [h]. *)
Fixpoint releases (h : PRL_HANDLE) (tr : list event) : nat :=
  match tr with
  | [] => 0
  | EvHandleFree h' :: tr' =>
      ((if (h' =? h)%Z then 1 else 0) + releases h tr')%nat
  | _ :: tr' => releases h tr'
  end.

(** The display descriptor [prlsdkAddVNCInfo] builds. *)
Definition vnc_graphics (sdk : Sdk) (sdkdom : PRL_HANDLE) : virDomainGraphicsDef :=
  {| gr_type := Some VIR_DOMAIN_GRAPHICS_TYPE_VNC;
     gr_vnc_port := int_of_uint32 (PrlVmCfg_GetVNCPort sdk sdkdom).2;
     gr_vnc_autoport :=
       bool_decide ((PrlVmCfg_GetVNCMode sdk sdkdom).2 = PRD_AUTO);
     gr_vnc_keymap := None;
     gr_vnc_socket := None;
     gr_vnc_auth_passwd := None;
     gr_vnc_auth_expires := false;
     gr_vnc_auth_connected := 0;
     gr_listens :=
       [{| listen_type := Some VIR_DOMAIN_GRAPHICS_LISTEN_TYPE_ADDRESS;
           listen_address := Some (PrlVmCfg_GetVNCHostName sdk sdkdom true).2 |}] |}.

(** The events of a container's disk loop from index [i] on, [n]
    iterations, the latest first: each disk handle is fetched, warned
    about and released. *)
Fixpoint skipped_disks (sdk : Sdk) (sdkdom : PRL_HANDLE) (n : nat) (i : Z)
  : list event :=
  match n with
  | O => []
  | S n' =>
      skipped_disks sdk sdkdom n' (i + 1) ++
      [EvHandleFree (PrlVmCfg_GetHardDisk sdk sdkdom i).2;
       EvWarn "Skipping disk information for container"]
  end.

(** The world after the first load of the domain of [Scenario]. *)
Definition loaded_world : world :=
  match prlsdkLoadDomain (Scenario.sdk PVT_VM VMS_RUNNING 0 0 1024)
          (Scenario.host true) Scenario.privconn 200 None
          Scenario.empty_world with
  | Ok _ w => w
  | _ => Scenario.empty_world
  end.

(** The job completed with a result: the wait and the query of the
    return code succeeded, the return code is zero and the result was
    fetched. *)
Definition job_done (sdk : Sdk) (job : PRL_HANDLE) (timeout : Z) : bool :=
  (PrlJob_Wait sdk job timeout =? 0) &&
  ((PrlJob_GetRetCode sdk job).1 =? 0) &&
  ((PrlJob_GetRetCode sdk job).2 =? 0) &&
  negb (PRL_FAILED sdk (PrlJob_GetResult sdk job).1).

(** [w] after the events [evs], the latest first. *)
Definition after_all (evs : list event) (w : world) : world :=
  {| w_domains := w_domains w; w_objs := w_objs w;
     w_trace := evs ++ w_trace w |}.

(** The error [logPrlErrorHelper] reports for a result code. *)
Definition sdk_error (sdk : Sdk) (err : PRL_RESULT) : event :=
  EvReport VIR_ERR_INTERNAL_ERROR
    (PrlApi_GetResultDescription sdk err true +:+ " " +:+
     PrlApi_GetResultDescription sdk err false).

(** The error [logPrlEventErrorHelper] reports for an error event. *)
Definition sdk_event_error (sdk : Sdk) (err_handle : PRL_HANDLE) : event :=
  EvReport VIR_ERR_INTERNAL_ERROR
    (PrlEvent_GetErrString sdk err_handle true +:+ " " +:+
     PrlEvent_GetErrString sdk err_handle false).

(** The releases of the device handles that [get] gives for the indices
    [i], ..., [i + n - 1], the latest first. *)
Fixpoint device_releases (get : Z -> PRL_RESULT * PRL_HANDLE) (n : nat) (i : Z)
  : list event :=
  match n with
  | O => []
  | S n' => device_releases get n' (i + 1) ++ [EvHandleFree (get i).2]
  end.

(** A computation that, when it returns, has changed nothing and would
    have returned the same from every other world: what it returns is
    read from the SDK alone. *)
Definition reads_only {A} (m : M A) : Prop :=
  forall w a w', m w = Ok a w' -> w' = w /\ forall w0, m w0 = Ok a w0.

(** The events of the construction of a definition: errors, warnings,
    jobs and releases.  No reference is taken and the domain list is
    not touched. *)
Definition build_event (e : event) : Prop :=
  match e with
  | EvReport _ _ | EvWarn _ | EvJob _ _ | EvHandleFree _ => True
  | _ => False
  end.

(** How often the trace takes a reference on the handle [h]. *)
Fixpoint references (h : PRL_HANDLE) (tr : list event) : nat :=
  match tr with
  | [] => 0
  | EvHandleAddRef h' :: tr' =>
      ((if (h' =? h)%Z then 1 else 0) + references h tr')%nat
  | _ :: tr' => references h tr'
  end.

(** How often the trace inserts into the domain list, and how often it
    removes from it. *)
Fixpoint insertions (tr : list event) : nat :=
  match tr with
  | [] => 0
  | EvListAdd _ _ :: tr' => S (insertions tr')
  | _ :: tr' => insertions tr'
  end.

Fixpoint removals (tr : list event) : nat :=
  match tr with
  | [] => 0
  | EvListRemove _ :: tr' => S (removals tr')
  | _ :: tr' => removals tr'
  end.

(** The video device [prlsdkAddDomainVideoInfo] builds. *)
Definition vga_video (sdk : Sdk) (sdkdom : PRL_HANDLE) : virDomainVideoDef :=
  {| video_type := Some VIR_DOMAIN_VIDEO_TYPE_VGA;
     video_vram := shl10_uint32 (PrlVmCfg_GetVideoRamSize sdk sdkdom).2;
     video_heads := 1;
     video_accel := Some {| support3d := false; support2d := false |} |}.

(** The error label of a refresh once the definition is assigned:
    [virDomainDefFree (def)] frees the definition the slot points to,
    [prlsdkDomObjFreePrivate (pdom)] releases the handle and frees the
    private data of the slot. *)
Definition refresh_unwound (old : virDomainObjPtr) (pdom : parallelsDomObj)
    (w : world) : outcome virDomainObjPtr :=
  match w_objs w !! old with
  | Some o =>
      Fail (with_obj old
              (set_obj_privateData_freed true (set_obj_def_freed true o))
              (after (EvHandleFree (pdom_sdkdom pdom)) w))
  | None => Fault
  end.

(** The object at [dom] keeps its pointers: [newDef] points where it
    did, and what [def] and [privateData] point to is freed or not as it
    was. *)
Definition pointers_kept (dom : virDomainObjPtr) (w w' : world) : Prop :=
  forall o, w_objs w !! dom = Some o ->
    exists o', w_objs w' !! dom = Some o' /\
               obj_newDef o' = obj_newDef o /\
               obj_def_freed o' = obj_def_freed o /\
               obj_privateData_freed o' = obj_privateData_freed o.

(** Two computations agree when, from whatever worlds they start, they
    end the same way, and with values in [R] when they return: what
    they do is read from the SDK and from their arguments alone. *)
Definition agree {A B} (R : A -> B -> Prop) (m1 : M A) (m2 : M B) : Prop :=
  forall w1 w2,
    match m1 w1, m2 w2 with
    | Ok a _, Ok b _ => R a b
    | Fail _, Fail _ => True
    | Fault, Fault => True
    | _, _ => False
    end.

(** The disks are those of the snapshot, converted: one for each hard
    disk the snapshot counts, the one of index [k] being what
    [prlsdkGetDiskInfo] returns for the hard disk of index [k]. *)
Definition converted_disks (sdk : Sdk) (sdkdom : PRL_HANDLE)
    (disks : list virDomainDiskDef) : Prop :=
  length disks = Z.to_nat (PrlVmCfg_GetHardDisksCount sdk sdkdom).2 /\
  forall (k : nat) disk w0, disks !! k = Some disk ->
    prlsdkGetDiskInfo sdk (PrlVmCfg_GetHardDisk sdk sdkdom (Z.of_nat k)).2
      virDomainDiskDefNew w0 = Ok disk w0.

(** * Properties *)

(** ** Identity codec *)

Module UuidFacts.

Lemma parse_format_byte (n : nat) (b : byte) (s : list ascii) :
  Uuid.parse_bytes (S n) (Uuid.format_byte b ++ s) =
  '(bs, rest) ← Uuid.parse_bytes n s; Some (b :: bs, rest).
Proof. destruct b; reflexivity. Qed.

Lemma parse_format_bytes (bs : list byte) (rest : list ascii) :
  Uuid.parse_bytes (length bs) (Uuid.format_bytes bs ++ rest) = Some (bs, rest).
Proof.
  induction bs as [|b bs IH]; [reflexivity|].
  unfold Uuid.format_bytes in *. cbn [map concat length].
  rewrite <- app_assoc, parse_format_byte, IH. reflexivity.
Qed.

Lemma format_byte_chars (b : byte) :
  Forall (fun c => c ≠ NUL) (Uuid.format_byte b).
Proof. destruct b; repeat constructor; discriminate. Qed.

Lemma format_bytes_chars (bs : list byte) :
  Forall (fun c => c ≠ NUL) (Uuid.format_bytes bs).
Proof.
  induction bs as [|b bs IH]; [constructor|].
  unfold Uuid.format_bytes. cbn [map concat].
  apply Forall_app. split; [apply format_byte_chars | exact IH].
Qed.

Lemma format_bytes_length (bs : list byte) :
  length (Uuid.format_bytes bs) = (2 * length bs)%nat.
Proof.
  induction bs as [|b bs IH]; [reflexivity|].
  unfold Uuid.format_bytes in *. cbn [map concat].
  rewrite length_app, IH. cbn. lia.
Qed.

End UuidFacts.

Lemma virUUIDParse_virUUIDFormat (u : uuid_t) :
  length u = VIR_UUID_BUFLEN -> virUUIDParse (virUUIDFormat u) = Some u.
Proof.
  intros Hlen. unfold VIR_UUID_BUFLEN in Hlen.
  do 17 (destruct u as [|? u]; try discriminate Hlen).
  unfold virUUIDFormat, virUUIDParse. cbn [take drop].
  rewrite <- (app_nil_r (Uuid.format_bytes [_; _; _; _; _; _])).
  repeat (rewrite (UuidFacts.parse_format_bytes [_;_;_;_])
          || rewrite (UuidFacts.parse_format_bytes [_;_])
          || rewrite (UuidFacts.parse_format_bytes [_;_;_;_;_;_])
          || (cbn [mbind option_bind app Uuid.parse_dash];
              try rewrite decide_True by reflexivity)).
  reflexivity.
Qed.

Lemma virUUIDFormat_length (u : uuid_t) :
  length u = VIR_UUID_BUFLEN -> length (virUUIDFormat u) = VIR_UUID_STRING_LEN.
Proof.
  intros Hlen. unfold VIR_UUID_BUFLEN in Hlen.
  do 17 (destruct u as [|? u]; try discriminate Hlen).
  unfold virUUIDFormat. cbn [take drop].
  repeat rewrite length_app. repeat rewrite UuidFacts.format_bytes_length.
  reflexivity.
Qed.

Lemma virUUIDFormat_chars (u : uuid_t) :
  Forall (fun c => c ≠ NUL) (virUUIDFormat u).
Proof.
  unfold virUUIDFormat.
  repeat (apply Forall_app; split);
    try apply UuidFacts.format_bytes_chars;
    repeat constructor; discriminate.
Qed.

Lemma c_str_terminated (l r : list ascii) :
  Forall (fun c => c ≠ NUL) l -> c_str (l ++ NUL :: r) = l.
Proof.
  induction 1 as [|c l Hc _ IH]; cbn [c_str app].
  - rewrite decide_True by reflexivity. reflexivity.
  - rewrite decide_False by exact Hc. rewrite IH. reflexivity.
Qed.

(** Whatever the buffer held, it ends up holding the canonical text
    between braces, terminated. *)
Lemma prlsdkUUIDFormat_buffer (u : uuid_t) (buf : list ascii) :
  length u = VIR_UUID_BUFLEN ->
  length buf = (VIR_UUID_STRING_BUFLEN + 2)%nat ->
  prlsdkUUIDFormat u buf = "{"%char :: virUUIDFormat u ++ ["}"%char; NUL].
Proof.
  intros Hu Hbuf. apply virUUIDFormat_length in Hu.
  unfold prlsdkUUIDFormat. generalize dependent (virUUIDFormat u).
  intros f Hf. unfold VIR_UUID_STRING_LEN in Hf.
  do 37 (destruct f as [|? f]; try discriminate Hf).
  cbn in Hbuf.
  do 40 (destruct buf as [|? buf]; try discriminate Hbuf).
  reflexivity.
Qed.

Lemma prlsdkUUIDFormat_c_str (u : uuid_t) (buf : list ascii) :
  length u = VIR_UUID_BUFLEN ->
  length buf = (VIR_UUID_STRING_BUFLEN + 2)%nat ->
  c_str (prlsdkUUIDFormat u buf) = "{"%char :: virUUIDFormat u ++ ["}"%char].
Proof.
  intros Hu Hbuf. rewrite prlsdkUUIDFormat_buffer by assumption.
  replace ("{"%char :: virUUIDFormat u ++ ["}"%char; NUL])
    with (("{"%char :: virUUIDFormat u ++ ["}"%char]) ++ NUL :: [])
    by (cbn [app]; rewrite <- app_assoc; reflexivity).
  apply c_str_terminated. constructor; [discriminate|].
  apply Forall_app. split; [apply virUUIDFormat_chars|].
  repeat constructor; discriminate.
Qed.

Lemma parse_bytes_consumes (n : nat) (s r : list ascii) (bs : list byte) :
  Uuid.parse_bytes n s = Some (bs, r) ->
  exists pre, s = pre ++ r /\ length pre = (2 * n)%nat /\ length bs = n /\
              Forall hex_or_dash pre.
Proof.
  revert s bs. induction n as [|n IH]; intros s bs H; cbn [Uuid.parse_bytes] in H.
  - injection H as <- <-. exists []. split; [reflexivity|].
    split; [reflexivity|]. split; [reflexivity|]. constructor.
  - destruct s as [|hi [|lo s]]; try discriminate H.
    destruct (Uuid.hex_value hi) as [h|] eqn:Hh; [|discriminate H].
    destruct (Uuid.hex_value lo) as [l|] eqn:Hl; [|discriminate H].
    cbn [mbind option_bind] in H.
    destruct (of_N _) as [b|]; [|discriminate H].
    cbn [mbind option_bind] in H.
    destruct (Uuid.parse_bytes n s) as [[bs' r']|] eqn:Hrec; [|discriminate H].
    cbn [mbind option_bind] in H. injection H as <- <-.
    destruct (IH _ _ Hrec) as (pre & -> & Hlen & Hbs & Hpre).
    exists (hi :: lo :: pre). split; [reflexivity|].
    split; [cbn [length]; lia|]. split; [cbn [length]; lia|].
    constructor; [left; rewrite Hh; eauto|].
    constructor; [left; rewrite Hl; eauto|]. exact Hpre.
Qed.

Lemma parse_dash_consumes (s r : list ascii) :
  Uuid.parse_dash s = Some r -> s = "-"%char :: r.
Proof.
  destruct s as [|c s]; [discriminate|]. cbn [Uuid.parse_dash].
  destruct (decide (c = "-"%char)) as [->|]; [|discriminate].
  intros [= <-]. reflexivity.
Qed.

Lemma virUUIDParse_shape (s : list ascii) (u : uuid_t) :
  virUUIDParse s = Some u ->
  length s = VIR_UUID_STRING_LEN /\ length u = VIR_UUID_BUFLEN /\
  Forall hex_or_dash s.
Proof.
  unfold virUUIDParse. intros H.
  repeat match type of H with
  | (Uuid.parse_bytes ?n ?s ≫= _) = Some _ =>
      let E := fresh "E" in
      destruct (Uuid.parse_bytes n s) as [[? ?]|] eqn:E; [|discriminate H];
      cbn [mbind option_bind] in H;
      apply parse_bytes_consumes in E; destruct E as (? & -> & ? & ? & ?)
  | (Uuid.parse_dash ?s ≫= _) = Some _ =>
      let E := fresh "E" in
      destruct (Uuid.parse_dash s) as [?|] eqn:E; [|discriminate H];
      cbn [mbind option_bind] in H;
      apply parse_dash_consumes in E; subst
  end.
  match type of H with
  | match ?rest with [] => _ | _ :: _ => _ end = _ =>
      destruct rest; [|discriminate H]
  end.
  injection H as <-.
  unfold VIR_UUID_STRING_LEN, VIR_UUID_BUFLEN.
  split; [repeat (rewrite length_app || cbn [length]); lia|].
  split; [repeat rewrite length_app; lia|].
  repeat first [ assumption
               | apply Forall_app; split
               | apply Forall_cons; split; [right; reflexivity|]
               | apply Forall_nil; exact I ].
Qed.

(** The claim of the spec that every string that is not a wire form is
    rejected fails: the characters around the canonical text are not
    looked at. *)
Lemma prlsdkUUIDParse_other_delimiters :
  ~ wire_form other_delimiters /\
  prlsdkUUIDParse other_delimiters Scenario.empty_world
  = Ok Scenario.uuid Scenario.empty_world.
Proof.
  split; [|reflexivity].
  intros (body & H & _). discriminate H.
Qed.

(** The empty string is not rejected either: [tmp[strlen(tmp) - 1]]
    is then an access before the buffer. *)
Lemma prlsdkUUIDParse_empty (w : world) : prlsdkUUIDParse [] w = Fault.
Proof. reflexivity. Qed.

(** C2, as the code has it: the wire form that [prlsdkUUIDFormat]
    writes for a UUID of 16 bytes, into whatever buffer, is parsed back
    to that UUID; and for a C string that is not empty, [prlsdkUUIDParse]
    drops the first and the last character, whatever they are, and fails
    with the "malformed" error when the rest is not a canonical UUID, in
    particular when it is not 36 characters long or holds a character
    that is neither a hexadecimal digit nor a hyphen. *)
Theorem prlsdkUUID_codec (u : uuid_t) (buf s : list ascii) (w : world) :
  length u = VIR_UUID_BUFLEN ->
  length buf = (VIR_UUID_STRING_BUFLEN + 2)%nat ->
  c_str s <> [] ->
  prlsdkUUIDParse (prlsdkUUIDFormat u buf) w = Ok u w /\
  (virUUIDParse (stripped s) = None ->
   prlsdkUUIDParse s w = Fail (malformed_report w)) /\
  (length (stripped s) <> VIR_UUID_STRING_LEN \/
   ~ Forall hex_or_dash (stripped s) ->
   prlsdkUUIDParse s w = Fail (malformed_report w)).
Proof.
  intros Hu Hbuf Hs.
  assert (Hfail : virUUIDParse (stripped s) = None ->
                  prlsdkUUIDParse s w = Fail (malformed_report w)).
  { intros Hnone. unfold prlsdkUUIDParse, stripped in *.
    destruct (c_str s) as [|c rest]; [congruence|].
    rewrite Hnone. reflexivity. }
  split; [|split; [exact Hfail|]].
  - unfold prlsdkUUIDParse.
    rewrite prlsdkUUIDFormat_c_str by assumption.
    change ("{"%char :: virUUIDFormat u ++ ["}"%char])
      with (("{"%char :: virUUIDFormat u) ++ ["}"%char]).
    rewrite removelast_last. cbn [tail].
    rewrite virUUIDParse_virUUIDFormat by assumption. reflexivity.
  - intros Hbad. apply Hfail.
    destruct (virUUIDParse (stripped s)) as [u'|] eqn:E; [|reflexivity].
    apply virUUIDParse_shape in E. destruct E as (Hl & _ & Hc).
    destruct Hbad as [Hbad|Hbad]; contradiction.
Qed.

Lemma prlsdkUUID_codec_witness :
  prlsdkUUIDParse (prlsdkUUIDFormat Scenario.uuid uuidstr_buffer)
    Scenario.empty_world = Ok Scenario.uuid Scenario.empty_world /\
  prlsdkUUIDParse (list_ascii_of_string "{550e8400-e29b-41d4-a716-44665544000g}")
    Scenario.empty_world = Fail (malformed_report Scenario.empty_world).
Proof.
  destruct (prlsdkUUID_codec Scenario.uuid uuidstr_buffer
              (list_ascii_of_string "{550e8400-e29b-41d4-a716-44665544000g}")
              Scenario.empty_world) as (H1 & H2 & _);
    [reflexivity | reflexivity | discriminate |].
  split; [exact H1 | apply H2; reflexivity].
Defined.

(** ** Reasoning about computations *)

Lemma bind_Ok {A B} (m : M A) (k : A -> M B) (w w' : world) (b : B) :
  (m ≫= k) w = Ok b w' -> exists a w1, m w = Ok a w1 /\ k a w1 = Ok b w'.
Proof.
  unfold mbind, M_bind, bind. destruct (m w) as [a w1|w1|]; try discriminate.
  eauto.
Qed.


Lemma or_else_Ok {A} (m : M A) (c : M unit) (w w' : world) (a : A) :
  or_else m c w = Ok a w' -> m w = Ok a w'.
Proof.
  unfold or_else. destruct (m w) as [a1 w1|w1|]; try discriminate; [eauto|].
  destruct (c w1); discriminate.
Qed.

Lemma mret_Ok {A} (a b : A) (w w' : world) :
  (mret a : M A) w = Ok b w' -> a = b /\ w' = w.
Proof. intros [= -> ->]. auto. Qed.

Lemma prlsdkCheckRetGoto_Ok (sdk : Sdk) (ret : PRL_RESULT) (w w' : world) (u : unit) :
  prlsdkCheckRetGoto sdk ret w = Ok u w' -> PRL_FAILED sdk ret = false /\ w' = w.
Proof.
  unfold prlsdkCheckRetGoto. destruct (PRL_FAILED sdk ret).
  - intros H. apply bind_Ok in H. destruct H as (? & ? & _ & H). discriminate H.
  - intros [= _ ->]. auto.
Qed.

(** Take apart a hypothesis [m w = Ok a w']. *)
Ltac inv_Ok H :=
  repeat lazymatch type of H with
  | (_ ≫= _) _ = Ok _ _ =>
      let a := fresh "a" in let w1 := fresh "w" in let E := fresh "E" in
      apply bind_Ok in H; destruct H as (a & w1 & E & H)
  | or_else _ _ _ = Ok _ _ => apply or_else_Ok in H
  | (let '(_, _) := ?x in _) _ = Ok _ _ =>
      let E := fresh "E" in destruct x eqn:E
  | (if ?b then _ else _) _ = Ok _ _ =>
      let E := fresh "E" in destruct b eqn:E
  | mret _ _ = Ok _ _ => apply mret_Ok in H; destruct H as [? ?]; simplify_eq
  | fail _ = Ok _ _ => discriminate H
  | fault _ = Ok _ _ => discriminate H
  | (match ?x with _ => _ end) _ = Ok _ _ =>
      let E := fresh "E" in destruct x eqn:E
  end.

Ltac inv_all :=
  repeat match goal with
  | H : _ = Ok _ _ |- _ => progress inv_Ok H
  end.

Section Preserves.

Context (R : relation world) `{!PreOrder R}.

Lemma preserves_ret {A} (a : A) : preserves R (mret a).
Proof. intros w. cbn. reflexivity. Qed.

Lemma preserves_fail {A} : preserves R (@fail A).
Proof. intros w. cbn. reflexivity. Qed.

Lemma preserves_fault {A} : preserves R (@fault A).
Proof. intros w. exact I. Qed.

Lemma preserves_bind {A B} (m : M A) (k : A -> M B) :
  preserves R m -> (forall a, preserves R (k a)) -> preserves R (m ≫= k).
Proof.
  intros Hm Hk w. unfold mbind, M_bind, bind.
  specialize (Hm w). destruct (m w) as [a w1|w1|]; [|assumption|exact I].
  specialize (Hk a w1). destruct (k a w1); [| |exact I]; etrans; eassumption.
Qed.

Lemma preserves_or_else {A} (m : M A) (c : M unit) :
  preserves R m -> preserves R c -> preserves R (or_else m c).
Proof.
  intros Hm Hc w. unfold or_else.
  specialize (Hm w). destruct (m w) as [a w1|w1|]; [assumption| |exact I].
  specialize (Hc w1). destruct (c w1); [| |exact I]; etrans; eassumption.
Qed.

Lemma preserves_attempt {A} (m : M A) :
  preserves R m -> preserves R (attempt m).
Proof.
  intros Hm w. unfold attempt. specialize (Hm w).
  destruct (m w); assumption.
Qed.

End Preserves.

Lemma preserves_weaken {A} (R R' : relation world) (m : M A) :
  (forall w w', R w w' -> R' w w') -> preserves R m -> preserves R' m.
Proof.
  intros HR Hm w. specialize (Hm w). destruct (m w); auto.
Qed.

#[global] Instance extends_preorder (P : event -> Prop) : PreOrder (extends P).
Proof.
  split.
  - intros w. split; [reflexivity|]. split; [reflexivity|].
    exists []. split; [reflexivity | constructor].
  - intros w1 w2 w3 (Hd1 & Ho1 & evs1 & Ht1 & HP1) (Hd2 & Ho2 & evs2 & Ht2 & HP2).
    split; [congruence|]. split; [congruence|].
    exists (evs2 ++ evs1). split.
    + rewrite Ht2, Ht1, app_assoc. reflexivity.
    + apply Forall_app. auto.
Qed.

Lemma preserves_emit (P : event -> Prop) (e : event) :
  P e -> preserves (extends P) (emit e).
Proof.
  intros HP w. cbn. split; [reflexivity|]. split; [reflexivity|].
  exists [e]. split; [reflexivity | repeat constructor; exact HP].
Qed.

#[global] Instance touches_preorder (dom : virDomainObjPtr) : PreOrder (touches dom).
Proof.
  split.
  - intros w. split; [reflexivity|]. split; [reflexivity|].
    split; [intros o Ho; exists o; split; [exact Ho | split; reflexivity]|].
    exists []. split; [reflexivity | constructor].
  - intros w1 w2 w3 (Hd1 & Hn1 & Ho1 & evs1 & Ht1 & HP1)
                     (Hd2 & Hn2 & Ho2 & evs2 & Ht2 & HP2).
    split; [congruence|].
    split; [intros p Hp; rewrite Hn2, Hn1 by exact Hp; reflexivity|].
    split.
    + intros o Ho. destruct (Ho1 o Ho) as (o2 & Ho2' & Hs1 & Hl1).
      destruct (Ho2 o2 Ho2') as (o3 & Ho3 & Hs2 & Hl2).
      exists o3. split; [exact Ho3|]. split; congruence.
    + exists (evs2 ++ evs1). split.
      * rewrite Ht2, Ht1, app_assoc. reflexivity.
      * apply Forall_app. auto.
Qed.

Lemma extends_touches (dom : virDomainObjPtr) (w w' : world) :
  extends sdk_event w w' -> touches dom w w'.
Proof.
  intros (Hd & Ho & Ht). split; [exact Hd|].
  split; [intros p _; rewrite Ho; reflexivity|].
  split; [|exact Ht].
  intros o Hoo. exists o. rewrite Ho. split; [exact Hoo | split; reflexivity].
Qed.

Create HintDb frames discriminated.

(** Decompose a goal [preserves R m] along the structure of [m]. *)
Ltac frames_step :=
  lazymatch goal with
  | |- preserves _ (mret _) => apply preserves_ret; tc_solve
  | |- preserves _ (_ ≫= _) => apply preserves_bind; [tc_solve | | intros]
  | |- preserves _ (or_else _ _) => apply preserves_or_else; [tc_solve | | ]
  | |- preserves _ (attempt _) => apply preserves_attempt
  | |- preserves _ fail => apply preserves_fail; tc_solve
  | |- preserves _ fault => apply preserves_fault
  | |- preserves _ (let '(_, _) := ?x in _) => destruct x
  | |- preserves _ (if ?b then _ else _) => destruct b
  | |- preserves _ (match ?x with _ => _ end) => destruct x
  end.

Ltac frames := repeat first [ solve [auto with frames] | frames_step ].

Lemma preserves_report (code : virErrorNumber) (msg : string) :
  preserves (extends sdk_event) (virReportError code msg).
Proof. apply preserves_emit. exact I. Qed.

Lemma preserves_warn (msg : string) :
  preserves (extends sdk_event) (VIR_WARN msg).
Proof. apply preserves_emit. exact I. Qed.

Lemma preserves_free (h : PRL_HANDLE) :
  preserves (extends sdk_event) (PrlHandle_Free h).
Proof. apply preserves_emit. exact I. Qed.

#[global] Hint Resolve preserves_report preserves_warn preserves_free : frames.

Lemma logPrlErrorHelper_frame (sdk : Sdk) (err : PRL_RESULT) :
  sdk_only (logPrlErrorHelper sdk err).
Proof. unfold logPrlErrorHelper. auto with frames. Qed.
#[global] Hint Resolve logPrlErrorHelper_frame : frames.

Lemma logPrlError_frame (sdk : Sdk) (err : PRL_RESULT) :
  sdk_only (logPrlError sdk err).
Proof. apply logPrlErrorHelper_frame. Qed.
#[global] Hint Resolve logPrlError_frame : frames.

Lemma prlsdkCheckRetGoto_frame (sdk : Sdk) (ret : PRL_RESULT) :
  sdk_only (prlsdkCheckRetGoto sdk ret).
Proof. unfold prlsdkCheckRetGoto. frames. Qed.
#[global] Hint Resolve prlsdkCheckRetGoto_frame : frames.

Lemma logPrlEventErrorHelper_frame (sdk : Sdk) (event : PRL_HANDLE) :
  sdk_only (logPrlEventErrorHelper sdk event).
Proof. unfold logPrlEventErrorHelper. frames. Qed.
#[global] Hint Resolve logPrlEventErrorHelper_frame : frames.

Lemma getJobResultHelper_frame (sdk : Sdk) (job : PRL_HANDLE) (timeout : Z) :
  sdk_only (getJobResultHelper sdk job timeout).
Proof. unfold getJobResultHelper. cbv zeta. frames. Qed.
#[global] Hint Resolve getJobResultHelper_frame : frames.

Lemma getJobResult_frame (sdk : Sdk) (job : PRL_HANDLE) (timeout : Z) :
  sdk_only (getJobResult sdk job timeout).
Proof. apply getJobResultHelper_frame. Qed.
#[global] Hint Resolve getJobResult_frame : frames.

Lemma PrlSrv_GetVmConfig_frame (sdk : Sdk) (srv : PRL_HANDLE) (id : string) (flags : Z) :
  sdk_only (PrlSrv_GetVmConfig sdk srv id flags).
Proof.
  unfold PrlSrv_GetVmConfig. cbv zeta. frames. apply preserves_emit. exact I.
Qed.

Lemma PrlSrv_GetVmListEx_frame (sdk : Sdk) (srv : PRL_HANDLE) (flags : Z) :
  sdk_only (PrlSrv_GetVmListEx sdk srv flags).
Proof.
  unfold PrlSrv_GetVmListEx. cbv zeta. frames. apply preserves_emit. exact I.
Qed.

Lemma PrlVm_GetState_frame (sdk : Sdk) (sdkdom : PRL_HANDLE) :
  sdk_only (PrlVm_GetState sdk sdkdom).
Proof.
  unfold PrlVm_GetState. cbv zeta. frames. apply preserves_emit. exact I.
Qed.

Lemma PrlHandle_AddRef_frame (sdk : Sdk) (h : PRL_HANDLE) :
  sdk_only (PrlHandle_AddRef sdk h).
Proof.
  unfold PrlHandle_AddRef. frames. apply preserves_emit. exact I.
Qed.
#[global] Hint Resolve PrlSrv_GetVmConfig_frame PrlSrv_GetVmListEx_frame
  PrlVm_GetState_frame PrlHandle_AddRef_frame : frames.

Lemma prlsdkSdkDomainLookup_frame (sdk : Sdk) (privconn : parallelsConn)
    (id : string) (flags : Z) :
  sdk_only (prlsdkSdkDomainLookup sdk privconn id flags).
Proof. unfold prlsdkSdkDomainLookup. frames. Qed.
#[global] Hint Resolve prlsdkSdkDomainLookup_frame : frames.

Lemma prlsdkSdkDomainLookupByUUID_frame (sdk : Sdk) (privconn : parallelsConn)
    (uuid : uuid_t) :
  sdk_only (prlsdkSdkDomainLookupByUUID sdk privconn uuid).
Proof. unfold prlsdkSdkDomainLookupByUUID. cbv zeta. frames. Qed.
#[global] Hint Resolve prlsdkSdkDomainLookupByUUID_frame : frames.

Lemma prlsdkUUIDParse_frame (uuidstr : list ascii) :
  sdk_only (prlsdkUUIDParse uuidstr).
Proof. unfold prlsdkUUIDParse. cbv zeta. frames. Qed.
#[global] Hint Resolve prlsdkUUIDParse_frame : frames.

Lemma prlsdkGetDomainIds_frame (sdk : Sdk) (sdkdom : PRL_HANDLE) :
  sdk_only (prlsdkGetDomainIds sdk sdkdom).
Proof. unfold prlsdkGetDomainIds. frames. Qed.
#[global] Hint Resolve prlsdkGetDomainIds_frame : frames.

Lemma prlsdkGetDomainState_frame (sdk : Sdk) (privconn : parallelsConn)
    (sdkdom : PRL_HANDLE) :
  sdk_only (prlsdkGetDomainState sdk privconn sdkdom).
Proof. unfold prlsdkGetDomainState. cbv zeta. frames. Qed.
#[global] Hint Resolve prlsdkGetDomainState_frame : frames.

Lemma prlsdkDomObjFreePrivate_frame (p : option parallelsDomObj) :
  sdk_only (prlsdkDomObjFreePrivate None p).
Proof. unfold prlsdkDomObjFreePrivate. frames. Qed.
#[global] Hint Resolve prlsdkDomObjFreePrivate_frame : frames.

Lemma prlsdkAddDomainVideoInfo_frame (sdk : Sdk) (sdkdom : PRL_HANDLE)
    (def : virDomainDef) :
  sdk_only (prlsdkAddDomainVideoInfo sdk sdkdom def).
Proof. unfold prlsdkAddDomainVideoInfo. cbv zeta. frames. Qed.
#[global] Hint Resolve prlsdkAddDomainVideoInfo_frame : frames.

Lemma prlsdkGetDiskInfo_frame (sdk : Sdk) (prldisk : PRL_HANDLE)
    (disk : virDomainDiskDef) :
  sdk_only (prlsdkGetDiskInfo sdk prldisk disk).
Proof. unfold prlsdkGetDiskInfo. cbv zeta. frames. Qed.
#[global] Hint Resolve prlsdkGetDiskInfo_frame : frames.

Lemma prlsdkAddDomainHardDisksInfo_loop_frame (sdk : Sdk) (sdkdom : PRL_HANDLE)
    (n : nat) (i : Z) (def : virDomainDef) :
  sdk_only (prlsdkAddDomainHardDisksInfo_loop sdk sdkdom n i def).
Proof.
  revert i def. induction n as [|n IH]; intros i def;
    cbn [prlsdkAddDomainHardDisksInfo_loop]; frames.
Qed.
#[global] Hint Resolve prlsdkAddDomainHardDisksInfo_loop_frame : frames.

Lemma prlsdkAddDomainHardDisksInfo_frame (sdk : Sdk) (sdkdom : PRL_HANDLE)
    (def : virDomainDef) :
  sdk_only (prlsdkAddDomainHardDisksInfo sdk sdkdom def).
Proof. unfold prlsdkAddDomainHardDisksInfo. frames. Qed.
#[global] Hint Resolve prlsdkAddDomainHardDisksInfo_frame : frames.

Lemma prlsdkGetNetInfo_frame (sdk : Sdk) (host : Host) (netAdapter : PRL_HANDLE)
    (net : virDomainNetDef) (isCt : bool) :
  sdk_only (prlsdkGetNetInfo sdk host netAdapter net isCt).
Proof. unfold prlsdkGetNetInfo. cbv zeta. frames. Qed.
#[global] Hint Resolve prlsdkGetNetInfo_frame : frames.

Lemma prlsdkAddDomainNetInfo_loop_frame (sdk : Sdk) (host : Host)
    (sdkdom : PRL_HANDLE) (n : nat) (i : Z) (def : virDomainDef) :
  sdk_only (prlsdkAddDomainNetInfo_loop sdk host sdkdom n i def).
Proof.
  revert i def. induction n as [|n IH]; intros i def;
    cbn [prlsdkAddDomainNetInfo_loop]; frames.
Qed.
#[global] Hint Resolve prlsdkAddDomainNetInfo_loop_frame : frames.

Lemma prlsdkAddDomainNetInfo_frame (sdk : Sdk) (host : Host)
    (sdkdom : PRL_HANDLE) (def : virDomainDef) :
  sdk_only (prlsdkAddDomainNetInfo sdk host sdkdom def).
Proof. unfold prlsdkAddDomainNetInfo. frames. Qed.
#[global] Hint Resolve prlsdkAddDomainNetInfo_frame : frames.

Lemma prlsdkGetSerialInfo_frame (sdk : Sdk) (serialPort : PRL_HANDLE)
    (chr : virDomainChrDef) :
  sdk_only (prlsdkGetSerialInfo sdk serialPort chr).
Proof. unfold prlsdkGetSerialInfo. cbv zeta. frames. Qed.
#[global] Hint Resolve prlsdkGetSerialInfo_frame : frames.

Lemma prlsdkAddSerialInfo_loop_frame (sdk : Sdk) (sdkdom : PRL_HANDLE)
    (n : nat) (i : Z) (serials : list virDomainChrDef) :
  sdk_only (prlsdkAddSerialInfo_loop sdk sdkdom n i serials).
Proof.
  revert i serials. induction n as [|n IH]; intros i serials;
    cbn [prlsdkAddSerialInfo_loop]; frames.
Qed.
#[global] Hint Resolve prlsdkAddSerialInfo_loop_frame : frames.

Lemma prlsdkAddSerialInfo_frame (sdk : Sdk) (sdkdom : PRL_HANDLE)
    (serials : list virDomainChrDef) :
  sdk_only (prlsdkAddSerialInfo sdk sdkdom serials).
Proof. unfold prlsdkAddSerialInfo. frames. Qed.
#[global] Hint Resolve prlsdkAddSerialInfo_frame : frames.

Lemma prlsdkAddDomainHardware_frame (sdk : Sdk) (host : Host)
    (sdkdom : PRL_HANDLE) (def : virDomainDef) :
  sdk_only (prlsdkAddDomainHardware sdk host sdkdom def).
Proof. unfold prlsdkAddDomainHardware. frames. Qed.
#[global] Hint Resolve prlsdkAddDomainHardware_frame : frames.

Lemma prlsdkAddVNCInfo_frame (sdk : Sdk) (sdkdom : PRL_HANDLE)
    (def : virDomainDef) :
  sdk_only (prlsdkAddVNCInfo sdk sdkdom def).
Proof. unfold prlsdkAddVNCInfo. cbv zeta. frames. Qed.
#[global] Hint Resolve prlsdkAddVNCInfo_frame : frames.

Lemma prlsdkConvertCpuInfo_frame (sdk : Sdk) (host : Host)
    (sdkdom : PRL_HANDLE) (def : virDomainDef) (pdom : parallelsDomObj) :
  sdk_only (prlsdkConvertCpuInfo sdk host sdkdom def pdom).
Proof. unfold prlsdkConvertCpuInfo. cbv zeta. frames. Qed.
#[global] Hint Resolve prlsdkConvertCpuInfo_frame : frames.

Lemma prlsdkConvertDomainType_frame (sdk : Sdk) (sdkdom : PRL_HANDLE)
    (def : virDomainDef) :
  sdk_only (prlsdkConvertDomainType sdk sdkdom def).
Proof. unfold prlsdkConvertDomainType. frames. Qed.
#[global] Hint Resolve prlsdkConvertDomainType_frame : frames.

Lemma prlsdkConvertCpuMode_frame (sdk : Sdk) (sdkdom : PRL_HANDLE)
    (def : virDomainDef) :
  sdk_only (prlsdkConvertCpuMode sdk sdkdom def).
Proof. unfold prlsdkConvertCpuMode. frames. Qed.
#[global] Hint Resolve prlsdkConvertCpuMode_frame : frames.

(** Building the definition leaves the store alone. *)
Lemma prlsdkLoadDomain_build_frame (sdk : Sdk) (host : Host)
    (sdkdom : PRL_HANDLE) (def : virDomainDef) (pdom : parallelsDomObj) :
  sdk_only (prlsdkLoadDomain_build sdk host sdkdom def pdom).
Proof. unfold prlsdkLoadDomain_build. cbv zeta. frames. Qed.
#[global] Hint Resolve prlsdkLoadDomain_build_frame : frames.

Lemma sdk_only_touches {A} (dom : virDomainObjPtr) (m : M A) :
  sdk_only m -> preserves (touches dom) m.
Proof. apply preserves_weaken. apply extends_touches. Qed.
#[global] Hint Resolve sdk_only_touches : frames.

Lemma update_obj_touches (dom : virDomainObjPtr)
    (f : virDomainObj -> virDomainObj) :
  (forall o, same_def_upto_id o (f o)) ->
  preserves (touches dom) (update_obj dom f).
Proof.
  intros Hf w. unfold update_obj, get_obj, mbind, M_bind, bind.
  destruct (w_objs w !! dom) as [o|] eqn:Ho; [|exact I].
  cbn. split; [reflexivity|].
  split; [intros p Hp; apply lookup_insert_ne; congruence|].
  split.
  - intros o0 Ho0. rewrite Ho in Ho0. injection Ho0 as <-.
    exists (f o). split; [apply lookup_insert_eq | apply Hf].
  - exists []. split; [reflexivity | constructor].
Qed.

Lemma prlsdkConvertDomainState_touches (domainState : VIRTUAL_MACHINE_STATE)
    (envId : PRL_UINT32) (dom : virDomainObjPtr) :
  preserves (touches dom) (prlsdkConvertDomainState domainState envId dom).
Proof.
  unfold prlsdkConvertDomainState.
  destruct domainState;
    try (apply update_obj_touches; intros o; split; reflexivity);
    frames.
Qed.
#[global] Hint Resolve prlsdkConvertDomainState_touches : frames.

(** After the slot is taken only the slot changes: its state, its
    private data, its flags and the instance id of its definition. *)
Lemma prlsdkLoadDomain_finish_touches (sdk : Sdk) (privconn : parallelsConn)
    (sdkdom : PRL_HANDLE) (dom : virDomainObjPtr) (pdom : parallelsDomObj)
    (envId : PRL_UINT32) :
  preserves (touches dom)
    (prlsdkLoadDomain_finish sdk privconn sdkdom dom pdom envId).
Proof.
  unfold prlsdkLoadDomain_finish.
  repeat first [ apply update_obj_touches; intros o; split; reflexivity
               | solve [auto with frames]
               | frames_step ].
Qed.

(** Project the fields of a definition built by a chain of assignments. *)
Ltac def_fields :=
  cbn [def_virtType def_id def_name def_uuid def_onReboot def_onPoweroff
       def_onCrash def_mem_max_balloon def_mem_cur_balloon def_vcpus
       def_maxvcpus def_os_type def_os_init def_os_arch def_videos def_disks
       def_nets def_serials def_graphics set_def_virtType set_def_id
       set_def_name set_def_uuid set_def_onReboot set_def_onPoweroff
       set_def_onCrash set_def_mem_max_balloon set_def_mem_cur_balloon
       set_def_vcpus set_def_maxvcpus set_def_os_type set_def_os_init
       set_def_os_arch set_def_videos set_def_disks set_def_nets
       set_def_serials set_def_graphics].

Tactic Notation "def_fields" "in" hyp(H) :=
  cbn [def_virtType def_id def_name def_uuid def_onReboot def_onPoweroff
       def_onCrash def_mem_max_balloon def_mem_cur_balloon def_vcpus
       def_maxvcpus def_os_type def_os_init def_os_arch def_videos def_disks
       def_nets def_serials def_graphics set_def_virtType set_def_id
       set_def_name set_def_uuid set_def_onReboot set_def_onPoweroff
       set_def_onCrash set_def_mem_max_balloon set_def_mem_cur_balloon
       set_def_vcpus set_def_maxvcpus set_def_os_type set_def_os_init
       set_def_os_arch set_def_videos set_def_disks set_def_nets
       set_def_serials set_def_graphics] in H.

(** ** State mapper *)

Lemma int_of_uint32_unassigned (x : PRL_UINT32) :
  0 <= x < 2 ^ 32 -> (int_of_uint32 x = -1 <-> x = 2 ^ 32 - 1).
Proof.
  intros Hx. unfold int_of_uint32. destruct (x <? 2 ^ 31) eqn:E; lia.
Qed.

Lemma update_obj_at (dom : virDomainObjPtr) (f : virDomainObj -> virDomainObj)
    (o : virDomainObj) (w : world) :
  w_objs w !! dom = Some o ->
  update_obj dom f w = Ok tt (with_obj dom (f o) w).
Proof.
  intros Ho. unfold update_obj, get_obj, mbind, M_bind, bind. rewrite Ho.
  reflexivity.
Qed.

(** C3, as the code has it: a run state outside the known set apart,
    the mapper always returns; SHUTOFF forces the id -1; the run state
    "unknown" maps to NOSTATE and leaves the id as it was; every other
    state stores the external id converted to [int], so that the id is
    -1 exactly for SHUTOFF unless the external id is 0xFFFFFFFF. *)
Theorem prlsdkConvertDomainState_spec (st : VIRTUAL_MACHINE_STATE)
    (envId : PRL_UINT32) (dom : virDomainObjPtr) (o : virDomainObj) (w : world) :
  known_state st ->
  0 <= envId < 2 ^ 32 ->
  w_objs w !! dom = Some o ->
  exists s r o',
    prlsdkConvertDomainState st envId dom w = Ok tt (with_obj dom o' w) /\
    obj_state o' = Some (s, r) /\
    (s = VIR_DOMAIN_SHUTOFF -> def_id (obj_def o') = -1) /\
    (st = VMS_UNKNOWN ->
     s = VIR_DOMAIN_NOSTATE /\ def_id (obj_def o') = def_id (obj_def o)) /\
    (st <> VMS_UNKNOWN -> s <> VIR_DOMAIN_SHUTOFF ->
     def_id (obj_def o') = int_of_uint32 envId) /\
    (st <> VMS_UNKNOWN -> envId <> 2 ^ 32 - 1 ->
     (def_id (obj_def o') = -1 <-> s = VIR_DOMAIN_SHUTOFF)) /\
    (st = VMS_RUNNING ->
     (s, r) = (VIR_DOMAIN_RUNNING, VIR_DOMAIN_RUNNING_BOOTED)) /\
    (st = VMS_STOPPED ->
     (s, r) = (VIR_DOMAIN_SHUTOFF, VIR_DOMAIN_SHUTOFF_SHUTDOWN)).
Proof.
  intros Hknown Henv Ho.
  pose proof (int_of_uint32_unassigned envId Henv) as Hid.
  destruct st; try contradiction Hknown;
    cbn [prlsdkConvertDomainState];
    rewrite (update_obj_at _ _ _ _ Ho);
    do 3 eexists; (split; [reflexivity|]); (split; [reflexivity|]);
    cbn; repeat split; intros; try congruence; try tauto.
Qed.

Lemma prlsdkConvertDomainState_spec_witness :
  exists o',
    prlsdkConvertDomainState VMS_RUNNING 42 1%positive one_domain_world
    = Ok tt (with_obj 1%positive o' one_domain_world) /\
    obj_state o' = Some (VIR_DOMAIN_RUNNING, VIR_DOMAIN_RUNNING_BOOTED) /\
    def_id (obj_def o') = 42.
Proof.
  destruct (prlsdkConvertDomainState_spec VMS_RUNNING 42 1%positive
              (virDomainObjNew fresh_def) one_domain_world)
    as (s & r & o' & Hrun & Hst & _ & _ & Hid & _ & Hrunning & _);
    [exact I | lia | reflexivity |].
  exists o'. specialize (Hrunning eq_refl). injection Hrunning as -> ->.
  split; [exact Hrun|]. split; [exact Hst|].
  apply Hid; discriminate.
Defined.

(** The claim as the spec words it fails twice: with the external id
    0xFFFFFFFF a running domain gets the id -1, and a domain in the run
    state "unknown" keeps the id -1 of its fresh definition while its
    state is NOSTATE. *)
Lemma prlsdkConvertDomainState_unassigned_not_shutoff :
  (exists o',
     prlsdkConvertDomainState VMS_RUNNING (2 ^ 32 - 1) 1%positive one_domain_world
     = Ok tt (with_obj 1%positive o' one_domain_world) /\
     obj_state o' = Some (VIR_DOMAIN_RUNNING, VIR_DOMAIN_RUNNING_BOOTED) /\
     def_id (obj_def o') = -1) /\
  (exists o',
     prlsdkConvertDomainState VMS_UNKNOWN 42 1%positive one_domain_world
     = Ok tt (with_obj 1%positive o' one_domain_world) /\
     obj_state o' = Some (VIR_DOMAIN_NOSTATE, VIR_DOMAIN_NOSTATE_UNKNOWN) /\
     def_id (obj_def o') = -1).
Proof.
  split; eexists; (split; [reflexivity|]); split; reflexivity.
Qed.

(** ** The job protocol *)

(** Awaiting a job always returns, and releases the job handle once on
    every path, provided the SDK hands out an error or result handle
    that is not the job handle itself. *)
Lemma getJobResultHelper_releases_job (sdk : Sdk) (job : PRL_HANDLE)
    (timeout : Z) (w : world) :
  (PrlJob_GetError sdk job).2 <> job ->
  (PrlJob_GetResult sdk job).2 <> job ->
  exists result w',
    getJobResultHelper sdk job timeout w = Ok result w' /\
    releases job (w_trace w') = S (releases job (w_trace w)).
Proof.
  intros Herr Hres.
  unfold getJobResultHelper, logPrlEventErrorHelper, logPrlError,
    logPrlErrorHelper, virReportError, PrlHandle_Free, emit,
    mbind, M_bind, bind, mret, M_ret, ret.
  destruct (PrlJob_GetError sdk job) as [ret1 err_handle].
  destruct (PrlJob_GetResult sdk job) as [ret2 result].
  cbn [snd] in Herr, Hres.
  apply Z.eqb_neq in Herr, Hres.
  destruct (PrlJob_Wait sdk job timeout =? 0);
    [|do 2 eexists; split; [reflexivity|]; cbn; rewrite Z.eqb_refl; reflexivity].
  destruct (PrlJob_GetRetCode sdk job) as [ret retCode].
  destruct (ret =? 0);
    [|do 2 eexists; split; [reflexivity|]; cbn; rewrite Z.eqb_refl; reflexivity].
  destruct (retCode =? 0).
  - destruct (PRL_FAILED sdk ret2);
      do 2 eexists; (split; [reflexivity|]); cbn;
      rewrite ?Z.eqb_refl, ?Hres; reflexivity.
  - destruct (ret1 =? 0);
      [|do 2 eexists; split; [reflexivity|]; cbn; rewrite Z.eqb_refl; reflexivity].
    destruct (PrlEvent_GetErrCode sdk err_handle) as [ret3 code].
    destruct (ret3 =? 0) eqn:E3;
      do 2 eexists; (split; [cbn; rewrite ?E3; cbn; reflexivity|]); cbn;
      rewrite ?Z.eqb_refl, ?Herr; reflexivity.
Qed.

(** C4 fails on the bulk loader: when the parameter count of the
    inventory cannot be read, the error label of [prlsdkLoadDomains]
    releases the job handle (10 here) that [getJobResult] has already
    released. *)
Theorem prlsdkLoadDomains_releases_job_twice :
  exists w',
    prlsdkLoadDomains (Scenario.sdk PVT_VM VMS_RUNNING 0 (-1) 1024)
      (Scenario.host true) Scenario.privconn Scenario.empty_world = Fail w' /\
    w_trace w' =
      [EvHandleFree 10; EvHandleFree 110;
       EvReport VIR_ERR_INTERNAL_ERROR "SDK error the SDK call failed";
       EvHandleFree 10;
       EvJob (JobGetVmListEx 3) 10] /\
    releases 10 (w_trace w') = 2%nat.
Proof.
  eexists. split; [reflexivity|]. split; reflexivity.
Qed.

(** The same happens when a domain of the inventory fails to load. *)
Lemma prlsdkLoadDomains_load_failure_releases_twice :
  exists w',
    prlsdkLoadDomains (Scenario.sdk PVT_VM VMS_RUNNING (-1) 0 1024)
      (Scenario.host true) Scenario.privconn Scenario.empty_world = Fail w' /\
    releases 10 (w_trace w') = 2%nat.
Proof.
  eexists. split; [vm_compute; reflexivity|]. reflexivity.
Qed.

(** ** Disks *)

(** C6: an extracted disk is file storage in the ploop format when its
    emulated type is the image file and a block device otherwise; its
    target name is [virIndexToDiskName] of the device index with the
    prefix sd, sdb for the index 1. *)
Theorem prlsdkGetDiskInfo_spec (sdk : Sdk) (prldisk : PRL_HANDLE)
    (disk disk' : virDomainDiskDef) (w w' : world) :
  prlsdkGetDiskInfo sdk prldisk disk w = Ok disk' w' ->
  let emulatedType := (PrlVmDev_GetEmulatedType sdk prldisk).2 in
  let prldiskIndex := (PrlVmDev_GetIndex sdk prldisk).2 in
  (emulatedType = PDT_USE_IMAGE_FILE sdk ->
   disk_src_type disk' = Some VIR_STORAGE_TYPE_FILE /\
   disk_src_format disk' = Some VIR_STORAGE_FILE_PLOOP) /\
  (emulatedType <> PDT_USE_IMAGE_FILE sdk ->
   disk_src_type disk' = Some VIR_STORAGE_TYPE_BLOCK /\
   disk_src_format disk' = disk_src_format disk) /\
  disk_dst disk' = virIndexToDiskName (int_of_uint32 prldiskIndex) "sd" /\
  (exists letters, disk_dst disk' = Some ("sd" +:+ letters)) /\
  (prldiskIndex = 1 -> disk_dst disk' = Some "sdb"%string).
Proof.
  intros H emulatedType prldiskIndex. subst emulatedType prldiskIndex.
  unfold prlsdkGetDiskInfo in H. inv_Ok H. cbn [snd].
  match goal with
  | E : virIndexToDiskName _ _ = Some ?dst |- _ => rename E into Hdst
  end.
  split; [|split; [|split; [|split]]].
  - intros ->. rewrite Z.eqb_refl. split; reflexivity.
  - intros Hne. apply Z.eqb_neq in Hne. rewrite Hne. split; reflexivity.
  - rewrite Hdst. reflexivity.
  - unfold virIndexToDiskName in Hdst.
    destruct (int_of_uint32 _ <? 0); [discriminate Hdst|].
    injection Hdst as <-. eexists. reflexivity.
  - intros ->. vm_compute in Hdst. injection Hdst as <-. reflexivity.
Qed.

Lemma prlsdkGetDiskInfo_spec_witness :
  exists disk' w',
    prlsdkGetDiskInfo (Scenario.sdk PVT_VM VMS_RUNNING 0 0 1024) 300
      virDomainDiskDefNew Scenario.empty_world = Ok disk' w' /\
    disk_src_type disk' = Some VIR_STORAGE_TYPE_FILE /\
    disk_src_format disk' = Some VIR_STORAGE_FILE_PLOOP /\
    disk_dst disk' = Some "sdb"%string.
Proof.
  eexists. eexists.
  assert (H : prlsdkGetDiskInfo (Scenario.sdk PVT_VM VMS_RUNNING 0 0 1024) 300
                virDomainDiskDefNew Scenario.empty_world = _) by reflexivity.
  split; [exact H|].
  destruct (prlsdkGetDiskInfo_spec _ _ _ _ _ _ H) as (Hfile & _ & _ & _ & Hsdb).
  destruct (Hfile eq_refl) as [Ht Hf].
  split; [exact Ht|]. split; [exact Hf|]. exact (Hsdb eq_refl).
Defined.

(** ** Display *)

(** What [prlsdkAddVNCInfo] appends for a mode other than disabled. *)
Lemma prlsdkAddVNCInfo_shape (sdk : Sdk) (sdkdom : PRL_HANDLE)
    (def def' : virDomainDef) (w w' : world) :
  prlsdkAddVNCInfo sdk sdkdom def w = Ok def' w' ->
  let vncMode := (PrlVmCfg_GetVNCMode sdk sdkdom).2 in
  let port := (PrlVmCfg_GetVNCPort sdk sdkdom).2 in
  let address := (PrlVmCfg_GetVNCHostName sdk sdkdom true).2 in
  (vncMode = PRD_DISABLED -> def' = def) /\
  (vncMode <> PRD_DISABLED ->
   def' = set_def_graphics
            (def_graphics def ++
             [{| gr_type := Some VIR_DOMAIN_GRAPHICS_TYPE_VNC;
                 gr_vnc_port := int_of_uint32 port;
                 gr_vnc_autoport := bool_decide (vncMode = PRD_AUTO);
                 gr_vnc_keymap := None;
                 gr_vnc_socket := None;
                 gr_vnc_auth_passwd := None;
                 gr_vnc_auth_expires := false;
                 gr_vnc_auth_connected := 0;
                 gr_listens :=
                   [{| listen_type := Some VIR_DOMAIN_GRAPHICS_LISTEN_TYPE_ADDRESS;
                       listen_address := Some address |}] |}]) def).
Proof.
  intros H vncMode port address. subst vncMode port address.
  unfold prlsdkAddVNCInfo in H. inv_Ok H; cbn [snd].
  - split; [reflexivity|]. intros Hne. contradiction.
  - split; [intros Heq; contradiction|]. intros _. reflexivity.
Qed.

(** ** CPU *)

(** C8: when the host count is known and the count and mask queries
    succeed, the vCPU count (current and maximum) is the snapshot's,
    clamped down to the host count; an empty mask gives the bitmap of
    host-count width with every bit set, any other mask is parsed
    against the host count. *)
Theorem prlsdkConvertCpuInfo_spec (sdk : Sdk) (host : Host)
    (sdkdom : PRL_HANDLE) (def : virDomainDef) (pdom : parallelsDomObj)
    (w : world) :
  let hostcpus := nodeGetCPUCount host in
  let cpuCount := (PrlVmCfg_GetCpuCount sdk sdkdom).2 in
  let buf := (PrlVmCfg_GetCpuMask sdk sdkdom true).2 in
  let vcpus := if cpuCount >? hostcpus then hostcpus else cpuCount in
  let def' := set_def_maxvcpus vcpus (set_def_vcpus vcpus def) in
  0 <= hostcpus ->
  PRL_FAILED sdk (PrlVmCfg_GetCpuCount sdk sdkdom).1 = false ->
  PRL_FAILED sdk (PrlVmCfg_GetCpuMask sdk sdkdom false).1 = false ->
  (cpuCount > hostcpus ->
   def_vcpus def' = hostcpus /\ def_maxvcpus def' = hostcpus) /\
  (cpuCount <= hostcpus ->
   def_vcpus def' = cpuCount /\ def_maxvcpus def' = cpuCount) /\
  (buf = ""%string ->
   prlsdkConvertCpuInfo sdk host sdkdom def pdom w
   = Ok (def', set_pdom_cpumask
                 (Some (replicate (Z.to_nat hostcpus) true)) pdom) w) /\
  (buf <> ""%string ->
   prlsdkConvertCpuInfo sdk host sdkdom def pdom w
   = match virBitmapParse host buf hostcpus with
     | Some cpumask => Ok (def', set_pdom_cpumask (Some cpumask) pdom) w
     | None => Fail w
     end).
Proof.
  intros hostcpus cpuCount buf vcpus def' Hhost Hcount Hmask.
  subst def' vcpus.
  split; [|split].
  - intros Hgt. apply Z.gtb_gt in Hgt. rewrite Hgt. split; reflexivity.
  - intros Hle. destruct (cpuCount >? hostcpus) eqn:E; [|split; reflexivity].
    apply Z.gtb_gt in E. lia.
  - unfold prlsdkConvertCpuInfo.
    fold hostcpus. replace (hostcpus <? 0) with false by (symmetry; apply Z.ltb_ge; lia).
    subst cpuCount buf.
    destruct (PrlVmCfg_GetCpuCount sdk sdkdom) as [pret cpuCount].
    cbn [fst snd] in *. rewrite Hcount.
    destruct (PrlVmCfg_GetCpuMask sdk sdkdom false) as [pret1 ign].
    cbn [fst] in Hmask. rewrite Hmask.
    destruct (PrlVmCfg_GetCpuMask sdk sdkdom true) as [pret2 buf]. cbn [snd].
    split.
    + intros ->. cbn [String.length Nat.eqb virBitmapNew virBitmapSetAll].
      unfold virBitmapSetAll. rewrite length_replicate. reflexivity.
    + intros Hne. destruct buf as [|c buf]; [congruence|].
      cbn [String.length Nat.eqb].
      destruct (virBitmapParse host (String c buf) hostcpus); reflexivity.
Qed.

Lemma prlsdkConvertCpuInfo_spec_witness :
  exists def' pdom',
    prlsdkConvertCpuInfo (Scenario.sdk PVT_VM VMS_RUNNING 0 0 1024)
      (Scenario.host true) 200 fresh_def parallelsDomObj_zero
      Scenario.empty_world = Ok (def', pdom') Scenario.empty_world /\
    def_vcpus def' = 8 /\ def_maxvcpus def' = 8 /\
    pdom_cpumask pdom' = Some (replicate 8 true).
Proof.
  destruct (prlsdkConvertCpuInfo_spec (Scenario.sdk PVT_VM VMS_RUNNING 0 0 1024)
              (Scenario.host true) 200 fresh_def parallelsDomObj_zero
              Scenario.empty_world)
    as (Hclamp & _ & Hrun & _); [cbn; lia | reflexivity | reflexivity |].
  do 2 eexists. split; [apply Hrun; reflexivity|].
  destruct Hclamp as [Hv Hm]; [cbn; lia|].
  split; [exact Hv|]. split; [exact Hm | reflexivity].
Defined.

(** What a run of [prlsdkConvertCpuInfo] that returns has assigned. *)
Lemma prlsdkConvertCpuInfo_shape (sdk : Sdk) (host : Host)
    (sdkdom : PRL_HANDLE) (def def' : virDomainDef)
    (pdom pdom' : parallelsDomObj) (w w' : world) :
  prlsdkConvertCpuInfo sdk host sdkdom def pdom w = Ok (def', pdom') w' ->
  exists vcpus cpumask,
    def' = set_def_maxvcpus vcpus (set_def_vcpus vcpus def) /\
    pdom' = set_pdom_cpumask cpumask pdom.
Proof.
  unfold prlsdkConvertCpuInfo. intros H. inv_Ok H; eauto.
Qed.

(** ** What the other builders assign *)

Lemma prlsdkConvertCpuMode_shape (sdk : Sdk) (sdkdom : PRL_HANDLE)
    (def def' : virDomainDef) (w w' : world) :
  prlsdkConvertCpuMode sdk sdkdom def w = Ok def' w' ->
  exists arch, def' = set_def_os_arch arch def.
Proof.
  unfold prlsdkConvertCpuMode. intros H. inv_Ok H; eauto.
Qed.

Lemma prlsdkConvertDomainType_shape (sdk : Sdk) (sdkdom : PRL_HANDLE)
    (def def' : virDomainDef) (w w' : world) :
  prlsdkConvertDomainType sdk sdkdom def w = Ok def' w' ->
  match (PrlVmCfg_GetVmType sdk sdkdom).2 with
  | PVT_VM => def' = set_def_os_type (Some "hvm"%string) def
  | PVT_CT => def' = set_def_os_init (Some "/sbin/init"%string)
                       (set_def_os_type (Some "exe"%string) def)
  | PVT_other _ => False
  end.
Proof.
  unfold prlsdkConvertDomainType. intros H. inv_Ok H; reflexivity.
Qed.

Lemma prlsdkAddDomainVideoInfo_shape (sdk : Sdk) (sdkdom : PRL_HANDLE)
    (def def' : virDomainDef) (w w' : world) :
  prlsdkAddDomainVideoInfo sdk sdkdom def w = Ok def' w' ->
  exists videos, def' = set_def_videos videos def.
Proof.
  unfold prlsdkAddDomainVideoInfo. intros H. inv_Ok H; eauto.
Qed.

Lemma IS_CT_set_def_disks (disks : list virDomainDiskDef) (def : virDomainDef) :
  IS_CT (set_def_disks disks def) = IS_CT def.
Proof. reflexivity. Qed.

Lemma prlsdkAddDomainHardDisksInfo_loop_shape (sdk : Sdk) (sdkdom : PRL_HANDLE)
    (n : nat) (i : Z) (def def' : virDomainDef) (w w' : world) :
  prlsdkAddDomainHardDisksInfo_loop sdk sdkdom n i def w = Ok def' w' ->
  exists disks,
    def' = set_def_disks (def_disks def ++ disks) def /\
    length disks = (if IS_CT def then 0%nat else n).
Proof.
  revert i def w. induction n as [|n IH]; intros i def w H;
    cbn [prlsdkAddDomainHardDisksInfo_loop] in H.
  - injection H as <- <-. exists []. rewrite app_nil_r.
    split; [destruct def; reflexivity | destruct (IS_CT def); reflexivity].
  - inv_Ok H;
      apply IH in H; destruct H as (disks & -> & Hlen);
      rewrite ?IS_CT_set_def_disks in Hlen;
      match goal with E : IS_CT def = _ |- _ => rewrite E in *  end.
    + exists disks. split; [reflexivity | exact Hlen].
    + match goal with
      | E : or_else (prlsdkGetDiskInfo _ _ _) _ _ = Ok ?d _ |- _ =>
          exists (d :: disks)
      end.
      cbn [def_disks set_def_disks]. rewrite <- app_assoc.
      split; [reflexivity|]. cbn [length]. rewrite Hlen. reflexivity.
Qed.

Lemma prlsdkAddDomainHardDisksInfo_shape (sdk : Sdk) (sdkdom : PRL_HANDLE)
    (def def' : virDomainDef) (w w' : world) :
  prlsdkAddDomainHardDisksInfo sdk sdkdom def w = Ok def' w' ->
  exists disks,
    def' = set_def_disks (def_disks def ++ disks) def /\
    length disks =
      (if IS_CT def then 0%nat
       else Z.to_nat (PrlVmCfg_GetHardDisksCount sdk sdkdom).2).
Proof.
  unfold prlsdkAddDomainHardDisksInfo. intros H. inv_Ok H.
  apply prlsdkAddDomainHardDisksInfo_loop_shape in H. exact H.
Qed.

Lemma prlsdkAddDomainNetInfo_loop_shape (sdk : Sdk) (host : Host)
    (sdkdom : PRL_HANDLE) (n : nat) (i : Z) (def def' : virDomainDef)
    (w w' : world) :
  prlsdkAddDomainNetInfo_loop sdk host sdkdom n i def w = Ok def' w' ->
  exists nets, def' = set_def_nets nets def.
Proof.
  revert i def w. induction n as [|n IH]; intros i def w H;
    cbn [prlsdkAddDomainNetInfo_loop] in H.
  - injection H as <- <-. exists (def_nets def). destruct def; reflexivity.
  - inv_Ok H. apply IH in H. destruct H as (nets & ->). eauto.
Qed.

Lemma prlsdkAddDomainNetInfo_shape (sdk : Sdk) (host : Host)
    (sdkdom : PRL_HANDLE) (def def' : virDomainDef) (w w' : world) :
  prlsdkAddDomainNetInfo sdk host sdkdom def w = Ok def' w' ->
  exists nets, def' = set_def_nets nets def.
Proof.
  unfold prlsdkAddDomainNetInfo. intros H. inv_Ok H.
  eapply prlsdkAddDomainNetInfo_loop_shape. exact H.
Qed.

(** The hardware lists are the only fields [prlsdkAddDomainHardware]
    assigns; a container gets neither a video device nor a disk. *)
Lemma prlsdkAddDomainHardware_shape (sdk : Sdk) (host : Host)
    (sdkdom : PRL_HANDLE) (def def' : virDomainDef) (w w' : world) :
  prlsdkAddDomainHardware sdk host sdkdom def w = Ok def' w' ->
  exists videos disks nets serials,
    def' = set_def_serials serials
             (set_def_nets nets
                (set_def_disks (def_disks def ++ disks)
                   (set_def_videos videos def))) /\
    length disks =
      (if IS_CT def then 0%nat
       else Z.to_nat (PrlVmCfg_GetHardDisksCount sdk sdkdom).2) /\
    (IS_CT def = true -> videos = def_videos def).
Proof.
  unfold prlsdkAddDomainHardware. intros H.
  destruct (IS_CT def) eqn:Hct; cbn [negb] in H; inv_Ok H.
  - match goal with E : mret _ _ = Ok _ _ |- _ => injection E as <- <- end.
    match goal with E : prlsdkAddDomainHardDisksInfo _ _ _ _ = _ |- _ =>
      apply prlsdkAddDomainHardDisksInfo_shape in E;
      destruct E as (disks & -> & Hlen) end.
    match goal with E : prlsdkAddDomainNetInfo _ _ _ _ _ = _ |- _ =>
      apply prlsdkAddDomainNetInfo_shape in E; destruct E as (nets & ->) end.
    rewrite Hct in Hlen.
    exists (def_videos def), disks, nets. eexists.
    split; [destruct def; reflexivity|]. split; [exact Hlen | reflexivity].
  - match goal with E : prlsdkAddDomainVideoInfo _ _ _ _ = _ |- _ =>
      apply prlsdkAddDomainVideoInfo_shape in E; destruct E as (videos & ->) end.
    match goal with E : prlsdkAddDomainHardDisksInfo _ _ _ _ = _ |- _ =>
      apply prlsdkAddDomainHardDisksInfo_shape in E;
      destruct E as (disks & -> & Hlen) end.
    match goal with E : prlsdkAddDomainNetInfo _ _ _ _ _ = _ |- _ =>
      apply prlsdkAddDomainNetInfo_shape in E; destruct E as (nets & ->) end.
    change (IS_CT (set_def_videos videos def)) with (IS_CT def) in Hlen.
    rewrite Hct in Hlen.
    exists videos, disks, nets. eexists. split; [reflexivity|].
    split; [exact Hlen | discriminate].
Qed.

(** ** The definition built from a snapshot *)

Lemma prlsdkGetDomainIds_at (sdk : Sdk) (sdkdom : PRL_HANDLE)
    (name : string) (uuid : uuid_t) (w w' : world) :
  prlsdkGetDomainIds sdk sdkdom w = Ok (name, uuid) w' ->
  prlsdkUUIDParse (list_ascii_of_string (PrlVmCfg_GetUuid sdk sdkdom).2) w
  = Ok uuid w'.
Proof.
  unfold prlsdkGetDomainIds. intros H. inv_Ok H.
  repeat match goal with
  | E : prlsdkCheckRetGoto _ _ _ = Ok _ _ |- _ =>
      apply prlsdkCheckRetGoto_Ok in E; destruct E as [_ ->]
  end.
  cbn [snd]. assumption.
Qed.

Lemma prlsdkLoadDomain_build_shape (sdk : Sdk) (host : Host)
    (sdkdom : PRL_HANDLE) (def0 def : virDomainDef)
    (pdom0 pdom : parallelsDomObj) (envId : PRL_UINT32) (w w' : world) :
  prlsdkLoadDomain_build sdk host sdkdom def0 pdom0 w = Ok (def, pdom, envId) w' ->
  (exists name w1, prlsdkGetDomainIds sdk sdkdom w = Ok (name, def_uuid def) w1) /\
  def_id def = def_id def0 /\
  def_mem_max_balloon def = shl10_uint32 (PrlVmCfg_GetRamSize sdk sdkdom).2 /\
  envId = (PrlVmCfg_GetEnvId sdk sdkdom).2 /\
  def_graphics def =
    (if decide ((PrlVmCfg_GetVNCMode sdk sdkdom).2 = PRD_DISABLED)
     then def_graphics def0
     else def_graphics def0 ++ [vnc_graphics sdk sdkdom]) /\
  match (PrlVmCfg_GetVmType sdk sdkdom).2 with
  | PVT_VM =>
      def_os_type def = Some "hvm"%string /\
      length (def_disks def) =
        (length (def_disks def0) +
         Z.to_nat (PrlVmCfg_GetHardDisksCount sdk sdkdom).2)%nat
  | PVT_CT =>
      def_os_type def = Some "exe"%string /\
      def_disks def = def_disks def0 /\
      def_videos def = def_videos def0
  | PVT_other _ => False
  end.
Proof.
  unfold prlsdkLoadDomain_build. intros H. inv_Ok H. cbn [snd].
  repeat match goal with
  | E : prlsdkConvertCpuInfo _ _ _ _ _ _ = Ok _ _ |- _ =>
      apply prlsdkConvertCpuInfo_shape in E; destruct E as (? & ? & -> & ->)
  | E : prlsdkConvertCpuMode _ _ _ _ = Ok _ _ |- _ =>
      apply prlsdkConvertCpuMode_shape in E; destruct E as (? & ->)
  | E : prlsdkAddDomainHardware _ _ _ _ _ = Ok _ _ |- _ =>
      apply prlsdkAddDomainHardware_shape in E;
      destruct E as (videos & disks & nets & serials & -> & Hdisks & Hvideos)
  | E : prlsdkAddVNCInfo _ _ _ _ = Ok _ _ |- _ =>
      apply prlsdkAddVNCInfo_shape in E; destruct E as [Hoff Hon]
  | E : prlsdkConvertDomainType _ _ _ _ = Ok _ _ |- _ =>
      apply prlsdkConvertDomainType_shape in E; rename E into Htype
  end.
  unfold IS_CT in Hdisks, Hvideos.
  destruct (decide ((PrlVmCfg_GetVNCMode sdk sdkdom).2 = PRD_DISABLED)) as [Hd|Hd];
    [rewrite (Hoff Hd) | rewrite (Hon Hd)]; clear Hoff Hon;
    (destruct (PrlVmCfg_GetVmType sdk sdkdom).2; [| |contradiction]);
    subst a3; def_fields; def_fields in Hdisks; def_fields in Hvideos;
    (split; [eauto|]); (split; [reflexivity|]); (split; [reflexivity|]);
    (split; [reflexivity|]); (split; [reflexivity|]).
  all: try (rewrite bool_decide_false in Hdisks by discriminate;
            split; [reflexivity|]; rewrite length_app, Hdisks; reflexivity).
  all: rewrite bool_decide_true in Hdisks, Hvideos by reflexivity;
    apply nil_length_inv in Hdisks; subst disks; rewrite app_nil_r;
    split; [reflexivity|]; split; [reflexivity|]; apply Hvideos; reflexivity.
Qed.

(** ** Disks of a container *)

Lemma emit_Ok (e : event) (u : unit) (w w' : world) :
  emit e w = Ok u w' ->
  w_domains w' = w_domains w /\ w_objs w' = w_objs w /\
  w_trace w' = e :: w_trace w.
Proof.
  unfold emit. intros H. injection H as _ Hw. subst w'.
  split; [reflexivity|]. split; reflexivity.
Qed.

Lemma or_else_check_Ok (sdk : Sdk) (ret : PRL_RESULT) (c : M unit) (u : unit)
    (w w' : world) :
  or_else (prlsdkCheckRetGoto sdk ret) c w = Ok u w' ->
  PRL_FAILED sdk ret = false /\ w' = w.
Proof. intros H. apply or_else_Ok in H. eapply prlsdkCheckRetGoto_Ok, H. Qed.

Lemma prlsdkAddDomainHardDisksInfo_loop_container (sdk : Sdk)
    (sdkdom : PRL_HANDLE) (n : nat) (i : Z) (def def' : virDomainDef)
    (w w' : world) :
  IS_CT def = true ->
  prlsdkAddDomainHardDisksInfo_loop sdk sdkdom n i def w = Ok def' w' ->
  def' = def /\
  w_trace w' = skipped_disks sdk sdkdom n i ++ w_trace w.
Proof.
  intros Hct. revert i w. induction n as [|n IH]; intros i w H;
    cbn [prlsdkAddDomainHardDisksInfo_loop skipped_disks] in *.
  - apply mret_Ok in H. destruct H as [-> ->]. auto.
  - rewrite Hct in H.
    destruct (PrlVmCfg_GetHardDisk sdk sdkdom i) as [pret hdd]. cbn [snd].
    apply bind_Ok in H. destruct H as (? & w1 & Hcheck & H).
    apply or_else_check_Ok in Hcheck. destruct Hcheck as [_ ->].
    apply bind_Ok in H. destruct H as (? & w2 & Hwarn & H).
    apply emit_Ok in Hwarn. destruct Hwarn as (_ & _ & Ht2).
    apply bind_Ok in H. destruct H as (? & w3 & Hfree & H).
    apply emit_Ok in Hfree. destruct Hfree as (_ & _ & Ht3).
    apply IH in H. destruct H as [-> Ht].
    split; [reflexivity|]. rewrite Ht, Ht3, Ht2, <- app_assoc. reflexivity.
Qed.

(** ** The loader *)

Lemma get_obj_Ok (p : virDomainObjPtr) (o : virDomainObj) (w w' : world) :
  get_obj p w = Ok o w' -> w' = w /\ w_objs w !! p = Some o.
Proof.
  unfold get_obj. destruct (w_objs w !! p) as [o1|] eqn:E; [|discriminate].
  intros [= -> ->]. auto.
Qed.

Lemma update_obj_Ok (p : virDomainObjPtr) (f : virDomainObj -> virDomainObj)
    (u : unit) (w w' : world) :
  update_obj p f w = Ok u w' ->
  exists o, w_objs w !! p = Some o /\ w' = with_obj p (f o) w.
Proof.
  unfold update_obj. intros H. apply bind_Ok in H.
  destruct H as (o & w1 & Hget & Hset). apply get_obj_Ok in Hget.
  destruct Hget as [-> Ho]. injection Hset as <-. eauto.
Qed.

Lemma virDomainObjListAdd_Ok (def : virDomainDef) (dom : virDomainObjPtr)
    (w w' : world) :
  virDomainObjListAdd def w = Ok dom w' ->
  w_domains w' = <[def_uuid def := dom]> (w_domains w) /\
  (exists o, w_objs w' !! dom = Some o /\ obj_def o = def) /\
  w_trace w' = EvListAdd (def_uuid def) dom :: w_trace w.
Proof.
  unfold virDomainObjListAdd.
  destruct (w_domains w !! def_uuid def) as [p|] eqn:Hd.
  - destruct (w_objs w !! p) as [o|] eqn:Ho; [|discriminate].
    intros [= <- <-]. cbn. split; [symmetry; apply insert_id; exact Hd|].
    split; [|reflexivity]. eexists. split; [apply lookup_insert_eq | reflexivity].
  - intros [= <- <-]. cbn. split; [reflexivity|].
    split; [|reflexivity]. eexists. split; [apply lookup_insert_eq | reflexivity].
Qed.

Lemma preserves_Ok {A} (R : relation world) (m : M A) (a : A) (w w' : world) :
  preserves R m -> m w = Ok a w' -> R w w'.
Proof. intros Hm H. specialize (Hm w). rewrite H in Hm. exact Hm. Qed.

Lemma preserves_Fail {A} (R : relation world) (m : M A) (w w' : world) :
  preserves R m -> m w = Fail w' -> R w w'.
Proof. intros Hm H. specialize (Hm w). rewrite H in Hm. exact Hm. Qed.

Lemma prlsdkLoadDomain_finish_ret (sdk : Sdk) (privconn : parallelsConn)
    (sdkdom : PRL_HANDLE) (dom d : virDomainObjPtr) (pdom : parallelsDomObj)
    (envId : PRL_UINT32) (w w' : world) :
  prlsdkLoadDomain_finish sdk privconn sdkdom dom pdom envId w = Ok d w' ->
  d = dom.
Proof.
  unfold prlsdkLoadDomain_finish. intros H. inv_Ok H. reflexivity.
Qed.

(** A refresh, step by step. *)
Lemma prlsdkLoadDomain_refresh_run (sdk : Sdk) (host : Host)
    (privconn : parallelsConn) (sdkdom : PRL_HANDLE) (old : virDomainObjPtr)
    (o : virDomainObj) (w : world) :
  sdkdom <> PRL_INVALID_HANDLE ->
  w_objs w !! old = Some o ->
  prlsdkLoadDomain sdk host privconn sdkdom (Some old) w =
  match obj_privateData o with
  | None => Fault
  | Some pdom0 =>
      if obj_privateData_freed o then Fault
      else
        match prlsdkLoadDomain_build sdk host sdkdom fresh_def
                (set_pdom_uuid None pdom0) w with
        | Fault => Fault
        | Fail w1 =>
            Fail (with_obj old (set_obj_privateData_freed true o)
                    (after (EvHandleFree (pdom_sdkdom pdom0)) w1))
        | Ok (def, pdom, envId) w1 =>
            if obj_def_freed o then Fault
            else
              match obj_newDef o with
              | NewDefSameAsDef => Fault
              | NewDefNull | NewDefOther _ =>
                  match prlsdkLoadDomain_finish sdk privconn sdkdom old pdom envId
                          (with_obj old
                             (set_obj_newDef NewDefSameAsDef (set_obj_def def o))
                             w1) with
                  | Ok d w2 => Ok d w2
                  | Fail w2 => refresh_unwound old pdom w2
                  | Fault => Fault
                  end
              end
        end
  end.
Proof.
  intros Hsdk Ho. apply Z.eqb_neq in Hsdk.
  unfold prlsdkLoadDomain. rewrite Hsdk.
  unfold mbind at 1, M_bind at 1, bind at 1.
  unfold mbind at 1, M_bind at 1, bind at 1.
  unfold get_obj at 1. rewrite Ho.
  destruct (obj_privateData o) as [pdom0|]; [|reflexivity].
  destruct (obj_privateData_freed o); [reflexivity|].
  cbn [mret M_ret ret].
  change (set_def_id (-1) (set_def_virtType (Some VIR_DOMAIN_VIRT_PARALLELS)
                             virDomainDef_zero)) with fresh_def.
  unfold mbind at 1, M_bind at 1, bind at 1. unfold or_else at 1.
  pose proof (prlsdkLoadDomain_build_frame sdk host sdkdom fresh_def
                (set_pdom_uuid None pdom0) w) as Hframe.
  destruct (prlsdkLoadDomain_build sdk host sdkdom fresh_def
              (set_pdom_uuid None pdom0) w) as [[[def pdom] envId] w1|w1|];
    [| |reflexivity].
  - destruct Hframe as (_ & Hobjs & _).
    unfold mbind at 1, M_bind at 1, bind at 1.
    unfold mbind at 1, M_bind at 1, bind at 1.
    unfold get_obj at 1. rewrite Hobjs, Ho.
    unfold mbind at 1, M_bind at 1, bind at 1.
    unfold virDomainDefFree_slot.
    destruct (obj_def_freed o); [reflexivity|].
    assert (Hupd : forall k : unit -> M virDomainObjPtr,
      (update_obj old (fun o0 => set_obj_newDef NewDefSameAsDef (set_obj_def def o0))
         ≫= k) w1
      = k tt (with_obj old (set_obj_newDef NewDefSameAsDef (set_obj_def def o)) w1)).
    { intros k. unfold mbind, M_bind, bind.
      rewrite (update_obj_at old _ o w1) by (rewrite Hobjs; exact Ho).
      reflexivity. }
    destruct (obj_newDef o); [|reflexivity|]; cbn [mret M_ret ret];
      rewrite Hupd; cbn [mret M_ret ret]; unfold or_else;
      (destruct (prlsdkLoadDomain_finish sdk privconn sdkdom old pdom envId _)
         as [dd w2|w2|]; [reflexivity| |reflexivity]);
      unfold refresh_unwound, prlsdkDomObjFreePrivate, update_obj, get_obj,
        PrlHandle_Free, emit, mbind, M_bind, bind;
      (destruct (w_objs w2 !! old) as [o2|] eqn:Ho2; [|reflexivity]);
      cbn; rewrite lookup_insert_eq; cbn;
      unfold with_obj, after; cbn; rewrite insert_insert_eq; reflexivity.
  - destruct Hframe as (_ & Hobjs & _).
    unfold prlsdkDomObjFreePrivate, update_obj, get_obj, PrlHandle_Free, emit,
      mbind, M_bind, bind. cbn. rewrite Hobjs, Ho. cbn.
    unfold with_obj, after. cbn. rewrite Hobjs. reflexivity.
Qed.

Lemma prlsdkLoadDomain_refresh_no_slot (sdk : Sdk) (host : Host)
    (privconn : parallelsConn) (sdkdom : PRL_HANDLE) (old : virDomainObjPtr)
    (w : world) :
  sdkdom <> PRL_INVALID_HANDLE ->
  w_objs w !! old = None ->
  prlsdkLoadDomain sdk host privconn sdkdom (Some old) w = Fault.
Proof.
  intros Hsdk Ho. apply Z.eqb_neq in Hsdk.
  unfold prlsdkLoadDomain. rewrite Hsdk.
  unfold mbind at 1, M_bind at 1, bind at 1.
  unfold mbind at 1, M_bind at 1, bind at 1.
  unfold get_obj at 1. rewrite Ho. reflexivity.
Qed.

(** A refresh that returns or fails was given a snapshot handle and a
    slot that holds an object. *)
Lemma prlsdkLoadDomain_refresh_slot (sdk : Sdk) (host : Host)
    (privconn : parallelsConn) (sdkdom : PRL_HANDLE)
    (old dom : virDomainObjPtr) (w w' : world) :
  prlsdkLoadDomain sdk host privconn sdkdom (Some old) w = Ok dom w' ->
  sdkdom <> PRL_INVALID_HANDLE /\ exists o, w_objs w !! old = Some o.
Proof.
  intros H.
  assert (Hsdk : sdkdom <> PRL_INVALID_HANDLE).
  { intros ->. unfold prlsdkLoadDomain in H. cbn in H. discriminate H. }
  split; [exact Hsdk|].
  destruct (w_objs w !! old) as [o|] eqn:Ho; [eauto|].
  rewrite (prlsdkLoadDomain_refresh_no_slot _ _ _ _ _ _ Hsdk Ho) in H.
  discriminate H.
Qed.

(** A run of [prlsdkLoadDomain] that returns a domain has built the
    definition from the snapshot; the domain returned holds it, up to
    the instance id that the state mapper assigns. *)
Lemma prlsdkLoadDomain_Ok (sdk : Sdk) (host : Host) (privconn : parallelsConn)
    (sdkdom : PRL_HANDLE) (olddom : option virDomainObjPtr)
    (dom : virDomainObjPtr) (w w' : world) :
  prlsdkLoadDomain sdk host privconn sdkdom olddom w = Ok dom w' ->
  exists pdom0 def pdom envId w1 o',
    prlsdkLoadDomain_build sdk host sdkdom fresh_def
      (set_pdom_uuid None pdom0) w = Ok (def, pdom, envId) w1 /\
    w_objs w' !! dom = Some o' /\
    set_def_id 0 (obj_def o') = set_def_id 0 def /\
    match olddom with
    | Some old =>
        dom = old /\ w_domains w' = w_domains w /\
        exists o, w_objs w !! old = Some o /\ obj_privateData o = Some pdom0
    | None =>
        pdom0 = parallelsDomObj_zero /\
        w_domains w' = <[def_uuid def := dom]> (w_domains w)
    end.
Proof.
  intros H. destruct olddom as [old|].
  - (* refresh *)
    destruct (prlsdkLoadDomain_refresh_slot _ _ _ _ _ _ _ _ H) as (Hsdk & o & Ho).
    rewrite (prlsdkLoadDomain_refresh_run _ _ _ _ _ _ _ Hsdk Ho) in H.
    destruct (obj_privateData o) as [pdom0|] eqn:Hpriv; [|discriminate H].
    destruct (obj_privateData_freed o); [discriminate H|].
    destruct (prlsdkLoadDomain_build sdk host sdkdom fresh_def
                (set_pdom_uuid None pdom0) w)
      as [[[def pdom] envId] w1|w1|] eqn:Hbuild; try discriminate H.
    destruct (obj_def_freed o); [discriminate H|].
    pose proof (preserves_Ok _ _ _ _ _
                  (prlsdkLoadDomain_build_frame _ _ _ _ _) Hbuild)
      as (Hdom1 & Hobj1 & _).
    assert (Hfin : prlsdkLoadDomain_finish sdk privconn sdkdom old pdom envId
                     (with_obj old
                        (set_obj_newDef NewDefSameAsDef (set_obj_def def o)) w1)
                   = Ok dom w').
    { destruct (obj_newDef o); try discriminate H;
        (destruct (prlsdkLoadDomain_finish sdk privconn sdkdom old pdom envId _)
           as [dd w2|w2|]; [exact H| |discriminate H]);
        unfold refresh_unwound in H; destruct (w_objs w2 !! old); discriminate H. }
    clear H.
    pose proof (prlsdkLoadDomain_finish_ret _ _ _ _ _ _ _ _ _ Hfin) as ->.
    pose proof (preserves_Ok _ _ _ _ _
                  (prlsdkLoadDomain_finish_touches _ _ _ _ _ _) Hfin)
      as (Hdom2 & _ & Hobj2 & _).
    destruct (Hobj2 _ (lookup_insert_eq _ _ _)) as (o' & Ho' & Hsame).
    exists pdom0, def, pdom, envId, w1, o'.
    split; [exact Hbuild|]. split; [exact Ho'|].
    split; [exact (proj1 Hsame)|]. split; [reflexivity|].
    split; [rewrite Hdom2; exact Hdom1|]. eauto.
  - (* fresh discovery *)
    unfold prlsdkLoadDomain in H.
    destruct (sdkdom =? PRL_INVALID_HANDLE); [inv_Ok H|].
    inv_Ok H. inv_all.
    match goal with E : virDomainObjListAdd _ _ = Ok _ _ |- _ =>
      apply virDomainObjListAdd_Ok in E;
      destruct E as (Hdom & (o1 & Ho1 & Hdef1) & _) end.
    match goal with E : prlsdkLoadDomain_build _ _ _ _ _ _ = Ok _ ?w1 |- _ =>
      pose proof (preserves_Ok _ _ _ _ _
                    (prlsdkLoadDomain_build_frame _ _ _ _ _) E)
        as (Hdom1 & Hobj1 & _) end.
    pose proof (prlsdkLoadDomain_finish_ret _ _ _ _ _ _ _ _ _ H) as ->.
    pose proof (preserves_Ok _ _ _ _ _
                  (prlsdkLoadDomain_finish_touches _ _ _ _ _ _) H)
      as (Hdom2 & _ & Hobj2 & _).
    destruct (Hobj2 _ Ho1) as (o' & Ho' & Hsame).
    do 6 eexists. split; [eassumption|]. split; [exact Ho'|].
    split; [rewrite (proj1 Hsame), Hdef1; reflexivity|].
    split; [reflexivity|]. rewrite Hdom2, Hdom, Hdom1. reflexivity.
Qed.

(** C7: with the VNC mode disabled [prlsdkAddVNCInfo] returns the
    definition as it was, and with any other mode it appends one
    display descriptor: autoport exactly for the mode auto, the port of
    the snapshot, one listen entry with the host address of the
    snapshot.  Hence the domain object of a successful reconciliation
    has no display descriptor when the mode is disabled and exactly
    this one otherwise. *)
Theorem prlsdkAddVNCInfo_spec (sdk : Sdk) (host : Host)
    (privconn : parallelsConn) (sdkdom : PRL_HANDLE) :
  let vncMode := (PrlVmCfg_GetVNCMode sdk sdkdom).2 in
  (forall def def' w w',
     prlsdkAddVNCInfo sdk sdkdom def w = Ok def' w' ->
     (vncMode = PRD_DISABLED -> def' = def) /\
     (vncMode <> PRD_DISABLED ->
      def' = set_def_graphics (def_graphics def ++ [vnc_graphics sdk sdkdom]) def)) /\
  (forall olddom dom w w',
     prlsdkLoadDomain sdk host privconn sdkdom olddom w = Ok dom w' ->
     exists o',
       w_objs w' !! dom = Some o' /\
       (vncMode = PRD_DISABLED -> def_graphics (obj_def o') = []) /\
       (vncMode <> PRD_DISABLED ->
        def_graphics (obj_def o') = [vnc_graphics sdk sdkdom])) /\
  gr_vnc_autoport (vnc_graphics sdk sdkdom) = bool_decide (vncMode = PRD_AUTO) /\
  gr_vnc_port (vnc_graphics sdk sdkdom)
  = int_of_uint32 (PrlVmCfg_GetVNCPort sdk sdkdom).2 /\
  gr_listens (vnc_graphics sdk sdkdom)
  = [{| listen_type := Some VIR_DOMAIN_GRAPHICS_LISTEN_TYPE_ADDRESS;
        listen_address := Some (PrlVmCfg_GetVNCHostName sdk sdkdom true).2 |}].
Proof.
  intros vncMode. split; [|split; [|repeat split]].
  - intros def def' w w' H. exact (prlsdkAddVNCInfo_shape _ _ _ _ _ _ H).
  - intros olddom dom w w' H.
    destruct (prlsdkLoadDomain_Ok _ _ _ _ _ _ _ _ H)
      as (pdom0 & def & pdom & envId & w1 & o' & Hbuild & Ho' & Hdef & _).
    exists o'. split; [exact Ho'|].
    apply prlsdkLoadDomain_build_shape in Hbuild.
    destruct Hbuild as (_ & _ & _ & _ & Hgr & _).
    change (def_graphics (obj_def o'))
      with (def_graphics (set_def_id 0 (obj_def o'))).
    rewrite Hdef. change (def_graphics (set_def_id 0 def)) with (def_graphics def).
    rewrite Hgr. subst vncMode.
    destruct (decide ((PrlVmCfg_GetVNCMode sdk sdkdom).2 = PRD_DISABLED));
      split; intros; try reflexivity; contradiction.
Qed.

(** ** Fresh discovery *)



Lemma def_uuid_upto_id (d d' : virDomainDef) :
  set_def_id 0 d' = set_def_id 0 d -> def_uuid d' = def_uuid d.
Proof.
  intros H. change (def_uuid (set_def_id 0 d') = def_uuid (set_def_id 0 d)).
  rewrite H. reflexivity.
Qed.





(** ** The job protocol, case by case *)

Lemma after_all_nil (w : world) : after_all [] w = w.
Proof. destruct w; reflexivity. Qed.

Lemma after_all_app (evs1 evs2 : list event) (w : world) :
  after_all (evs1 ++ evs2) w = after_all evs1 (after_all evs2 w).
Proof. unfold after_all. cbn. rewrite app_assoc. reflexivity. Qed.

(** Every way [getJobResultHelper] can go: it returns, the job handle
    is the last handle released, and what precedes are the errors
    reported and the release of an error or result handle. *)
Lemma getJobResultHelper_cases (sdk : Sdk) (job : PRL_HANDLE) (timeout : Z)
    (w : world) :
  exists result evs,
    getJobResultHelper sdk job timeout w
    = Ok result (after_all (EvHandleFree job :: evs) w) /\
    Forall quiet_event evs /\
    (job_done sdk job timeout = true ->
     result = (PrlJob_GetResult sdk job).2 /\ evs = []) /\
    (job_done sdk job timeout = false ->
     result = PRL_INVALID_HANDLE /\
     exists msg, EvReport VIR_ERR_INTERNAL_ERROR msg ∈ evs).
Proof.
  unfold job_done, getJobResultHelper, logPrlEventErrorHelper, logPrlError.
  destruct (PrlJob_GetError sdk job) as [ret1 err_handle].
  destruct (PrlJob_GetResult sdk job) as [ret2 result].
  destruct (PrlJob_GetRetCode sdk job) as [ret retCode].
  cbn [fst snd].
  destruct (PrlJob_Wait sdk job timeout =? 0); cbn [negb andb].
  2: { exists PRL_INVALID_HANDLE, [sdk_error sdk (PrlJob_Wait sdk job timeout)].
       split; [reflexivity|]. split; [repeat constructor|].
       split; [discriminate|]. intros _. split; [reflexivity|].
       eexists. apply list_elem_of_here. }
  destruct (ret =? 0); cbn [negb andb].
  2: { exists PRL_INVALID_HANDLE, [sdk_error sdk ret].
       split; [reflexivity|]. split; [repeat constructor|].
       split; [discriminate|]. intros _. split; [reflexivity|].
       eexists. apply list_elem_of_here. }
  destruct (retCode =? 0); cbn [negb andb].
  - destruct (PRL_FAILED sdk ret2); cbn [negb].
    + exists PRL_INVALID_HANDLE, [EvHandleFree result; sdk_error sdk ret2].
      split; [reflexivity|]. split; [repeat constructor|].
      split; [discriminate|]. intros _. split; [reflexivity|].
      eexists. apply list_elem_of_further, list_elem_of_here.
    + exists result, []. split; [reflexivity|]. split; [constructor|].
      split; [auto|discriminate].
  - destruct (ret1 =? 0); cbn [negb].
    2: { exists PRL_INVALID_HANDLE, [sdk_error sdk ret1].
         split; [reflexivity|]. split; [repeat constructor|].
         split; [discriminate|]. intros _. split; [reflexivity|].
         eexists. apply list_elem_of_here. }
    destruct (PrlEvent_GetErrCode sdk err_handle) as [ret3 code] eqn:E.
    destruct (ret3 =? 0) eqn:E3.
    + exists PRL_INVALID_HANDLE,
        [EvHandleFree err_handle; sdk_event_error sdk err_handle].
      split; [reflexivity|]. split; [repeat constructor|].
      split; [discriminate|]. intros _. split; [reflexivity|].
      eexists. apply list_elem_of_further, list_elem_of_here.
    + exists PRL_INVALID_HANDLE,
        [EvHandleFree err_handle; sdk_error sdk retCode; sdk_error sdk ret3].
      split; [unfold mbind, M_bind, bind; cbn; rewrite E3; reflexivity|].
      split; [repeat constructor|].
      split; [discriminate|]. intros _. split; [reflexivity|].
      eexists. apply list_elem_of_further, list_elem_of_here.
Qed.

(** X1: awaiting a job always returns.  When the job completed with a
    result, that result is returned, nothing is reported and the job
    handle is the only handle released; in every other case the null
    handle is returned after at least one error was reported, and the
    release of the job handle is the last thing done. *)
Theorem getJobResultHelper_outcome (sdk : Sdk) (job : PRL_HANDLE)
    (timeout : Z) (w : world) :
  (job_done sdk job timeout = true ->
   getJobResultHelper sdk job timeout w
   = Ok (PrlJob_GetResult sdk job).2 (after (EvHandleFree job) w)) /\
  (job_done sdk job timeout = false ->
   exists evs msg,
     getJobResultHelper sdk job timeout w
     = Ok PRL_INVALID_HANDLE (after (EvHandleFree job) (after_all evs w)) /\
     Forall quiet_event evs /\
     EvReport VIR_ERR_INTERNAL_ERROR msg ∈ evs).
Proof.
  destruct (getJobResultHelper_cases sdk job timeout w)
    as (result & evs & Hrun & Hq & Hdone & Hnot).
  split; intros Hd.
  - destruct (Hdone Hd) as [-> ->]. exact Hrun.
  - destruct (Hnot Hd) as [-> [msg Hmsg]]. exists evs, msg. auto.
Qed.

Lemma bind_run_Ok {A B} (m : M A) (k : A -> M B) (w w1 : world) (a : A) :
  m w = Ok a w1 -> (m ≫= k) w = k a w1.
Proof. unfold mbind, M_bind, bind. intros ->. reflexivity. Qed.

(** X2: [waitJobHelper] succeeds exactly when the job completed with a
    result that is not the null handle, and then it has released the job
    handle and the result handle and reported nothing.  A job that
    completed with the null handle as its result makes it fail without
    any error reported; every other failure has reported an error.  The
    job handle is released in all cases. *)
Theorem waitJobHelper_outcome (sdk : Sdk) (job : PRL_HANDLE) (timeout : Z)
    (w : world) :
  let result := (PrlJob_GetResult sdk job).2 in
  (job_done sdk job timeout = true -> result <> PRL_INVALID_HANDLE ->
   waitJobHelper sdk job timeout w
   = Ok tt (after_all [EvHandleFree result; EvHandleFree job] w)) /\
  (job_done sdk job timeout = true -> result = PRL_INVALID_HANDLE ->
   waitJobHelper sdk job timeout w = Fail (after (EvHandleFree job) w)) /\
  (job_done sdk job timeout = false ->
   exists evs msg,
     waitJobHelper sdk job timeout w
     = Fail (after (EvHandleFree job) (after_all evs w)) /\
     Forall quiet_event evs /\
     EvReport VIR_ERR_INTERNAL_ERROR msg ∈ evs).
Proof.
  intros result. unfold waitJobHelper.
  destruct (getJobResultHelper_cases sdk job timeout w)
    as (r & evs & Hrun & Hq & Hdone & Hnot).
  rewrite (bind_run_Ok _ _ _ _ _ Hrun).
  split; [|split].
  - intros Hd Hr. destruct (Hdone Hd) as [-> ->].
    apply Z.eqb_neq in Hr. fold result. rewrite Hr. reflexivity.
  - intros Hd Hr. destruct (Hdone Hd) as [-> ->].
    fold result. rewrite Hr. reflexivity.
  - intros Hd. destruct (Hnot Hd) as [-> [msg Hmsg]].
    exists evs, msg. auto.
Qed.

(** X3: what is reported for a job that ended with a return code other
    than zero, once its error event was fetched: the texts of the event
    when its error code can be read; otherwise the failure of that
    query and then the return code of the job.  The event handle is
    released, then the job handle, and the null handle is returned. *)
Theorem getJobResultHelper_job_error (sdk : Sdk) (job : PRL_HANDLE)
    (timeout : Z) (w : world) :
  let retCode := (PrlJob_GetRetCode sdk job).2 in
  let err_handle := (PrlJob_GetError sdk job).2 in
  let ret := (PrlEvent_GetErrCode sdk err_handle).1 in
  PrlJob_Wait sdk job timeout = 0 ->
  (PrlJob_GetRetCode sdk job).1 = 0 ->
  retCode <> 0 ->
  (PrlJob_GetError sdk job).1 = 0 ->
  getJobResultHelper sdk job timeout w
  = Ok PRL_INVALID_HANDLE
      (after_all
         (EvHandleFree job :: EvHandleFree err_handle ::
          (if ret =? 0 then [sdk_event_error sdk err_handle]
           else [sdk_error sdk retCode; sdk_error sdk ret]))
         w).
Proof.
  intros retCode err_handle ret. subst retCode err_handle ret.
  unfold getJobResultHelper, logPrlEventErrorHelper, logPrlError.
  destruct (PrlJob_GetRetCode sdk job) as [ret0 retCode].
  destruct (PrlJob_GetError sdk job) as [ret1 err_handle].
  cbn [fst snd]. intros -> -> Hcode ->.
  apply Z.eqb_neq in Hcode. rewrite Hcode. cbn [Z.eqb negb].
  destruct (PrlEvent_GetErrCode sdk err_handle) as [ret3 code].
  cbn [fst]. destruct (ret3 =? 0) eqn:E3; [reflexivity|].
  unfold mbind, M_bind, bind; cbn. rewrite E3. reflexivity.
Qed.

(** ** Connecting and disconnecting *)

(** X4: [prlsdkConnect] fails with one error reported and nothing to
    release when the server handle cannot be created.  Otherwise it
    issues the login job on the new server handle: when that job
    completes with a result the connection holds the server handle,
    which is not released; when it does not, the server handle is
    released after the job handle and the call fails. *)
Theorem prlsdkConnect_outcome (sdk : Sdk) (privconn : parallelsConn)
    (w : world) :
  let created := (PrlSrv_Create sdk).1 in
  let srv := (PrlSrv_Create sdk).2 in
  let job := PrlSrv_LoginLocalEx_job sdk srv in
  let login := EvJob (JobLoginLocalEx srv) job in
  let result := (PrlJob_GetResult sdk job).2 in
  let logged_in :=
    job_done sdk job (jobTimeout privconn) &&
    negb (result =? PRL_INVALID_HANDLE) in
  (PRL_FAILED sdk created = true ->
   prlsdkConnect sdk privconn w = Fail (after (sdk_error sdk created) w)) /\
  (PRL_FAILED sdk created = false -> logged_in = true ->
   prlsdkConnect sdk privconn w
   = Ok {| server := srv; jobTimeout := jobTimeout privconn |}
        (after_all [EvHandleFree result; EvHandleFree job; login] w)) /\
  (PRL_FAILED sdk created = false -> logged_in = false ->
   exists evs,
     prlsdkConnect sdk privconn w
     = Fail (after_all
               (EvHandleFree srv :: EvHandleFree job :: evs ++ [login]) w) /\
     Forall quiet_event evs).
Proof.
  intros created srv job login result logged_in.
  subst created srv job login result logged_in.
  unfold prlsdkConnect, PrlSrv_LoginLocalEx, waitJob, waitJobHelper.
  destruct (PrlSrv_Create sdk) as [created srv]. cbn [fst snd server jobTimeout].
  split; [intros ->; reflexivity|].
  set (job := PrlSrv_LoginLocalEx_job sdk srv).
  destruct (getJobResultHelper_cases sdk job (jobTimeout privconn)
              (after (EvJob (JobLoginLocalEx srv) job) w))
    as (r & evs & Hrun & Hq & Hdone & Hnot).
  split; intros -> Hlog.
  - apply andb_true_iff in Hlog. destruct Hlog as [Hd Hr].
    destruct (Hdone Hd) as [-> ->].
    unfold mbind, M_bind, bind, or_else. cbn [emit mret M_ret ret].
    fold job. unfold after in Hrun. rewrite Hrun, Hr. reflexivity.
  - destruct (job_done sdk job (jobTimeout privconn)) eqn:Hd.
    + destruct (Hdone eq_refl) as [-> ->]. cbn [andb] in Hlog.
      exists []. split; [|constructor].
      unfold mbind, M_bind, bind, or_else. cbn [emit mret M_ret ret].
      fold job. unfold after in Hrun. rewrite Hrun, Hlog. reflexivity.
    + destruct (Hnot eq_refl) as [-> _].
      exists evs. split; [|exact Hq].
      unfold mbind, M_bind, bind, or_else. cbn [emit mret M_ret ret].
      fold job. unfold after in Hrun. rewrite Hrun. cbn.
      unfold after_all. cbn. rewrite <- app_assoc. reflexivity.
Qed.

(** X5: [prlsdkDisconnect] always returns, whether or not the logoff
    job succeeds: it issues the logoff job on the server handle, awaits
    it (which releases the job handle), and the release of the server
    handle is the last thing it does. *)
Theorem prlsdkDisconnect_outcome (sdk : Sdk) (privconn : parallelsConn)
    (w : world) :
  let srv := server privconn in
  let job := PrlSrv_Logoff_job sdk srv in
  exists evs,
    prlsdkDisconnect sdk privconn w
    = Ok tt (after_all (EvHandleFree srv :: evs ++ [EvJob (JobLogoff srv) job]) w) /\
    Forall quiet_event evs /\
    EvHandleFree job ∈ evs.
Proof.
  intros srv job. subst srv.
  unfold prlsdkDisconnect, PrlSrv_Logoff, waitJob, waitJobHelper.
  fold job.
  destruct (getJobResultHelper_cases sdk job (jobTimeout privconn)
              (after (EvJob (JobLogoff (server privconn)) job) w))
    as (r & evs & Hrun & Hq & _).
  destruct (r =? PRL_INVALID_HANDLE) eqn:Hr.
  - exists (EvHandleFree job :: evs).
    split; [|split; [constructor; [exact I|exact Hq]|apply list_elem_of_here]].
    unfold mbind, M_bind, bind, attempt. cbn [emit mret M_ret ret].
    unfold after in Hrun. rewrite Hrun, Hr. cbn.
    unfold after_all. cbn. rewrite <- app_assoc. reflexivity.
  - exists (EvHandleFree r :: EvHandleFree job :: evs).
    split; [|split; [repeat constructor; exact Hq
                    |apply list_elem_of_further, list_elem_of_here]].
    unfold mbind, M_bind, bind, attempt. cbn [emit mret M_ret ret].
    unfold after in Hrun. rewrite Hrun, Hr. cbn.
    unfold after_all. cbn. rewrite <- app_assoc. reflexivity.
Qed.

(** ** Queries that go through a job *)

(** Every way the lookup of a snapshot can go. *)
Lemma prlsdkSdkDomainLookup_cases (sdk : Sdk) (privconn : parallelsConn)
    (id : string) (flags : Z) (w : world) :
  let job := PrlSrv_GetVmConfig_job sdk (server privconn) id flags in
  let query := EvJob (JobGetVmConfig id flags) job in
  let done := job_done sdk job (jobTimeout privconn) in
  let result := (PrlJob_GetResult sdk job).2 in
  let param := PrlResult_GetParamByIndex sdk result 0 in
  let found :=
    done && negb (result =? PRL_INVALID_HANDLE) &&
    negb (PRL_FAILED sdk param.1) in
  (found = true ->
   prlsdkSdkDomainLookup sdk privconn id flags w
   = Ok param.2 (after_all [EvHandleFree result; EvHandleFree job; query] w)) /\
  (found = false ->
   exists evs,
     prlsdkSdkDomainLookup sdk privconn id flags w
     = Fail (after_all
               (EvHandleFree (if done then result else PRL_INVALID_HANDLE)
                  :: evs ++ [query]) w) /\
     Forall quiet_event evs /\ EvHandleFree job ∈ evs).
Proof.
  intros job query done result param found.
  subst query done result param found.
  unfold prlsdkSdkDomainLookup, PrlSrv_GetVmConfig, getJobResult.
  fold job.
  destruct (getJobResultHelper_cases sdk job (jobTimeout privconn)
              (after (EvJob (JobGetVmConfig id flags) job) w))
    as (r & evs & Hrun & Hq & Hdone & Hnot).
  unfold after in Hrun.
  unfold mbind, M_bind, bind. cbn [emit mret M_ret ret]. rewrite Hrun.
  destruct (job_done sdk job (jobTimeout privconn)) eqn:Hd.
  - destruct (Hdone eq_refl) as [-> ->]. clear Hdone Hnot Hrun.
    set (result := (PrlJob_GetResult sdk job).2) in *.
    destruct (result =? PRL_INVALID_HANDLE) eqn:Hr; cbn [andb negb].
    + split; [discriminate|]. intros _.
      exists [EvHandleFree job].
      split; [|split; [repeat constructor|apply list_elem_of_here]].
      reflexivity.
    + destruct (PrlResult_GetParamByIndex sdk result 0) as [pret sdkdom].
      cbn [fst snd]. unfold or_else, prlsdkCheckRetGoto.
      destruct (PRL_FAILED sdk pret) eqn:Hp; cbn [negb].
      * split; [discriminate|]. intros _.
        exists [sdk_error sdk pret; EvHandleFree job].
        split; [|split; [repeat constructor
                        |apply list_elem_of_further, list_elem_of_here]].
        reflexivity.
      * split; [|discriminate]. intros _. reflexivity.
  - destruct (Hnot eq_refl) as [-> _]. cbn [andb].
    split; [discriminate|]. intros _.
    exists (EvHandleFree job :: evs).
    split; [|split; [constructor; [exact I|exact Hq]|apply list_elem_of_here]].
    cbn. unfold after_all. cbn. rewrite <- app_assoc. reflexivity.
Qed.

(** X6: [prlsdkSdkDomainLookup] issues one job, the query of the
    configuration by [id] and [flags].  It returns the first parameter
    of the job's result exactly when the job completed with a result
    other than the null handle and that parameter could be fetched;
    then it has released the job handle and the result handle and
    reported nothing.  In every other case it fails, and the last thing
    it did was to release the result handle, the null handle when the
    job gave none. *)
Theorem prlsdkSdkDomainLookup_outcome (sdk : Sdk) (privconn : parallelsConn)
    (id : string) (flags : Z) (w : world) :
  let job := PrlSrv_GetVmConfig_job sdk (server privconn) id flags in
  let query := EvJob (JobGetVmConfig id flags) job in
  let done := job_done sdk job (jobTimeout privconn) in
  let result := (PrlJob_GetResult sdk job).2 in
  let param := PrlResult_GetParamByIndex sdk result 0 in
  let found :=
    done && negb (result =? PRL_INVALID_HANDLE) &&
    negb (PRL_FAILED sdk param.1) in
  (found = true ->
   prlsdkSdkDomainLookup sdk privconn id flags w
   = Ok param.2 (after_all [EvHandleFree result; EvHandleFree job; query] w)) /\
  (found = false ->
   exists evs,
     prlsdkSdkDomainLookup sdk privconn id flags w
     = Fail (after_all
               (EvHandleFree (if done then result else PRL_INVALID_HANDLE)
                  :: evs ++ [query]) w) /\
     Forall quiet_event evs /\ EvHandleFree job ∈ evs).
Proof. exact (prlsdkSdkDomainLookup_cases sdk privconn id flags w). Qed.

(** ** Lookup by UUID *)

(** C9: a domain of the store is returned as it is, locked, and no call
    to the SDK is made.  Otherwise one job is issued, the lookup by the
    wire form of the UUID.  When the job gives no result, or the
    snapshot cannot be fetched from the result, the call fails and the
    last error reported is "no domain".  When the lookup succeeds with
    the null handle for a snapshot, the call fails with nothing
    reported and nothing loaded.  Otherwise the snapshot is loaded as a
    fresh discovery from the world the lookup left, its handle is
    released, and what the load returned is returned; a domain that is
    returned this way is an object of the store, filed under the UUID
    of its definition, and the release of the snapshot handle is the
    last event. *)
Theorem prlsdkAddDomain_spec (sdk : Sdk) (host : Host)
    (privconn : parallelsConn) (uuid : uuid_t) (w : world) :
  length uuid = VIR_UUID_BUFLEN ->
  let flags := PGVC_SEARCH_BY_UUID sdk in
  let job := PrlSrv_GetVmConfig_job sdk (server privconn) (wire_uuid uuid) flags in
  let query := EvJob (JobGetVmConfig (wire_uuid uuid) flags) job in
  let done := job_done sdk job (jobTimeout privconn) in
  let result := (PrlJob_GetResult sdk job).2 in
  let param := PrlResult_GetParamByIndex sdk result 0 in
  let found :=
    done && negb (result =? PRL_INVALID_HANDLE) &&
    negb (PRL_FAILED sdk param.1) in
  let sdkdom := param.2 in
  let looked_up :=
    after_all [EvHandleFree result; EvHandleFree job; query] w in
  (forall dom o,
     w_domains w !! uuid = Some dom -> w_objs w !! dom = Some o ->
     prlsdkAddDomain sdk host privconn uuid w
     = Ok dom (with_obj dom (lock_obj o true) w)) /\
  (w_domains w !! uuid = None ->
   (found = false ->
    exists evs,
      prlsdkAddDomain sdk host privconn uuid w
      = Fail (after_all
                (no_domain_report uuid
                   :: EvHandleFree (if done then result else PRL_INVALID_HANDLE)
                   :: evs ++ [query]) w) /\
      Forall quiet_event evs /\ EvHandleFree job ∈ evs) /\
   (found = true -> sdkdom = PRL_INVALID_HANDLE ->
    prlsdkAddDomain sdk host privconn uuid w = Fail looked_up) /\
   (found = true -> sdkdom <> PRL_INVALID_HANDLE ->
    prlsdkAddDomain sdk host privconn uuid w
    = match prlsdkLoadDomain sdk host privconn sdkdom None looked_up with
      | Ok dom w2 => Ok dom (after (EvHandleFree sdkdom) w2)
      | Fail w2 => Fail (after (EvHandleFree sdkdom) w2)
      | Fault => Fault
      end) /\
   (forall dom w',
      prlsdkAddDomain sdk host privconn uuid w = Ok dom w' ->
      found = true /\ sdkdom <> PRL_INVALID_HANDLE /\
      hd_error (w_trace w') = Some (EvHandleFree sdkdom) /\
      exists o',
        w_objs w' !! dom = Some o' /\
        w_domains w' !! def_uuid (obj_def o') = Some dom)).
Proof.
  intros Hlen flags job query done result param found sdkdom looked_up.
  split.
  - intros dom o Hdom Ho.
    unfold prlsdkAddDomain, virDomainObjListFindByUUID, mbind, M_bind, bind.
    rewrite Hdom, Ho. reflexivity.
  - intros Hnone.
    assert (Hrun : prlsdkAddDomain sdk host privconn uuid w =
      match prlsdkSdkDomainLookup sdk privconn (wire_uuid uuid) flags w with
      | Ok sdkdom w1 =>
          if sdkdom =? PRL_INVALID_HANDLE then Fail w1
          else match prlsdkLoadDomain sdk host privconn sdkdom None w1 with
               | Ok dom w2 => Ok dom (after (EvHandleFree sdkdom) w2)
               | Fail w2 => Fail (after (EvHandleFree sdkdom) w2)
               | Fault => Fault
               end
      | Fail w1 => Fail (after (no_domain_report uuid) w1)
      | Fault => Fault
      end).
    { unfold prlsdkAddDomain, virDomainObjListFindByUUID,
        prlsdkSdkDomainLookupByUUID, mbind, M_bind, bind, attempt.
      rewrite Hnone. cbv zeta.
      rewrite prlsdkUUIDFormat_c_str by (exact Hlen || reflexivity).
      fold (wire_uuid uuid). fold flags.
      destruct (prlsdkSdkDomainLookup sdk privconn (wire_uuid uuid) flags w)
        as [h w1|w1|]; [| |reflexivity].
      - cbn. destruct (h =? PRL_INVALID_HANDLE); [reflexivity|].
        destruct (prlsdkLoadDomain sdk host privconn h None w1);
          reflexivity.
      - reflexivity. }
    destruct (prlsdkSdkDomainLookup_cases sdk privconn (wire_uuid uuid) flags w)
      as [Hfound Hnot].
    fold job query done result param found in Hfound, Hnot.
    assert (Hnull : found = true -> sdkdom = PRL_INVALID_HANDLE ->
                    prlsdkAddDomain sdk host privconn uuid w = Fail looked_up).
    { intros Hf Hnull. rewrite Hrun, (Hfound Hf). fold sdkdom.
      rewrite Hnull. reflexivity. }
    assert (Hload : found = true -> sdkdom <> PRL_INVALID_HANDLE ->
      prlsdkAddDomain sdk host privconn uuid w
      = match prlsdkLoadDomain sdk host privconn sdkdom None looked_up with
        | Ok dom w2 => Ok dom (after (EvHandleFree sdkdom) w2)
        | Fail w2 => Fail (after (EvHandleFree sdkdom) w2)
        | Fault => Fault
        end).
    { intros Hf Hsdk. rewrite Hrun, (Hfound Hf). fold sdkdom.
      apply Z.eqb_neq in Hsdk. rewrite Hsdk. reflexivity. }
    split; [|split; [exact Hnull|split; [exact Hload|]]].
    + intros Hf. destruct (Hnot Hf) as (evs & Hl & Hq & Hin).
      exists evs. rewrite Hrun, Hl. auto.
    + intros dom w' H.
      destruct found eqn:Hf.
      2: { destruct (Hnot eq_refl) as (evs & Hl & _).
           rewrite Hrun, Hl in H. discriminate H. }
      destruct (decide (sdkdom = PRL_INVALID_HANDLE)) as [Hz|Hsdk];
        [rewrite (Hnull eq_refl Hz) in H; discriminate H|].
      rewrite (Hload eq_refl Hsdk) in H.
      destruct (prlsdkLoadDomain sdk host privconn sdkdom None looked_up)
        as [dom2 w2|w2|] eqn:Hl; try discriminate H.
      injection H as -> <-.
      destruct (prlsdkLoadDomain_Ok _ _ _ _ _ _ _ _ Hl)
        as (pdom0 & def & pdom & envId & w1 & o' & _ & Ho' & Hdef & _ & Hdom).
      split; [reflexivity|]. split; [exact Hsdk|]. split; [reflexivity|].
      exists o'. split; [exact Ho'|]. cbn [after w_domains].
      rewrite (def_uuid_upto_id _ _ Hdef), Hdom. apply lookup_insert_eq.
Qed.

(** ** The state of a snapshot *)

(** X7: [prlsdkGetDomainState] issues one job, the query of the state
    of the snapshot.  It returns the run state exactly when the job
    completed with a result other than the null handle, the state
    record could be fetched from the result and the state read from the
    record; then it has released the job handle, the record and the
    result, and reported nothing.  In every other case it fails after
    having released the job handle, and the last things it did were to
    release the record handle and the result handle (the null handle
    for both when the job gave no result). *)
Theorem prlsdkGetDomainState_outcome (sdk : Sdk) (privconn : parallelsConn)
    (sdkdom : PRL_HANDLE) (w : world) :
  let job := PrlVm_GetState_job sdk sdkdom in
  let query := EvJob (JobGetState sdkdom) job in
  let done := job_done sdk job (jobTimeout privconn) in
  let result := (PrlJob_GetResult sdk job).2 in
  let param := PrlResult_GetParamByIndex sdk result 0 in
  let vmInfo := param.2 in
  let state := PrlVmInfo_GetState sdk vmInfo in
  let got := done && negb (result =? PRL_INVALID_HANDLE) in
  let found :=
    got && negb (PRL_FAILED sdk param.1) && negb (PRL_FAILED sdk state.1) in
  (found = true ->
   prlsdkGetDomainState sdk privconn sdkdom w
   = Ok state.2
       (after_all [EvHandleFree result; EvHandleFree vmInfo;
                   EvHandleFree job; query] w)) /\
  (found = false ->
   exists evs,
     prlsdkGetDomainState sdk privconn sdkdom w
     = Fail (after_all
               (EvHandleFree (if got then result else PRL_INVALID_HANDLE)
                  :: EvHandleFree (if got then vmInfo else PRL_INVALID_HANDLE)
                  :: evs ++ [query]) w) /\
     Forall quiet_event evs /\ EvHandleFree job ∈ evs).
Proof.
  intros job query done result param vmInfo state got found.
  subst query done result param vmInfo state got found.
  unfold prlsdkGetDomainState, PrlVm_GetState, getJobResult.
  fold job.
  destruct (getJobResultHelper_cases sdk job (jobTimeout privconn)
              (after (EvJob (JobGetState sdkdom) job) w))
    as (r & evs & Hrun & Hq & Hdone & Hnot).
  unfold after in Hrun.
  unfold mbind, M_bind, bind. cbn [emit mret M_ret ret]. rewrite Hrun.
  destruct (job_done sdk job (jobTimeout privconn)) eqn:Hd.
  - destruct (Hdone eq_refl) as [-> ->]. clear Hdone Hnot Hrun.
    set (result := (PrlJob_GetResult sdk job).2) in *.
    destruct (result =? PRL_INVALID_HANDLE) eqn:Hr; cbn [andb negb].
    + split; [discriminate|]. intros _.
      exists [EvHandleFree job].
      split; [|split; [repeat constructor|apply list_elem_of_here]].
      apply Z.eqb_eq in Hr. rewrite Hr. reflexivity.
    + destruct (PrlResult_GetParamByIndex sdk result 0) as [pret vmInfo].
      cbn [fst snd]. unfold or_else, prlsdkCheckRetGoto.
      destruct (PRL_FAILED sdk pret) eqn:Hp; cbn [andb negb].
      * split; [discriminate|]. intros _.
        exists [sdk_error sdk pret; EvHandleFree job].
        split; [|split; [repeat constructor
                        |apply list_elem_of_further, list_elem_of_here]].
        reflexivity.
      * destruct (PrlVmInfo_GetState sdk vmInfo) as [pret2 vmState].
        cbn [fst snd].
        destruct (PRL_FAILED sdk pret2) eqn:Hp2; cbn [negb].
        -- split; [discriminate|]. intros _.
           exists [sdk_error sdk pret2; EvHandleFree job].
           split; [|split; [repeat constructor
                           |apply list_elem_of_further, list_elem_of_here]].
           reflexivity.
        -- split; [|discriminate]. intros _. reflexivity.
  - destruct (Hnot eq_refl) as [-> _]. cbn [andb].
    split; [discriminate|]. intros _.
    exists (EvHandleFree job :: evs).
    split; [|split; [constructor; [exact I|exact Hq]|apply list_elem_of_here]].
    cbn. unfold after_all. cbn. rewrite <- app_assoc. reflexivity.
Qed.

(** ** Identity of a snapshot *)

(** X8: of the three SDK calls [prlsdkGetDomainIds] makes, only the
    result code of the first, the query of the length of the name, is
    looked at: when it failed, that failure is reported; when it did
    not, the name is the text the second call left in the buffer and the
    UUID is parsed from the text the third call left in its buffer,
    whatever result codes those two calls returned. *)
Theorem prlsdkGetDomainIds_outcome (sdk : Sdk) (sdkdom : PRL_HANDLE)
    (w : world) :
  let pret := (PrlVmCfg_GetName sdk sdkdom false).1 in
  let name := (PrlVmCfg_GetName sdk sdkdom true).2 in
  let uuidstr := list_ascii_of_string (PrlVmCfg_GetUuid sdk sdkdom).2 in
  (PRL_FAILED sdk pret = true ->
   prlsdkGetDomainIds sdk sdkdom w = Fail (after (sdk_error sdk pret) w)) /\
  (PRL_FAILED sdk pret = false ->
   prlsdkGetDomainIds sdk sdkdom w
   = match prlsdkUUIDParse uuidstr w with
     | Ok uuid w' => Ok (name, uuid) w'
     | Fail w' => Fail w'
     | Fault => Fault
     end).
Proof.
  intros pret name uuidstr. subst pret name uuidstr.
  unfold prlsdkGetDomainIds, prlsdkCheckRetGoto.
  destruct (PrlVmCfg_GetName sdk sdkdom false) as [pret len].
  destruct (PrlVmCfg_GetName sdk sdkdom true) as [pret1 name].
  destruct (PrlVmCfg_GetUuid sdk sdkdom) as [pret2 uuidstr].
  cbn [fst snd].
  split; intros Hp; unfold mbind, M_bind, bind; rewrite Hp; cbn;
    [reflexivity|].
  destruct (prlsdkUUIDParse (list_ascii_of_string uuidstr) w); reflexivity.
Qed.

(** ** Hardware of a snapshot *)

Lemma shl10_uint32_mod (x : PRL_UINT32) :
  shl10_uint32 x = (x * 1024) mod 2 ^ 32.
Proof.
  unfold shl10_uint32.
  change (2 ^ 32 - 1) with (Z.ones 32).
  rewrite Z.land_ones by lia. rewrite Z.shiftl_mul_pow2 by lia. reflexivity.
Qed.

(** X9: [prlsdkAddDomainVideoInfo] appends one video device to the
    definition and changes nothing else: a VGA adapter with one head
    and an acceleration record with nothing enabled, whose memory is
    the video memory of the snapshot, taken in mebibytes, times 1024
    computed in 32 bits: exact below 4 TiB of video memory, reduced
    modulo 2^32 from there on.  When the size cannot be read it fails
    with that error reported. *)
Theorem prlsdkAddDomainVideoInfo_outcome (sdk : Sdk) (sdkdom : PRL_HANDLE)
    (def : virDomainDef) (w : world) :
  let pret := (PrlVmCfg_GetVideoRamSize sdk sdkdom).1 in
  let videoRam := (PrlVmCfg_GetVideoRamSize sdk sdkdom).2 in
  (PRL_FAILED sdk pret = true ->
   prlsdkAddDomainVideoInfo sdk sdkdom def w
   = Fail (after (sdk_error sdk pret) w)) /\
  (PRL_FAILED sdk pret = false ->
   prlsdkAddDomainVideoInfo sdk sdkdom def w
   = Ok (set_def_videos
           (def_videos def ++
            [{| video_type := Some VIR_DOMAIN_VIDEO_TYPE_VGA;
                video_vram := (videoRam * 1024) mod 2 ^ 32;
                video_heads := 1;
                video_accel := Some {| support3d := false;
                                       support2d := false |} |}]) def) w) /\
  (0 <= videoRam < 2 ^ 22 -> (videoRam * 1024) mod 2 ^ 32 = videoRam * 1024).
Proof.
  intros pret videoRam. subst pret videoRam.
  unfold prlsdkAddDomainVideoInfo, prlsdkCheckRetGoto.
  destruct (PrlVmCfg_GetVideoRamSize sdk sdkdom) as [pret videoRam].
  cbn [fst snd].
  split; [|split].
  - intros Hp. unfold mbind, M_bind, bind. rewrite Hp. reflexivity.
  - intros Hp. unfold mbind, M_bind, bind. rewrite Hp. cbn.
    rewrite shl10_uint32_mod. reflexivity.
  - intros Hx. apply Z.mod_small. lia.
Qed.

(** X10: the adapter of a container whose index is 0xFFFFFFFF is a
    venet device: once its index and its interface name are read,
    [prlsdkGetNetInfo] returns the descriptor with that name, the link
    up and the routed network; the MAC address is left as it was, and
    neither the MAC address, the emulated type, the network id nor the
    connection state of the adapter is asked for, so that none of them
    can make the call fail. *)
Theorem prlsdkGetNetInfo_venet (sdk : Sdk) (host : Host)
    (netAdapter : PRL_HANDLE) (net : virDomainNetDef) (w : world) :
  PRL_FAILED sdk (PrlVmDev_GetIndex sdk netAdapter).1 = false ->
  (PrlVmDev_GetIndex sdk netAdapter).2 = 2 ^ 32 - 1 ->
  PRL_FAILED sdk (PrlVmDevNet_GetHostInterfaceName sdk netAdapter false).1 = false ->
  PRL_FAILED sdk (PrlVmDevNet_GetHostInterfaceName sdk netAdapter true).1 = false ->
  prlsdkGetNetInfo sdk host netAdapter net true w
  = Ok {| net_type := Some VIR_DOMAIN_NET_TYPE_NETWORK;
          net_ifname :=
            Some (PrlVmDevNet_GetHostInterfaceName sdk netAdapter true).2;
          net_mac := net_mac net;
          net_network_name := Some (PARALLELS_ROUTED_NETWORK_NAME host);
          net_linkstate := Some VIR_DOMAIN_NET_INTERFACE_LINK_STATE_UP |} w.
Proof.
  unfold prlsdkGetNetInfo, prlsdkCheckRetGoto.
  destruct (PrlVmDev_GetIndex sdk netAdapter) as [pret0 idx].
  destruct (PrlVmDevNet_GetHostInterfaceName sdk netAdapter false) as [pret1 len].
  destruct (PrlVmDevNet_GetHostInterfaceName sdk netAdapter true) as [pret2 ifname].
  cbn [fst snd]. intros H0 -> H1 H2.
  unfold mbind, M_bind, bind. rewrite H0, H1, H2. reflexivity.
Qed.

(** X11: for every other adapter (of a full machine, or with another
    index) a descriptor returned by [prlsdkGetNetInfo] has the
    interface name of the adapter, the MAC address parsed from its
    canonical text, the routed network when the emulated type is the
    routed one and the virtual network id of the adapter otherwise, and
    the link up exactly when the adapter is connected; nothing is
    reported on the way. *)
Theorem prlsdkGetNetInfo_adapter (sdk : Sdk) (host : Host)
    (netAdapter : PRL_HANDLE) (net net' : virDomainNetDef) (isCt : bool)
    (w w' : world) :
  isCt && ((PrlVmDev_GetIndex sdk netAdapter).2 =? 2 ^ 32 - 1) = false ->
  prlsdkGetNetInfo sdk host netAdapter net isCt w = Ok net' w' ->
  w' = w /\
  net_type net' = Some VIR_DOMAIN_NET_TYPE_NETWORK /\
  net_ifname net'
  = Some (PrlVmDevNet_GetHostInterfaceName sdk netAdapter true).2 /\
  is_Some (net_mac net') /\
  net_mac net'
  = virMacAddrParse host (PrlVmDevNet_GetMacAddressCanonical sdk netAdapter).2 /\
  net_network_name net'
  = Some (if (PrlVmDev_GetEmulatedType sdk netAdapter).2 =? PNA_ROUTED sdk
          then PARALLELS_ROUTED_NETWORK_NAME host
          else (PrlVmDevNet_GetVirtualNetworkId sdk netAdapter true).2) /\
  net_linkstate net'
  = Some (if (PrlVmDev_IsConnected sdk netAdapter).2
          then VIR_DOMAIN_NET_INTERFACE_LINK_STATE_UP
          else VIR_DOMAIN_NET_INTERFACE_LINK_STATE_DOWN).
Proof.
  unfold prlsdkGetNetInfo. intros Hv H.
  destruct (PrlVmDev_GetIndex sdk netAdapter) as [pret0 idx].
  cbn [snd] in Hv.
  apply bind_Ok in H. destruct H as (? & w1 & Hc & H).
  apply prlsdkCheckRetGoto_Ok in Hc. destruct Hc as [_ ->].
  destruct (PrlVmDevNet_GetHostInterfaceName sdk netAdapter false) as [pret1 len].
  apply bind_Ok in H. destruct H as (? & w1 & Hc & H).
  apply prlsdkCheckRetGoto_Ok in Hc. destruct Hc as [_ ->].
  destruct (PrlVmDevNet_GetHostInterfaceName sdk netAdapter true) as [pret2 ifname].
  apply bind_Ok in H. destruct H as (? & w1 & Hc & H).
  apply prlsdkCheckRetGoto_Ok in Hc. destruct Hc as [_ ->].
  rewrite Hv in H.
  destruct (PrlVmDevNet_GetMacAddressCanonical sdk netAdapter) as [pret3 macstr].
  apply bind_Ok in H. destruct H as (? & w1 & Hc & H).
  apply prlsdkCheckRetGoto_Ok in Hc. destruct Hc as [_ ->].
  apply bind_Ok in H. destruct H as (mac & w1 & Hmac & H).
  cbn [snd].
  destruct (virMacAddrParse host macstr) as [mac0|] eqn:Emac; [|discriminate].
  apply mret_Ok in Hmac. destruct Hmac as [-> ->].
  destruct (PrlVmDev_GetEmulatedType sdk netAdapter) as [pret4 emulatedType].
  apply bind_Ok in H. destruct H as (? & w1 & Hc & H).
  apply prlsdkCheckRetGoto_Ok in Hc. destruct Hc as [_ ->].
  apply bind_Ok in H. destruct H as (name & w1 & Hname & H).
  cbn [snd].
  assert (name = (if emulatedType =? PNA_ROUTED sdk
                  then PARALLELS_ROUTED_NETWORK_NAME host
                  else (PrlVmDevNet_GetVirtualNetworkId sdk netAdapter true).2)
          /\ w1 = w) as [-> ->].
  { destruct (emulatedType =? PNA_ROUTED sdk).
    - apply mret_Ok in Hname. destruct Hname as [-> ->]. auto.
    - destruct (PrlVmDevNet_GetVirtualNetworkId sdk netAdapter false).
      apply bind_Ok in Hname. destruct Hname as (? & w2 & Hc & Hname).
      apply prlsdkCheckRetGoto_Ok in Hc. destruct Hc as [_ ->].
      destruct (PrlVmDevNet_GetVirtualNetworkId sdk netAdapter true).
      apply bind_Ok in Hname. destruct Hname as (? & w2 & Hc & Hname).
      apply prlsdkCheckRetGoto_Ok in Hc. destruct Hc as [_ ->].
      apply mret_Ok in Hname. destruct Hname as [-> ->]. auto. }
  destruct (PrlVmDev_IsConnected sdk netAdapter) as [pret5 isConnected].
  apply bind_Ok in H. destruct H as (? & w1 & Hc & H).
  apply prlsdkCheckRetGoto_Ok in Hc. destruct Hc as [_ ->].
  apply mret_Ok in H. destruct H as [<- ->].
  cbn. rewrite <- Emac. repeat split; eauto.
Qed.

(** X12: a descriptor returned by [prlsdkGetSerialInfo] is a serial
    device whose target port is the index of the port and whose source
    path is the friendly name of the port; its source is a file for the
    emulated type "output file", a UNIX socket for "socket mode" and a
    host device for "real device" (three distinct enumerators), and no
    other emulated type gives a descriptor. *)
Theorem prlsdkGetSerialInfo_outcome (sdk : Sdk) (serialPort : PRL_HANDLE)
    (chr chr' : virDomainChrDef) (w w' : world) :
  let emulatedType := (PrlVmDev_GetEmulatedType sdk serialPort).2 in
  PDT_USE_OUTPUT_FILE sdk <> PDT_USE_SERIAL_PORT_SOCKET_MODE sdk ->
  PDT_USE_OUTPUT_FILE sdk <> PDT_USE_REAL_DEVICE sdk ->
  PDT_USE_SERIAL_PORT_SOCKET_MODE sdk <> PDT_USE_REAL_DEVICE sdk ->
  prlsdkGetSerialInfo sdk serialPort chr w = Ok chr' w' ->
  w' = w /\
  chr_deviceType chr' = Some VIR_DOMAIN_CHR_DEVICE_TYPE_SERIAL /\
  chr_targetTypeAttr chr' = false /\
  chr_target_port chr'
  = int_of_uint32 (PrlVmDev_GetIndex sdk serialPort).2 /\
  chr_source_path chr'
  = Some (PrlVmDev_GetFriendlyName sdk serialPort true).2 /\
  (emulatedType = PDT_USE_OUTPUT_FILE sdk ->
   chr_source_type chr' = Some VIR_DOMAIN_CHR_TYPE_FILE) /\
  (emulatedType = PDT_USE_SERIAL_PORT_SOCKET_MODE sdk ->
   chr_source_type chr' = Some VIR_DOMAIN_CHR_TYPE_UNIX) /\
  (emulatedType = PDT_USE_REAL_DEVICE sdk ->
   chr_source_type chr' = Some VIR_DOMAIN_CHR_TYPE_DEV) /\
  (emulatedType = PDT_USE_OUTPUT_FILE sdk \/
   emulatedType = PDT_USE_SERIAL_PORT_SOCKET_MODE sdk \/
   emulatedType = PDT_USE_REAL_DEVICE sdk).
Proof.
  intros emulatedType Hfs Hfd Hsd. subst emulatedType.
  unfold prlsdkGetSerialInfo. intros H.
  destruct (PrlVmDev_GetIndex sdk serialPort) as [pret0 idx].
  apply bind_Ok in H. destruct H as (? & w1 & Hc & H).
  apply prlsdkCheckRetGoto_Ok in Hc. destruct Hc as [_ ->].
  destruct (PrlVmDev_GetEmulatedType sdk serialPort) as [pret1 emulatedType].
  apply bind_Ok in H. destruct H as (? & w1 & Hc & H).
  apply prlsdkCheckRetGoto_Ok in Hc. destruct Hc as [_ ->].
  destruct (PrlVmDev_GetFriendlyName sdk serialPort false) as [pret2 len].
  apply bind_Ok in H. destruct H as (? & w1 & Hc & H).
  apply prlsdkCheckRetGoto_Ok in Hc. destruct Hc as [_ ->].
  destruct (PrlVmDev_GetFriendlyName sdk serialPort true) as [pret3 friendlyName].
  apply bind_Ok in H. destruct H as (? & w1 & Hc & H).
  apply prlsdkCheckRetGoto_Ok in Hc. destruct Hc as [_ ->].
  cbn [snd].
  destruct (emulatedType =? PDT_USE_OUTPUT_FILE sdk) eqn:E1.
  { apply mret_Ok in H. destruct H as [<- ->]. apply Z.eqb_eq in E1.
    cbn. repeat split; auto; intros; congruence. }
  destruct (emulatedType =? PDT_USE_SERIAL_PORT_SOCKET_MODE sdk) eqn:E2.
  { apply mret_Ok in H. destruct H as [<- ->]. apply Z.eqb_eq in E2.
    cbn. repeat split; auto; intros; congruence. }
  destruct (emulatedType =? PDT_USE_REAL_DEVICE sdk) eqn:E3.
  { apply mret_Ok in H. destruct H as [<- ->]. apply Z.eqb_eq in E3.
    cbn. repeat split; auto; intros; congruence. }
  apply bind_Ok in H. destruct H as (? & w1 & _ & H). discriminate H.
Qed.

(** ** The device loops *)

Lemma reads_only_ret {A} (a : A) : reads_only (mret a : M A).
Proof. intros w b w' H. apply mret_Ok in H. destruct H as [-> ->]. auto. Qed.

Lemma reads_only_fail {A} : reads_only (@fail A).
Proof. intros w a w' H. discriminate H. Qed.

Lemma reads_only_fault {A} : reads_only (@fault A).
Proof. intros w a w' H. discriminate H. Qed.

Lemma reads_only_bind {A B} (m : M A) (k : A -> M B) :
  reads_only m -> (forall a, reads_only (k a)) -> reads_only (m ≫= k).
Proof.
  intros Hm Hk w b w' H. apply bind_Ok in H.
  destruct H as (a & w1 & H1 & H2).
  destruct (Hm _ _ _ H1) as [-> Hm'].
  destruct (Hk _ _ _ _ H2) as [-> Hk'].
  split; [reflexivity|]. intros w0.
  rewrite (bind_run_Ok _ _ _ _ _ (Hm' w0)). apply Hk'.
Qed.

(** A computation that ends in a failure returns nothing. *)
Lemma reads_only_then_fail {A B} (m : M A) :
  reads_only (m ≫= fun _ => @fail B).
Proof.
  intros w b w' H. apply bind_Ok in H.
  destruct H as (a & w1 & _ & H). discriminate H.
Qed.

Lemma reads_only_check (sdk : Sdk) (pret : PRL_RESULT) :
  reads_only (prlsdkCheckRetGoto sdk pret).
Proof.
  unfold prlsdkCheckRetGoto. destruct (PRL_FAILED sdk pret).
  - apply reads_only_then_fail.
  - apply reads_only_ret.
Qed.

Ltac reads_step :=
  lazymatch goal with
  | |- reads_only (mret _) => apply reads_only_ret
  | |- reads_only (prlsdkCheckRetGoto _ _) => apply reads_only_check
  | |- reads_only (_ ≫= fun _ => fail) => apply reads_only_then_fail
  | |- reads_only (_ ≫= _) => apply reads_only_bind; [|intros]
  | |- reads_only fail => apply reads_only_fail
  | |- reads_only fault => apply reads_only_fault
  | |- reads_only (let '(_, _) := ?x in _) => destruct x
  | |- reads_only (if ?b then _ else _) => destruct b
  | |- reads_only (match ?x with _ => _ end) => destruct x
  end.

Ltac reads := repeat reads_step.

Lemma prlsdkGetNetInfo_reads (sdk : Sdk) (host : Host) (netAdapter : PRL_HANDLE)
    (net : virDomainNetDef) (isCt : bool) :
  reads_only (prlsdkGetNetInfo sdk host netAdapter net isCt).
Proof. unfold prlsdkGetNetInfo. cbv zeta. reads. Qed.

Lemma prlsdkGetSerialInfo_reads (sdk : Sdk) (serialPort : PRL_HANDLE)
    (chr : virDomainChrDef) :
  reads_only (prlsdkGetSerialInfo sdk serialPort chr).
Proof. unfold prlsdkGetSerialInfo. cbv zeta. reads. Qed.

Lemma prlsdkGetDiskInfo_reads (sdk : Sdk) (prldisk : PRL_HANDLE)
    (disk : virDomainDiskDef) :
  reads_only (prlsdkGetDiskInfo sdk prldisk disk).
Proof. unfold prlsdkGetDiskInfo. cbv zeta. reads. Qed.

Lemma prlsdkAddDomainNetInfo_loop_Ok (sdk : Sdk) (host : Host)
    (sdkdom : PRL_HANDLE) (n : nat) (i : Z) (def def' : virDomainDef)
    (w w' : world) :
  prlsdkAddDomainNetInfo_loop sdk host sdkdom n i def w = Ok def' w' ->
  exists nets,
    def' = set_def_nets (def_nets def ++ nets) def /\
    length nets = n /\
    (forall (k : nat) net w0, nets !! k = Some net ->
       prlsdkGetNetInfo sdk host
         (PrlVmCfg_GetNetAdapter sdk sdkdom (i + Z.of_nat k)).2
         virDomainNetDef_zero (IS_CT def) w0 = Ok net w0) /\
    w' = after_all (device_releases (PrlVmCfg_GetNetAdapter sdk sdkdom) n i) w.
Proof.
  revert i def w. induction n as [|n IH]; intros i def w H;
    cbn [prlsdkAddDomainNetInfo_loop device_releases] in *.
  - apply mret_Ok in H. destruct H as [<- ->]. exists [].
    split; [rewrite app_nil_r; destruct def; reflexivity|].
    split; [reflexivity|]. split; [|symmetry; apply after_all_nil].
    intros k net w0 Hk. discriminate Hk.
  - destruct (PrlVmCfg_GetNetAdapter sdk sdkdom i) as [pret netAdapter] eqn:Eg.
    apply bind_Ok in H. destruct H as (? & w1 & Hc & H).
    apply or_else_check_Ok in Hc. destruct Hc as [_ ->].
    apply bind_Ok in H. destruct H as (net & w1 & Hnet & H).
    apply or_else_Ok in Hnet.
    destruct (prlsdkGetNetInfo_reads _ _ _ _ _ _ _ _ Hnet) as [-> Hnet'].
    apply bind_Ok in H. destruct H as (? & w1 & Hfree & H).
    injection Hfree as Hw1.
    apply IH in H. clear IH.
    destruct H as (nets & Hdef & Hlen & Hnets & Hw). subst def' w' w1.
    exists (net :: nets). cbn [def_nets set_def_nets].
    split; [rewrite <- app_assoc; reflexivity|].
    split; [cbn; rewrite Hlen; reflexivity|].
    split.
    + intros [|k] net0 w0 Hk.
      * injection Hk as <-. rewrite Z.add_0_r, Eg. apply Hnet'.
      * cbn in Hk. replace (i + Z.of_nat (S k)) with (i + 1 + Z.of_nat k) by lia.
        apply (Hnets k net0 w0 Hk).
    + cbn [snd]. rewrite after_all_app. reflexivity.
Qed.

(** X13: when [prlsdkAddDomainNetInfo] returns, it has appended one
    descriptor per adapter the snapshot counts, in the order of the
    adapter indices, each being what [prlsdkGetNetInfo] gives for the
    adapter of that index; it has released every adapter handle it
    fetched, once and in that order, and has done nothing else. *)
Theorem prlsdkAddDomainNetInfo_outcome (sdk : Sdk) (host : Host)
    (sdkdom : PRL_HANDLE) (def def' : virDomainDef) (w w' : world) :
  let count := Z.to_nat (PrlVmCfg_GetNetAdaptersCount sdk sdkdom).2 in
  prlsdkAddDomainNetInfo sdk host sdkdom def w = Ok def' w' ->
  exists nets,
    def' = set_def_nets (def_nets def ++ nets) def /\
    length nets = count /\
    (forall (k : nat) net w0, nets !! k = Some net ->
       prlsdkGetNetInfo sdk host
         (PrlVmCfg_GetNetAdapter sdk sdkdom (Z.of_nat k)).2
         virDomainNetDef_zero (IS_CT def) w0 = Ok net w0) /\
    w' = after_all
           (device_releases (PrlVmCfg_GetNetAdapter sdk sdkdom) count 0) w.
Proof.
  intros count. subst count. unfold prlsdkAddDomainNetInfo.
  destruct (PrlVmCfg_GetNetAdaptersCount sdk sdkdom) as [pret count].
  cbn [snd]. destruct (PRL_FAILED sdk pret).
  - intros H. apply bind_Ok in H. destruct H as (? & ? & _ & H). discriminate H.
  - intros H. apply prlsdkAddDomainNetInfo_loop_Ok in H. exact H.
Qed.

Lemma prlsdkAddSerialInfo_loop_Ok (sdk : Sdk) (sdkdom : PRL_HANDLE) (n : nat)
    (i : Z) (serials serials' : list virDomainChrDef) (w w' : world) :
  prlsdkAddSerialInfo_loop sdk sdkdom n i serials w = Ok serials' w' ->
  exists chrs,
    serials' = serials ++ chrs /\
    length chrs = n /\
    (forall (k : nat) chr w0, chrs !! k = Some chr ->
       prlsdkGetSerialInfo sdk
         (PrlVmCfg_GetSerialPort sdk sdkdom (i + Z.of_nat k)).2
         virDomainChrDefNew w0 = Ok chr w0) /\
    w' = after_all (device_releases (PrlVmCfg_GetSerialPort sdk sdkdom) n i) w.
Proof.
  revert i serials w. induction n as [|n IH]; intros i serials w H;
    cbn [prlsdkAddSerialInfo_loop device_releases] in *.
  - apply mret_Ok in H. destruct H as [<- ->]. exists [].
    split; [rewrite app_nil_r; reflexivity|].
    split; [reflexivity|]. split; [|symmetry; apply after_all_nil].
    intros k chr w0 Hk. discriminate Hk.
  - destruct (PrlVmCfg_GetSerialPort sdk sdkdom i) as [pret serialPort] eqn:Eg.
    apply bind_Ok in H. destruct H as (? & w1 & Hc & H).
    apply or_else_check_Ok in Hc. destruct Hc as [_ ->].
    apply bind_Ok in H. destruct H as (chr & w1 & Hchr & H).
    apply or_else_Ok in Hchr.
    destruct (prlsdkGetSerialInfo_reads _ _ _ _ _ _ Hchr) as [-> Hchr'].
    apply bind_Ok in H. destruct H as (? & w1 & Hfree & H).
    injection Hfree as Hw1.
    apply IH in H. clear IH.
    destruct H as (chrs & Hdef & Hlen & Hchrs & Hw). subst serials' w' w1.
    exists (chr :: chrs).
    split; [rewrite <- app_assoc; reflexivity|].
    split; [cbn; rewrite Hlen; reflexivity|].
    split.
    + intros [|k] chr0 w0 Hk.
      * injection Hk as <-. rewrite Z.add_0_r, Eg. apply Hchr'.
      * cbn in Hk. replace (i + Z.of_nat (S k)) with (i + 1 + Z.of_nat k) by lia.
        apply (Hchrs k chr0 w0 Hk).
    + cbn [snd]. rewrite after_all_app. reflexivity.
Qed.

(** X14: when [prlsdkAddSerialInfo] returns, it has appended one
    descriptor per serial port the snapshot counts, in the order of
    the port indices, each being what [prlsdkGetSerialInfo] gives for
    the port of that index; it has released every port handle it
    fetched, once and in that order, and has done nothing else. *)
Theorem prlsdkAddSerialInfo_outcome (sdk : Sdk) (sdkdom : PRL_HANDLE)
    (serials serials' : list virDomainChrDef) (w w' : world) :
  let count := Z.to_nat (PrlVmCfg_GetSerialPortsCount sdk sdkdom).2 in
  prlsdkAddSerialInfo sdk sdkdom serials w = Ok serials' w' ->
  exists chrs,
    serials' = serials ++ chrs /\
    length chrs = count /\
    (forall (k : nat) chr w0, chrs !! k = Some chr ->
       prlsdkGetSerialInfo sdk
         (PrlVmCfg_GetSerialPort sdk sdkdom (Z.of_nat k)).2
         virDomainChrDefNew w0 = Ok chr w0) /\
    w' = after_all
           (device_releases (PrlVmCfg_GetSerialPort sdk sdkdom) count 0) w.
Proof.
  intros count. subst count. unfold prlsdkAddSerialInfo.
  destruct (PrlVmCfg_GetSerialPortsCount sdk sdkdom) as [pret count].
  cbn [snd]. destruct (PRL_FAILED sdk pret).
  - intros H. apply bind_Ok in H. destruct H as (? & ? & _ & H). discriminate H.
  - intros H. apply prlsdkAddSerialInfo_loop_Ok in H. exact H.
Qed.

Lemma prlsdkAddDomainHardDisksInfo_loop_machine (sdk : Sdk)
    (sdkdom : PRL_HANDLE) (n : nat) (i : Z) (def def' : virDomainDef)
    (w w' : world) :
  IS_CT def = false ->
  prlsdkAddDomainHardDisksInfo_loop sdk sdkdom n i def w = Ok def' w' ->
  exists disks,
    def' = set_def_disks (def_disks def ++ disks) def /\
    length disks = n /\
    (forall (k : nat) disk w0, disks !! k = Some disk ->
       prlsdkGetDiskInfo sdk
         (PrlVmCfg_GetHardDisk sdk sdkdom (i + Z.of_nat k)).2
         virDomainDiskDefNew w0 = Ok disk w0) /\
    w' = after_all (device_releases (PrlVmCfg_GetHardDisk sdk sdkdom) n i) w.
Proof.
  revert i def w. induction n as [|n IH]; intros i def w Hct H;
    cbn [prlsdkAddDomainHardDisksInfo_loop device_releases] in *.
  - apply mret_Ok in H. destruct H as [<- ->]. exists [].
    split; [rewrite app_nil_r; destruct def; reflexivity|].
    split; [reflexivity|]. split; [|symmetry; apply after_all_nil].
    intros k disk w0 Hk. discriminate Hk.
  - rewrite Hct in H.
    destruct (PrlVmCfg_GetHardDisk sdk sdkdom i) as [pret hdd] eqn:Eg.
    apply bind_Ok in H. destruct H as (? & w1 & Hc & H).
    apply or_else_check_Ok in Hc. destruct Hc as [_ ->].
    apply bind_Ok in H. destruct H as (disk & w1 & Hdisk & H).
    apply or_else_Ok in Hdisk.
    destruct (prlsdkGetDiskInfo_reads _ _ _ _ _ _ Hdisk) as [-> Hdisk'].
    apply bind_Ok in H. destruct H as (? & w1 & Hfree & H).
    injection Hfree as Hw1.
    apply IH in H; [|exact Hct]. clear IH.
    destruct H as (disks & Hdef & Hlen & Hdisks & Hw). subst def' w' w1.
    exists (disk :: disks). cbn [def_disks set_def_disks].
    split; [rewrite <- app_assoc; reflexivity|].
    split; [cbn; rewrite Hlen; reflexivity|].
    split.
    + intros [|k] disk0 w0 Hk.
      * injection Hk as <-. rewrite Z.add_0_r, Eg. apply Hdisk'.
      * cbn in Hk. replace (i + Z.of_nat (S k)) with (i + 1 + Z.of_nat k) by lia.
        apply (Hdisks k disk0 w0 Hk).
    + cbn [snd]. rewrite after_all_app. reflexivity.
Qed.

(** X15: for a full machine, when [prlsdkAddDomainHardDisksInfo]
    returns it has appended one disk per hard disk the snapshot counts,
    in the order of the disk indices, each being what
    [prlsdkGetDiskInfo] gives for the disk of that index; it has
    released every disk handle it fetched, once and in that order, and
    has done nothing else. *)
Theorem prlsdkAddDomainHardDisksInfo_machine (sdk : Sdk) (sdkdom : PRL_HANDLE)
    (def def' : virDomainDef) (w w' : world) :
  let count := Z.to_nat (PrlVmCfg_GetHardDisksCount sdk sdkdom).2 in
  IS_CT def = false ->
  prlsdkAddDomainHardDisksInfo sdk sdkdom def w = Ok def' w' ->
  exists disks,
    def' = set_def_disks (def_disks def ++ disks) def /\
    length disks = count /\
    (forall (k : nat) disk w0, disks !! k = Some disk ->
       prlsdkGetDiskInfo sdk
         (PrlVmCfg_GetHardDisk sdk sdkdom (Z.of_nat k)).2
         virDomainDiskDefNew w0 = Ok disk w0) /\
    w' = after_all
           (device_releases (PrlVmCfg_GetHardDisk sdk sdkdom) count 0) w.
Proof.
  intros count Hct. subst count. unfold prlsdkAddDomainHardDisksInfo.
  destruct (PrlVmCfg_GetHardDisksCount sdk sdkdom) as [pret count].
  cbn [snd]. intros H.
  apply bind_Ok in H. destruct H as (? & w1 & Hc & H).
  apply or_else_check_Ok in Hc. destruct Hc as [_ ->].
  apply prlsdkAddDomainHardDisksInfo_loop_machine in H; [exact H|exact Hct].
Qed.

(** The disks that the hardware extraction of a full machine appends
    are those of the disk extraction. *)
Lemma prlsdkAddDomainHardware_machine (sdk : Sdk) (host : Host)
    (sdkdom : PRL_HANDLE) (def def' : virDomainDef) (w w' : world) :
  IS_CT def = false ->
  prlsdkAddDomainHardware sdk host sdkdom def w = Ok def' w' ->
  exists disks,
    def_disks def' = def_disks def ++ disks /\
    length disks = Z.to_nat (PrlVmCfg_GetHardDisksCount sdk sdkdom).2 /\
    (forall (k : nat) disk w0, disks !! k = Some disk ->
       prlsdkGetDiskInfo sdk
         (PrlVmCfg_GetHardDisk sdk sdkdom (Z.of_nat k)).2
         virDomainDiskDefNew w0 = Ok disk w0).
Proof.
  intros Hct H. unfold prlsdkAddDomainHardware in H. rewrite Hct in H.
  cbn [negb] in H.
  apply bind_Ok in H. destruct H as (def1 & w1 & Hvideo & H).
  apply bind_Ok in H. destruct H as (def2 & w2 & Hdisks & H).
  apply bind_Ok in H. destruct H as (def3 & w3 & Hnets & H).
  apply bind_Ok in H. destruct H as (serials & w4 & Hserials & H).
  apply mret_Ok in H. destruct H as [<- ->].
  apply prlsdkAddDomainVideoInfo_shape in Hvideo. destruct Hvideo as (videos & ->).
  apply prlsdkAddDomainNetInfo_shape in Hnets. destruct Hnets as (nets & ->).
  unfold prlsdkAddDomainHardDisksInfo in Hdisks.
  destruct (PrlVmCfg_GetHardDisksCount sdk sdkdom) as [pret count].
  apply bind_Ok in Hdisks. destruct Hdisks as (? & w5 & Hc & Hdisks).
  apply or_else_check_Ok in Hc. destruct Hc as [_ ->].
  apply prlsdkAddDomainHardDisksInfo_loop_machine in Hdisks; [|exact Hct].
  destruct Hdisks as (disks & -> & Hlen & Hdisks & _).
  exists disks. split; [reflexivity|]. split; [exact Hlen|].
  intros k disk w0 Hk. rewrite <- (Z.add_0_l (Z.of_nat k)).
  exact (Hdisks k disk w0 Hk).
Qed.

(** The disks of the definition built from the snapshot of a full
    machine. *)
Lemma prlsdkLoadDomain_build_disks (sdk : Sdk) (host : Host)
    (sdkdom : PRL_HANDLE) (def0 def : virDomainDef)
    (pdom0 pdom : parallelsDomObj) (envId : PRL_UINT32) (w w' : world) :
  prlsdkLoadDomain_build sdk host sdkdom def0 pdom0 w = Ok (def, pdom, envId) w' ->
  (PrlVmCfg_GetVmType sdk sdkdom).2 = PVT_VM ->
  exists disks,
    def_disks def = def_disks def0 ++ disks /\
    length disks = Z.to_nat (PrlVmCfg_GetHardDisksCount sdk sdkdom).2 /\
    (forall (k : nat) disk w0, disks !! k = Some disk ->
       prlsdkGetDiskInfo sdk
         (PrlVmCfg_GetHardDisk sdk sdkdom (Z.of_nat k)).2
         virDomainDiskDefNew w0 = Ok disk w0).
Proof.
  unfold prlsdkLoadDomain_build. intros H Hvm. inv_Ok H.
  repeat match goal with
  | E : prlsdkConvertCpuInfo _ _ _ _ _ _ = Ok _ _ |- _ =>
      apply prlsdkConvertCpuInfo_shape in E; destruct E as (? & ? & -> & ->)
  | E : prlsdkConvertCpuMode _ _ _ _ = Ok _ _ |- _ =>
      apply prlsdkConvertCpuMode_shape in E; destruct E as (? & ->)
  | E : prlsdkAddVNCInfo _ _ _ _ = Ok _ _ |- _ =>
      apply prlsdkAddVNCInfo_shape in E; destruct E as [Hoff Hon]
  | E : prlsdkConvertDomainType _ _ _ _ = Ok _ _ |- _ =>
      apply prlsdkConvertDomainType_shape in E; rename E into Htype
  end.
  rewrite Hvm in Htype.
  match goal with E : prlsdkAddDomainHardware _ _ _ _ _ = Ok _ _ |- _ =>
    apply prlsdkAddDomainHardware_machine in E;
      [destruct E as (disks & Hd & Hlen & Hdisks)|] end.
  - exists disks. split; [|split; [exact Hlen | exact Hdisks]].
    destruct (decide ((PrlVmCfg_GetVNCMode sdk sdkdom).2 = PRD_DISABLED)) as [Hm|Hm];
      [rewrite (Hoff Hm) | rewrite (Hon Hm)]; def_fields; rewrite Hd;
      subst; reflexivity.
  - subst. reflexivity.
Qed.

(** C10: for a container the disk extraction appends nothing: every
    disk handle the snapshot reports is fetched, warned about and
    released, and the definition is returned as it was.  For a full
    machine every disk is converted: the extraction appends, in the
    order of the indices, what [prlsdkGetDiskInfo] returns for each
    hard disk of the snapshot, and releases each disk handle.  Hence
    the domain object of a successful reconciliation has no disk when
    the snapshot is a container, and the converted disks of the
    snapshot when it is a full machine. *)
Theorem prlsdkAddDomainHardDisksInfo_container (sdk : Sdk) (host : Host)
    (privconn : parallelsConn) (sdkdom : PRL_HANDLE) :
  let hddCount := Z.to_nat (PrlVmCfg_GetHardDisksCount sdk sdkdom).2 in
  (forall def def' w w',
     prlsdkAddDomainHardDisksInfo sdk sdkdom def w = Ok def' w' ->
     (IS_CT def = true ->
      def' = def /\
      w_trace w' = skipped_disks sdk sdkdom hddCount 0 ++ w_trace w) /\
     (IS_CT def = false ->
      exists disks,
        def' = set_def_disks (def_disks def ++ disks) def /\
        converted_disks sdk sdkdom disks /\
        w' = after_all
               (device_releases (PrlVmCfg_GetHardDisk sdk sdkdom) hddCount 0)
               w)) /\
  (forall olddom dom w w',
     prlsdkLoadDomain sdk host privconn sdkdom olddom w = Ok dom w' ->
     exists o',
       w_objs w' !! dom = Some o' /\
       match (PrlVmCfg_GetVmType sdk sdkdom).2 with
       | PVT_CT => def_disks (obj_def o') = []
       | PVT_VM => converted_disks sdk sdkdom (def_disks (obj_def o'))
       | PVT_other _ => False
       end).
Proof.
  intros hddCount. split.
  - intros def def' w w' H. split.
    + intros Hct. unfold prlsdkAddDomainHardDisksInfo in H.
      subst hddCount.
      destruct (PrlVmCfg_GetHardDisksCount sdk sdkdom) as [pret n].
      apply bind_Ok in H. destruct H as (? & w1 & Hcheck & H).
      apply or_else_check_Ok in Hcheck. destruct Hcheck as [_ ->].
      exact (prlsdkAddDomainHardDisksInfo_loop_container _ _ _ _ _ _ _ _ Hct H).
    + intros Hvm. unfold prlsdkAddDomainHardDisksInfo in H.
      unfold converted_disks. subst hddCount.
      destruct (PrlVmCfg_GetHardDisksCount sdk sdkdom) as [pret n].
      apply bind_Ok in H. destruct H as (? & w1 & Hcheck & H).
      apply or_else_check_Ok in Hcheck. destruct Hcheck as [_ ->].
      apply prlsdkAddDomainHardDisksInfo_loop_machine in H; [|exact Hvm].
      destruct H as (disks & Hdef & Hlen & Hdisks & Hw).
      exists disks. split; [exact Hdef|]. split; [|exact Hw].
      split; [exact Hlen|]. intros k disk w0 Hk.
      rewrite <- (Z.add_0_l (Z.of_nat k)). exact (Hdisks k disk w0 Hk).
  - intros olddom dom w w' H.
    destruct (prlsdkLoadDomain_Ok _ _ _ _ _ _ _ _ H)
      as (pdom0 & def & pdom & envId & w1 & o' & Hbuild & Ho' & Hdef & _).
    exists o'. split; [exact Ho'|].
    change (def_disks (obj_def o')) with (def_disks (set_def_id 0 (obj_def o'))).
    rewrite Hdef.
    change (def_disks (set_def_id 0 def)) with (def_disks def).
    pose proof (prlsdkLoadDomain_build_shape _ _ _ _ _ _ _ _ _ _ Hbuild)
      as (_ & _ & _ & _ & _ & Htype).
    destruct (PrlVmCfg_GetVmType sdk sdkdom).2 eqn:Hvm; [| |exact Htype].
    + destruct (prlsdkLoadDomain_build_disks _ _ _ _ _ _ _ _ _ _ Hbuild Hvm)
        as (disks & Hd & Hlen & Hdisks).
      rewrite Hd. split; [exact Hlen | exact Hdisks].
    + destruct Htype as (_ & Hdisks & _). exact Hdisks.
Qed.

(** ** Which events a computation can add *)

Section EventFrames.

Context (P : event -> Prop).
Context (Preport : forall code msg, P (EvReport code msg)).
Context (Pwarn : forall msg, P (EvWarn msg)).
Context (Pfree : forall h, P (EvHandleFree h)).
Context (Pjob : forall call job, P (EvJob call job)).

Create HintDb events discriminated.

Ltac events := repeat first [ solve [auto with events] | frames_step ].

Lemma events_report (code : virErrorNumber) (msg : string) :
  preserves (extends P) (virReportError code msg).
Proof. apply preserves_emit, Preport. Qed.

Lemma events_warn (msg : string) : preserves (extends P) (VIR_WARN msg).
Proof. apply preserves_emit, Pwarn. Qed.

Lemma events_free (h : PRL_HANDLE) : preserves (extends P) (PrlHandle_Free h).
Proof. apply preserves_emit, Pfree. Qed.

Lemma events_job (call : sdk_job) (job : PRL_HANDLE) :
  preserves (extends P) (emit (EvJob call job)).
Proof. apply preserves_emit, Pjob. Qed.

#[local] Hint Resolve events_report events_warn events_free events_job : events.

Lemma events_logPrlErrorHelper (sdk : Sdk) (err : PRL_RESULT) :
  preserves (extends P) (logPrlErrorHelper sdk err).
Proof. unfold logPrlErrorHelper. auto with events. Qed.
#[local] Hint Resolve events_logPrlErrorHelper : events.

Lemma events_logPrlError (sdk : Sdk) (err : PRL_RESULT) :
  preserves (extends P) (logPrlError sdk err).
Proof. apply events_logPrlErrorHelper. Qed.
#[local] Hint Resolve events_logPrlError : events.

Lemma events_prlsdkCheckRetGoto (sdk : Sdk) (pret : PRL_RESULT) :
  preserves (extends P) (prlsdkCheckRetGoto sdk pret).
Proof. unfold prlsdkCheckRetGoto. events. Qed.
#[local] Hint Resolve events_prlsdkCheckRetGoto : events.

Lemma events_logPrlEventErrorHelper (sdk : Sdk) (err_handle : PRL_HANDLE) :
  preserves (extends P) (logPrlEventErrorHelper sdk err_handle).
Proof. unfold logPrlEventErrorHelper. events. Qed.
#[local] Hint Resolve events_logPrlEventErrorHelper : events.

Lemma events_getJobResultHelper (sdk : Sdk) (job : PRL_HANDLE) (timeout : Z) :
  preserves (extends P) (getJobResultHelper sdk job timeout).
Proof. unfold getJobResultHelper. cbv zeta. events. Qed.
#[local] Hint Resolve events_getJobResultHelper : events.

Lemma events_getJobResult (sdk : Sdk) (job : PRL_HANDLE) (timeout : Z) :
  preserves (extends P) (getJobResult sdk job timeout).
Proof. apply events_getJobResultHelper. Qed.
#[local] Hint Resolve events_getJobResult : events.

Lemma events_prlsdkGetDomainState (sdk : Sdk) (privconn : parallelsConn)
    (sdkdom : PRL_HANDLE) :
  preserves (extends P) (prlsdkGetDomainState sdk privconn sdkdom).
Proof. unfold prlsdkGetDomainState, PrlVm_GetState. cbv zeta. events. Qed.

Lemma events_prlsdkUUIDParse (uuidstr : list ascii) :
  preserves (extends P) (prlsdkUUIDParse uuidstr).
Proof. unfold prlsdkUUIDParse. cbv zeta. events. Qed.
#[local] Hint Resolve events_prlsdkUUIDParse : events.

Lemma events_prlsdkGetDomainIds (sdk : Sdk) (sdkdom : PRL_HANDLE) :
  preserves (extends P) (prlsdkGetDomainIds sdk sdkdom).
Proof. unfold prlsdkGetDomainIds. events. Qed.
#[local] Hint Resolve events_prlsdkGetDomainIds : events.

Lemma events_prlsdkAddDomainVideoInfo (sdk : Sdk) (sdkdom : PRL_HANDLE)
    (def : virDomainDef) :
  preserves (extends P) (prlsdkAddDomainVideoInfo sdk sdkdom def).
Proof. unfold prlsdkAddDomainVideoInfo. cbv zeta. events. Qed.
#[local] Hint Resolve events_prlsdkAddDomainVideoInfo : events.

Lemma events_prlsdkGetDiskInfo (sdk : Sdk) (prldisk : PRL_HANDLE)
    (disk : virDomainDiskDef) :
  preserves (extends P) (prlsdkGetDiskInfo sdk prldisk disk).
Proof. unfold prlsdkGetDiskInfo. cbv zeta. events. Qed.
#[local] Hint Resolve events_prlsdkGetDiskInfo : events.

Lemma events_prlsdkAddDomainHardDisksInfo (sdk : Sdk) (sdkdom : PRL_HANDLE)
    (def : virDomainDef) :
  preserves (extends P) (prlsdkAddDomainHardDisksInfo sdk sdkdom def).
Proof.
  unfold prlsdkAddDomainHardDisksInfo.
  assert (forall n i def,
    preserves (extends P) (prlsdkAddDomainHardDisksInfo_loop sdk sdkdom n i def))
    as Hloop.
  { induction n as [|n IH]; intros i def0;
      cbn [prlsdkAddDomainHardDisksInfo_loop]; events. }
  events.
Qed.
#[local] Hint Resolve events_prlsdkAddDomainHardDisksInfo : events.

Lemma events_prlsdkGetNetInfo (sdk : Sdk) (host : Host) (netAdapter : PRL_HANDLE)
    (net : virDomainNetDef) (isCt : bool) :
  preserves (extends P) (prlsdkGetNetInfo sdk host netAdapter net isCt).
Proof. unfold prlsdkGetNetInfo. cbv zeta. events. Qed.
#[local] Hint Resolve events_prlsdkGetNetInfo : events.

Lemma events_prlsdkAddDomainNetInfo (sdk : Sdk) (host : Host)
    (sdkdom : PRL_HANDLE) (def : virDomainDef) :
  preserves (extends P) (prlsdkAddDomainNetInfo sdk host sdkdom def).
Proof.
  unfold prlsdkAddDomainNetInfo.
  assert (forall n i def,
    preserves (extends P) (prlsdkAddDomainNetInfo_loop sdk host sdkdom n i def))
    as Hloop.
  { induction n as [|n IH]; intros i def0;
      cbn [prlsdkAddDomainNetInfo_loop]; events. }
  events.
Qed.
#[local] Hint Resolve events_prlsdkAddDomainNetInfo : events.

Lemma events_prlsdkGetSerialInfo (sdk : Sdk) (serialPort : PRL_HANDLE)
    (chr : virDomainChrDef) :
  preserves (extends P) (prlsdkGetSerialInfo sdk serialPort chr).
Proof. unfold prlsdkGetSerialInfo. cbv zeta. events. Qed.
#[local] Hint Resolve events_prlsdkGetSerialInfo : events.

Lemma events_prlsdkAddSerialInfo (sdk : Sdk) (sdkdom : PRL_HANDLE)
    (serials : list virDomainChrDef) :
  preserves (extends P) (prlsdkAddSerialInfo sdk sdkdom serials).
Proof.
  unfold prlsdkAddSerialInfo.
  assert (forall n i serials,
    preserves (extends P) (prlsdkAddSerialInfo_loop sdk sdkdom n i serials))
    as Hloop.
  { induction n as [|n IH]; intros i serials0;
      cbn [prlsdkAddSerialInfo_loop]; events. }
  events.
Qed.
#[local] Hint Resolve events_prlsdkAddSerialInfo : events.

(** Building the definition of a snapshot adds no other events. *)
Lemma events_prlsdkLoadDomain_build (sdk : Sdk) (host : Host)
    (sdkdom : PRL_HANDLE) (def : virDomainDef) (pdom : parallelsDomObj) :
  preserves (extends P) (prlsdkLoadDomain_build sdk host sdkdom def pdom).
Proof.
  unfold prlsdkLoadDomain_build, prlsdkConvertCpuInfo, prlsdkConvertCpuMode,
    prlsdkConvertDomainType, prlsdkAddDomainHardware, prlsdkAddVNCInfo.
  cbv zeta. events.
Qed.

End EventFrames.

(** ** What the loader leaves in the object *)

Lemma references_app (h : PRL_HANDLE) (evs tr : list event) :
  references h (evs ++ tr) = (references h evs + references h tr)%nat.
Proof.
  induction evs as [|e evs IH]; [reflexivity|].
  destruct e; cbn; rewrite IH; lia.
Qed.

Lemma references_build (h : PRL_HANDLE) (evs : list event) :
  Forall build_event evs -> references h evs = 0%nat.
Proof.
  induction 1 as [|e evs He _ IH]; [reflexivity|].
  destruct e; cbn in *; try contradiction; exact IH.
Qed.

Lemma insertions_app (evs tr : list event) :
  insertions (evs ++ tr) = (insertions evs + insertions tr)%nat.
Proof.
  induction evs as [|e evs IH]; [reflexivity|].
  destruct e; cbn; rewrite IH; lia.
Qed.

Lemma removals_app (evs tr : list event) :
  removals (evs ++ tr) = (removals evs + removals tr)%nat.
Proof.
  induction evs as [|e evs IH]; [reflexivity|].
  destruct e; cbn; rewrite IH; lia.
Qed.

Lemma insertions_sdk (evs : list event) :
  Forall sdk_event evs -> insertions evs = 0%nat /\ removals evs = 0%nat.
Proof.
  induction 1 as [|e evs He _ IH]; [auto|].
  destruct e; cbn in *; try contradiction; exact IH.
Qed.

Lemma build_event_sdk (e : event) : build_event e -> sdk_event e.
Proof. destruct e; cbn; auto. Qed.

(** The state mapper assigns the state and the instance id of the
    object, nothing else. *)
Lemma prlsdkConvertDomainState_Ok (st : VIRTUAL_MACHINE_STATE)
    (envId : PRL_UINT32) (dom : virDomainObjPtr) (u : unit) (w w' : world) :
  prlsdkConvertDomainState st envId dom w = Ok u w' ->
  exists o o',
    w_objs w !! dom = Some o /\ w' = with_obj dom o' w /\
    is_Some (obj_state o') /\
    set_def_id 0 (obj_def o') = set_def_id 0 (obj_def o) /\
    obj_newDef o' = obj_newDef o /\
    obj_autostart o' = obj_autostart o /\
    obj_persistent o' = obj_persistent o /\
    obj_privateData o' = obj_privateData o /\
    obj_privateDataFreeFunc o' = obj_privateDataFreeFunc o /\
    obj_locked o' = obj_locked o.
Proof.
  intros H. destruct st; cbn [prlsdkConvertDomainState] in H;
    try (apply update_obj_Ok in H; destruct H as (o & Ho & ->);
         exists o; eexists; split; [exact Ho|]; split; [reflexivity|];
         split; [eexists; reflexivity|]; repeat split).
  apply bind_Ok in H. destruct H as (? & ? & _ & H). discriminate H.
Qed.

Lemma with_obj_lookup (dom : virDomainObjPtr) (o : virDomainObj) (w : world) :
  w_objs (with_obj dom o w) !! dom = Some o.
Proof. apply lookup_insert_eq. Qed.

Lemma with_obj_with_obj (dom : virDomainObjPtr) (o1 o2 : virDomainObj)
    (w : world) :
  with_obj dom o2 (with_obj dom o1 w) = with_obj dom o2 w.
Proof. unfold with_obj. cbn. rewrite insert_insert_eq. reflexivity. Qed.

(** What a run of the second half of [prlsdkLoadDomain] that returns has
    done: a reference taken on the snapshot handle when the private
    data held none, events of queries, and the fields of the object
    assigned. *)
Lemma prlsdkLoadDomain_finish_Ok (sdk : Sdk) (privconn : parallelsConn)
    (sdkdom : PRL_HANDLE) (dom d : virDomainObjPtr) (pdom : parallelsDomObj)
    (envId : PRL_UINT32) (o : virDomainObj) (w w' : world) :
  w_objs w !! dom = Some o ->
  prlsdkLoadDomain_finish sdk privconn sdkdom dom pdom envId w = Ok d w' ->
  exists o' evs,
    d = dom /\
    w' = with_obj dom o' (after_all evs w) /\
    (exists evs1,
       evs = (if pdom_sdkdom pdom =? PRL_INVALID_HANDLE
              then [EvHandleAddRef sdkdom] else []) ++ evs1 /\
       Forall build_event evs1) /\
    set_def_id 0 (obj_def o') = set_def_id 0 (obj_def o) /\
    obj_newDef o' = obj_newDef o /\
    obj_locked o' = obj_locked o /\
    is_Some (obj_state o') /\
    obj_persistent o' = 1 /\
    obj_privateDataFreeFunc o' = Some prlsdkDomObjFreePrivate_ptr /\
    match (PrlVmCfg_GetAutoStart sdk sdkdom).2 with
    | PAO_VM_START_ON_LOAD => obj_autostart o' = 1
    | PAO_VM_START_MANUAL => obj_autostart o' = 0
    | PAO_other _ => False
    end /\
    obj_privateData o'
    = Some (if pdom_sdkdom pdom =? PRL_INVALID_HANDLE
            then set_pdom_sdkdom sdkdom pdom else pdom).
Proof.
  intros Ho H. unfold prlsdkLoadDomain_finish in H.
  apply bind_Ok in H. destruct H as (? & w1 & H1 & H).
  rewrite (update_obj_at _ _ _ _ Ho) in H1. injection H1 as Hw1. subst w1.
  apply bind_Ok in H. destruct H as (st & w2 & Hst & H).
  pose proof (preserves_Ok _ _ _ _ _
                (events_prlsdkGetDomainState build_event
                   (fun _ _ => I) (fun _ => I) (fun _ _ => I) _ _ _) Hst)
    as (Hd2 & Ho2 & evs1 & Ht2 & Hevs1).
  assert (w2 = with_obj dom
                 (set_obj_persistent 1
                    (set_obj_privateDataFreeFunc (Some prlsdkDomObjFreePrivate_ptr)
                       (set_obj_privateData (Some pdom) o)))
                 (after_all evs1 w)) as ->.
  { destruct w2 as [d2 o2 t2]. cbn in Hd2, Ho2, Ht2. subst. reflexivity. }
  clear Hd2 Ho2 Ht2 Hst.
  apply bind_Ok in H. destruct H as (? & w3 & Hconv & H).
  apply prlsdkConvertDomainState_Ok in Hconv.
  destruct Hconv as (o2 & o3 & Ho2 & -> & Hstate & Hdef & Hnew & Hauto & Hpers
                     & Hpriv & Hfree & Hlock).
  rewrite with_obj_lookup in Ho2. injection Ho2 as <-.
  rewrite (with_obj_with_obj dom) in H.
  destruct (PrlVmCfg_GetAutoStart sdk sdkdom) as [pret autostart].
  apply bind_Ok in H. destruct H as (? & w4 & Hc & H).
  apply prlsdkCheckRetGoto_Ok in Hc. destruct Hc as [_ ->].
  apply bind_Ok in H. destruct H as (a & w4 & Ha & H).
  apply bind_Ok in H. destruct H as (? & w5 & Hupd & H).
  cbn [snd].
  assert (w4 = with_obj dom o3 (after_all evs1 w) /\
          match autostart with
          | PAO_VM_START_ON_LOAD => a = 1
          | PAO_VM_START_MANUAL => a = 0
          | PAO_other _ => False
          end) as [-> Hstart].
  { destruct autostart.
    - apply mret_Ok in Ha. destruct Ha as [<- ->]. auto.
    - apply mret_Ok in Ha. destruct Ha as [<- ->]. auto.
    - apply bind_Ok in Ha. destruct Ha as (? & ? & _ & Ha). discriminate Ha. }
  rewrite (update_obj_at _ _ _ _ (with_obj_lookup _ _ _)) in Hupd.
  injection Hupd as Hw5. subst w5. rewrite (with_obj_with_obj dom) in H.
  apply bind_Ok in H. destruct H as (? & w6 & Href & H).
  apply mret_Ok in H. destruct H as [<- ->].
  destruct (pdom_sdkdom pdom =? PRL_INVALID_HANDLE) eqn:Hnull.
  - apply bind_Ok in Href. destruct Href as (pret2 & w7 & Hadd & Href).
    unfold PrlHandle_AddRef in Hadd.
    apply bind_Ok in Hadd. destruct Hadd as (? & w8 & Hemit & Hadd).
    injection Hemit as Hw8. subst w8. apply mret_Ok in Hadd. destruct Hadd as [<- ->].
    apply bind_Ok in Href. destruct Href as (? & w7 & Hc & Href).
    apply prlsdkCheckRetGoto_Ok in Hc. destruct Hc as [_ ->].
    apply update_obj_Ok in Href. destruct Href as (o5 & Ho5 & ->).
    cbn in Ho5. rewrite lookup_insert_eq in Ho5. injection Ho5 as <-.
    eexists. exists (EvHandleAddRef sdkdom :: evs1).
    split; [reflexivity|]. split.
    { unfold with_obj, after_all. cbn. rewrite insert_insert_eq. reflexivity. }
    split; [exists evs1; split; [reflexivity|exact Hevs1]|].
    cbn. rewrite Hnew, Hlock, Hpers, Hfree.
    split; [exact Hdef|].
    repeat (split; [reflexivity|]).
    split; [exact Hstate|].
    repeat (split; [reflexivity|]).
    split; [|reflexivity].
    destruct autostart; cbn; solve [contradiction | congruence].
  - apply mret_Ok in Href. destruct Href as [_ ->].
    eexists. exists evs1.
    split; [reflexivity|]. split; [reflexivity|].
    split; [exists evs1; split; [reflexivity|exact Hevs1]|].
    cbn. rewrite Hnew, Hlock, Hpers, Hfree, Hpriv.
    split; [exact Hdef|].
    repeat (split; [reflexivity|]).
    split; [exact Hstate|].
    repeat (split; [reflexivity|]).
    split; [|reflexivity].
    destruct autostart; cbn; solve [contradiction | congruence].
Qed.

(** ** What the loader builds *)

Lemma prlsdkConvertCpuMode_Ok (sdk : Sdk) (sdkdom : PRL_HANDLE)
    (def def' : virDomainDef) (w w' : world) :
  prlsdkConvertCpuMode sdk sdkdom def w = Ok def' w' ->
  match (PrlVmCfg_GetCpuMode sdk sdkdom).2 with
  | PCM_CPU_MODE_32 => def' = set_def_os_arch (Some VIR_ARCH_I686) def
  | PCM_CPU_MODE_64 => def' = set_def_os_arch (Some VIR_ARCH_X86_64) def
  | PCM_other _ => False
  end.
Proof.
  unfold prlsdkConvertCpuMode. intros H. inv_Ok H; cbn [snd]; reflexivity.
Qed.

Lemma prlsdkAddDomainVideoInfo_Ok (sdk : Sdk) (sdkdom : PRL_HANDLE)
    (def def' : virDomainDef) (w w' : world) :
  prlsdkAddDomainVideoInfo sdk sdkdom def w = Ok def' w' ->
  def' = set_def_videos (def_videos def ++ [vga_video sdk sdkdom]) def.
Proof.
  unfold prlsdkAddDomainVideoInfo, vga_video. intros H. inv_Ok H.
  cbn [snd]. reflexivity.
Qed.

Lemma prlsdkAddDomainHardware_Ok (sdk : Sdk) (host : Host)
    (sdkdom : PRL_HANDLE) (def def' : virDomainDef) (w w' : world) :
  prlsdkAddDomainHardware sdk host sdkdom def w = Ok def' w' ->
  exists disks nets chrs,
    def' = set_def_serials (def_serials def ++ chrs)
             (set_def_nets (def_nets def ++ nets)
                (set_def_disks (def_disks def ++ disks)
                   (set_def_videos
                      (if IS_CT def then def_videos def
                       else def_videos def ++ [vga_video sdk sdkdom]) def))) /\
    length disks =
      (if IS_CT def then 0%nat
       else Z.to_nat (PrlVmCfg_GetHardDisksCount sdk sdkdom).2) /\
    length nets = Z.to_nat (PrlVmCfg_GetNetAdaptersCount sdk sdkdom).2 /\
    length chrs = Z.to_nat (PrlVmCfg_GetSerialPortsCount sdk sdkdom).2.
Proof.
  unfold prlsdkAddDomainHardware. intros H.
  apply bind_Ok in H. destruct H as (def1 & w1 & Hvideo & H).
  apply bind_Ok in H. destruct H as (def2 & w2 & Hdisks & H).
  apply bind_Ok in H. destruct H as (def3 & w3 & Hnets & H).
  apply bind_Ok in H. destruct H as (serials & w4 & Hserials & H).
  apply mret_Ok in H. destruct H as [<- ->].
  assert (def1 = set_def_videos
                   (if IS_CT def then def_videos def
                    else def_videos def ++ [vga_video sdk sdkdom]) def) as ->.
  { destruct (IS_CT def); cbn [negb] in Hvideo.
    - apply mret_Ok in Hvideo. destruct Hvideo as [<- _].
      destruct def; reflexivity.
    - apply prlsdkAddDomainVideoInfo_Ok in Hvideo. exact Hvideo. }
  apply prlsdkAddDomainHardDisksInfo_shape in Hdisks.
  destruct Hdisks as (disks & -> & Hdisks).
  change (IS_CT (set_def_videos _ def)) with (IS_CT def) in Hdisks.
  unfold prlsdkAddDomainNetInfo in Hnets.
  destruct (PrlVmCfg_GetNetAdaptersCount sdk sdkdom) as [pret1 n1].
  destruct (PRL_FAILED sdk pret1);
    [apply bind_Ok in Hnets; destruct Hnets as (? & ? & _ & Hnets);
     discriminate Hnets|].
  apply prlsdkAddDomainNetInfo_loop_Ok in Hnets.
  destruct Hnets as (nets & -> & Hnets & _).
  unfold prlsdkAddSerialInfo in Hserials.
  destruct (PrlVmCfg_GetSerialPortsCount sdk sdkdom) as [pret2 n2].
  destruct (PRL_FAILED sdk pret2);
    [apply bind_Ok in Hserials; destruct Hserials as (? & ? & _ & Hserials);
     discriminate Hserials|].
  apply prlsdkAddSerialInfo_loop_Ok in Hserials.
  destruct Hserials as (chrs & -> & Hchrs & _).
  exists disks, nets, chrs. cbn [snd].
  split; [reflexivity|]. auto.
Qed.

(** The fields of the definition and of the private data that a run of
    the first half of [prlsdkLoadDomain] has assigned when it returns. *)
Lemma prlsdkLoadDomain_build_fields (sdk : Sdk) (host : Host)
    (sdkdom : PRL_HANDLE) (def0 def : virDomainDef)
    (pdom0 pdom : parallelsDomObj) (envId : PRL_UINT32) (w w' : world) :
  prlsdkLoadDomain_build sdk host sdkdom def0 pdom0 w = Ok (def, pdom, envId) w' ->
  (def_virtType def = def_virtType def0 /\
   def_name def = Some (PrlVmCfg_GetName sdk sdkdom true).2 /\
   def_onReboot def = Some VIR_DOMAIN_LIFECYCLE_RESTART /\
   def_onPoweroff def = Some VIR_DOMAIN_LIFECYCLE_DESTROY /\
   def_onCrash def = Some VIR_DOMAIN_LIFECYCLE_CRASH_DESTROY) /\
  (def_mem_max_balloon def = shl10_uint32 (PrlVmCfg_GetRamSize sdk sdkdom).2 /\
   def_mem_cur_balloon def = shl10_uint32 (PrlVmCfg_GetRamSize sdk sdkdom).2) /\
  match (PrlVmCfg_GetCpuMode sdk sdkdom).2 with
  | PCM_CPU_MODE_32 => def_os_arch def = Some VIR_ARCH_I686
  | PCM_CPU_MODE_64 => def_os_arch def = Some VIR_ARCH_X86_64
  | PCM_other _ => False
  end /\
  match (PrlVmCfg_GetVmType sdk sdkdom).2 with
  | PVT_VM =>
      def_os_type def = Some "hvm"%string /\
      def_os_init def = def_os_init def0 /\
      def_videos def = def_videos def0 ++ [vga_video sdk sdkdom]
  | PVT_CT =>
      def_os_type def = Some "exe"%string /\
      def_os_init def = Some "/sbin/init"%string /\
      def_videos def = def_videos def0
  | PVT_other _ => False
  end /\
  (length (def_nets def)
   = (length (def_nets def0)
      + Z.to_nat (PrlVmCfg_GetNetAdaptersCount sdk sdkdom).2)%nat /\
   length (def_serials def)
   = (length (def_serials def0)
      + Z.to_nat (PrlVmCfg_GetSerialPortsCount sdk sdkdom).2)%nat) /\
  (pdom_id pdom = int_of_uint32 (PrlVmCfg_GetEnvId sdk sdkdom).2 /\
   pdom_home pdom = Some (PrlVmCfg_GetHomePath sdk sdkdom true).2 /\
   pdom_uuid pdom = pdom_uuid pdom0 /\
   pdom_sdkdom pdom = pdom_sdkdom pdom0).
Proof.
  unfold prlsdkLoadDomain_build. intros H. inv_Ok H. cbn [snd].
  repeat match goal with
  | E : prlsdkConvertCpuInfo _ _ _ _ _ _ = Ok _ _ |- _ =>
      apply prlsdkConvertCpuInfo_shape in E; destruct E as (? & ? & -> & ->)
  | E : prlsdkConvertCpuMode _ _ _ _ = Ok _ _ |- _ =>
      apply prlsdkConvertCpuMode_Ok in E; rename E into Hmode
  | E : prlsdkAddDomainHardware _ _ _ _ _ = Ok _ _ |- _ =>
      apply prlsdkAddDomainHardware_Ok in E;
      destruct E as (disks & nets & chrs & -> & _ & Hnets & Hchrs)
  | E : prlsdkAddVNCInfo _ _ _ _ = Ok _ _ |- _ =>
      apply prlsdkAddVNCInfo_shape in E; destruct E as [Hoff Hon]
  | E : prlsdkConvertDomainType _ _ _ _ = Ok _ _ |- _ =>
      apply prlsdkConvertDomainType_shape in E; rename E into Htype
  | E : prlsdkGetDomainIds _ _ _ = Ok _ _ |- _ =>
      unfold prlsdkGetDomainIds in E; inv_Ok E
  end.
  cbn [snd].
  destruct (decide ((PrlVmCfg_GetVNCMode sdk sdkdom).2 = PRD_DISABLED)) as [Hd|Hd];
    [rewrite (Hoff Hd) | rewrite (Hon Hd)]; clear Hoff Hon;
    (destruct (PrlVmCfg_GetVmType sdk sdkdom).2; [| |contradiction]);
    (destruct (PrlVmCfg_GetCpuMode sdk sdkdom).2; [| |contradiction]);
    subst; unfold IS_CT; def_fields;
    rewrite ?bool_decide_true by reflexivity;
    rewrite ?bool_decide_false by discriminate;
    rewrite !length_app, Hnets, Hchrs;
    repeat split; reflexivity.
Qed.

Lemma extends_after_all (P : event -> Prop) (w w' : world) :
  extends P w w' -> exists evs, w' = after_all evs w /\ Forall P evs.
Proof.
  intros (Hd & Ho & evs & Ht & Hevs). exists evs. split; [|exact Hevs].
  destruct w' as [d o t]. cbn in Hd, Ho, Ht. subst. reflexivity.
Qed.

Lemma prlsdkLoadDomain_build_after (sdk : Sdk) (host : Host)
    (sdkdom : PRL_HANDLE) (def0 def : virDomainDef)
    (pdom0 pdom : parallelsDomObj) (envId : PRL_UINT32) (w w' : world) :
  prlsdkLoadDomain_build sdk host sdkdom def0 pdom0 w = Ok (def, pdom, envId) w' ->
  exists evs, w' = after_all evs w /\ Forall build_event evs.
Proof.
  intros H. apply extends_after_all.
  exact (preserves_Ok _ _ _ _ _
           (events_prlsdkLoadDomain_build build_event
              (fun _ _ => I) (fun _ => I) (fun _ => I)
              _ _ _ _ _) H).
Qed.

(** The slot that [virDomainObjListAdd] returns: filed under the UUID
    of the definition, holding the definition, locked; a new object when
    the UUID had no slot. *)
Lemma virDomainObjListAdd_slot (def : virDomainDef) (dom : virDomainObjPtr)
    (w w' : world) :
  virDomainObjListAdd def w = Ok dom w' ->
  exists o1,
    w' = {| w_domains := <[def_uuid def := dom]> (w_domains w);
            w_objs := <[dom := o1]> (w_objs w);
            w_trace := EvListAdd (def_uuid def) dom :: w_trace w |} /\
    obj_def o1 = def /\ obj_locked o1 = true /\
    (w_domains w !! def_uuid def = None ->
     w_objs w !! dom = None /\ o1 = virDomainObjNew def) /\
    (forall p, w_domains w !! def_uuid def = Some p ->
       dom = p /\ exists o, w_objs w !! p = Some o /\ o1 = assign_def o def).
Proof.
  unfold virDomainObjListAdd.
  destruct (w_domains w !! def_uuid def) as [p|] eqn:Hd.
  - destruct (w_objs w !! p) as [o|] eqn:Ho; [|discriminate].
    intros [= <- <-]. exists (assign_def o def).
    split; [rewrite (insert_id _ _ _ Hd); reflexivity|].
    split; [reflexivity|]. split; [reflexivity|].
    split; [discriminate|]. intros p' [= <-]. eauto.
  - intros [= <- <-]. exists (virDomainObjNew def).
    split; [reflexivity|]. split; [reflexivity|]. split; [reflexivity|].
    split; [|discriminate]. intros _. split; [|reflexivity].
    apply not_elem_of_dom, is_fresh.
Qed.

(** A fresh discovery that returns: the definition was built from the
    snapshot, the slot taken for its UUID, and the object finished. *)
Lemma prlsdkLoadDomain_fresh_Ok (sdk : Sdk) (host : Host)
    (privconn : parallelsConn) (sdkdom : PRL_HANDLE) (dom : virDomainObjPtr)
    (w w' : world) :
  prlsdkLoadDomain sdk host privconn sdkdom None w = Ok dom w' ->
  exists def pdom envId evs1 evs2 o1 o',
    sdkdom <> PRL_INVALID_HANDLE /\
    prlsdkLoadDomain_build sdk host sdkdom fresh_def
      (set_pdom_uuid None parallelsDomObj_zero) w
    = Ok (def, pdom, envId) (after_all evs1 w) /\
    Forall build_event evs1 /\ Forall build_event evs2 /\
    virDomainObjListAdd def (after_all evs1 w)
    = Ok dom {| w_domains := <[def_uuid def := dom]> (w_domains w);
                w_objs := <[dom := o1]> (w_objs w);
                w_trace := EvListAdd (def_uuid def) dom :: evs1 ++ w_trace w |} /\
    w' = {| w_domains := <[def_uuid def := dom]> (w_domains w);
            w_objs := <[dom := o']> (w_objs w);
            w_trace := EvHandleAddRef sdkdom :: evs2 ++
                       EvListAdd (def_uuid def) dom :: evs1 ++ w_trace w |} /\
    set_def_id 0 (obj_def o') = set_def_id 0 def /\
    obj_newDef o' = obj_newDef o1 /\
    obj_locked o' = true /\
    is_Some (obj_state o') /\
    obj_persistent o' = 1 /\
    obj_privateDataFreeFunc o' = Some prlsdkDomObjFreePrivate_ptr /\
    match (PrlVmCfg_GetAutoStart sdk sdkdom).2 with
    | PAO_VM_START_ON_LOAD => obj_autostart o' = 1
    | PAO_VM_START_MANUAL => obj_autostart o' = 0
    | PAO_other _ => False
    end /\
    obj_privateData o' = Some (set_pdom_sdkdom sdkdom pdom).
Proof.
  unfold prlsdkLoadDomain. intros H.
  destruct (sdkdom =? PRL_INVALID_HANDLE) eqn:Hsdk; [inv_Ok H|].
  apply Z.eqb_neq in Hsdk.
  apply bind_Ok in H. destruct H as (pdom0 & w0 & Hp & H).
  apply mret_Ok in Hp. destruct Hp as [<- ->].
  apply bind_Ok in H. destruct H as ([[def pdom] envId] & w1 & Hbuild & H).
  apply or_else_Ok in Hbuild.
  change (set_def_id (-1) (set_def_virtType (Some VIR_DOMAIN_VIRT_PARALLELS)
                             virDomainDef_zero)) with fresh_def in Hbuild.
  destruct (prlsdkLoadDomain_build_after _ _ _ _ _ _ _ _ _ _ Hbuild)
    as (evs1 & -> & Hevs1).
  pose proof (prlsdkLoadDomain_build_fields _ _ _ _ _ _ _ _ _ _ Hbuild)
    as (_ & _ & _ & _ & _ & _ & _ & _ & Hnull).
  apply bind_Ok in H. destruct H as (dom1 & w2 & Hadd & H).
  apply or_else_Ok in Hadd.
  destruct (virDomainObjListAdd_slot _ _ _ _ Hadd)
    as (o1 & Hw2 & Hdef1 & Hlock1 & _).
  apply or_else_Ok in H.
  assert (w_objs w2 !! dom1 = Some o1) as Ho1
    by (rewrite Hw2; apply lookup_insert_eq).
  destruct (prlsdkLoadDomain_finish_Ok _ _ _ _ _ _ _ _ _ _ Ho1 H)
    as (o' & evs & -> & -> & (evs2 & -> & Hevs2) & Hdef & Hnew & Hlock
        & Hstate & Hpers & Hfree & Hauto & Hpriv).
  cbn in Hnull. rewrite Hnull in Hpriv |- *. cbn [Z.eqb] in Hpriv |- *.
  exists def, pdom, envId, evs1, evs2, o1, o'.
  split; [exact Hsdk|]. split; [exact Hbuild|].
  split; [exact Hevs1|]. split; [exact Hevs2|].
  split; [rewrite Hadd, Hw2; reflexivity|].
  split.
  { rewrite Hw2. unfold with_obj, after_all. cbn.
    rewrite insert_insert_eq. reflexivity. }
  rewrite Hdef, Hdef1, Hlock, Hlock1, Hnew.
  repeat (split; [first [reflexivity | assumption]|]). exact Hpriv.
Qed.

(** Which pointers of the slot the second half of the loader keeps. *)
#[global] Instance pointers_kept_preorder (dom : virDomainObjPtr) :
  PreOrder (pointers_kept dom).
Proof.
  split.
  - intros w o Ho. eauto.
  - intros w1 w2 w3 H12 H23 o Ho.
    destruct (H12 o Ho) as (o2 & Ho2 & Hn2 & Hd2 & Hp2).
    destruct (H23 o2 Ho2) as (o3 & Ho3 & Hn3 & Hd3 & Hp3).
    exists o3. split; [exact Ho3|]. split; [congruence|]. split; congruence.
Qed.

Lemma update_obj_pointers_kept (dom : virDomainObjPtr)
    (f : virDomainObj -> virDomainObj) :
  (forall o, obj_newDef (f o) = obj_newDef o /\
             obj_def_freed (f o) = obj_def_freed o /\
             obj_privateData_freed (f o) = obj_privateData_freed o) ->
  preserves (pointers_kept dom) (update_obj dom f).
Proof.
  intros Hf w. unfold update_obj, get_obj, set_obj, mbind, M_bind, bind.
  destruct (w_objs w !! dom) as [o|] eqn:Ho; [|exact I].
  intros o0 Ho0. rewrite Ho in Ho0. injection Ho0 as <-.
  exists (f o). split; [apply lookup_insert_eq | exact (Hf o)].
Qed.

Lemma sdk_only_pointers_kept {A} (dom : virDomainObjPtr) (m : M A) :
  sdk_only m -> preserves (pointers_kept dom) m.
Proof.
  apply preserves_weaken. intros w w' (_ & Ho & _) o Hlook.
  exists o. rewrite Ho. auto.
Qed.

Lemma prlsdkConvertDomainState_pointers_kept (st : VIRTUAL_MACHINE_STATE)
    (envId : PRL_UINT32) (dom : virDomainObjPtr) :
  preserves (pointers_kept dom) (prlsdkConvertDomainState st envId dom).
Proof.
  unfold prlsdkConvertDomainState.
  destruct st;
    try (apply update_obj_pointers_kept; intros o; repeat split).
  apply sdk_only_pointers_kept. frames.
Qed.

(** After the slot is taken the loader leaves the pointers of the slot
    alone. *)
Lemma prlsdkLoadDomain_finish_pointers_kept (sdk : Sdk)
    (privconn : parallelsConn) (sdkdom : PRL_HANDLE) (dom : virDomainObjPtr)
    (pdom : parallelsDomObj) (envId : PRL_UINT32) :
  preserves (pointers_kept dom)
    (prlsdkLoadDomain_finish sdk privconn sdkdom dom pdom envId).
Proof.
  unfold prlsdkLoadDomain_finish.
  repeat first
    [ apply prlsdkConvertDomainState_pointers_kept
    | apply update_obj_pointers_kept; intros o; repeat split
    | apply sdk_only_pointers_kept; solve [auto with frames]
    | frames_step ].
Qed.

(** A refresh that returns: the definition was built from the snapshot
    and assigned to the slot, and the object finished. *)
Lemma prlsdkLoadDomain_refresh_Ok (sdk : Sdk) (host : Host)
    (privconn : parallelsConn) (sdkdom : PRL_HANDLE)
    (old dom : virDomainObjPtr) (o : virDomainObj) (w w' : world) :
  w_objs w !! old = Some o ->
  prlsdkLoadDomain sdk host privconn sdkdom (Some old) w = Ok dom w' ->
  exists pdom0 def pdom envId evs1 evs2 o',
    obj_privateData o = Some pdom0 /\
    prlsdkLoadDomain_build sdk host sdkdom fresh_def
      (set_pdom_uuid None pdom0) w
    = Ok (def, pdom, envId) (after_all evs1 w) /\
    Forall build_event evs1 /\ Forall build_event evs2 /\
    dom = old /\
    w' = with_obj old o'
           (after_all
              ((if pdom_sdkdom pdom0 =? PRL_INVALID_HANDLE
                then [EvHandleAddRef sdkdom] else []) ++ evs2 ++ evs1) w) /\
    set_def_id 0 (obj_def o') = set_def_id 0 def /\
    obj_newDef o' = NewDefSameAsDef /\
    obj_locked o' = obj_locked o /\
    is_Some (obj_state o') /\
    obj_persistent o' = 1 /\
    obj_privateDataFreeFunc o' = Some prlsdkDomObjFreePrivate_ptr /\
    match (PrlVmCfg_GetAutoStart sdk sdkdom).2 with
    | PAO_VM_START_ON_LOAD => obj_autostart o' = 1
    | PAO_VM_START_MANUAL => obj_autostart o' = 0
    | PAO_other _ => False
    end /\
    obj_privateData o'
    = Some (if pdom_sdkdom pdom0 =? PRL_INVALID_HANDLE
            then set_pdom_sdkdom sdkdom pdom else pdom).
Proof.
  intros Ho H.
  destruct (prlsdkLoadDomain_refresh_slot _ _ _ _ _ _ _ _ H) as (Hsdk & _).
  rewrite (prlsdkLoadDomain_refresh_run _ _ _ _ _ _ _ Hsdk Ho) in H.
  destruct (obj_privateData o) as [pdom0|] eqn:Hpriv0; [|discriminate H].
  destruct (obj_privateData_freed o); [discriminate H|].
  destruct (prlsdkLoadDomain_build sdk host sdkdom fresh_def
              (set_pdom_uuid None pdom0) w)
    as [[[def pdom] envId] w1|w1|] eqn:Hbuild; try discriminate H.
  destruct (obj_def_freed o); [discriminate H|].
  assert (Hfin : prlsdkLoadDomain_finish sdk privconn sdkdom old pdom envId
                   (with_obj old
                      (set_obj_newDef NewDefSameAsDef (set_obj_def def o)) w1)
                 = Ok dom w').
  { destruct (obj_newDef o); try discriminate H;
      (destruct (prlsdkLoadDomain_finish sdk privconn sdkdom old pdom envId _)
         as [dd w2|w2|]; [exact H| |discriminate H]);
      unfold refresh_unwound in H; destruct (w_objs w2 !! old); discriminate H. }
  clear H.
  destruct (prlsdkLoadDomain_build_after _ _ _ _ _ _ _ _ _ _ Hbuild)
    as (evs1 & -> & Hevs1).
  pose proof (prlsdkLoadDomain_build_fields _ _ _ _ _ _ _ _ _ _ Hbuild)
    as (_ & _ & _ & _ & _ & _ & _ & _ & Hnull).
  cbn in Hnull.
  destruct (prlsdkLoadDomain_finish_Ok _ _ _ _ _ _ _ _ _ _
              (with_obj_lookup _ _ _) Hfin)
    as (o' & evs & -> & -> & (evs2 & -> & Hevs2) & Hdef & Hnew & Hlock
        & Hstate & Hpers & Hfree & Hauto & Hpriv).
  rewrite Hnull in Hpriv |- *.
  exists pdom0, def, pdom, envId, evs1, evs2, o'.
  split; [reflexivity|]. split; [exact Hbuild|].
  split; [exact Hevs1|]. split; [exact Hevs2|]. split; [reflexivity|].
  split.
  { unfold with_obj, after_all. cbn. rewrite insert_insert_eq.
    rewrite <- !app_assoc. reflexivity. }
  split; [exact Hdef|]. split; [exact Hnew|]. split; [exact Hlock|].
  repeat (split; [assumption|]). exact Hpriv.
Qed.


(** ** A domain that was loaded *)

Lemma prlsdkUUIDParse_Ok (uuidstr : list ascii) (uuid : uuid_t) (w w' : world) :
  prlsdkUUIDParse uuidstr w = Ok uuid w' ->
  virUUIDParse (stripped uuidstr) = Some uuid /\ w' = w.
Proof.
  unfold prlsdkUUIDParse, stripped.
  destruct (c_str uuidstr) as [|c rest]; [discriminate|].
  destruct (virUUIDParse (tail (removelast (c :: rest)))) as [u|].
  - intros H. apply mret_Ok in H. destruct H as [-> ->]. auto.
  - intros H. apply bind_Ok in H. destruct H as (? & ? & _ & H).
    discriminate H.
Qed.

Lemma set_def_id_fields (d d' : virDomainDef) :
  set_def_id 0 d' = set_def_id 0 d ->
  def_virtType d' = def_virtType d /\ def_name d' = def_name d /\
  def_uuid d' = def_uuid d /\ def_onReboot d' = def_onReboot d /\
  def_onPoweroff d' = def_onPoweroff d /\ def_onCrash d' = def_onCrash d /\
  def_mem_max_balloon d' = def_mem_max_balloon d /\
  def_mem_cur_balloon d' = def_mem_cur_balloon d /\
  def_os_type d' = def_os_type d /\ def_os_init d' = def_os_init d /\
  def_os_arch d' = def_os_arch d /\ def_videos d' = def_videos d /\
  def_nets d' = def_nets d /\ def_serials d' = def_serials d.
Proof.
  intros H.
  repeat split;
    [ exact (f_equal def_virtType H) | exact (f_equal def_name H)
    | exact (f_equal def_uuid H) | exact (f_equal def_onReboot H)
    | exact (f_equal def_onPoweroff H) | exact (f_equal def_onCrash H)
    | exact (f_equal def_mem_max_balloon H)
    | exact (f_equal def_mem_cur_balloon H)
    | exact (f_equal def_os_type H) | exact (f_equal def_os_init H)
    | exact (f_equal def_os_arch H) | exact (f_equal def_videos H)
    | exact (f_equal def_nets H) | exact (f_equal def_serials H) ].
Qed.

(** X16: a fresh discovery that returns has filed the domain under
    the UUID of its definition and nowhere else: the entry of that UUID
    is the object returned, every other entry of the domain list and
    every other object is as before, the list saw one insertion and no
    removal, and looking the UUID up with [prlsdkAddDomain] afterwards
    returns the same object without any call to the SDK. *)
Theorem prlsdkLoadDomain_fresh_store (sdk : Sdk) (host : Host)
    (privconn : parallelsConn) (sdkdom : PRL_HANDLE) (dom : virDomainObjPtr)
    (w w' : world) :
  prlsdkLoadDomain sdk host privconn sdkdom None w = Ok dom w' ->
  exists o' evs,
    w_objs w' !! dom = Some o' /\
    w_domains w' = <[def_uuid (obj_def o') := dom]> (w_domains w) /\
    (forall p, p <> dom -> w_objs w' !! p = w_objs w !! p) /\
    w_trace w' = evs ++ w_trace w /\
    insertions evs = 1%nat /\ removals evs = 0%nat /\
    prlsdkAddDomain sdk host privconn (def_uuid (obj_def o')) w'
    = Ok dom (with_obj dom (lock_obj o' true) w').
Proof.
  intros H.
  destruct (prlsdkLoadDomain_fresh_Ok _ _ _ _ _ _ _ H)
    as (def & pdom & envId & evs1 & evs2 & o1 & o' & _ & _ & Hevs1 & Hevs2
        & _ & -> & Hdef & _).
  destruct (set_def_id_fields _ _ Hdef) as (_ & _ & Huuid & _).
  exists o', (EvHandleAddRef sdkdom :: evs2 ++
              EvListAdd (def_uuid def) dom :: evs1).
  cbn [w_objs w_domains w_trace].
  split; [apply lookup_insert_eq|].
  split; [rewrite Huuid; reflexivity|].
  split; [intros p Hp; apply lookup_insert_ne; congruence|].
  split; [cbn; rewrite <- app_assoc; reflexivity|].
  assert (Forall sdk_event evs1) as Hs1
    by (eapply Forall_impl; [exact Hevs1 | exact build_event_sdk]).
  assert (Forall sdk_event evs2) as Hs2
    by (eapply Forall_impl; [exact Hevs2 | exact build_event_sdk]).
  destruct (insertions_sdk _ Hs1) as [Hi1 Hr1].
  destruct (insertions_sdk _ Hs2) as [Hi2 Hr2].
  split; [cbn; rewrite insertions_app; cbn; rewrite Hi1, Hi2; reflexivity|].
  split; [cbn; rewrite removals_app; cbn; rewrite Hr1, Hr2; reflexivity|].
  unfold prlsdkAddDomain, virDomainObjListFindByUUID.
  unfold mbind at 1, M_bind at 1, bind at 1. cbn [w_objs w_domains].
  rewrite Huuid, !lookup_insert_eq. reflexivity.
Qed.

(** X17: the identity of a loaded domain.  Its name is the text the
    SDK left in the name buffer; its UUID is the canonical UUID found
    between the first and the last character of the text the SDK left
    in the UUID buffer, and has 16 bytes; its virtualisation type is
    "parallels"; it is restarted on reboot and destroyed on power-off
    and on crash. *)
Theorem prlsdkLoadDomain_identity (sdk : Sdk) (host : Host)
    (privconn : parallelsConn) (sdkdom : PRL_HANDLE)
    (olddom : option virDomainObjPtr) (dom : virDomainObjPtr) (w w' : world) :
  prlsdkLoadDomain sdk host privconn sdkdom olddom w = Ok dom w' ->
  exists o',
    w_objs w' !! dom = Some o' /\
    def_name (obj_def o') = Some (PrlVmCfg_GetName sdk sdkdom true).2 /\
    virUUIDParse
      (stripped (list_ascii_of_string (PrlVmCfg_GetUuid sdk sdkdom).2))
    = Some (def_uuid (obj_def o')) /\
    length (def_uuid (obj_def o')) = VIR_UUID_BUFLEN /\
    def_virtType (obj_def o') = Some VIR_DOMAIN_VIRT_PARALLELS /\
    def_onReboot (obj_def o') = Some VIR_DOMAIN_LIFECYCLE_RESTART /\
    def_onPoweroff (obj_def o') = Some VIR_DOMAIN_LIFECYCLE_DESTROY /\
    def_onCrash (obj_def o') = Some VIR_DOMAIN_LIFECYCLE_CRASH_DESTROY.
Proof.
  intros H.
  destruct (prlsdkLoadDomain_Ok _ _ _ _ _ _ _ _ H)
    as (pdom0 & def & pdom & envId & w1 & o' & Hbuild & Ho' & Hdef & _).
  destruct (set_def_id_fields _ _ Hdef)
    as (Hvirt & Hname & Huuid & Hreboot & Hoff & Hcrash & _).
  pose proof (prlsdkLoadDomain_build_fields _ _ _ _ _ _ _ _ _ _ Hbuild)
    as ((Hv & Hn & Hr & Hp & Hc) & _).
  pose proof (prlsdkLoadDomain_build_shape _ _ _ _ _ _ _ _ _ _ Hbuild)
    as ((name & w2 & Hids) & _).
  apply prlsdkGetDomainIds_at in Hids. apply prlsdkUUIDParse_Ok in Hids.
  destruct Hids as [Hparse _].
  exists o'. rewrite Hvirt, Hname, Huuid, Hreboot, Hoff, Hcrash.
  split; [exact Ho'|]. split; [exact Hn|]. split; [exact Hparse|].
  split; [exact (proj1 (proj2 (virUUIDParse_shape _ _ Hparse)))|].
  split; [rewrite Hv; reflexivity|]. auto.
Qed.

(** X18: the memory of a loaded domain, maximum and current, is the RAM
    size of the snapshot, taken in mebibytes, times 1024 computed in 32
    bits: the size in kibibytes below 4 TiB of RAM, and that size
    reduced modulo 2^32 from there on. *)
Theorem prlsdkLoadDomain_memory (sdk : Sdk) (host : Host)
    (privconn : parallelsConn) (sdkdom : PRL_HANDLE)
    (olddom : option virDomainObjPtr) (dom : virDomainObjPtr) (w w' : world) :
  let ram := (PrlVmCfg_GetRamSize sdk sdkdom).2 in
  prlsdkLoadDomain sdk host privconn sdkdom olddom w = Ok dom w' ->
  exists o',
    w_objs w' !! dom = Some o' /\
    def_mem_max_balloon (obj_def o') = (ram * 1024) mod 2 ^ 32 /\
    def_mem_cur_balloon (obj_def o') = (ram * 1024) mod 2 ^ 32 /\
    (0 <= ram < 2 ^ 22 -> def_mem_max_balloon (obj_def o') = ram * 1024).
Proof.
  intros ram H.
  destruct (prlsdkLoadDomain_Ok _ _ _ _ _ _ _ _ H)
    as (pdom0 & def & pdom & envId & w1 & o' & Hbuild & Ho' & Hdef & _).
  destruct (set_def_id_fields _ _ Hdef)
    as (_ & _ & _ & _ & _ & _ & Hmax & Hcur & _).
  pose proof (prlsdkLoadDomain_build_fields _ _ _ _ _ _ _ _ _ _ Hbuild)
    as (_ & (Hm & Hc) & _).
  exists o'. rewrite Hmax, Hcur, Hm, Hc, shl10_uint32_mod. fold ram.
  split; [exact Ho'|]. split; [reflexivity|]. split; [reflexivity|].
  intros Hr. apply Z.mod_small. lia.
Qed.

(** X19: the personality of a loaded domain.  A domain is returned only
    for a snapshot that is a full machine or a container, in 32-bit or
    64-bit mode.  A full machine has the OS type [hvm], no init path
    and exactly one video device, the VGA adapter of the snapshot; a
    container has the OS type [exe], the init path [/sbin/init] and no
    video device.  The architecture is i686 for the 32-bit mode and
    x86_64 for the 64-bit mode. *)
Theorem prlsdkLoadDomain_personality (sdk : Sdk) (host : Host)
    (privconn : parallelsConn) (sdkdom : PRL_HANDLE)
    (olddom : option virDomainObjPtr) (dom : virDomainObjPtr) (w w' : world) :
  prlsdkLoadDomain sdk host privconn sdkdom olddom w = Ok dom w' ->
  exists o',
    w_objs w' !! dom = Some o' /\
    match (PrlVmCfg_GetVmType sdk sdkdom).2 with
    | PVT_VM =>
        def_os_type (obj_def o') = Some "hvm"%string /\
        def_os_init (obj_def o') = None /\
        def_videos (obj_def o') = [vga_video sdk sdkdom]
    | PVT_CT =>
        def_os_type (obj_def o') = Some "exe"%string /\
        def_os_init (obj_def o') = Some "/sbin/init"%string /\
        def_videos (obj_def o') = []
    | PVT_other _ => False
    end /\
    match (PrlVmCfg_GetCpuMode sdk sdkdom).2 with
    | PCM_CPU_MODE_32 => def_os_arch (obj_def o') = Some VIR_ARCH_I686
    | PCM_CPU_MODE_64 => def_os_arch (obj_def o') = Some VIR_ARCH_X86_64
    | PCM_other _ => False
    end.
Proof.
  intros H.
  destruct (prlsdkLoadDomain_Ok _ _ _ _ _ _ _ _ H)
    as (pdom0 & def & pdom & envId & w1 & o' & Hbuild & Ho' & Hdef & _).
  destruct (set_def_id_fields _ _ Hdef)
    as (_ & _ & _ & _ & _ & _ & _ & _ & Htype & Hinit & Harch & Hvideos & _).
  pose proof (prlsdkLoadDomain_build_fields _ _ _ _ _ _ _ _ _ _ Hbuild)
    as (_ & _ & Hmode & Hpers & _).
  exists o'. rewrite Htype, Hinit, Harch, Hvideos.
  split; [exact Ho'|]. split; [|exact Hmode].
  destruct (PrlVmCfg_GetVmType sdk sdkdom).2; exact Hpers.
Qed.

(** X20: the bookkeeping of a loaded domain.  The object returned is
    persistent, has a state, and has [prlsdkDomObjFreePrivate] as the
    function that frees its private data; its autostart flag is 1 for
    the option "start on load" and 0 for "start manually", and no other
    option gives a domain.  After a fresh discovery the object is
    locked; after a refresh [newDef] points to the definition that
    [def] points to. *)
Theorem prlsdkLoadDomain_bookkeeping (sdk : Sdk) (host : Host)
    (privconn : parallelsConn) (sdkdom : PRL_HANDLE)
    (olddom : option virDomainObjPtr) (dom : virDomainObjPtr) (w w' : world) :
  prlsdkLoadDomain sdk host privconn sdkdom olddom w = Ok dom w' ->
  exists o',
    w_objs w' !! dom = Some o' /\
    obj_persistent o' = 1 /\
    is_Some (obj_state o') /\
    obj_privateDataFreeFunc o' = Some prlsdkDomObjFreePrivate_ptr /\
    match (PrlVmCfg_GetAutoStart sdk sdkdom).2 with
    | PAO_VM_START_ON_LOAD => obj_autostart o' = 1
    | PAO_VM_START_MANUAL => obj_autostart o' = 0
    | PAO_other _ => False
    end /\
    match olddom with
    | None => obj_locked o' = true
    | Some _ => obj_newDef o' = NewDefSameAsDef
    end.
Proof.
  intros H. destruct olddom as [old|].
  - destruct (prlsdkLoadDomain_Ok _ _ _ _ _ _ _ _ H)
      as (pdom0 & _ & _ & _ & _ & _ & _ & _ & _ & _ & _ & o & Hold & _).
    destruct (prlsdkLoadDomain_refresh_Ok _ _ _ _ _ _ _ _ _ Hold H)
      as (pdom0' & def & pdom & envId & evs1 & evs2 & o' & _ & _ & _ & _
          & -> & -> & _ & Hnew & _ & Hstate & Hpers & Hfree & Hauto & _).
    exists o'. split; [apply with_obj_lookup|]. auto 10.
  - destruct (prlsdkLoadDomain_fresh_Ok _ _ _ _ _ _ _ H)
      as (def & pdom & envId & evs1 & evs2 & o1 & o' & _ & _ & _ & _ & _
          & -> & _ & _ & Hlock & Hstate & Hpers & Hfree & Hauto & _).
    exists o'. split; [apply lookup_insert_eq|]. auto 10.
Qed.

(** X21: the private data of a freshly discovered domain records the
    snapshot handle it was loaded from, the environment id of the
    snapshot converted to [int], its home path, and no UUID text; on
    the way exactly one reference was taken on the snapshot handle and
    none on any other handle. *)
Theorem prlsdkLoadDomain_fresh_private (sdk : Sdk) (host : Host)
    (privconn : parallelsConn) (sdkdom : PRL_HANDLE) (dom : virDomainObjPtr)
    (w w' : world) :
  prlsdkLoadDomain sdk host privconn sdkdom None w = Ok dom w' ->
  exists o' pdom evs,
    w_objs w' !! dom = Some o' /\
    obj_privateData o' = Some pdom /\
    pdom_sdkdom pdom = sdkdom /\
    sdkdom <> PRL_INVALID_HANDLE /\
    pdom_id pdom = int_of_uint32 (PrlVmCfg_GetEnvId sdk sdkdom).2 /\
    pdom_home pdom = Some (PrlVmCfg_GetHomePath sdk sdkdom true).2 /\
    pdom_uuid pdom = None /\
    w_trace w' = evs ++ w_trace w /\
    references sdkdom evs = 1%nat /\
    (forall h, h <> sdkdom -> references h evs = 0%nat).
Proof.
  intros H.
  destruct (prlsdkLoadDomain_fresh_Ok _ _ _ _ _ _ _ H)
    as (def & pdom & envId & evs1 & evs2 & o1 & o' & Hsdk & Hbuild & Hevs1
        & Hevs2 & _ & -> & _ & _ & _ & _ & _ & _ & _ & Hpriv).
  pose proof (prlsdkLoadDomain_build_fields _ _ _ _ _ _ _ _ _ _ Hbuild)
    as (_ & _ & _ & _ & _ & Hid & Hhome & Huuid & _).
  exists o', (set_pdom_sdkdom sdkdom pdom),
    (EvHandleAddRef sdkdom :: evs2 ++ EvListAdd (def_uuid def) dom :: evs1).
  cbn [w_objs w_trace].
  split; [apply lookup_insert_eq|]. split; [exact Hpriv|].
  split; [reflexivity|]. split; [exact Hsdk|].
  split; [exact Hid|]. split; [exact Hhome|]. split; [exact Huuid|].
  split; [cbn; rewrite <- app_assoc; reflexivity|].
  split.
  - cbn. rewrite Z.eqb_refl, references_app. cbn.
    rewrite (references_build _ _ Hevs1), (references_build _ _ Hevs2).
    reflexivity.
  - intros h Hh. cbn. apply Z.eqb_neq in Hh. rewrite Z.eqb_sym, Hh.
    rewrite references_app. cbn.
    rewrite (references_build _ _ Hevs1), (references_build _ _ Hevs2).
    reflexivity.
Qed.

(** X22: a refresh keeps the snapshot handle of the slot.  When the
    private data of the slot holds a handle, a refresh that returns
    leaves that handle in the private data, whatever snapshot handle
    the refresh was given, and takes no reference on any handle; the
    environment id and the home path of the private data are those of
    the snapshot the refresh read. *)
Theorem prlsdkLoadDomain_refresh_private (sdk : Sdk) (host : Host)
    (privconn : parallelsConn) (sdkdom : PRL_HANDLE)
    (old dom : virDomainObjPtr) (o : virDomainObj) (pdom0 : parallelsDomObj)
    (w w' : world) :
  w_objs w !! old = Some o ->
  obj_privateData o = Some pdom0 ->
  pdom_sdkdom pdom0 <> PRL_INVALID_HANDLE ->
  prlsdkLoadDomain sdk host privconn sdkdom (Some old) w = Ok dom w' ->
  exists o' pdom evs,
    w_objs w' !! old = Some o' /\
    obj_privateData o' = Some pdom /\
    pdom_sdkdom pdom = pdom_sdkdom pdom0 /\
    pdom_id pdom = int_of_uint32 (PrlVmCfg_GetEnvId sdk sdkdom).2 /\
    pdom_home pdom = Some (PrlVmCfg_GetHomePath sdk sdkdom true).2 /\
    w_trace w' = evs ++ w_trace w /\
    (forall h, references h evs = 0%nat).
Proof.
  intros Ho Hp0 Hh H.
  destruct (prlsdkLoadDomain_refresh_Ok _ _ _ _ _ _ _ _ _ Ho H)
    as (pdom0' & def & pdom & envId & evs1 & evs2 & o' & Hp0' & Hbuild & Hevs1
        & Hevs2 & -> & -> & _ & _ & _ & _ & _ & _ & _ & Hpriv).
  rewrite Hp0 in Hp0'. injection Hp0' as <-.
  apply Z.eqb_neq in Hh. rewrite Hh in Hpriv |- *.
  pose proof (prlsdkLoadDomain_build_fields _ _ _ _ _ _ _ _ _ _ Hbuild)
    as (_ & _ & _ & _ & _ & Hid & Hhome & _ & Hsdk).
  exists o', pdom, (evs2 ++ evs1).
  split; [apply with_obj_lookup|]. split; [exact Hpriv|].
  split; [exact Hsdk|]. split; [exact Hid|]. split; [exact Hhome|].
  split; [reflexivity|].
  intros h. rewrite references_app.
  rewrite (references_build _ _ Hevs1), (references_build _ _ Hevs2).
  reflexivity.
Qed.

(** ** Computations that do not read the store *)

Lemma agree_ret {A B} (R : A -> B -> Prop) (a : A) (b : B) :
  R a b -> agree R (mret a) (mret b).
Proof. intros H w1 w2. exact H. Qed.

Lemma agree_fail {A B} (R : A -> B -> Prop) : agree R (@fail A) (@fail B).
Proof. intros w1 w2. exact I. Qed.

Lemma agree_fault {A B} (R : A -> B -> Prop) : agree R (@fault A) (@fault B).
Proof. intros w1 w2. exact I. Qed.

Lemma agree_emit (e : event) : agree eq (emit e) (emit e).
Proof. intros w1 w2. reflexivity. Qed.

Lemma agree_bind {A1 A2 B1 B2} (R : A1 -> A2 -> Prop) (S : B1 -> B2 -> Prop)
    (m1 : M A1) (m2 : M A2) (k1 : A1 -> M B1) (k2 : A2 -> M B2) :
  agree R m1 m2 -> (forall a b, R a b -> agree S (k1 a) (k2 b)) ->
  agree S (m1 ≫= k1) (m2 ≫= k2).
Proof.
  intros Hm Hk w1 w2. unfold mbind, M_bind, bind.
  specialize (Hm w1 w2).
  destruct (m1 w1) as [a w1'|w1'|], (m2 w2) as [b w2'|w2'|];
    try contradiction; try exact I.
  exact (Hk a b Hm w1' w2').
Qed.

Lemma agree_or_else {A B} (R : A -> B -> Prop) (m1 : M A) (m2 : M B)
    (c1 c2 : M unit) :
  agree R m1 m2 -> agree eq c1 c2 -> agree R (or_else m1 c1) (or_else m2 c2).
Proof.
  intros Hm Hc w1 w2. unfold or_else. specialize (Hm w1 w2).
  destruct (m1 w1) as [a w1'|w1'|], (m2 w2) as [b w2'|w2'|];
    try contradiction; try exact I; [exact Hm|].
  specialize (Hc w1' w2').
  destruct (c1 w1') as [[] ?|?|], (c2 w2') as [[] ?|?|];
    try contradiction; exact I.
Qed.

Create HintDb blind discriminated.

(** Decompose a goal [agree R m m'] along the common structure of [m]
    and [m']. *)
Ltac agree_step :=
  lazymatch goal with
  | |- agree _ (mret _) (mret _) => apply agree_ret; try reflexivity
  | |- agree _ (_ ≫= _) (_ ≫= _) =>
      apply (agree_bind eq); [ | intros ? ? <-]
  | |- agree _ (or_else _ _) (or_else _ _) => apply agree_or_else
  | |- agree _ fail fail => apply agree_fail
  | |- agree _ fault fault => apply agree_fault
  | |- agree _ (let '(_, _) := ?x in _) _ => destruct x
  | |- agree _ (if ?b then _ else _) _ => destruct b
  | |- agree _ (match ?x with _ => _ end) _ => destruct x
  end.

Ltac blind := repeat first [ solve [auto with blind] | agree_step ].

Lemma blind_report (code : virErrorNumber) (msg : string) :
  agree eq (virReportError code msg) (virReportError code msg).
Proof. apply agree_emit. Qed.

Lemma blind_warn (msg : string) : agree eq (VIR_WARN msg) (VIR_WARN msg).
Proof. apply agree_emit. Qed.

Lemma blind_free (h : PRL_HANDLE) :
  agree eq (PrlHandle_Free h) (PrlHandle_Free h).
Proof. apply agree_emit. Qed.

#[global] Hint Resolve blind_report blind_warn blind_free : blind.

Lemma blind_logPrlError (sdk : Sdk) (err : PRL_RESULT) :
  agree eq (logPrlError sdk err) (logPrlError sdk err).
Proof. unfold logPrlError, logPrlErrorHelper. auto with blind. Qed.
#[global] Hint Resolve blind_logPrlError : blind.

Lemma blind_prlsdkCheckRetGoto (sdk : Sdk) (pret : PRL_RESULT) :
  agree eq (prlsdkCheckRetGoto sdk pret) (prlsdkCheckRetGoto sdk pret).
Proof. unfold prlsdkCheckRetGoto. blind. Qed.
#[global] Hint Resolve blind_prlsdkCheckRetGoto : blind.

Lemma blind_prlsdkUUIDParse (uuidstr : list ascii) :
  agree eq (prlsdkUUIDParse uuidstr) (prlsdkUUIDParse uuidstr).
Proof. unfold prlsdkUUIDParse. cbv zeta. blind. Qed.
#[global] Hint Resolve blind_prlsdkUUIDParse : blind.

Lemma blind_prlsdkGetDomainIds (sdk : Sdk) (sdkdom : PRL_HANDLE) :
  agree eq (prlsdkGetDomainIds sdk sdkdom) (prlsdkGetDomainIds sdk sdkdom).
Proof. unfold prlsdkGetDomainIds. blind. Qed.
#[global] Hint Resolve blind_prlsdkGetDomainIds : blind.

Lemma blind_prlsdkAddDomainVideoInfo (sdk : Sdk) (sdkdom : PRL_HANDLE)
    (def : virDomainDef) :
  agree eq (prlsdkAddDomainVideoInfo sdk sdkdom def)
           (prlsdkAddDomainVideoInfo sdk sdkdom def).
Proof. unfold prlsdkAddDomainVideoInfo. cbv zeta. blind. Qed.
#[global] Hint Resolve blind_prlsdkAddDomainVideoInfo : blind.

Lemma blind_prlsdkGetDiskInfo (sdk : Sdk) (prldisk : PRL_HANDLE)
    (disk : virDomainDiskDef) :
  agree eq (prlsdkGetDiskInfo sdk prldisk disk)
           (prlsdkGetDiskInfo sdk prldisk disk).
Proof. unfold prlsdkGetDiskInfo. cbv zeta. blind. Qed.
#[global] Hint Resolve blind_prlsdkGetDiskInfo : blind.

Lemma blind_prlsdkAddDomainHardDisksInfo (sdk : Sdk) (sdkdom : PRL_HANDLE)
    (def : virDomainDef) :
  agree eq (prlsdkAddDomainHardDisksInfo sdk sdkdom def)
           (prlsdkAddDomainHardDisksInfo sdk sdkdom def).
Proof.
  unfold prlsdkAddDomainHardDisksInfo.
  assert (forall n i def,
    agree eq (prlsdkAddDomainHardDisksInfo_loop sdk sdkdom n i def)
             (prlsdkAddDomainHardDisksInfo_loop sdk sdkdom n i def))
    as Hloop.
  { induction n as [|n IH]; intros i def0;
      cbn [prlsdkAddDomainHardDisksInfo_loop]; blind. }
  blind.
Qed.
#[global] Hint Resolve blind_prlsdkAddDomainHardDisksInfo : blind.

Lemma blind_prlsdkGetNetInfo (sdk : Sdk) (host : Host) (netAdapter : PRL_HANDLE)
    (net : virDomainNetDef) (isCt : bool) :
  agree eq (prlsdkGetNetInfo sdk host netAdapter net isCt)
           (prlsdkGetNetInfo sdk host netAdapter net isCt).
Proof. unfold prlsdkGetNetInfo. cbv zeta. blind. Qed.
#[global] Hint Resolve blind_prlsdkGetNetInfo : blind.

Lemma blind_prlsdkAddDomainNetInfo (sdk : Sdk) (host : Host)
    (sdkdom : PRL_HANDLE) (def : virDomainDef) :
  agree eq (prlsdkAddDomainNetInfo sdk host sdkdom def)
           (prlsdkAddDomainNetInfo sdk host sdkdom def).
Proof.
  unfold prlsdkAddDomainNetInfo.
  assert (forall n i def,
    agree eq (prlsdkAddDomainNetInfo_loop sdk host sdkdom n i def)
             (prlsdkAddDomainNetInfo_loop sdk host sdkdom n i def))
    as Hloop.
  { induction n as [|n IH]; intros i def0;
      cbn [prlsdkAddDomainNetInfo_loop]; blind. }
  blind.
Qed.
#[global] Hint Resolve blind_prlsdkAddDomainNetInfo : blind.

Lemma blind_prlsdkGetSerialInfo (sdk : Sdk) (serialPort : PRL_HANDLE)
    (chr : virDomainChrDef) :
  agree eq (prlsdkGetSerialInfo sdk serialPort chr)
           (prlsdkGetSerialInfo sdk serialPort chr).
Proof. unfold prlsdkGetSerialInfo. cbv zeta. blind. Qed.
#[global] Hint Resolve blind_prlsdkGetSerialInfo : blind.

Lemma blind_prlsdkAddSerialInfo (sdk : Sdk) (sdkdom : PRL_HANDLE)
    (serials : list virDomainChrDef) :
  agree eq (prlsdkAddSerialInfo sdk sdkdom serials)
           (prlsdkAddSerialInfo sdk sdkdom serials).
Proof.
  unfold prlsdkAddSerialInfo.
  assert (forall n i serials,
    agree eq (prlsdkAddSerialInfo_loop sdk sdkdom n i serials)
             (prlsdkAddSerialInfo_loop sdk sdkdom n i serials))
    as Hloop.
  { induction n as [|n IH]; intros i serials0;
      cbn [prlsdkAddSerialInfo_loop]; blind. }
  blind.
Qed.
#[global] Hint Resolve blind_prlsdkAddSerialInfo : blind.

Lemma blind_prlsdkAddDomainHardware (sdk : Sdk) (host : Host)
    (sdkdom : PRL_HANDLE) (def : virDomainDef) :
  agree eq (prlsdkAddDomainHardware sdk host sdkdom def)
           (prlsdkAddDomainHardware sdk host sdkdom def).
Proof. unfold prlsdkAddDomainHardware. blind. Qed.
#[global] Hint Resolve blind_prlsdkAddDomainHardware : blind.

Lemma blind_prlsdkAddVNCInfo (sdk : Sdk) (sdkdom : PRL_HANDLE)
    (def : virDomainDef) :
  agree eq (prlsdkAddVNCInfo sdk sdkdom def) (prlsdkAddVNCInfo sdk sdkdom def).
Proof. unfold prlsdkAddVNCInfo. cbv zeta. blind. Qed.
#[global] Hint Resolve blind_prlsdkAddVNCInfo : blind.

Lemma blind_prlsdkConvertCpuMode (sdk : Sdk) (sdkdom : PRL_HANDLE)
    (def : virDomainDef) :
  agree eq (prlsdkConvertCpuMode sdk sdkdom def)
           (prlsdkConvertCpuMode sdk sdkdom def).
Proof. unfold prlsdkConvertCpuMode. blind. Qed.
#[global] Hint Resolve blind_prlsdkConvertCpuMode : blind.

Lemma blind_prlsdkConvertDomainType (sdk : Sdk) (sdkdom : PRL_HANDLE)
    (def : virDomainDef) :
  agree eq (prlsdkConvertDomainType sdk sdkdom def)
           (prlsdkConvertDomainType sdk sdkdom def).
Proof. unfold prlsdkConvertDomainType. blind. Qed.
#[global] Hint Resolve blind_prlsdkConvertDomainType : blind.




(** ** A slot refreshed again, a refresh that fails *)


(** What a refresh that fails has done, by the place of the failure:
    in the construction of the definition, or after the definition was
    assigned to the slot. *)
Lemma prlsdkLoadDomain_refresh_Fail (sdk : Sdk) (host : Host)
    (privconn : parallelsConn) (sdkdom : PRL_HANDLE) (old : virDomainObjPtr)
    (o : virDomainObj) (pdom0 : parallelsDomObj) (w w' : world) :
  sdkdom <> PRL_INVALID_HANDLE ->
  w_objs w !! old = Some o ->
  obj_privateData o = Some pdom0 ->
  prlsdkLoadDomain sdk host privconn sdkdom (Some old) w = Fail w' ->
  (exists w1,
     prlsdkLoadDomain_build sdk host sdkdom fresh_def
       (set_pdom_uuid None pdom0) w = Fail w1 /\
     w' = with_obj old (set_obj_privateData_freed true o)
            (after (EvHandleFree (pdom_sdkdom pdom0)) w1)) \/
  (exists def pdom envId w1 w2 o2,
     prlsdkLoadDomain_build sdk host sdkdom fresh_def
       (set_pdom_uuid None pdom0) w = Ok (def, pdom, envId) w1 /\
     pdom_sdkdom pdom = pdom_sdkdom pdom0 /\
     prlsdkLoadDomain_finish sdk privconn sdkdom old pdom envId
       (with_obj old (set_obj_newDef NewDefSameAsDef (set_obj_def def o)) w1)
     = Fail w2 /\
     w_objs w2 !! old = Some o2 /\
     set_def_id 0 (obj_def o2) = set_def_id 0 def /\
     obj_locked o2 = obj_locked o /\
     obj_newDef o2 = NewDefSameAsDef /\
     w' = with_obj old
            (set_obj_privateData_freed true (set_obj_def_freed true o2))
            (after (EvHandleFree (pdom_sdkdom pdom0)) w2)).
Proof.
  intros Hsdk Ho Hp0 H.
  rewrite (prlsdkLoadDomain_refresh_run _ _ _ _ _ _ _ Hsdk Ho), Hp0 in H.
  destruct (obj_privateData_freed o); [discriminate H|].
  destruct (prlsdkLoadDomain_build sdk host sdkdom fresh_def
              (set_pdom_uuid None pdom0) w)
    as [[[def pdom] envId] w1|w1|] eqn:Hbuild; [| |discriminate H].
  - right.
    pose proof (prlsdkLoadDomain_build_fields _ _ _ _ _ _ _ _ _ _ Hbuild)
      as (_ & _ & _ & _ & _ & _ & _ & _ & Hsame).
    cbn in Hsame.
    destruct (obj_def_freed o); [discriminate H|].
    set (w1' := with_obj old
                  (set_obj_newDef NewDefSameAsDef (set_obj_def def o)) w1) in *.
    assert (Hfin : exists w2,
      prlsdkLoadDomain_finish sdk privconn sdkdom old pdom envId w1' = Fail w2 /\
      refresh_unwound old pdom w2 = Fail w').
    { destruct (obj_newDef o); try discriminate H;
        (destruct (prlsdkLoadDomain_finish sdk privconn sdkdom old pdom envId w1')
           as [dd w2|w2|]; [discriminate H| |discriminate H]); eauto. }
    clear H. destruct Hfin as (w2 & Hfin & H).
    pose proof (preserves_Fail _ _ _ _
                  (prlsdkLoadDomain_finish_touches _ _ _ _ _ _) Hfin)
      as (_ & _ & Hobj & _).
    destruct (Hobj _ (with_obj_lookup _ _ _)) as (o2 & Ho2 & Hdef2 & Hlock2).
    pose proof (preserves_Fail _ _ _ _
                  (prlsdkLoadDomain_finish_pointers_kept _ _ _ _ _ _) Hfin
                  _ (with_obj_lookup _ _ _)) as (o2' & Ho2' & Hnew2 & _).
    rewrite Ho2 in Ho2'. injection Ho2' as <-.
    unfold refresh_unwound in H. rewrite Ho2 in H. injection H as <-.
    exists def, pdom, envId, w1, w2, o2. rewrite Hsame.
    repeat (split; [first [reflexivity | assumption]|]). reflexivity.
  - left. injection H as <-. eauto.
Qed.


(** X23: a refresh that fails frees the private data of the slot.  The
    release of the snapshot handle that the private data holds is the
    last event; the domain list and every other object are as before;
    the slot is still in the store, with its lock, and its
    [privateData] points to the freed block. *)
Theorem prlsdkLoadDomain_refresh_failure (sdk : Sdk) (host : Host)
    (privconn : parallelsConn) (sdkdom : PRL_HANDLE) (old : virDomainObjPtr)
    (o : virDomainObj) (pdom0 : parallelsDomObj) (w w' : world) :
  sdkdom <> PRL_INVALID_HANDLE ->
  w_objs w !! old = Some o ->
  obj_privateData o = Some pdom0 ->
  prlsdkLoadDomain sdk host privconn sdkdom (Some old) w = Fail w' ->
  exists evs o',
    w_trace w' = EvHandleFree (pdom_sdkdom pdom0) :: evs ++ w_trace w /\
    Forall sdk_event evs /\
    w_domains w' = w_domains w /\
    (forall p, p <> old -> w_objs w' !! p = w_objs w !! p) /\
    w_objs w' !! old = Some o' /\
    obj_locked o' = obj_locked o /\
    obj_privateData_freed o' = true.
Proof.
  intros Hsdk Ho Hp0 H.
  destruct (prlsdkLoadDomain_refresh_Fail _ _ _ _ _ _ _ _ _ Hsdk Ho Hp0 H)
    as [(w1 & Hbuild & ->)
       |(def & pdom & envId & w1 & w2 & o2 & Hbuild & _ & Hfin & Ho2 & _
         & Hlock2 & _ & ->)].
  - destruct (preserves_Fail _ _ _ _
                (prlsdkLoadDomain_build_frame _ _ _ _ _) Hbuild)
      as (Hd1 & Ho1 & evs1 & Ht1 & Hevs1).
    exists evs1. eexists. cbn. rewrite Ht1, Hd1, Ho1.
    split; [reflexivity|]. split; [exact Hevs1|]. split; [reflexivity|].
    split; [intros p Hp; apply lookup_insert_ne; congruence|].
    split; [apply lookup_insert_eq|]. split; reflexivity.
  - destruct (preserves_Ok _ _ _ _ _
                (prlsdkLoadDomain_build_frame _ _ _ _ _) Hbuild)
      as (Hd1 & Ho1 & evs1 & Ht1 & Hevs1).
    destruct (preserves_Fail _ _ _ _
                (prlsdkLoadDomain_finish_touches _ _ _ _ _ _) Hfin)
      as (Hd2 & Hn2 & _ & evs2 & Ht2 & Hevs2).
    exists (evs2 ++ evs1). eexists. cbn. rewrite Ht2, Hd2. cbn.
    rewrite Ht1, Hd1, <- app_assoc.
    split; [reflexivity|]. split; [apply Forall_app; auto|].
    split; [reflexivity|].
    split.
    { intros p Hp. rewrite lookup_insert_ne by congruence.
      rewrite (Hn2 p Hp). cbn. rewrite lookup_insert_ne by congruence.
      rewrite Ho1. reflexivity. }
    split; [apply lookup_insert_eq|]. split; [exact Hlock2 | reflexivity].
Qed.

(** X28: a refresh is not all or nothing, and what it leaves of the
    definition is not usable.  When the failure comes after the
    definition was built, the slot was already given the new
    definition under [def] and [newDef], and the error label has freed
    it: both pointers dangle, and the definition the slot had is gone.
    When the construction of the definition fails, the pointers [def]
    and [newDef] of the slot are as before. *)
Theorem prlsdkLoadDomain_refresh_failure_def (sdk : Sdk) (host : Host)
    (privconn : parallelsConn) (sdkdom : PRL_HANDLE) (old : virDomainObjPtr)
    (o : virDomainObj) (pdom0 : parallelsDomObj) (w w' : world) :
  sdkdom <> PRL_INVALID_HANDLE ->
  w_objs w !! old = Some o ->
  obj_privateData o = Some pdom0 ->
  prlsdkLoadDomain sdk host privconn sdkdom (Some old) w = Fail w' ->
  exists o',
    w_objs w' !! old = Some o' /\
    match prlsdkLoadDomain_build sdk host sdkdom fresh_def
            (set_pdom_uuid None pdom0) w with
    | Ok (def, _, _) _ =>
        set_def_id 0 (obj_def o') = set_def_id 0 def /\
        obj_newDef o' = NewDefSameAsDef /\
        obj_def_freed o' = true
    | _ =>
        obj_def o' = obj_def o /\
        obj_newDef o' = obj_newDef o /\
        obj_def_freed o' = obj_def_freed o
    end.
Proof.
  intros Hsdk Ho Hp0 H.
  destruct (prlsdkLoadDomain_refresh_Fail _ _ _ _ _ _ _ _ _ Hsdk Ho Hp0 H)
    as [(w1 & Hbuild & ->)
       |(def & pdom & envId & w1 & w2 & o2 & Hbuild & _ & _ & _ & Hdef2
         & _ & Hnew2 & ->)];
    rewrite Hbuild; eexists; (split; [apply with_obj_lookup|]).
  - repeat split.
  - split; [exact Hdef2|]. split; [exact Hnew2 | reflexivity].
Qed.

(** ** The bulk load *)

Lemma attempt_Some {A} (m : M A) (a : A) (w w' : world) :
  attempt m w = Ok (Some a) w' -> m w = Ok a w'.
Proof.
  unfold attempt. destruct (m w); intros [= <- <-] || discriminate.
  reflexivity.
Qed.

(** The loop of [prlsdkLoadDomains] when it runs to its end: one
    insertion per snapshot, under the UUID read from it. *)
Lemma prlsdkLoadDomains_loop_Ok (sdk : Sdk) (host : Host)
    (privconn : parallelsConn) (result : PRL_HANDLE) (n : nat) (i : Z)
    (u : unit) (w w' : world) :
  prlsdkLoadDomains_loop sdk host privconn result n i w = Ok u w' ->
  (forall k : nat, (k < n)%nat ->
     exists uuid,
       virUUIDParse
         (stripped
            (list_ascii_of_string
               (PrlVmCfg_GetUuid sdk
                  (PrlResult_GetParamByIndex sdk result (i + Z.of_nat k)).2).2))
       = Some uuid /\
       is_Some (w_domains w' !! uuid)) /\
  (forall uuid, is_Some (w_domains w !! uuid) -> is_Some (w_domains w' !! uuid)) /\
  ((forall p o, w_objs w !! p = Some o -> obj_locked o = false) ->
   forall p o, w_objs w' !! p = Some o -> obj_locked o = false) /\
  exists evs,
    w_trace w' = evs ++ w_trace w /\
    insertions evs = n /\ removals evs = 0%nat.
Proof.
  revert i w. induction n as [|n IH]; intros i w H;
    cbn [prlsdkLoadDomains_loop] in H.
  - apply mret_Ok in H. destruct H as [_ ->].
    split; [intros k Hk; lia|]. split; [auto|]. split; [auto|].
    exists []. auto.
  - destruct (PrlResult_GetParamByIndex sdk result i) as [pret sdkdom] eqn:Eg.
    apply bind_Ok in H. destruct H as (? & w0 & Hc & H).
    assert (w0 = w) as ->.
    { destruct (PRL_FAILED sdk pret).
      - apply bind_Ok in Hc. destruct Hc as (? & ? & _ & Hc).
        apply bind_Ok in Hc. destruct Hc as (? & ? & _ & Hc). discriminate Hc.
      - apply mret_Ok in Hc. destruct Hc as [_ ->]. reflexivity. }
    clear Hc.
    apply bind_Ok in H. destruct H as (r & w1 & Hload & H).
    apply bind_Ok in H. destruct H as (? & w2 & Hfree & H).
    injection Hfree as Hw2. subst w2.
    destruct r as [dom|]; [|discriminate H].
    apply attempt_Some in Hload.
    apply bind_Ok in H. destruct H as (? & w3 & Hunlock & H).
    apply update_obj_Ok in Hunlock. destruct Hunlock as (o2 & Ho2 & ->).
    destruct (prlsdkLoadDomain_fresh_Ok _ _ _ _ _ _ _ Hload)
      as (def & pdom & envId & evs1 & evs2 & o1 & o' & _ & Hbuild & Hevs1
          & Hevs2 & _ & -> & _).
    cbn in Ho2. rewrite lookup_insert_eq in Ho2. injection Ho2 as <-.
    pose proof (prlsdkLoadDomain_build_shape _ _ _ _ _ _ _ _ _ _ Hbuild)
      as ((name & w4 & Hids) & _).
    apply prlsdkGetDomainIds_at in Hids. apply prlsdkUUIDParse_Ok in Hids.
    destruct Hids as [Hparse _].
    apply IH in H. clear IH.
    destruct H as (Hall & Hmono & Hunl & evs & Ht & Hins & Hrem).
    cbn [w_domains w_objs w_trace with_obj after] in Hmono, Hunl, Ht.
    split; [|split; [|split]].
    + intros [|k] Hk.
      * exists (def_uuid def). rewrite Z.add_0_r, Eg. cbn [snd].
        split; [exact Hparse|]. apply Hmono.
        rewrite lookup_insert_eq. eauto.
      * destruct (Hall k ltac:(lia)) as (uuid & Hp & Hin).
        exists uuid.
        replace (i + Z.of_nat (S k)) with (i + 1 + Z.of_nat k) by lia. auto.
    + intros uuid Hin. apply Hmono.
      destruct (decide (uuid = def_uuid def)) as [->|Hne].
      * rewrite lookup_insert_eq. eauto.
      * rewrite lookup_insert_ne by congruence. exact Hin.
    + intros Hbefore. apply Hunl. intros p o Hp.
      destruct (decide (p = dom)) as [->|Hne].
      * rewrite lookup_insert_eq in Hp. injection Hp as <-. reflexivity.
      * rewrite !lookup_insert_ne in Hp by congruence. eauto.
    + exists (evs ++ EvHandleFree sdkdom :: EvHandleAddRef sdkdom :: evs2 ++
              EvListAdd (def_uuid def) dom :: evs1).
      assert (Forall sdk_event evs1) as Hs1
        by (eapply Forall_impl; [exact Hevs1 | exact build_event_sdk]).
      assert (Forall sdk_event evs2) as Hs2
        by (eapply Forall_impl; [exact Hevs2 | exact build_event_sdk]).
      destruct (insertions_sdk _ Hs1) as [Hi1 Hr1].
      destruct (insertions_sdk _ Hs2) as [Hi2 Hr2].
      split; [rewrite Ht; cbn; rewrite <- !app_assoc; cbn;
              rewrite <- !app_assoc; reflexivity|].
      rewrite insertions_app, removals_app. cbn.
      rewrite insertions_app, removals_app. cbn.
      rewrite Hins, Hrem, Hi1, Hi2, Hr1, Hr2. split; lia.
Qed.

(** X24: when the job that lists the snapshots does not complete with
    a result, [prlsdkLoadDomains] fails without touching the store, and
    the release of the job handle is the last thing it does: the handle
    is released once (the error and result handles of the job being
    other handles). *)
Theorem prlsdkLoadDomains_job_failure (sdk : Sdk) (host : Host)
    (privconn : parallelsConn) (w : world) :
  let flags := Z.lor (PVTF_VM sdk) (PVTF_CT sdk) in
  let job := PrlSrv_GetVmListEx_job sdk (server privconn) flags in
  let result := (PrlJob_GetResult sdk job).2 in
  (PrlJob_GetError sdk job).2 <> job ->
  result <> job ->
  job_done sdk job (jobTimeout privconn) &&
    negb (result =? PRL_INVALID_HANDLE) = false ->
  exists w' evs,
    prlsdkLoadDomains sdk host privconn w = Fail w' /\
    w_domains w' = w_domains w /\ w_objs w' = w_objs w /\
    w_trace w' = EvHandleFree job :: evs ++ w_trace w /\
    releases job (w_trace w') = S (releases job (w_trace w)).
Proof.
  intros flags job result Herr Hres Hfail.
  unfold prlsdkLoadDomains, PrlSrv_GetVmListEx, getJobResult.
  fold flags. fold job.
  destruct (getJobResultHelper_cases sdk job (jobTimeout privconn)
              (after (EvJob (JobGetVmListEx flags) job) w))
    as (r & evs & Hrun & Hq & Hdone & Hnot).
  destruct (getJobResultHelper_releases_job sdk job (jobTimeout privconn)
              (after (EvJob (JobGetVmListEx flags) job) w)
              Herr Hres) as (r' & w1 & Hrun' & Hrel).
  rewrite Hrun in Hrun'. injection Hrun' as <- <-.
  assert (r = PRL_INVALID_HANDLE) as ->.
  { destruct (job_done sdk job (jobTimeout privconn)).
    - destruct (Hdone eq_refl) as [-> _]. cbn [andb] in Hfail.
      apply negb_false_iff, Z.eqb_eq in Hfail. exact Hfail.
    - destruct (Hnot eq_refl) as [-> _]. reflexivity. }
  exists (after_all (EvHandleFree job :: evs)
            (after (EvJob (JobGetVmListEx flags) job) w)),
    (evs ++ [EvJob (JobGetVmListEx flags) job]).
  split.
  { assert ((emit (EvJob (JobGetVmListEx flags) job) ≫= fun _ => mret job) w
            = Ok job (after (EvJob (JobGetVmListEx flags) job) w)) as Hjob
      by reflexivity.
    rewrite (bind_run_Ok _ _ _ _ _ Hjob), (bind_run_Ok _ _ _ _ _ Hrun).
    reflexivity. }
  split; [reflexivity|]. split; [reflexivity|].
  split; [cbn; rewrite <- app_assoc; reflexivity|].
  exact Hrel.
Qed.

(** X25: when [prlsdkLoadDomains] returns, every snapshot of the list
    has an entry in the domain list under the UUID read from it, no
    entry that was there before is lost, the list saw one insertion per
    snapshot and no removal, the release of the result handle of the
    list job is the last thing done, and every domain object is
    unlocked if every one was before. *)
Theorem prlsdkLoadDomains_loaded (sdk : Sdk) (host : Host)
    (privconn : parallelsConn) (w w' : world) :
  let flags := Z.lor (PVTF_VM sdk) (PVTF_CT sdk) in
  let job := PrlSrv_GetVmListEx_job sdk (server privconn) flags in
  let result := (PrlJob_GetResult sdk job).2 in
  let count := Z.to_nat (PrlResult_GetParamsCount sdk result).2 in
  prlsdkLoadDomains sdk host privconn w = Ok tt w' ->
  (forall k : nat, (k < count)%nat ->
     exists uuid,
       virUUIDParse
         (stripped
            (list_ascii_of_string
               (PrlVmCfg_GetUuid sdk
                  (PrlResult_GetParamByIndex sdk result (Z.of_nat k)).2).2))
       = Some uuid /\
       is_Some (w_domains w' !! uuid)) /\
  (forall uuid, is_Some (w_domains w !! uuid) -> is_Some (w_domains w' !! uuid)) /\
  ((forall p o, w_objs w !! p = Some o -> obj_locked o = false) ->
   forall p o, w_objs w' !! p = Some o -> obj_locked o = false) /\
  exists evs,
    w_trace w' = EvHandleFree result :: evs ++ w_trace w /\
    insertions evs = count /\ removals evs = 0%nat.
Proof.
  intros flags job result count H.
  unfold prlsdkLoadDomains, PrlSrv_GetVmListEx, getJobResult in H.
  fold flags in H. fold job in H.
  destruct (getJobResultHelper_cases sdk job (jobTimeout privconn)
              (after (EvJob (JobGetVmListEx flags) job) w))
    as (r & evs0 & Hrun & Hq & Hdone & Hnot).
  assert ((emit (EvJob (JobGetVmListEx flags) job) ≫= fun _ => mret job) w
          = Ok job (after (EvJob (JobGetVmListEx flags) job) w)) as Hjob
    by reflexivity.
  rewrite (bind_run_Ok _ _ _ _ _ Hjob), (bind_run_Ok _ _ _ _ _ Hrun) in H.
  clear Hjob.
  destruct (r =? PRL_INVALID_HANDLE) eqn:Hr; [discriminate H|].
  assert (r = result /\ evs0 = []) as [-> ->].
  { destruct (job_done sdk job (jobTimeout privconn)).
    - exact (Hdone eq_refl).
    - destruct (Hnot eq_refl) as [-> _]. discriminate Hr. }
  apply bind_Ok in H. destruct H as (? & w1 & Hloop & H).
  apply or_else_Ok in Hloop.
  apply bind_Ok in H. destruct H as (? & w2 & Hfree & H).
  injection Hfree as Hw2. subst w2.
  apply mret_Ok in H. destruct H as [_ ->].
  fold result in Hloop.
  destruct (PrlResult_GetParamsCount sdk result) as [pret paramsCount] eqn:Ec.
  apply bind_Ok in Hloop. destruct Hloop as (? & w3 & Hc & Hloop).
  apply prlsdkCheckRetGoto_Ok in Hc. destruct Hc as [_ ->].
  apply prlsdkLoadDomains_loop_Ok in Hloop.
  destruct Hloop as (Hall & Hmono & Hunl & evs & Ht & Hins & Hrem).
  subst count. cbn [snd].
  split; [|split; [|split]].
  - intros k Hk. destruct (Hall k Hk) as (uuid & Hp & Hin).
    exists uuid. rewrite Z.add_0_l in Hp. auto.
  - exact Hmono.
  - exact Hunl.
  - exists (evs ++ [EvHandleFree job; EvJob (JobGetVmListEx flags) job]).
    cbn. rewrite Ht. cbn. rewrite <- app_assoc.
    split; [reflexivity|].
    rewrite insertions_app, removals_app. cbn. split; lia.
Qed.

(** ** A failure the loader does not survive *)

Lemma bind_run_Fault {A B} (m : M A) (k : A -> M B) (w : world) :
  m w = Fault -> (m ≫= k) w = Fault.
Proof. unfold mbind, M_bind, bind. intros ->. reflexivity. Qed.

Lemma or_else_run_Fault {A} (m : M A) (c : M unit) (w : world) :
  m w = Fault -> or_else m c w = Fault.
Proof. unfold or_else. intros ->. reflexivity. Qed.

Lemma prlsdkConvertCpuInfo_Fault (sdk : Sdk) (host : Host)
    (sdkdom : PRL_HANDLE) (def : virDomainDef) (pdom : parallelsDomObj)
    (w : world) :
  nodeGetCPUCount host < 0 \/
  PRL_FAILED sdk (PrlVmCfg_GetCpuCount sdk sdkdom).1 = true \/
  PRL_FAILED sdk (PrlVmCfg_GetCpuMask sdk sdkdom false).1 = true ->
  prlsdkConvertCpuInfo sdk host sdkdom def pdom w = Fault.
Proof.
  unfold prlsdkConvertCpuInfo. intros Hcase.
  destruct (nodeGetCPUCount host <? 0) eqn:Hhost; [reflexivity|].
  apply Z.ltb_ge in Hhost.
  destruct (PrlVmCfg_GetCpuCount sdk sdkdom) as [pret cpuCount].
  cbn [fst] in Hcase.
  destruct (PRL_FAILED sdk pret); [reflexivity|].
  destruct (PrlVmCfg_GetCpuMask sdk sdkdom false) as [pret1 len].
  cbn [fst] in Hcase.
  destruct (PRL_FAILED sdk pret1); [reflexivity|].
  destruct Hcase as [H|[H|H]]; [lia|discriminate H|discriminate H].
Qed.

(** X26: [prlsdkLoadDomain] has no defined outcome when the host CPU
    count is not available, or the CPU count or the length of the CPU
    mask of the snapshot cannot be read: once the name, the UUID and
    the RAM size of the snapshot were read, [prlsdkConvertCpuInfo]
    jumps to its cleanup label, which frees the buffer [buf] before any
    value was assigned to it. *)
Theorem prlsdkLoadDomain_cpu_failure (sdk : Sdk) (host : Host)
    (privconn : parallelsConn) (sdkdom : PRL_HANDLE) (uuid : uuid_t)
    (w : world) :
  let uuidstr := list_ascii_of_string (PrlVmCfg_GetUuid sdk sdkdom).2 in
  sdkdom <> PRL_INVALID_HANDLE ->
  PRL_FAILED sdk (PrlVmCfg_GetName sdk sdkdom false).1 = false ->
  c_str uuidstr <> [] ->
  virUUIDParse (stripped uuidstr) = Some uuid ->
  PRL_FAILED sdk (PrlVmCfg_GetRamSize sdk sdkdom).1 = false ->
  nodeGetCPUCount host < 0 \/
  PRL_FAILED sdk (PrlVmCfg_GetCpuCount sdk sdkdom).1 = true \/
  PRL_FAILED sdk (PrlVmCfg_GetCpuMask sdk sdkdom false).1 = true ->
  prlsdkLoadDomain sdk host privconn sdkdom None w = Fault.
Proof.
  intros uuidstr Hsdk Hname Hstr Hparse Hram Hcpu.
  unfold prlsdkLoadDomain. apply Z.eqb_neq in Hsdk. rewrite Hsdk.
  unfold mbind at 1, M_bind at 1, bind at 1. cbn [mret M_ret ret].
  apply bind_run_Fault, or_else_run_Fault.
  unfold prlsdkLoadDomain_build.
  assert (prlsdkGetDomainIds sdk sdkdom w
          = Ok ((PrlVmCfg_GetName sdk sdkdom true).2, uuid) w) as Hids.
  { unfold prlsdkGetDomainIds, prlsdkCheckRetGoto.
    destruct (PrlVmCfg_GetName sdk sdkdom false) as [pret len].
    destruct (PrlVmCfg_GetName sdk sdkdom true) as [pret1 name].
    subst uuidstr.
    destruct (PrlVmCfg_GetUuid sdk sdkdom) as [pret2 text].
    cbn [fst snd] in *. rewrite Hname.
    unfold mbind, M_bind, bind. cbn [mret M_ret ret].
    unfold prlsdkUUIDParse. unfold stripped in Hparse.
    destruct (c_str (list_ascii_of_string text)) as [|c rest];
      [contradiction|].
    rewrite Hparse. reflexivity. }
  rewrite (bind_run_Ok _ _ _ _ _ Hids). cbv beta iota.
  destruct (PrlVmCfg_GetRamSize sdk sdkdom) as [pret ram].
  cbn [fst] in Hram. cbv beta iota.
  assert (prlsdkCheckRetGoto sdk pret w = Ok tt w) as Hcheck
    by (unfold prlsdkCheckRetGoto; rewrite Hram; reflexivity).
  rewrite (bind_run_Ok _ _ _ _ _ Hcheck).
  apply bind_run_Fault, prlsdkConvertCpuInfo_Fault, Hcpu.
Qed.

(** ** More on disks *)

(** X27: a disk returned by [prlsdkGetDiskInfo] has the friendly name
    of the device as its source path, a drive address whose target is
    the stack index of the device, and the bus of its interface type:
    IDE, SCSI or SATA; no other interface type gives a disk, and
    neither does a device index that is negative once converted to
    [int].  Nothing is reported on the way. *)
Theorem prlsdkGetDiskInfo_bus (sdk : Sdk) (prldisk : PRL_HANDLE)
    (disk disk' : virDomainDiskDef) (w w' : world) :
  prlsdkGetDiskInfo sdk prldisk disk w = Ok disk' w' ->
  w' = w /\
  disk_src_path disk' = Some (PrlVmDev_GetFriendlyName sdk prldisk true).2 /\
  disk_info_type disk' = Some VIR_DOMAIN_DEVICE_ADDRESS_TYPE_DRIVE /\
  disk_info_drive_target disk' = (PrlVmDev_GetStackIndex sdk prldisk).2 /\
  match (PrlVmDev_GetIfaceType sdk prldisk).2 with
  | PMS_IDE_DEVICE => disk_bus disk' = Some VIR_DOMAIN_DISK_BUS_IDE
  | PMS_SCSI_DEVICE => disk_bus disk' = Some VIR_DOMAIN_DISK_BUS_SCSI
  | PMS_SATA_DEVICE => disk_bus disk' = Some VIR_DOMAIN_DISK_BUS_SATA
  | PMS_other _ => False
  end /\
  0 <= int_of_uint32 (PrlVmDev_GetIndex sdk prldisk).2.
Proof.
  unfold prlsdkGetDiskInfo. intros H.
  destruct (PrlVmDev_GetEmulatedType sdk prldisk) as [pret0 emulatedType].
  apply bind_Ok in H. destruct H as (? & w1 & Hc & H).
  apply prlsdkCheckRetGoto_Ok in Hc. destruct Hc as [_ ->].
  destruct (PrlVmDev_GetFriendlyName sdk prldisk false) as [pret1 len].
  apply bind_Ok in H. destruct H as (? & w1 & Hc & H).
  apply prlsdkCheckRetGoto_Ok in Hc. destruct Hc as [_ ->].
  destruct (PrlVmDev_GetFriendlyName sdk prldisk true) as [pret2 buf].
  apply bind_Ok in H. destruct H as (? & w1 & Hc & H).
  apply prlsdkCheckRetGoto_Ok in Hc. destruct Hc as [_ ->].
  destruct (PrlVmDev_GetIfaceType sdk prldisk) as [pret3 ifType].
  apply bind_Ok in H. destruct H as (? & w1 & Hc & H).
  apply prlsdkCheckRetGoto_Ok in Hc. destruct Hc as [_ ->].
  apply bind_Ok in H. destruct H as (bus & w1 & Hbus & H).
  destruct (PrlVmDev_GetStackIndex sdk prldisk) as [pret4 pos].
  apply bind_Ok in H. destruct H as (? & w2 & Hc & H).
  apply prlsdkCheckRetGoto_Ok in Hc. destruct Hc as [_ ->].
  destruct (PrlVmDev_GetIndex sdk prldisk) as [pret5 prldiskIndex].
  apply bind_Ok in H. destruct H as (? & w2 & Hc & H).
  apply prlsdkCheckRetGoto_Ok in Hc. destruct Hc as [_ ->].
  cbn [snd].
  unfold virIndexToDiskName in H.
  destruct (int_of_uint32 prldiskIndex <? 0) eqn:Hidx; [discriminate H|].
  apply Z.ltb_ge in Hidx.
  apply mret_Ok in H. destruct H as [<- ->].
  destruct ifType;
    [ apply mret_Ok in Hbus; destruct Hbus as [<- ->]
    | apply mret_Ok in Hbus; destruct Hbus as [<- ->]
    | apply mret_Ok in Hbus; destruct Hbus as [<- ->]
    | apply bind_Ok in Hbus; destruct Hbus as (? & ? & _ & Hbus);
      discriminate Hbus ];
    destruct (emulatedType =? PDT_USE_IMAGE_FILE sdk); cbn; auto 10.
Qed.

(** ** The properties on the concrete host *)




Lemma prlsdkAddVNCInfo_spec_witness :
  exists dom w' o',
    prlsdkLoadDomain (Scenario.sdk PVT_VM VMS_RUNNING 0 0 1024)
      (Scenario.host true) Scenario.privconn 200 None Scenario.empty_world
    = Ok dom w' /\
    w_objs w' !! dom = Some o' /\
    exists gr,
      def_graphics (obj_def o') = [gr] /\
      gr_vnc_autoport gr = true /\ gr_vnc_port gr = 5901 /\
      gr_listens gr
      = [{| listen_type := Some VIR_DOMAIN_GRAPHICS_LISTEN_TYPE_ADDRESS;
            listen_address := Some "0.0.0.0"%string |}].
Proof.
  assert (H : exists dom w',
             prlsdkLoadDomain (Scenario.sdk PVT_VM VMS_RUNNING 0 0 1024)
               (Scenario.host true) Scenario.privconn 200 None
               Scenario.empty_world = Ok dom w')
    by (do 2 eexists; vm_compute; reflexivity).
  destruct H as (dom & w' & H).
  destruct (prlsdkAddVNCInfo_spec (Scenario.sdk PVT_VM VMS_RUNNING 0 0 1024)
              (Scenario.host true) Scenario.privconn 200)
    as (_ & Hload & Hauto & Hport & Hlisten).
  destruct (Hload _ _ _ _ H) as (o' & Ho' & _ & Hon).
  exists dom, w', o'. split; [exact H|]. split; [exact Ho'|].
  eexists. split; [apply Hon; discriminate|].
  split; [exact Hauto|]. split; [exact Hport | exact Hlisten].
Defined.

(** The lookup succeeds and hands out the null handle for a snapshot:
    the call fails, no "no domain" error (no error at all) is reported
    and nothing is loaded. *)
Lemma prlsdkAddDomain_null_snapshot :
  prlsdkAddDomain Variant.null_snapshot (Scenario.host true) Scenario.privconn
    Scenario.uuid Scenario.empty_world
  = Fail (after_all
            [EvHandleFree 111; EvHandleFree 11;
             EvJob (JobGetVmConfig Scenario.wire_uuid 1) 11]
            Scenario.empty_world).
Proof. vm_compute. reflexivity. Qed.

(** The four ways of the lookup on the concrete host: the domain is in
    the store; it is not and the snapshot is found and loaded; the job
    of the lookup ends with an error; the lookup hands out the null
    handle. *)
Lemma prlsdkAddDomain_spec_witness :
  length Scenario.uuid = VIR_UUID_BUFLEN /\
  (exists o,
     w_objs loaded_world !! 1%positive = Some o /\
     prlsdkAddDomain (Scenario.sdk PVT_VM VMS_RUNNING 0 0 1024)
       (Scenario.host true) Scenario.privconn Scenario.uuid loaded_world
     = Ok 1%positive (with_obj 1%positive (lock_obj o true) loaded_world)) /\
  (exists dom w2,
     prlsdkLoadDomain (Scenario.sdk PVT_VM VMS_RUNNING 0 0 1024)
       (Scenario.host true) Scenario.privconn 200 None
       (after_all [EvHandleFree 111; EvHandleFree 11;
                   EvJob (JobGetVmConfig Scenario.wire_uuid 1) 11]
          Scenario.empty_world) = Ok dom w2 /\
     prlsdkAddDomain (Scenario.sdk PVT_VM VMS_RUNNING 0 0 1024)
       (Scenario.host true) Scenario.privconn Scenario.uuid
       Scenario.empty_world
     = Ok dom (after (EvHandleFree 200) w2)) /\
  (exists w',
     prlsdkAddDomain (Variant.sdk 5 0 0) (Scenario.host true)
       Scenario.privconn Scenario.uuid Scenario.empty_world = Fail w' /\
     hd_error (w_trace w') = Some (no_domain_report Scenario.uuid)) /\
  prlsdkAddDomain Variant.null_snapshot (Scenario.host true) Scenario.privconn
    Scenario.uuid Scenario.empty_world
  = Fail (after_all
            [EvHandleFree 111; EvHandleFree 11;
             EvJob (JobGetVmConfig Scenario.wire_uuid 1) 11]
            Scenario.empty_world).
Proof.
  split; [reflexivity|]. split; [|split; [|split]].
  - assert (Ho : exists o, w_objs loaded_world !! 1%positive = Some o)
      by (eexists; vm_compute; reflexivity).
    destruct Ho as (o & Ho). exists o. split; [exact Ho|].
    apply (proj1 (prlsdkAddDomain_spec
                    (Scenario.sdk PVT_VM VMS_RUNNING 0 0 1024)
                    (Scenario.host true) Scenario.privconn Scenario.uuid
                    loaded_world eq_refl)).
    + vm_compute. reflexivity.
    + exact Ho.
  - destruct (proj2 (prlsdkAddDomain_spec
                       (Scenario.sdk PVT_VM VMS_RUNNING 0 0 1024)
                       (Scenario.host true) Scenario.privconn Scenario.uuid
                       Scenario.empty_world eq_refl) eq_refl)
      as (_ & _ & Hload & _).
    assert (Hsdk : (200 : PRL_HANDLE) <> PRL_INVALID_HANDLE) by discriminate.
    assert (Hrun :
      prlsdkAddDomain (Scenario.sdk PVT_VM VMS_RUNNING 0 0 1024)
        (Scenario.host true) Scenario.privconn Scenario.uuid
        Scenario.empty_world
      = match prlsdkLoadDomain (Scenario.sdk PVT_VM VMS_RUNNING 0 0 1024)
                (Scenario.host true) Scenario.privconn 200 None
                (after_all [EvHandleFree 111; EvHandleFree 11;
                            EvJob (JobGetVmConfig Scenario.wire_uuid 1) 11]
                   Scenario.empty_world) with
        | Ok dom w2 => Ok dom (after (EvHandleFree 200) w2)
        | Fail w2 => Fail (after (EvHandleFree 200) w2)
        | Fault => Fault
        end) by exact (Hload eq_refl Hsdk).
    assert (H : exists dom w2,
               prlsdkLoadDomain (Scenario.sdk PVT_VM VMS_RUNNING 0 0 1024)
                 (Scenario.host true) Scenario.privconn 200 None
                 (after_all [EvHandleFree 111; EvHandleFree 11;
                             EvJob (JobGetVmConfig Scenario.wire_uuid 1) 11]
                    Scenario.empty_world) = Ok dom w2)
      by (do 2 eexists; vm_compute; reflexivity).
    destruct H as (dom & w2 & H).
    exists dom, w2. split; [exact H|]. rewrite Hrun, H. reflexivity.
  - destruct (proj2 (prlsdkAddDomain_spec (Variant.sdk 5 0 0)
                       (Scenario.host true) Scenario.privconn Scenario.uuid
                       Scenario.empty_world eq_refl) eq_refl)
      as (Hnot & _).
    destruct (Hnot eq_refl) as (evs & H & _).
    eexists. split; [exact H | reflexivity].
  - destruct (proj2 (prlsdkAddDomain_spec Variant.null_snapshot
                       (Scenario.host true) Scenario.privconn Scenario.uuid
                       Scenario.empty_world eq_refl) eq_refl)
      as (_ & Hnull & _).
    exact (Hnull eq_refl eq_refl).
Defined.

Lemma prlsdkAddDomainHardDisksInfo_container_witness :
  (exists dom w' o',
     prlsdkLoadDomain (Scenario.sdk PVT_CT VMS_STOPPED 0 0 1024)
       (Scenario.host true) Scenario.privconn 200 None Scenario.empty_world
     = Ok dom w' /\
     w_objs w' !! dom = Some o' /\ def_disks (obj_def o') = []) /\
  (exists dom w' o' disk,
     prlsdkLoadDomain (Scenario.sdk PVT_VM VMS_RUNNING 0 0 1024)
       (Scenario.host true) Scenario.privconn 200 None Scenario.empty_world
     = Ok dom w' /\
     w_objs w' !! dom = Some o' /\ def_disks (obj_def o') = [disk] /\
     prlsdkGetDiskInfo (Scenario.sdk PVT_VM VMS_RUNNING 0 0 1024) 300
       virDomainDiskDefNew Scenario.empty_world
     = Ok disk Scenario.empty_world).
Proof.
  split.
  - assert (H : exists dom w',
               prlsdkLoadDomain (Scenario.sdk PVT_CT VMS_STOPPED 0 0 1024)
                 (Scenario.host true) Scenario.privconn 200 None
                 Scenario.empty_world = Ok dom w')
      by (do 2 eexists; vm_compute; reflexivity).
    destruct H as (dom & w' & H).
    destruct (prlsdkAddDomainHardDisksInfo_container
                (Scenario.sdk PVT_CT VMS_STOPPED 0 0 1024)
                (Scenario.host true) Scenario.privconn 200) as [_ Hload].
    destruct (Hload _ _ _ _ H) as (o' & Ho' & Hdisks).
    exists dom, w', o'. auto.
  - assert (H : exists dom w',
               prlsdkLoadDomain (Scenario.sdk PVT_VM VMS_RUNNING 0 0 1024)
                 (Scenario.host true) Scenario.privconn 200 None
                 Scenario.empty_world = Ok dom w')
      by (do 2 eexists; vm_compute; reflexivity).
    destruct H as (dom & w' & H).
    destruct (prlsdkAddDomainHardDisksInfo_container
                (Scenario.sdk PVT_VM VMS_RUNNING 0 0 1024)
                (Scenario.host true) Scenario.privconn 200) as [_ Hload].
    destruct (Hload _ _ _ _ H) as (o' & Ho' & Hlen & Hdisks).
    destruct (def_disks (obj_def o')) as [|disk [|? ?]] eqn:Hd;
      try discriminate Hlen.
    exists dom, w', o', disk. split; [exact H|]. split; [exact Ho'|].
    split; [exact Hd|].
    exact (Hdisks 0%nat disk Scenario.empty_world eq_refl).
Defined.

(** The second network adapter has a MAC address that does not parse:
    the load fails during hardware extraction and the store never sees
    the domain. *)
Lemma prlsdkLoadDomain_unparsable_mac :
  exists w',
    prlsdkLoadDomain (Scenario.sdk PVT_VM VMS_RUNNING 0 0 1024)
      (Scenario.host false) Scenario.privconn 200 None Scenario.empty_world
    = Fail w' /\
    w_domains w' = ∅ /\ w_objs w' = ∅ /\
    w_trace w' =
      [EvHandleFree 0; EvHandleFree 401; EvHandleFree 400; EvHandleFree 300].
Proof.
  eexists. split; [vm_compute; reflexivity|].
  split; [reflexivity|]. split; reflexivity.
Qed.

(** The same for the properties of the job protocol, of the hardware
    extraction and of the loaded object. *)

Lemma getJobResultHelper_job_error_witness :
  getJobResultHelper (Variant.sdk 5 0 0) 10 JOB_INFINIT_WAIT_TIMEOUT
    Scenario.empty_world
  = Ok PRL_INVALID_HANDLE
      (after_all
         [EvHandleFree 10; EvHandleFree 60;
          EvReport VIR_ERR_INTERNAL_ERROR "job error the job failed"]
         Scenario.empty_world) /\
  getJobResultHelper (Variant.sdk 5 7 0) 10 JOB_INFINIT_WAIT_TIMEOUT
    Scenario.empty_world
  = Ok PRL_INVALID_HANDLE
      (after_all
         [EvHandleFree 10; EvHandleFree 60;
          EvReport VIR_ERR_INTERNAL_ERROR "SDK error the SDK call failed";
          EvReport VIR_ERR_INTERNAL_ERROR "SDK error the SDK call failed"]
         Scenario.empty_world).
Proof.
  split.
  - refine (getJobResultHelper_job_error (Variant.sdk 5 0 0) 10 _ _
              eq_refl eq_refl _ eq_refl).
    vm_compute. discriminate.
  - refine (getJobResultHelper_job_error (Variant.sdk 5 7 0) 10 _ _
              eq_refl eq_refl _ eq_refl).
    vm_compute. discriminate.
Defined.

Lemma prlsdkGetNetInfo_venet_witness :
  prlsdkGetNetInfo (Scenario.sdk PVT_CT VMS_RUNNING 0 0 1024)
    (Scenario.host false) Variant.venet virDomainNetDef_zero true
    Scenario.empty_world
  = Ok {| net_type := Some VIR_DOMAIN_NET_TYPE_NETWORK;
          net_ifname := Some "vme0"%string;
          net_mac := None;
          net_network_name := Some "Routed"%string;
          net_linkstate := Some VIR_DOMAIN_NET_INTERFACE_LINK_STATE_UP |}
       Scenario.empty_world.
Proof.
  exact (prlsdkGetNetInfo_venet (Scenario.sdk PVT_CT VMS_RUNNING 0 0 1024)
           (Scenario.host false) Variant.venet virDomainNetDef_zero
           Scenario.empty_world eq_refl eq_refl eq_refl eq_refl).
Defined.

Lemma prlsdkGetNetInfo_adapter_witness :
  exists net',
    prlsdkGetNetInfo (Scenario.sdk PVT_VM VMS_RUNNING 0 0 1024)
      (Scenario.host true) 400 virDomainNetDef_zero false Scenario.empty_world
    = Ok net' Scenario.empty_world /\
    net_ifname net' = Some "vme0"%string /\
    net_mac net' = Some [x00; x1c; x42; x00; x00; x01]%byte /\
    net_network_name net' = Some "Bridged"%string /\
    net_linkstate net' = Some VIR_DOMAIN_NET_INTERFACE_LINK_STATE_UP.
Proof.
  assert (H : exists net' w',
             prlsdkGetNetInfo (Scenario.sdk PVT_VM VMS_RUNNING 0 0 1024)
               (Scenario.host true) 400 virDomainNetDef_zero false
               Scenario.empty_world = Ok net' w')
    by (do 2 eexists; vm_compute; reflexivity).
  destruct H as (net' & w' & H).
  destruct (prlsdkGetNetInfo_adapter
              (Scenario.sdk PVT_VM VMS_RUNNING 0 0 1024) (Scenario.host true)
              400 virDomainNetDef_zero net' false Scenario.empty_world w'
              eq_refl H)
    as (-> & _ & Hif & _ & Hmac & Hnet & Hlink).
  exists net'. split; [exact H|]. split; [exact Hif|].
  split; [exact Hmac|]. split; [exact Hnet | exact Hlink].
Defined.

Lemma prlsdkGetSerialInfo_outcome_witness :
  exists chr',
    prlsdkGetSerialInfo (Variant.sdk 0 0 2) 601 virDomainChrDefNew
      Scenario.empty_world = Ok chr' Scenario.empty_world /\
    chr_target_port chr' = 201 /\
    chr_source_type chr' = Some VIR_DOMAIN_CHR_TYPE_FILE /\
    chr_source_path chr' = Some "/vz/vm1/harddisk.hdd"%string.
Proof.
  assert (H : exists chr' w',
             prlsdkGetSerialInfo (Variant.sdk 0 0 2) 601 virDomainChrDefNew
               Scenario.empty_world = Ok chr' w')
    by (do 2 eexists; vm_compute; reflexivity).
  destruct H as (chr' & w' & H).
  destruct (prlsdkGetSerialInfo_outcome (Variant.sdk 0 0 2) 601 _ _ _ _
              ltac:(discriminate) ltac:(discriminate) ltac:(discriminate) H)
    as (-> & _ & _ & Hport & Hpath & Hfile & _).
  exists chr'. split; [exact H|]. split; [exact Hport|].
  split; [apply Hfile; reflexivity | exact Hpath].
Defined.

Lemma prlsdkAddDomainNetInfo_outcome_witness :
  exists def' nets,
    prlsdkAddDomainNetInfo (Scenario.sdk PVT_VM VMS_RUNNING 0 0 1024)
      (Scenario.host true) 200 fresh_def Scenario.empty_world
    = Ok def' (after_all [EvHandleFree 401; EvHandleFree 400]
                 Scenario.empty_world) /\
    def' = set_def_nets nets fresh_def /\ length nets = 2%nat.
Proof.
  assert (H : exists def' w',
             prlsdkAddDomainNetInfo (Scenario.sdk PVT_VM VMS_RUNNING 0 0 1024)
               (Scenario.host true) 200 fresh_def Scenario.empty_world
             = Ok def' w')
    by (do 2 eexists; vm_compute; reflexivity).
  destruct H as (def' & w' & H).
  destruct (prlsdkAddDomainNetInfo_outcome _ _ _ _ _ _ _ H)
    as (nets & Hdef & Hlen & _ & Hw).
  exists def', nets. rewrite Hw in H. auto.
Defined.

Lemma prlsdkAddSerialInfo_outcome_witness :
  exists chrs,
    prlsdkAddSerialInfo (Variant.sdk 0 0 2) 200 [] Scenario.empty_world
    = Ok chrs (after_all [EvHandleFree 601; EvHandleFree 600]
                 Scenario.empty_world) /\
    length chrs = 2%nat.
Proof.
  assert (H : exists serials' w',
             prlsdkAddSerialInfo (Variant.sdk 0 0 2) 200 []
               Scenario.empty_world = Ok serials' w')
    by (do 2 eexists; vm_compute; reflexivity).
  destruct H as (serials' & w' & H).
  destruct (prlsdkAddSerialInfo_outcome _ _ _ _ _ _ H)
    as (chrs & Hdef & Hlen & _ & Hw).
  exists chrs. rewrite Hw, Hdef in H. auto.
Defined.

Lemma prlsdkAddDomainHardDisksInfo_machine_witness :
  exists def' disk,
    prlsdkAddDomainHardDisksInfo (Scenario.sdk PVT_VM VMS_RUNNING 0 0 1024)
      200 fresh_def Scenario.empty_world
    = Ok def' (after_all [EvHandleFree 300] Scenario.empty_world) /\
    def' = set_def_disks [disk] fresh_def /\
    prlsdkGetDiskInfo (Scenario.sdk PVT_VM VMS_RUNNING 0 0 1024) 300
      virDomainDiskDefNew Scenario.empty_world = Ok disk Scenario.empty_world.
Proof.
  assert (H : exists def' w',
             prlsdkAddDomainHardDisksInfo
               (Scenario.sdk PVT_VM VMS_RUNNING 0 0 1024) 200 fresh_def
               Scenario.empty_world = Ok def' w')
    by (do 2 eexists; vm_compute; reflexivity).
  destruct H as (def' & w' & H).
  destruct (prlsdkAddDomainHardDisksInfo_machine
              (Scenario.sdk PVT_VM VMS_RUNNING 0 0 1024) 200 fresh_def def'
              Scenario.empty_world w' eq_refl H)
    as (disks & Hdef & Hlen & Hdisks & Hw).
  destruct disks as [|disk [|? ?]]; try discriminate Hlen.
  exists def', disk. rewrite Hw in H.
  split; [exact H|]. split; [exact Hdef|].
  exact (Hdisks 0%nat disk Scenario.empty_world eq_refl).
Defined.

Lemma prlsdkLoadDomain_fresh_store_witness :
  exists dom w' o',
    prlsdkLoadDomain (Scenario.sdk PVT_VM VMS_RUNNING 0 0 1024)
      (Scenario.host true) Scenario.privconn 200 None Scenario.empty_world
    = Ok dom w' /\
    w_objs w' !! dom = Some o' /\
    w_domains w' = <[def_uuid (obj_def o') := dom]> ∅ /\
    prlsdkAddDomain (Scenario.sdk PVT_VM VMS_RUNNING 0 0 1024)
      (Scenario.host true) Scenario.privconn (def_uuid (obj_def o')) w'
    = Ok dom (with_obj dom (lock_obj o' true) w').
Proof.
  assert (H : exists dom w',
             prlsdkLoadDomain (Scenario.sdk PVT_VM VMS_RUNNING 0 0 1024)
               (Scenario.host true) Scenario.privconn 200 None
               Scenario.empty_world = Ok dom w')
    by (do 2 eexists; vm_compute; reflexivity).
  destruct H as (dom & w' & H).
  destruct (prlsdkLoadDomain_fresh_store _ _ _ _ _ _ _ H)
    as (o' & evs & Ho' & Hdom & _ & _ & _ & _ & Hfind).
  exists dom, w', o'. auto.
Defined.

Lemma prlsdkLoadDomain_identity_witness :
  exists dom w' o',
    prlsdkLoadDomain (Scenario.sdk PVT_VM VMS_RUNNING 0 0 1024)
      (Scenario.host true) Scenario.privconn 200 None Scenario.empty_world
    = Ok dom w' /\
    w_objs w' !! dom = Some o' /\
    def_name (obj_def o') = Some "vm1"%string /\
    def_uuid (obj_def o') = Scenario.uuid.
Proof.
  assert (H : exists dom w',
             prlsdkLoadDomain (Scenario.sdk PVT_VM VMS_RUNNING 0 0 1024)
               (Scenario.host true) Scenario.privconn 200 None
               Scenario.empty_world = Ok dom w')
    by (do 2 eexists; vm_compute; reflexivity).
  destruct H as (dom & w' & H).
  destruct (prlsdkLoadDomain_identity _ _ _ _ _ _ _ _ H)
    as (o' & Ho' & Hname & Huuid & _).
  exists dom, w', o'. split; [exact H|]. split; [exact Ho'|].
  split; [exact Hname|].
  assert (virUUIDParse
            (stripped (list_ascii_of_string Scenario.wire_uuid))
          = Some Scenario.uuid) as Hparse by (vm_compute; reflexivity).
  change (PrlVmCfg_GetUuid (Scenario.sdk PVT_VM VMS_RUNNING 0 0 1024) 200).2
    with Scenario.wire_uuid in Huuid.
  rewrite Hparse in Huuid. injection Huuid as <-. reflexivity.
Defined.

Lemma prlsdkLoadDomain_memory_witness :
  exists dom w' o',
    prlsdkLoadDomain (Scenario.sdk PVT_VM VMS_RUNNING 0 0 (2 ^ 22 + 1))
      (Scenario.host true) Scenario.privconn 200 None Scenario.empty_world
    = Ok dom w' /\
    w_objs w' !! dom = Some o' /\
    def_mem_max_balloon (obj_def o') = 1024 /\
    def_mem_cur_balloon (obj_def o') = 1024.
Proof.
  assert (H : exists dom w',
             prlsdkLoadDomain (Scenario.sdk PVT_VM VMS_RUNNING 0 0 (2 ^ 22 + 1))
               (Scenario.host true) Scenario.privconn 200 None
               Scenario.empty_world = Ok dom w')
    by (do 2 eexists; vm_compute; reflexivity).
  destruct H as (dom & w' & H).
  destruct (prlsdkLoadDomain_memory _ _ _ _ _ _ _ _ H)
    as (o' & Ho' & Hmax & Hcur & _).
  exists dom, w', o'. auto.
Defined.

Lemma prlsdkLoadDomain_personality_witness :
  exists dom w' o',
    prlsdkLoadDomain (Scenario.sdk PVT_CT VMS_STOPPED 0 0 1024)
      (Scenario.host true) Scenario.privconn 200 None Scenario.empty_world
    = Ok dom w' /\
    w_objs w' !! dom = Some o' /\
    def_os_type (obj_def o') = Some "exe"%string /\
    def_os_init (obj_def o') = Some "/sbin/init"%string /\
    def_videos (obj_def o') = [] /\
    def_os_arch (obj_def o') = Some VIR_ARCH_X86_64.
Proof.
  assert (H : exists dom w',
             prlsdkLoadDomain (Scenario.sdk PVT_CT VMS_STOPPED 0 0 1024)
               (Scenario.host true) Scenario.privconn 200 None
               Scenario.empty_world = Ok dom w')
    by (do 2 eexists; vm_compute; reflexivity).
  destruct H as (dom & w' & H).
  destruct (prlsdkLoadDomain_personality _ _ _ _ _ _ _ _ H)
    as (o' & Ho' & (Htype & Hinit & Hvideos) & Harch).
  exists dom, w', o'. auto 10.
Defined.

Lemma prlsdkLoadDomain_bookkeeping_witness :
  exists dom w' o',
    prlsdkLoadDomain (Scenario.sdk PVT_VM VMS_RUNNING 0 0 1024)
      (Scenario.host true) Scenario.privconn 200 None Scenario.empty_world
    = Ok dom w' /\
    w_objs w' !! dom = Some o' /\
    obj_persistent o' = 1 /\ obj_autostart o' = 0 /\ obj_locked o' = true.
Proof.
  assert (H : exists dom w',
             prlsdkLoadDomain (Scenario.sdk PVT_VM VMS_RUNNING 0 0 1024)
               (Scenario.host true) Scenario.privconn 200 None
               Scenario.empty_world = Ok dom w')
    by (do 2 eexists; vm_compute; reflexivity).
  destruct H as (dom & w' & H).
  destruct (prlsdkLoadDomain_bookkeeping _ _ _ _ _ _ _ _ H)
    as (o' & Ho' & Hpers & _ & _ & Hauto & Hlock).
  exists dom, w', o'. auto.
Defined.

Lemma prlsdkLoadDomain_fresh_private_witness :
  exists dom w' o' pdom,
    prlsdkLoadDomain (Scenario.sdk PVT_VM VMS_RUNNING 0 0 1024)
      (Scenario.host true) Scenario.privconn 200 None Scenario.empty_world
    = Ok dom w' /\
    w_objs w' !! dom = Some o' /\
    obj_privateData o' = Some pdom /\
    pdom_sdkdom pdom = 200 /\ pdom_id pdom = 42 /\
    pdom_home pdom = Some "/vz/vm1"%string /\
    references 200 (w_trace w') = 1%nat.
Proof.
  assert (H : exists dom w',
             prlsdkLoadDomain (Scenario.sdk PVT_VM VMS_RUNNING 0 0 1024)
               (Scenario.host true) Scenario.privconn 200 None
               Scenario.empty_world = Ok dom w')
    by (do 2 eexists; vm_compute; reflexivity).
  destruct H as (dom & w' & H).
  destruct (prlsdkLoadDomain_fresh_private _ _ _ _ _ _ _ H)
    as (o' & pdom & evs & Ho' & Hpriv & Hsdk & _ & Hid & Hhome & _ & Ht
        & Href & _).
  exists dom, w', o', pdom. rewrite Ht, app_nil_r. auto 10.
Defined.

Lemma prlsdkLoadDomain_refresh_private_witness :
  exists o' pdom w',
    prlsdkLoadDomain (Scenario.sdk PVT_VM VMS_RUNNING 0 0 2048)
      (Scenario.host true) Scenario.privconn 777 (Some 1%positive)
      loaded_world = Ok 1%positive w' /\
    w_objs w' !! 1%positive = Some o' /\
    obj_privateData o' = Some pdom /\
    pdom_sdkdom pdom = 200.
Proof.
  assert (Ho : exists o pdom0,
             w_objs loaded_world !! 1%positive = Some o /\
             obj_privateData o = Some pdom0 /\ pdom_sdkdom pdom0 = 200)
    by (do 2 eexists; vm_compute; auto).
  destruct Ho as (o & pdom0 & Ho & Hp0 & Hh).
  assert (H : exists w',
             prlsdkLoadDomain (Scenario.sdk PVT_VM VMS_RUNNING 0 0 2048)
               (Scenario.host true) Scenario.privconn 777 (Some 1%positive)
               loaded_world = Ok 1%positive w')
    by (eexists; vm_compute; reflexivity).
  destruct H as (w' & H).
  assert (Hheld0 : pdom_sdkdom pdom0 <> PRL_INVALID_HANDLE)
    by (rewrite Hh; discriminate).
  destruct (prlsdkLoadDomain_refresh_private
              (Scenario.sdk PVT_VM VMS_RUNNING 0 0 2048)
              (Scenario.host true) Scenario.privconn 777 1%positive
              1%positive o pdom0 loaded_world w' Ho Hp0 Hheld0 H)
    as (o' & pdom & evs & Ho' & Hpriv & Hsdk & _).
  exists o', pdom, w'. rewrite Hsdk, Hh. auto.
Defined.

Lemma prlsdkLoadDomain_refresh_failure_witness :
  exists w' o',
    prlsdkLoadDomain (Scenario.sdk PVT_VM VMS_RUNNING (-1) 0 1024)
      (Scenario.host true) Scenario.privconn 200 (Some 1%positive)
      loaded_world = Fail w' /\
    hd_error (w_trace w') = Some (EvHandleFree 200) /\
    w_domains w' !! Scenario.uuid = Some 1%positive /\
    w_objs w' !! 1%positive = Some o' /\
    obj_privateData_freed o' = true.
Proof.
  assert (Ho : exists o pdom0,
             w_objs loaded_world !! 1%positive = Some o /\
             obj_privateData o = Some pdom0 /\ pdom_sdkdom pdom0 = 200)
    by (do 2 eexists; vm_compute; auto).
  destruct Ho as (o & pdom0 & Ho & Hp0 & Hh).
  assert (H : exists w',
             prlsdkLoadDomain (Scenario.sdk PVT_VM VMS_RUNNING (-1) 0 1024)
               (Scenario.host true) Scenario.privconn 200 (Some 1%positive)
               loaded_world = Fail w')
    by (eexists; vm_compute; reflexivity).
  destruct H as (w' & H).
  assert (Hsdk : 200 <> PRL_INVALID_HANDLE) by discriminate.
  destruct (prlsdkLoadDomain_refresh_failure
              (Scenario.sdk PVT_VM VMS_RUNNING (-1) 0 1024)
              (Scenario.host true) Scenario.privconn 200 1%positive o pdom0
              loaded_world w' Hsdk Ho Hp0 H)
    as (evs & o' & Ht & _ & Hd & _ & Ho' & _ & Hfreed).
  exists w', o'. rewrite Ht, Hd, Hh in *.
  split; [exact H|]. split; [reflexivity|].
  split; [vm_compute; reflexivity|]. auto.
Defined.

Lemma prlsdkLoadDomains_job_failure_witness :
  exists w',
    prlsdkLoadDomains (Variant.sdk 5 0 0) (Scenario.host true)
      Scenario.privconn Scenario.empty_world = Fail w' /\
    w_domains w' = ∅ /\
    releases 10 (w_trace w') = 1%nat.
Proof.
  destruct (prlsdkLoadDomains_job_failure (Variant.sdk 5 0 0)
              (Scenario.host true) Scenario.privconn Scenario.empty_world
              ltac:(discriminate) ltac:(discriminate) eq_refl)
    as (w' & evs & H & Hd & _ & _ & Hrel).
  exists w'. auto.
Defined.

Lemma prlsdkLoadDomains_loaded_witness :
  exists w',
    prlsdkLoadDomains (Scenario.sdk PVT_VM VMS_RUNNING 0 0 1024)
      (Scenario.host true) Scenario.privconn Scenario.empty_world = Ok tt w' /\
    is_Some (w_domains w' !! Scenario.uuid) /\
    (forall p o, w_objs w' !! p = Some o -> obj_locked o = false).
Proof.
  assert (H : exists w',
             prlsdkLoadDomains (Scenario.sdk PVT_VM VMS_RUNNING 0 0 1024)
               (Scenario.host true) Scenario.privconn Scenario.empty_world
             = Ok tt w')
    by (eexists; vm_compute; reflexivity).
  destruct H as (w' & H).
  destruct (prlsdkLoadDomains_loaded _ _ _ _ _ H) as (Hall & _ & Hunl & _).
  exists w'. split; [exact H|]. split.
  - destruct (Hall 0%nat ltac:(vm_compute; lia)) as (uuid & Hparse & Hin).
    assert (virUUIDParse
              (stripped (list_ascii_of_string Scenario.wire_uuid))
            = Some Scenario.uuid) as Hp by (vm_compute; reflexivity).
    change (virUUIDParse
              (stripped (list_ascii_of_string Scenario.wire_uuid))
            = Some uuid) in Hparse.
    rewrite Hp in Hparse. injection Hparse as <-. exact Hin.
  - apply Hunl. intros p o Hp. unfold Scenario.empty_world in Hp.
    cbn [w_objs] in Hp. rewrite lookup_empty in Hp. discriminate Hp.
Defined.

Lemma prlsdkLoadDomain_cpu_failure_witness :
  prlsdkLoadDomain (Scenario.sdk PVT_VM VMS_RUNNING 0 0 1024)
    Variant.host_without_cpus Scenario.privconn 200 None Scenario.empty_world
  = Fault.
Proof.
  apply (prlsdkLoadDomain_cpu_failure
           (Scenario.sdk PVT_VM VMS_RUNNING 0 0 1024)
           Variant.host_without_cpus Scenario.privconn 200 Scenario.uuid
           Scenario.empty_world).
  - discriminate.
  - reflexivity.
  - vm_compute. discriminate.
  - vm_compute. reflexivity.
  - reflexivity.
  - left. reflexivity.
Defined.

Lemma prlsdkGetDiskInfo_bus_witness :
  exists disk',
    prlsdkGetDiskInfo (Scenario.sdk PVT_VM VMS_RUNNING 0 0 1024) 300
      virDomainDiskDefNew Scenario.empty_world
    = Ok disk' Scenario.empty_world /\
    disk_bus disk' = Some VIR_DOMAIN_DISK_BUS_SATA /\
    disk_src_path disk' = Some "/vz/vm1/harddisk.hdd"%string /\
    disk_info_drive_target disk' = 0.
Proof.
  assert (H : exists disk' w',
             prlsdkGetDiskInfo (Scenario.sdk PVT_VM VMS_RUNNING 0 0 1024) 300
               virDomainDiskDefNew Scenario.empty_world = Ok disk' w')
    by (do 2 eexists; vm_compute; reflexivity).
  destruct H as (disk' & w' & H).
  destruct (prlsdkGetDiskInfo_bus _ _ _ _ _ _ H)
    as (-> & Hpath & _ & Htarget & Hbus & _).
  exists disk'. auto.
Defined.

(** The refresh of the loaded domain fails when the state of the
    snapshot cannot be read: the slot then points to the definition
    with the new memory size, freed; it fails in the construction when
    the MAC address of the second adapter does not parse: the slot then
    points to the definition it had. *)
Lemma prlsdkLoadDomain_refresh_failure_def_witness :
  exists o,
    w_objs loaded_world !! 1%positive = Some o /\
    def_mem_max_balloon (obj_def o) = 1048576 /\
    (exists o' w',
       prlsdkLoadDomain (Scenario.sdk PVT_VM VMS_RUNNING (-1) 0 2048)
         (Scenario.host true) Scenario.privconn 200 (Some 1%positive)
         loaded_world = Fail w' /\
       w_objs w' !! 1%positive = Some o' /\
       def_mem_max_balloon (obj_def o') = 2097152 /\
       obj_def_freed o' = true) /\
    (exists o' w',
       prlsdkLoadDomain (Scenario.sdk PVT_VM VMS_RUNNING 0 0 2048)
         (Scenario.host false) Scenario.privconn 200 (Some 1%positive)
         loaded_world = Fail w' /\
       w_objs w' !! 1%positive = Some o' /\
       obj_def o' = obj_def o /\
       obj_def_freed o' = false).
Proof.
  assert (Ho : exists o,
             w_objs loaded_world !! 1%positive = Some o /\
             obj_privateData o
             = Some {| pdom_id := 42; pdom_uuid := None;
                       pdom_home := Some "/vz/vm1"%string;
                       pdom_sdkdom := 200;
                       pdom_cpumask := Some (replicate 8 true) |} /\
             def_mem_max_balloon (obj_def o) = 1048576 /\
             obj_def_freed o = false)
    by (eexists; vm_compute; auto).
  destruct Ho as (o & Ho & Hp0 & Hmem & Hlive).
  assert (Hsdk : 200 <> PRL_INVALID_HANDLE) by discriminate.
  exists o. split; [exact Ho|]. split; [exact Hmem|]. split.
  - assert (H : exists w',
               prlsdkLoadDomain (Scenario.sdk PVT_VM VMS_RUNNING (-1) 0 2048)
                 (Scenario.host true) Scenario.privconn 200 (Some 1%positive)
                 loaded_world = Fail w')
      by (eexists; vm_compute; reflexivity).
    destruct H as (w' & H).
    destruct (prlsdkLoadDomain_refresh_failure_def
                (Scenario.sdk PVT_VM VMS_RUNNING (-1) 0 2048)
                (Scenario.host true) Scenario.privconn 200 1%positive o _
                loaded_world w' Hsdk Ho Hp0 H)
      as (o' & Ho' & Hdef).
    assert (Hb : exists def pdom envId w1,
               prlsdkLoadDomain_build
                 (Scenario.sdk PVT_VM VMS_RUNNING (-1) 0 2048)
                 (Scenario.host true) 200 fresh_def
                 (set_pdom_uuid None
                    {| pdom_id := 42; pdom_uuid := None;
                       pdom_home := Some "/vz/vm1"%string;
                       pdom_sdkdom := 200;
                       pdom_cpumask := Some (replicate 8 true) |})
                 loaded_world = Ok (def, pdom, envId) w1 /\
               def_mem_max_balloon def = 2097152)
      by (do 4 eexists; vm_compute; split; reflexivity).
    destruct Hb as (def & pdom & envId & w1 & Hbuild & Hdefmem).
    rewrite Hbuild in Hdef. destruct Hdef as (Hdef & _ & Hfreed).
    exists o', w'. split; [exact H|]. split; [exact Ho'|].
    split; [|exact Hfreed].
    rewrite <- Hdefmem. exact (f_equal def_mem_max_balloon Hdef).
  - assert (H : exists w',
               prlsdkLoadDomain (Scenario.sdk PVT_VM VMS_RUNNING 0 0 2048)
                 (Scenario.host false) Scenario.privconn 200 (Some 1%positive)
                 loaded_world = Fail w')
      by (eexists; vm_compute; reflexivity).
    destruct H as (w' & H).
    destruct (prlsdkLoadDomain_refresh_failure_def
                (Scenario.sdk PVT_VM VMS_RUNNING 0 0 2048)
                (Scenario.host false) Scenario.privconn 200 1%positive o _
                loaded_world w' Hsdk Ho Hp0 H)
      as (o' & Ho' & Hdef).
    assert (Hb : exists w1,
               prlsdkLoadDomain_build
                 (Scenario.sdk PVT_VM VMS_RUNNING 0 0 2048)
                 (Scenario.host false) 200 fresh_def
                 (set_pdom_uuid None
                    {| pdom_id := 42; pdom_uuid := None;
                       pdom_home := Some "/vz/vm1"%string;
                       pdom_sdkdom := 200;
                       pdom_cpumask := Some (replicate 8 true) |})
                 loaded_world = Fail w1)
      by (eexists; vm_compute; reflexivity).
    destruct Hb as (w1 & Hbuild).
    rewrite Hbuild in Hdef. destruct Hdef as (Hdef & _ & Hfreed).
    exists o', w'. split; [exact H|]. split; [exact Ho'|].
    split; [exact Hdef|]. rewrite Hfreed. exact Hlive.
Defined.
